(** * wireguard-nt, driver/socket.c: the UDP transport of the tunnel device

    A shallow embedding of the endpoint resolver, the CIDR matchers, the
    packet-chain send path and the endpoint management functions of
    [driver/socket.c], with the properties of the transport specification
    proved about them.

    Conventions.
    - Fixed-width integers are [Z] with the wrap-around written out
      ([u32], [u64], [s32]).
    - Addresses are kept the way the code reads them: [s_addr] and the four
      [UINT32] parts of an [IN6_ADDR] are the 32-bit words found in memory,
      which hold the address bytes in network order; the target is
      little-endian (every Windows platform), so [Htonl] is a byte swap.
    - The unions of the C structures are modelled at 32-bit word
      granularity, so that members sharing storage share a field.
    - The operating system is an oracle record [OS]; calls into it and the
      lock operations are logged in the state as [Event]s. *)

From Stdlib Require Import ZArith Lia Bool List.
From stdpp Require Import base option list gmap.
Import ListNotations.
Local Open Scope Z_scope.

(** ** Fixed-width integers *)

Definition u32 (x : Z) : Z := x mod 2 ^ 32.
Definition u64 (x : Z) : Z := x mod 2 ^ 64.

(** A 32-bit two's complement value ([LONG], [NTSTATUS]). *)
Definition s32 (x : Z) : Z := (x + 2 ^ 31) mod 2 ^ 32 - 2 ^ 31.

Definition is_u32 (x : Z) : Prop := 0 <= x < 2 ^ 32.

(** ** NTSTATUS *)

Definition NTSTATUS := Z.

Definition NT_SUCCESS (Status : NTSTATUS) : bool := 0 <=? Status.

Definition STATUS_SUCCESS : NTSTATUS := 0.
Definition STATUS_ALREADY_COMPLETE : NTSTATUS := s32 0x000000FF.
Definition STATUS_INVALID_PARAMETER : NTSTATUS := s32 0xC000000D.
Definition STATUS_INSUFFICIENT_RESOURCES : NTSTATUS := s32 0xC000009A.
Definition STATUS_BAD_NETWORK_PATH : NTSTATUS := s32 0xC00000BE.
Definition STATUS_INVALID_ADDRESS : NTSTATUS := s32 0xC0000141.
Definition STATUS_NETWORK_UNREACHABLE : NTSTATUS := s32 0xC000023C.
Definition STATUS_MORE_PROCESSING_REQUIRED : NTSTATUS := s32 0xC0000016.

(** ** Winsock constants *)

Definition AF_INET : Z := 2.
Definition AF_INET6 : Z := 23.
Definition IPPROTO_IP : Z := 0.
Definition IPPROTO_IPV6 : Z := 41.
Definition IP_PKTINFO : Z := 19.
Definition IPV6_PKTINFO : Z := 19.
Definition IfOperStatusUp : Z := 1.

(** ** Byte order *)

(** Modelled from the spec: [Htonl] is a macro of the driver that
    [socket.c] uses and does not define.  The spec describes the IPv4 match
    as a bitwise AND of the address with a prefix mask; the address is held
    in network byte order and the mask is built in host order, so the macro
    converts a 32-bit value from host to network order, which on the
    little-endian targets of the driver is the byte swap below. *)
Definition Htonl (x : Z) : Z :=
  Z.lor (Z.lor (Z.shiftl (Z.land x 0xFF) 24) (Z.shiftl (Z.land x 0xFF00) 8))
        (Z.lor (Z.land (Z.shiftr x 8) 0xFF00) (Z.land (Z.shiftr x 24) 0xFF)).

(** The inverse conversion is the same byte swap. *)
Definition Ntohl (x : Z) : Z := Htonl x.

(** Bit [i] of [Htonl x] is bit [Htonl_bit i] of [x] (for [i] below 32). *)
Definition Htonl_bit (i : Z) : Z :=
  if i <? 8 then i + 24 else if i <? 16 then i + 8
  else if i <? 24 then i - 8 else i - 24.

(** ** Addresses *)

(** [IN6_ADDR], seen as [UINT32[4]] the way [CidrMaskMatchV6] reads it. *)
Record IN6_ADDR := mkIN6_ADDR {
  in6_w0 : Z;
  in6_w1 : Z;
  in6_w2 : Z;
  in6_w3 : Z
}.

Definition IN6ADDR_ANY : IN6_ADDR := mkIN6_ADDR 0 0 0 0.

(** [((UINT32 * )Addr)[i]]; reading past the sixteen bytes of the address is
    not defined. *)
Definition in6_word (a : IN6_ADDR) (i : Z) : option Z :=
  if i =? 0 then Some (in6_w0 a)
  else if i =? 1 then Some (in6_w1 a)
  else if i =? 2 then Some (in6_w2 a)
  else if i =? 3 then Some (in6_w3 a)
  else None.

(** [SOCKADDR_INET]: the union of [SOCKADDR_IN] (16 bytes), [SOCKADDR_IN6]
    (28 bytes) and the family.  Members that share storage share a field:
    - offset 0: [si_family] = [Ipv4.sin_family] = [Ipv6.sin6_family];
    - offset 2: [Ipv4.sin_port] = [Ipv6.sin6_port];
    - offset 4: [Ipv4.sin_addr.s_addr] = [Ipv6.sin6_flowinfo];
    - offset 8..23: [Ipv6.sin6_addr], whose first two words are
      [Ipv4.sin_zero];
    - offset 24: [Ipv6.sin6_scope_id]. *)
Record SOCKADDR_INET := mkSOCKADDR_INET {
  si_family : Z;
  sin_port : Z;
  sin_addr : Z;
  sin6_addr : IN6_ADDR;
  sin6_scope_id : Z
}.

Definition SOCKADDR_INET_zero : SOCKADDR_INET :=
  mkSOCKADDR_INET 0 0 0 IN6ADDR_ANY 0.

(** [Dst.Ipv4 = Src.Ipv4]: the first 16 bytes are copied, the rest of the
    union keeps what it held. *)
Definition assign_Ipv4 (Dst Src : SOCKADDR_INET) : SOCKADDR_INET :=
  mkSOCKADDR_INET (si_family Src) (sin_port Src) (sin_addr Src)
    (mkIN6_ADDR (in6_w0 (sin6_addr Src)) (in6_w1 (sin6_addr Src))
                (in6_w2 (sin6_addr Dst)) (in6_w3 (sin6_addr Dst)))
    (sin6_scope_id Dst).

(** [Dst.Ipv6 = Src.Ipv6]: all 28 bytes are copied. *)
Definition assign_Ipv6 (Dst Src : SOCKADDR_INET) : SOCKADDR_INET := Src.

Record IP_ADDRESS_PREFIX := mkIP_ADDRESS_PREFIX {
  Prefix : SOCKADDR_INET;
  PrefixLength : Z            (* UINT8 *)
}.

(** ** CIDR matching *)

(** [~0U << n] on a 32-bit unsigned, for a shift count in range. *)
Definition shl32_ones (n : Z) : Z := u32 (Z.shiftl 0xFFFFFFFF n).

(** [CidrMaskMatchV4].  The shift count [32 - PrefixLength] is negative for
    a length above 32, which C leaves undefined: [None]. *)
Definition CidrMaskMatchV4 (Addr : Z) (P : IP_ADDRESS_PREFIX) : option bool :=
  if PrefixLength P =? 0 then Some true
  else if 32 <? PrefixLength P then None
  else Some (Z.land Addr (Htonl (shl32_ones (32 - PrefixLength P)))
               =? sin_addr (Prefix P)).

(** [RtlEqualMemory(&Prefix, Addr, WholeParts * sizeof(UINT32))]; more than
    four parts would read past both addresses: [None]. *)
Definition RtlEqualMemory_parts (a b : IN6_ADDR) (WholeParts : Z) : option bool :=
  if 4 <? WholeParts then None
  else Some
    (((WholeParts <? 1) || (in6_w0 a =? in6_w0 b)) &&
     ((WholeParts <? 2) || (in6_w1 a =? in6_w1 b)) &&
     ((WholeParts <? 3) || (in6_w2 a =? in6_w2 b)) &&
     ((WholeParts <? 4) || (in6_w3 a =? in6_w3 b))).

(** [CidrMaskMatchV6]. *)
Definition CidrMaskMatchV6 (Addr : IN6_ADDR) (P : IP_ADDRESS_PREFIX) : option bool :=
  if PrefixLength P =? 0 then Some true
  else
    let WholeParts := PrefixLength P / 32 in
    let LeftoverBits := PrefixLength P mod 32 in
    match RtlEqualMemory_parts (sin6_addr (Prefix P)) Addr WholeParts with
    | None => None
    | Some false => Some false
    | Some true =>
        if (WholeParts =? 4) || (LeftoverBits =? 0) then Some true
        else
          match in6_word Addr WholeParts,
                in6_word (sin6_addr (Prefix P)) WholeParts with
          | Some a, Some p =>
              Some (Z.land a (Htonl (shl32_ones (32 - LeftoverBits))) =? p)
          | _, _ => None
          end
    end.

(** *** The reference definition of the specification *)

(** [mask(0) = 0], [mask(L>0) = ~((1 << (W-L)) - 1)] over [W]-bit words. *)
Definition cidr_mask (W L : Z) : Z :=
  if L =? 0 then 0 else Z.lnot (Z.shiftl 1 (W - L) - 1) mod 2 ^ W.

(** [(A & mask(L)) == (P & mask(L))]. *)
Definition CidrMatch_ref (W A P L : Z) : bool :=
  Z.land A (cidr_mask W L) =? Z.land P (cidr_mask W L).

(** The numeric value of an IPv4 address held in memory as [s_addr]. *)
Definition addr32 (s_addr : Z) : Z := Ntohl s_addr.

(** The numeric value of an IPv6 address: its four words, each converted
    from network order, most significant first. *)
Definition addr128 (a : IN6_ADDR) : Z :=
  Ntohl (in6_w0 a) * 2 ^ 96 + Ntohl (in6_w1 a) * 2 ^ 64 +
  Ntohl (in6_w2 a) * 2 ^ 32 + Ntohl (in6_w3 a).

Definition is_in6 (a : IN6_ADDR) : Prop :=
  is_u32 (in6_w0 a) /\ is_u32 (in6_w1 a) /\ is_u32 (in6_w2 a) /\ is_u32 (in6_w3 a).

(** A prefix is canonical when its address has no bit set beyond its
    length. *)
Definition canonical (W P L : Z) : Prop := Z.land P (cidr_mask W L) = P.

Definition prefix4 (s_addr L : Z) : IP_ADDRESS_PREFIX :=
  mkIP_ADDRESS_PREFIX (mkSOCKADDR_INET AF_INET 0 s_addr IN6ADDR_ANY 0) L.

Definition prefix6 (a : IN6_ADDR) (L : Z) : IP_ADDRESS_PREFIX :=
  mkIP_ADDRESS_PREFIX (mkSOCKADDR_INET AF_INET6 0 0 a 0) L.

(** ** Endpoints *)

Record WSACMSGHDR := mkWSACMSGHDR {
  cmsg_len : Z;               (* SIZE_T *)
  cmsg_level : Z;             (* INT *)
  cmsg_type : Z               (* INT *)
}.

(** The control-message macros of the Windows SDK on a 64-bit target:
    [sizeof(WSACMSGHDR)] is 16, headers and data are aligned to 8. *)
Definition usize (x : Z) : Z := x mod 2 ^ 64.
Definition sizeof_WSACMSGHDR : Z := 16.
Definition WSA_CMSGHDR_ALIGN (length : Z) : Z :=
  Z.land (usize (length + 7)) (usize (Z.lnot 7)).
Definition WSA_CMSGDATA_ALIGN (length : Z) : Z :=
  Z.land (usize (length + 7)) (usize (Z.lnot 7)).
Definition WSA_CMSG_LEN (length : Z) : Z :=
  WSA_CMSGDATA_ALIGN sizeof_WSACMSGHDR + length.
Definition WSA_CMSG_DATA (Hdr : Z) : Z :=
  Hdr + WSA_CMSGDATA_ALIGN sizeof_WSACMSGHDR.
Definition sizeof_IN_PKTINFO : Z := 8.
Definition sizeof_IN6_PKTINFO : Z := 20.

(** The source pkt-info of an endpoint, [union { IN_PKTINFO Src4;
    IN6_PKTINFO Src6; }], as the five 32-bit words it occupies:
    - [Src4.ipi_addr] is word 0 and [Src4.ipi_ifindex] is word 1;
    - [Src6.ipi6_addr] is words 0 to 3 and [Src6.ipi6_ifindex] is word 4. *)
Record PKTINFO := mkPKTINFO {
  pkt_w0 : Z;
  pkt_w1 : Z;
  pkt_w2 : Z;
  pkt_w3 : Z;
  pkt_w4 : Z
}.

Definition PKTINFO_zero : PKTINFO := mkPKTINFO 0 0 0 0 0.

Definition Src4_ipi_addr (s : PKTINFO) : Z := pkt_w0 s.
Definition Src4_ipi_ifindex (s : PKTINFO) : Z := pkt_w1 s.
Definition Src6_ipi6_addr (s : PKTINFO) : IN6_ADDR :=
  mkIN6_ADDR (pkt_w0 s) (pkt_w1 s) (pkt_w2 s) (pkt_w3 s).
Definition Src6_ipi6_ifindex (s : PKTINFO) : Z := pkt_w4 s.

(** [Src.Src4 = { ipi_addr, ipi_ifindex }]: eight bytes are written. *)
Definition assign_Src4 (s : PKTINFO) (ipi_addr ipi_ifindex : Z) : PKTINFO :=
  mkPKTINFO ipi_addr ipi_ifindex (pkt_w2 s) (pkt_w3 s) (pkt_w4 s).

(** [Src.Src6 = { ipi6_addr, ipi6_ifindex }]: all twenty bytes. *)
Definition assign_Src6 (ipi6_addr : IN6_ADDR) (ipi6_ifindex : Z) : PKTINFO :=
  mkPKTINFO (in6_w0 ipi6_addr) (in6_w1 ipi6_addr) (in6_w2 ipi6_addr)
            (in6_w3 ipi6_addr) ipi6_ifindex.

(** Modelled from the spec: the declaration of [ENDPOINT] is in a header
    that is not part of [socket.c].  The spec's data model gives its
    members: the remote address, the source pkt-info "for the matching
    family" (one storage for both families, the IPv6 one being the larger
    and covering the IPv4 one), the pre-formatted ancillary-data header,
    [RoutingGeneration] and [UpdateGeneration] (both [UINT32]). *)
Record ENDPOINT := mkENDPOINT {
  Addr : SOCKADDR_INET;
  SrcCmsghdr : WSACMSGHDR;
  Src : PKTINFO;
  RoutingGeneration : Z;
  UpdateGeneration : Z
}.

Definition ENDPOINT_zero : ENDPOINT :=
  mkENDPOINT SOCKADDR_INET_zero (mkWSACMSGHDR 0 0 0) PKTINFO_zero 0 0.

(** ** Packet chains *)

Record NET_BUFFER := mkNET_BUFFER {
  DataLength : Z              (* NET_BUFFER_DATA_LENGTH, a ULONG *)
}.

(** A [NET_BUFFER_LIST] is its list of [NET_BUFFER]s; a chain is the list
    of [NET_BUFFER_LIST]s linked by [Next]; a null chain is [[]]. *)
Definition NET_BUFFER_LIST := list NET_BUFFER.
Definition NBL_CHAIN := list NET_BUFFER_LIST.

Record WSK_BUF := mkWSK_BUF {
  Mdl : Z;
  Offset : Z;
  Length : Z
}.

(** The part of [SOCKET_SEND_CTX] that the code of this file fills in:
    the endpoint copy, the discriminator and the two members of the union
    it discriminates. *)
Record SOCKET_SEND_CTX := mkSOCKET_SEND_CTX {
  Ctx_Endpoint : ENDPOINT;
  Ctx_IsNbl : bool;
  Ctx_FirstNbl : NBL_CHAIN;
  Ctx_Buffer : WSK_BUF
}.

(** ** The operating system *)

Record MIB_IPFORWARD_ROW2 := mkMIB_IPFORWARD_ROW2 {
  InterfaceLuid : Z;          (* NET_LUID.Value *)
  InterfaceIndex : Z;         (* NET_IFINDEX *)
  DestinationPrefix : IP_ADDRESS_PREFIX;
  Metric : Z                  (* ULONG *)
}.

(** What the routing API answers.  A table query gives a status and the
    rows; [GetIfEntry2] a status and the [OperStatus] of the interface with
    the given LUID; [GetIpInterfaceEntry] a status and the interface
    [Metric] for a family and a LUID; [GetBestRoute2] a status and the best
    source address for an interface index and a destination. *)
Record OS := mkOS {
  GetIpForwardTable2 : Z -> NTSTATUS * list MIB_IPFORWARD_ROW2;
  GetIfEntry2 : Z -> NTSTATUS * Z;
  GetIpInterfaceEntry : Z -> Z -> NTSTATUS * Z;
  GetBestRoute2 : Z -> SOCKADDR_INET -> NTSTATUS * SOCKADDR_INET;
  MemAllocate : bool;
  ExAllocateFromLookasideListEx : bool
}.

(** ** Events *)

Inductive Event :=
| EvAcquireSpinLockShared
| EvReleaseSpinLockShared
| EvAcquireSpinLockExclusive
| EvReleaseSpinLockExclusive
| EvGetIpForwardTable2 (Family : Z)
| EvGetIfEntry2 (Luid : Z)
| EvGetIpInterfaceEntry (Family Luid : Z)
| EvGetBestRoute2 (Index : Z) (Dst : SOCKADDR_INET)
| EvFreeMibTable
| EvMemAllocate
| EvMemFree
| EvAllocateFromLookasideList
| EvFreeToLookasideList
| EvFreeSendNetBufferList (First : NBL_CHAIN)
| EvMemFreeDataAndMdlChain (Mdl : Z)
| EvWskSendMessages (Ctx : SOCKET_SEND_CTX)
| EvWskSendTo (Ctx : SOCKET_SEND_CTX).

(** ** State *)

Inductive LockState := Unlocked | LockedShared | LockedExclusive.

(** Modelled from the spec: the declarations of the device and of the
    peer are in headers that are not part of [socket.c].  These records
    hold the members that [socket.c] reads or writes: the interface LUID of
    the tunnel, the two socket pointers (here whether each is set), the
    output statistics, and for the peer the endpoint with its lock, the
    transmitted byte counter and the device. *)
Record STATISTICS := mkSTATISTICS {
  ifHCOutOctets : Z;
  ifHCOutUcastOctets : Z;
  ifHCOutUcastPkts : Z
}.

Record WG_DEVICE := mkWG_DEVICE {
  DeviceInterfaceLuid : Z;    (* Device->InterfaceLuid.Value *)
  Sock4 : bool;               (* Device->Sock4 is not null *)
  Sock6 : bool;
  Statistics : STATISTICS
}.

Record WG_PEER := mkWG_PEER {
  Endpoint : ENDPOINT;
  EndpointLock : LockState;
  TxBytes : Z;
  Device : WG_DEVICE
}.

(** The peer, the two global generation counters ([LONG]), the log of
    lock operations and calls, and the send contexts handed to the socket
    whose completion routine has not run yet. *)
Record State := mkState {
  Peer : WG_PEER;
  RoutingGenerationV4 : Z;
  RoutingGenerationV6 : Z;
  Log : list Event;
  InFlight : list SOCKET_SEND_CTX
}.

Definition set_Peer (p : WG_PEER) (s : State) : State :=
  mkState p (RoutingGenerationV4 s) (RoutingGenerationV6 s) (Log s) (InFlight s).

Definition set_Endpoint (e : ENDPOINT) (s : State) : State :=
  set_Peer (mkWG_PEER e (EndpointLock (Peer s)) (TxBytes (Peer s)) (Device (Peer s))) s.

Definition set_EndpointLock (l : LockState) (s : State) : State :=
  set_Peer (mkWG_PEER (Endpoint (Peer s)) l (TxBytes (Peer s)) (Device (Peer s))) s.

Definition emit (evs : list Event) (s : State) : State :=
  mkState (Peer s) (RoutingGenerationV4 s) (RoutingGenerationV6 s)
          (Log s ++ evs) (InFlight s).

Definition set_InFlight (l : list SOCKET_SEND_CTX) (s : State) : State :=
  mkState (Peer s) (RoutingGenerationV4 s) (RoutingGenerationV6 s) (Log s) l.

(** *** The endpoint lock *)

Definition ExAcquireSpinLockShared (s : State) : option State :=
  match EndpointLock (Peer s) with
  | Unlocked => Some (emit [EvAcquireSpinLockShared] (set_EndpointLock LockedShared s))
  | _ => None
  end.

Definition ExReleaseSpinLockShared (s : State) : option State :=
  match EndpointLock (Peer s) with
  | LockedShared => Some (emit [EvReleaseSpinLockShared] (set_EndpointLock Unlocked s))
  | _ => None
  end.

Definition ExAcquireSpinLockExclusive (s : State) : option State :=
  match EndpointLock (Peer s) with
  | Unlocked => Some (emit [EvAcquireSpinLockExclusive] (set_EndpointLock LockedExclusive s))
  | _ => None
  end.

Definition ExReleaseSpinLockExclusive (s : State) : option State :=
  match EndpointLock (Peer s) with
  | LockedExclusive => Some (emit [EvReleaseSpinLockExclusive] (set_EndpointLock Unlocked s))
  | _ => None
  end.

(** *** Other threads *)

(** What another thread does to the shared data while this thread does not
    hold the endpoint lock: it may rewrite the peer's endpoint and the two
    generation counters.  An execution is given the list of these
    interferences, one taken at each point where the lock is not held. *)
Definition Interference := State -> State.

Definition interfere (f : Interference) (s : State) : State :=
  mkState
    (mkWG_PEER (Endpoint (Peer (f s))) (EndpointLock (Peer s)) (TxBytes (Peer s))
               (Device (Peer s)))
    (RoutingGenerationV4 (f s)) (RoutingGenerationV6 (f s)) (Log s) (InFlight s).

Definition yield (env : list Interference) (s : State) : State * list Interference :=
  match env with
  | [] => (s, [])
  | f :: env' => (interfere f s, env')
  end.

(** ** The source-address resolver *)

Section Resolver.

Variable os : OS.

Record BEST := mkBEST {
  BestIndex : Z;
  BestCidr : Z;
  BestMetric : Z;
  BestLuid : Z
}.

(** [BestIndex = 0, BestCidr = 0, BestMetric = ~0UL; BestLuid = { 0 }]. *)
Definition BEST_init : BEST := mkBEST 0 0 0xFFFFFFFF 0.

(** The two family tests of the loop body:
    [si_family == AF_INET && !CidrMaskMatchV4(...)] and the IPv6 one.  Each
    gives [Some true] when the row is kept, and is undefined where the
    matcher is. *)
Definition keeps_V4 (A : SOCKADDR_INET) (row : MIB_IPFORWARD_ROW2) : option bool :=
  if si_family A =? AF_INET
  then CidrMaskMatchV4 (sin_addr A) (DestinationPrefix row)
  else Some true.

Definition keeps_V6 (A : SOCKADDR_INET) (row : MIB_IPFORWARD_ROW2) : option bool :=
  if si_family A =? AF_INET6
  then CidrMaskMatchV6 (sin6_addr A) (DestinationPrefix row)
  else Some true.

(** [Metric = Table->Table[i].Metric + If->IpInterface.Metric] in [ULONG]
    arithmetic. *)
Definition TotalMetric (Family : Z) (row : MIB_IPFORWARD_ROW2) : Z :=
  u32 (Metric row + snd (GetIpInterfaceEntry os Family (InterfaceLuid row))).

(** One iteration of the loop over the table: the new best and the calls
    made. *)
Definition scan_row (A : SOCKADDR_INET) (DeviceLuid : Z) (row : MIB_IPFORWARD_ROW2)
    (b : BEST) : option (BEST * list Event) :=
  let Luid := InterfaceLuid row in
  let Cidr := PrefixLength (DestinationPrefix row) in
  if Luid =? DeviceLuid then Some (b, [])
  else if Cidr <? BestCidr b then Some (b, [])
  else
    k4 ← keeps_V4 A row;
    if negb k4 then Some (b, [])
    else
      k6 ← keeps_V6 A row;
      if negb k6 then Some (b, [])
      else
        let ev1 := [EvGetIfEntry2 Luid] in
        if negb (NT_SUCCESS (fst (GetIfEntry2 os Luid))) ||
           negb (snd (GetIfEntry2 os Luid) =? IfOperStatusUp)
        then Some (b, ev1)
        else
          let ev2 := ev1 ++ [EvGetIpInterfaceEntry (si_family A) Luid] in
          if negb (NT_SUCCESS (fst (GetIpInterfaceEntry os (si_family A) Luid)))
          then Some (b, ev2)
          else
            let Metric := TotalMetric (si_family A) row in
            if (Cidr =? BestCidr b) && (BestMetric b <? Metric) then Some (b, ev2)
            else Some (mkBEST (InterfaceIndex row) Cidr Metric Luid, ev2).

(** [for (ULONG i = 0; i < Table->NumEntries; ++i)]. *)
Fixpoint scan_table (A : SOCKADDR_INET) (DeviceLuid : Z)
    (Table : list MIB_IPFORWARD_ROW2) (b : BEST) : option (BEST * list Event) :=
  match Table with
  | [] => Some (b, [])
  | row :: Table' =>
      '(b1, ev1) ← scan_row A DeviceLuid row b;
      '(b2, ev2) ← scan_table A DeviceLuid Table' b1;
      Some (b2, ev1 ++ ev2)
  end.

(** The two fast-path tests, made under the shared lock. *)
Definition fast_path_V4 (s : State) : bool :=
  let e := Endpoint (Peer s) in
  (si_family (Addr e) =? AF_INET) &&
  (RoutingGeneration e =? u32 (RoutingGenerationV4 s)) &&
  negb (Src4_ipi_ifindex (Src e) =? 0).

Definition fast_path_V6 (s : State) : bool :=
  let e := Endpoint (Peer s) in
  (si_family (Addr e) =? AF_INET6) &&
  (RoutingGeneration e =? u32 (RoutingGenerationV6 s)) &&
  negb (Src6_ipi6_ifindex (Src e) =? 0).

(** The writes made under the exclusive lock; the second component is
    [BestIndex], reset to 0 for a family that is neither IPv4 nor IPv6. *)
Definition write_source (s : State) (e : ENDPOINT) (SrcAddr : SOCKADDR_INET)
    (Index : Z) : ENDPOINT * Z :=
  if si_family (Addr e) =? AF_INET then
    (mkENDPOINT (Addr e)
       (mkWSACMSGHDR (WSA_CMSG_LEN sizeof_IN_PKTINFO) IPPROTO_IP IP_PKTINFO)
       (assign_Src4 (Src e) (sin_addr SrcAddr) Index)
       (u32 (RoutingGenerationV4 s)) (UpdateGeneration e), Index)
  else if si_family (Addr e) =? AF_INET6 then
    (mkENDPOINT (Addr e)
       (mkWSACMSGHDR (WSA_CMSG_LEN sizeof_IN6_PKTINFO) IPPROTO_IPV6 IPV6_PKTINFO)
       (assign_Src6 (sin6_addr SrcAddr) Index)
       (u32 (RoutingGenerationV6 s)) (UpdateGeneration e), Index)
  else (e, 0).

(** [++Endpoint->UpdateGeneration]. *)
Definition bump_UpdateGeneration (e : ENDPOINT) : ENDPOINT :=
  mkENDPOINT (Addr e) (SrcCmsghdr e) (Src e) (RoutingGeneration e)
             (u32 (UpdateGeneration e + 1)).

(** One pass through the body of [SocketResolvePeerEndpointSrc], from the
    [retry] label to a [return] or a [goto retry]. *)
Inductive PASS :=
| Return (Status : NTSTATUS) (s : State) (env : list Interference)
| Retry (s : State) (env : list Interference).

(** [env] is what other threads do at the points where this thread does
    not hold the lock: after the shared lock is dropped, before the
    exclusive lock is taken, and between the exclusive and the final
    shared lock. *)
Definition resolve_pass (env : list Interference) (s : State) : option PASS :=
  s1 ← ExAcquireSpinLockShared s;
  let UpdateGeneration0 := UpdateGeneration (Endpoint (Peer s1)) in
  if fast_path_V4 s1 then Some (Return STATUS_SUCCESS s1 env)
  else if fast_path_V6 s1 then Some (Return STATUS_SUCCESS s1 env)
  else
    s2 ← ExReleaseSpinLockShared s1;
    let '(s3, env3) := yield env s2 in
    let Family := si_family (Addr (Endpoint (Peer s3))) in
    let Status := fst (GetIpForwardTable2 os Family) in
    let Table := snd (GetIpForwardTable2 os Family) in
    let s4 := emit [EvGetIpForwardTable2 Family] s3 in
    if negb (NT_SUCCESS Status) then Some (Return Status s4 env3)
    else
      let s5 := emit [EvMemAllocate] s4 in
      if negb (MemAllocate os) then Some (Return STATUS_INSUFFICIENT_RESOURCES s5 env3)
      else
        '(Best, evs) ← scan_table (Addr (Endpoint (Peer s5)))
                          (DeviceInterfaceLuid (Device (Peer s5))) Table BEST_init;
        let s6 := emit (evs ++ [EvMemFree]) s5 in
        let route := (negb (Z.of_nat (length Table) =? 0)) &&
                     negb (BestIndex Best =? 0) in
        let Dst := Addr (Endpoint (Peer s6)) in
        let Status' :=
          if route then fst (GetBestRoute2 os (BestIndex Best) Dst) else Status in
        let SrcAddr :=
          if route then snd (GetBestRoute2 os (BestIndex Best) Dst)
          else SOCKADDR_INET_zero in
        let s7 :=
          emit ((if route then [EvGetBestRoute2 (BestIndex Best) Dst] else [])
                ++ [EvFreeMibTable]) s6 in
        if negb (NT_SUCCESS Status') then Some (Return Status' s7 env3)
        else
          let '(s8, env8) := yield env3 s7 in
          s9 ← ExAcquireSpinLockExclusive s8;
          if negb (UpdateGeneration (Endpoint (Peer s9)) =? UpdateGeneration0) then
            s10 ← ExReleaseSpinLockExclusive s9;
            Some (Retry s10 env8)
          else
            let '(e, Index) :=
              write_source s9 (Endpoint (Peer s9)) SrcAddr (BestIndex Best) in
            let UpdateGeneration1 := u32 (UpdateGeneration0 + 1) in
            s10 ← ExReleaseSpinLockExclusive (set_Endpoint (bump_UpdateGeneration e) s9);
            if Index =? 0 then Some (Return STATUS_BAD_NETWORK_PATH s10 env8)
            else
              let '(s11, env11) := yield env8 s10 in
              s12 ← ExAcquireSpinLockShared s11;
              if negb (UpdateGeneration (Endpoint (Peer s12)) =? UpdateGeneration1) then
                s13 ← ExReleaseSpinLockShared s12;
                Some (Retry s13 env11)
              else Some (Return STATUS_SUCCESS s12 env11).

(** [SocketResolvePeerEndpointSrc]: passes until one returns.  [fuel]
    bounds the number of passes.  The result is the status, the state and
    the rest of [env]; on [STATUS_SUCCESS] the shared lock is held. *)
Fixpoint SocketResolvePeerEndpointSrc (fuel : nat) (env : list Interference)
    (s : State) : option (NTSTATUS * State * list Interference) :=
  match fuel with
  | O => None
  | S fuel' =>
      r ← resolve_pass env s;
      match r with
      | Return Status s' env' => Some (Status, s', env')
      | Retry s' env' => SocketResolvePeerEndpointSrc fuel' env' s'
      end
  end.

End Resolver.

(** ** The packet-chain send path *)

Section Send.

Variable os : OS.

(** Modelled from the spec: [MessageDataLen(0)], the "known keepalive
    size", is a macro of the driver that [socket.c] uses and does not
    define; it is a parameter here. *)
Variable MessageDataLen0 : Z.

(** [SendComplete]: the completion routine of a send; it returns the chain
    to the engine or frees the owned buffer, then frees the context. *)
Definition SendComplete (Ctx : SOCKET_SEND_CTX) (s : State) : NTSTATUS * State :=
  (STATUS_MORE_PROCESSING_REQUIRED,
   emit ((if Ctx_IsNbl Ctx
          then [EvFreeSendNetBufferList (Ctx_FirstNbl Ctx)]
          else [EvMemFreeDataAndMdlChain (Mdl (Ctx_Buffer Ctx))])
         ++ [EvFreeToLookasideList]) s).

(** [SendAsync].  With a socket of the endpoint's family the context is
    handed to the provider and stays in flight until [SendComplete] runs.
    The chain variant passes the [WSK_BUF] of the first [NET_BUFFER] of the
    first list, which does not exist when that list is empty. *)
Definition SendAsync (Ctx : SOCKET_SEND_CTX) (s : State) : option (NTSTATUS * State) :=
  let Family := si_family (Addr (Ctx_Endpoint Ctx)) in
  let Socket :=
    if Family =? AF_INET then Sock4 (Device (Peer s))
    else if Family =? AF_INET6 then Sock6 (Device (Peer s))
    else false in
  if negb Socket then Some (STATUS_NETWORK_UNREACHABLE, s)
  else if Ctx_IsNbl Ctx then
    match Ctx_FirstNbl Ctx with
    | (_ :: _) :: _ =>
        Some (STATUS_SUCCESS,
              set_InFlight (InFlight s ++ [Ctx]) (emit [EvWskSendMessages Ctx] s))
    | _ => None
    end
  else
    Some (STATUS_SUCCESS, set_InFlight (InFlight s ++ [Ctx]) (emit [EvWskSendTo Ctx] s)).

(** The accumulators of the double loop over the chain. *)
Record SEND_LOOP := mkSEND_LOOP {
  Loop_DataLength : Z;        (* ULONG64 *)
  Loop_Packets : Z;           (* ULONG64 *)
  Loop_AllKeepalive : bool
}.

Definition send_loop_Nb (a : SEND_LOOP) (Nb : NET_BUFFER) : SEND_LOOP :=
  mkSEND_LOOP (u64 (Loop_DataLength a + DataLength Nb))
              (u64 (Loop_Packets a + 1))
              (if negb (DataLength Nb =? MessageDataLen0) then false
               else Loop_AllKeepalive a).

Definition send_loop_Nbl (a : SEND_LOOP) (Nbl : NET_BUFFER_LIST) : SEND_LOOP :=
  fold_left send_loop_Nb Nbl a.

Definition send_loop (First : NBL_CHAIN) (a : SEND_LOOP) : SEND_LOOP :=
  fold_left send_loop_Nbl First a.

(** The statistics updated after a successful dispatch. *)
Definition account (DataLen Packets : Z) (s : State) : State :=
  let p := Peer s in
  let d := Device p in
  let st := Statistics d in
  set_Peer
    (mkWG_PEER (Endpoint p) (EndpointLock p) (u64 (TxBytes p + DataLen))
       (mkWG_DEVICE (DeviceInterfaceLuid d) (Sock4 d) (Sock6 d)
          (mkSTATISTICS (u64 (ifHCOutOctets st + DataLen))
                        (u64 (ifHCOutUcastOctets st + DataLen))
                        (u64 (ifHCOutUcastPkts st + Packets))))) s.

(** The two cleanup labels. *)
Definition cleanupNbls (First : NBL_CHAIN) (s : State) : State :=
  emit [EvFreeSendNetBufferList First] s.

Definition cleanupCtx (First : NBL_CHAIN) (s : State) : State :=
  cleanupNbls First (emit [EvFreeToLookasideList] s).

(** [SocketSendNblsToPeer].  [AllKeepalive0] is what the caller's
    [*AllKeepalive] held before the call; the second component of the
    result is what it holds after. *)
Definition SocketSendNblsToPeer (fuel : nat) (env : list Interference) (s : State)
    (First : NBL_CHAIN) (AllKeepalive0 : bool)
    : option (NTSTATUS * bool * State * list Interference) :=
  match First with
  | [] => Some (STATUS_ALREADY_COMPLETE, AllKeepalive0, s, env)
  | _ :: _ =>
    let s1 := emit [EvAllocateFromLookasideList] s in
    if negb (ExAllocateFromLookasideListEx os)
    then Some (STATUS_INSUFFICIENT_RESOURCES, AllKeepalive0, cleanupNbls First s1, env)
    else
      '(Status, s2, env2) ← SocketResolvePeerEndpointSrc os fuel env s1;
      if negb (NT_SUCCESS Status)
      then Some (Status, AllKeepalive0, cleanupCtx First s2, env2)
      else
        let CtxEndpoint := Endpoint (Peer s2) in
        s3 ← ExReleaseSpinLockShared s2;
        let Ctx := mkSOCKET_SEND_CTX CtxEndpoint true First (mkWSK_BUF 0 0 0) in
        let a := send_loop First (mkSEND_LOOP 0 0 true) in
        '(Status', s4) ← SendAsync Ctx s3;
        if negb (NT_SUCCESS Status')
        then Some (Status', Loop_AllKeepalive a, cleanupCtx First s4, env2)
        else Some (STATUS_SUCCESS, Loop_AllKeepalive a,
                   account (Loop_DataLength a) (Loop_Packets a) s4, env2)
  end.

End Send.

(** ** Endpoints learned from received datagrams *)

(** A control message in the ancillary data of a datagram: its header and
    the 32-bit words of data that follow it at [WSA_CMSG_DATA]. *)
Record CMSG := mkCMSG {
  cmsg_hdr : WSACMSGHDR;
  cmsg_data : list Z
}.

(** [WSK_DATAGRAM_INDICATION]: the remote address, and the control
    information, a buffer of [ControlInfoLength] bytes.  The buffer is
    given by the control messages it holds, each at its byte offset from
    [ControlInfo]; [None] is a null [ControlInfo]. *)
Record WSK_DATAGRAM_INDICATION := mkWSK_DATAGRAM_INDICATION {
  RemoteAddress : SOCKADDR_INET;
  ControlInfo : option (gmap Z CMSG);
  ControlInfoLength : Z       (* ULONG *)
}.

(** The loop of [FindInCmsgHdr] over a non-null buffer.  [Hdr] is the
    offset of the header looked at; [fuel] bounds the iterations (a header
    of aligned length 0 makes the C loop spin).  The result is [None] when
    the walk leaves the control messages of the buffer or the fuel runs
    out, [Some None] for a null result and [Some (Some p)] for the offset
    [p] of the data found. *)
Fixpoint FindInCmsgHdr_loop (fuel : nat) (buf : gmap Z CMSG) (Len Hdr : Z)
    (Level Type_ : Z) : option (option Z) :=
  match fuel with
  | O => None
  | S fuel' =>
      if 0 <? Len then
        c ← buf !! Hdr;
        if (cmsg_level (cmsg_hdr c) =? Level) && (cmsg_type (cmsg_hdr c) =? Type_)
        then Some (Some (WSA_CMSG_DATA Hdr))
        else
          FindInCmsgHdr_loop fuel' buf
            (usize (Len - WSA_CMSGHDR_ALIGN (cmsg_len (cmsg_hdr c))))
            (Hdr + WSA_CMSGHDR_ALIGN (cmsg_len (cmsg_hdr c))) Level Type_
      else Some None
  end.

Definition FindInCmsgHdr (fuel : nat) (Data : WSK_DATAGRAM_INDICATION)
    (Level Type_ : Z) : option (option Z) :=
  match ControlInfo Data with
  | None => Some None
  | Some buf => FindInCmsgHdr_loop fuel buf (ControlInfoLength Data) 0 Level Type_
  end.

(** Reading [n] 32-bit words at the data pointer [p] returned by
    [FindInCmsgHdr]; the data of the message has to hold them. *)
Definition read_cmsg_data (Data : WSK_DATAGRAM_INDICATION) (p : Z) (n : nat)
    : option (list Z) :=
  buf ← ControlInfo Data;
  c ← buf !! (p - WSA_CMSGDATA_ALIGN sizeof_WSACMSGHDR);
  if decide (n ≤ length (cmsg_data c))%nat then Some (take n (cmsg_data c)) else None.

(** [RtlZeroMemory(Endpoint, sizeof( *Endpoint))]. *)
Definition RtlZeroMemory_ENDPOINT (e : ENDPOINT) : ENDPOINT := ENDPOINT_zero.

(** [SocketEndpointFromNbl].  [Endpoint0] is what the caller's [ENDPOINT]
    held before the call; [G4] and [G6] are the global generation counters.
    The result is the status and what the [ENDPOINT] holds after. *)
Definition SocketEndpointFromNbl (fuel : nat) (G4 G6 : Z) (Endpoint0 : ENDPOINT)
    (Data : WSK_DATAGRAM_INDICATION) : option (NTSTATUS * ENDPOINT) :=
  let RA := RemoteAddress Data in
  let e := RtlZeroMemory_ENDPOINT Endpoint0 in
  Pktinfo4 ← (if si_family RA =? AF_INET
              then FindInCmsgHdr fuel Data IPPROTO_IP IP_PKTINFO else Some None);
  match Pktinfo4 with
  | Some p =>
      w ← read_cmsg_data Data p 2;
      Some (STATUS_SUCCESS,
            mkENDPOINT (assign_Ipv4 (Addr e) RA)
              (mkWSACMSGHDR (WSA_CMSG_LEN sizeof_IN_PKTINFO) IPPROTO_IP IP_PKTINFO)
              (assign_Src4 (Src e) (nth 0 w 0) (nth 1 w 0))
              (u32 G4) (UpdateGeneration e))
  | None =>
      Pktinfo6 ← (if si_family RA =? AF_INET6
                  then FindInCmsgHdr fuel Data IPPROTO_IPV6 IPV6_PKTINFO else Some None);
      match Pktinfo6 with
      | Some p =>
          w ← read_cmsg_data Data p 5;
          Some (STATUS_SUCCESS,
                mkENDPOINT (assign_Ipv6 (Addr e) RA)
                  (mkWSACMSGHDR (WSA_CMSG_LEN sizeof_IN6_PKTINFO) IPPROTO_IPV6 IPV6_PKTINFO)
                  (assign_Src6 (mkIN6_ADDR (nth 0 w 0) (nth 1 w 0) (nth 2 w 0) (nth 3 w 0))
                               (nth 4 w 0))
                  (u32 G6) (UpdateGeneration e))
      | None => Some (STATUS_INVALID_ADDRESS, e)
      end
  end.

(** ** Endpoint management *)

(** The two [UINT64] halves of an [IN6_ADDR] on a little-endian target. *)
Definition in6_q0 (a : IN6_ADDR) : Z := Z.lor (in6_w0 a) (Z.shiftl (in6_w1 a) 32).
Definition in6_q1 (a : IN6_ADDR) : Z := Z.lor (in6_w2 a) (Z.shiftl (in6_w3 a) 32).

Definition Ipv6AddrEq (A1 A2 : IN6_ADDR) : bool :=
  Z.lor (Z.lxor (in6_q0 A1) (in6_q0 A2)) (Z.lxor (in6_q1 A1) (in6_q1 A2)) =? 0.

Definition EndpointEq (A B : ENDPOINT) : bool :=
  ((si_family (Addr A) =? AF_INET) && (si_family (Addr B) =? AF_INET) &&
   (sin_port (Addr A) =? sin_port (Addr B)) &&
   (sin_addr (Addr A) =? sin_addr (Addr B)) &&
   (Src4_ipi_addr (Src A) =? Src4_ipi_addr (Src B)) &&
   (Src4_ipi_ifindex (Src A) =? Src4_ipi_ifindex (Src B)))
  ||
  ((si_family (Addr A) =? AF_INET6) && (si_family (Addr B) =? AF_INET6) &&
   (sin_port (Addr A) =? sin_port (Addr B)) &&
   Ipv6AddrEq (sin6_addr (Addr A)) (sin6_addr (Addr B)) &&
   (sin6_scope_id (Addr A) =? sin6_scope_id (Addr B)) &&
   Ipv6AddrEq (Src6_ipi6_addr (Src A)) (Src6_ipi6_addr (Src B)) &&
   (Src6_ipi6_ifindex (Src A) =? Src6_ipi6_ifindex (Src B)))
  ||
  ((si_family (Addr A) =? 0) && (si_family (Addr B) =? 0)).

(** [SocketSetPeerEndpoint]. *)
Definition SocketSetPeerEndpoint (s : State) (E : ENDPOINT) : option State :=
  let P := Endpoint (Peer s) in
  if EndpointEq E P then Some s
  else
    s1 ← ExAcquireSpinLockExclusive s;
    let P := Endpoint (Peer s1) in
    if si_family (Addr E) =? AF_INET then
      let P1 :=
        mkENDPOINT (assign_Ipv4 (Addr P) (Addr E))
          (mkWSACMSGHDR (WSA_CMSG_LEN sizeof_IN_PKTINFO) IPPROTO_IP IP_PKTINFO)
          (assign_Src4 (Src P) (Src4_ipi_addr (Src E)) (Src4_ipi_ifindex (Src E)))
          (RoutingGeneration E) (u32 (UpdateGeneration P + 1)) in
      ExReleaseSpinLockExclusive (set_Endpoint P1 s1)
    else if si_family (Addr E) =? AF_INET6 then
      let P1 :=
        mkENDPOINT (assign_Ipv6 (Addr P) (Addr E))
          (mkWSACMSGHDR (WSA_CMSG_LEN sizeof_IN6_PKTINFO) IPPROTO_IPV6 IPV6_PKTINFO)
          (assign_Src6 (Src6_ipi6_addr (Src E)) (Src6_ipi6_ifindex (Src E)))
          (RoutingGeneration E) (u32 (UpdateGeneration P + 1)) in
      ExReleaseSpinLockExclusive (set_Endpoint P1 s1)
    else ExReleaseSpinLockExclusive s1.

(** [SocketSetPeerEndpointFromNbl]. *)
Definition SocketSetPeerEndpointFromNbl (fuel : nat) (s : State)
    (Data : WSK_DATAGRAM_INDICATION) : option State :=
  '(Status, E) ← SocketEndpointFromNbl fuel (RoutingGenerationV4 s)
                    (RoutingGenerationV6 s) ENDPOINT_zero Data;
  if NT_SUCCESS Status then SocketSetPeerEndpoint s E else Some s.

(** [SocketClearPeerEndpointSrc]. *)
Definition SocketClearPeerEndpointSrc (s : State) : option State :=
  s1 ← ExAcquireSpinLockExclusive s;
  let P := Endpoint (Peer s1) in
  let P1 := mkENDPOINT (Addr P) (SrcCmsghdr P) PKTINFO_zero 0
                       (u32 (UpdateGeneration P + 1)) in
  ExReleaseSpinLockExclusive (set_Endpoint P1 s1).

(** ** The routing generation counters *)

(** [static LONG RoutingGenerationV4 = 1, RoutingGenerationV6 = 1]. *)
Definition RoutingGeneration_init : Z := 1.

(** [RouteNotification]: [InterlockedAdd((LONG * )CallerContext, 2)]. *)
Definition RouteNotification (CallerContext : Z) : Z := s32 (CallerContext + 2).

(** The values the pair of counters takes: the notifier registered for a
    family is the only writer of the counter of that family. *)
Inductive reachable_generations : Z -> Z -> Prop :=
| reach_init : reachable_generations RoutingGeneration_init RoutingGeneration_init
| reach_notify_V4 G4 G6 :
    reachable_generations G4 G6 -> reachable_generations (RouteNotification G4) G6
| reach_notify_V6 G4 G6 :
    reachable_generations G4 G6 -> reachable_generations G4 (RouteNotification G6).


(** ** Predicates used in the statements *)

(** The equality of endpoints that [EndpointEq] decides, field by field:
    same family and, for that family, equal port, remote address, scope id
    (IPv6), source address and source interface index; or both unset. *)
Definition endpoint_equal (A B : ENDPOINT) : Prop :=
  (si_family (Addr A) = AF_INET /\ si_family (Addr B) = AF_INET /\
   sin_port (Addr A) = sin_port (Addr B) /\
   sin_addr (Addr A) = sin_addr (Addr B) /\
   Src4_ipi_addr (Src A) = Src4_ipi_addr (Src B) /\
   Src4_ipi_ifindex (Src A) = Src4_ipi_ifindex (Src B))
  \/
  (si_family (Addr A) = AF_INET6 /\ si_family (Addr B) = AF_INET6 /\
   sin_port (Addr A) = sin_port (Addr B) /\
   sin6_addr (Addr A) = sin6_addr (Addr B) /\
   sin6_scope_id (Addr A) = sin6_scope_id (Addr B) /\
   Src6_ipi6_addr (Src A) = Src6_ipi6_addr (Src B) /\
   Src6_ipi6_ifindex (Src A) = Src6_ipi6_ifindex (Src B))
  \/
  (si_family (Addr A) = 0 /\ si_family (Addr B) = 0).

(** The condition of the resolver's fast path, as the specification words
    it: the family is set, the cached generation is the current one of
    that family, and the source interface index of that family is not 0. *)
Definition source_is_valid (s : State) : Prop :=
  let e := Endpoint (Peer s) in
  (si_family (Addr e) = AF_INET /\
   RoutingGeneration e = u32 (RoutingGenerationV4 s) /\
   Src4_ipi_ifindex (Src e) <> 0)
  \/
  (si_family (Addr e) = AF_INET6 /\
   RoutingGeneration e = u32 (RoutingGenerationV6 s) /\
   Src6_ipi6_ifindex (Src e) <> 0).

(** *** Well-formed control information *)

(** A pkt-info message holds its payload: two words for [IN_PKTINFO], five
    for [IN6_PKTINFO]. *)
Definition cmsg_matches (Level Type_ : Z) (c : CMSG) : bool :=
  (cmsg_level (cmsg_hdr c) =? Level) && (cmsg_type (cmsg_hdr c) =? Type_).

Definition cmsg_payload_ok (c : CMSG) : bool :=
  (negb (cmsg_matches IPPROTO_IP IP_PKTINFO c) || (2 <=? Z.of_nat (length (cmsg_data c)))) &&
  (negb (cmsg_matches IPPROTO_IPV6 IPV6_PKTINFO c) || (5 <=? Z.of_nat (length (cmsg_data c)))).

(** The control messages found by stepping through [Len] bytes from offset
    [Hdr], each step by the aligned length of the header it is on; [None]
    when a step does not land on a message, a message has aligned length
    0 or more than what is left, or more than [n] messages are needed. *)
Fixpoint control_msgs (n : nat) (buf : gmap Z CMSG) (Len Hdr : Z) : option (list CMSG) :=
  if Len =? 0 then Some []
  else
    match n with
    | O => None
    | S n' =>
        c ← buf !! Hdr;
        let a := WSA_CMSGHDR_ALIGN (cmsg_len (cmsg_hdr c)) in
        if (0 <? a) && (a <=? Len) && cmsg_payload_ok c
        then cs ← control_msgs n' buf (Len - a) (Hdr + a); Some (c :: cs)
        else None
    end.

(** The control messages of a datagram with at most [n] of them; a null
    [ControlInfo] holds none. *)
Definition datagram_msgs (n : nat) (Data : WSK_DATAGRAM_INDICATION) : option (list CMSG) :=
  match ControlInfo Data with
  | None => Some []
  | Some buf =>
      if (0 <=? ControlInfoLength Data) && (ControlInfoLength Data <? 2 ^ 32)
      then control_msgs n buf (ControlInfoLength Data) 0
      else None
  end.

(** *** Route selection *)

Definition is_Some_true (o : option bool) : bool :=
  match o with Some true => true | _ => false end.

(** The destination prefix of the row matches the remote address [A]:
    [CidrMaskMatchV4] holds for an IPv4 address, [CidrMaskMatchV6] for an
    IPv6 one; for an address of another family no match is asked for. *)
Definition cidr_matches (A : SOCKADDR_INET) (row : MIB_IPFORWARD_ROW2) : bool :=
  if si_family A =? AF_INET
  then is_Some_true (CidrMaskMatchV4 (sin_addr A) (DestinationPrefix row))
  else if si_family A =? AF_INET6
  then is_Some_true (CidrMaskMatchV6 (sin6_addr A) (DestinationPrefix row))
  else true.

(** The same in the words of the specification: the reference CIDR match
    over the numeric value of the addresses, 32 bits wide for IPv4 and 128
    bits wide for IPv6. *)
Definition spec_cidr_match (A : SOCKADDR_INET) (row : MIB_IPFORWARD_ROW2) : bool :=
  let P := DestinationPrefix row in
  if si_family A =? AF_INET
  then CidrMatch_ref 32 (addr32 (sin_addr A)) (addr32 (sin_addr (Prefix P)))
         (PrefixLength P)
  else CidrMatch_ref 128 (addr128 (sin6_addr A)) (addr128 (sin6_addr (Prefix P)))
         (PrefixLength P).

(** The destination prefix of a row of the table of a family is
    canonical: its address is made of 32-bit words and has no bit set
    beyond its length. *)
Definition in_u32 (x : Z) : bool := (0 <=? x) && (x <? 2 ^ 32).

Definition route_canonical (Family : Z) (row : MIB_IPFORWARD_ROW2) : bool :=
  let P := DestinationPrefix row in
  if Family =? AF_INET
  then in_u32 (sin_addr (Prefix P)) &&
       (Z.land (addr32 (sin_addr (Prefix P))) (cidr_mask 32 (PrefixLength P)) =?
        addr32 (sin_addr (Prefix P)))
  else in_u32 (in6_w0 (sin6_addr (Prefix P))) && in_u32 (in6_w1 (sin6_addr (Prefix P))) &&
       in_u32 (in6_w2 (sin6_addr (Prefix P))) && in_u32 (in6_w3 (sin6_addr (Prefix P))) &&
       (Z.land (addr128 (sin6_addr (Prefix P))) (cidr_mask 128 (PrefixLength P)) =?
        addr128 (sin6_addr (Prefix P))).

(** The total metric of a row: the route metric plus the metric of its
    interface.  [route_metric] is the sum as a [ULONG], which wraps around
    at [2 ^ 32]. *)
Definition metric_sum (os : OS) (Family : Z) (row : MIB_IPFORWARD_ROW2) : Z :=
  Metric row + snd (GetIpInterfaceEntry os Family (InterfaceLuid row)).

Definition route_metric (os : OS) (Family : Z) (row : MIB_IPFORWARD_ROW2) : Z :=
  metric_sum os Family row mod 2 ^ 32.

(** The interface of the row can be queried and is up. *)
Definition interface_up_and_queryable (os : OS) (Family : Z) (row : MIB_IPFORWARD_ROW2) : bool :=
  NT_SUCCESS (fst (GetIfEntry2 os (InterfaceLuid row))) &&
  (snd (GetIfEntry2 os (InterfaceLuid row)) =? IfOperStatusUp) &&
  NT_SUCCESS (fst (GetIpInterfaceEntry os Family (InterfaceLuid row))).

(** The rows among which the resolver chooses: not the tunnel's own
    interface, matching the remote address, interface up and queryable. *)
Definition eligible (os : OS) (A : SOCKADDR_INET) (DeviceLuid : Z)
    (row : MIB_IPFORWARD_ROW2) : bool :=
  negb (InterfaceLuid row =? DeviceLuid) &&
  cidr_matches A row &&
  interface_up_and_queryable os (si_family A) row.

(** The rows that the loop body lets through, in terms of its two family
    tests; used to follow the loop. *)
Definition scan_eligible (os : OS) (A : SOCKADDR_INET) (DeviceLuid : Z)
    (row : MIB_IPFORWARD_ROW2) : bool :=
  negb (InterfaceLuid row =? DeviceLuid) &&
  (is_Some_true (keeps_V4 A row) && is_Some_true (keeps_V6 A row)) &&
  interface_up_and_queryable os (si_family A) row.

(** The prefix length of a row is a [UINT8] within the width of the
    family of the table. *)
Definition prefix_in_range (Family : Z) (row : MIB_IPFORWARD_ROW2) : bool :=
  (0 <=? PrefixLength (DestinationPrefix row)) &&
  (PrefixLength (DestinationPrefix row) <? 256) &&
  (negb (Family =? AF_INET) || (PrefixLength (DestinationPrefix row) <=? 32)) &&
  (negb (Family =? AF_INET6) || (PrefixLength (DestinationPrefix row) <=? 128)).

(** Row [w], at position [i] of the table, is the winner: it is eligible,
    and every eligible row has a shorter prefix, or the same prefix length
    and a higher total metric, or the same prefix length and total metric
    and a position that is not after [i]. *)
Definition is_winner (os : OS) (A : SOCKADDR_INET) (DeviceLuid : Z)
    (Table : list MIB_IPFORWARD_ROW2) (i : nat) (w : MIB_IPFORWARD_ROW2) : Prop :=
  Table !! i = Some w /\
  eligible os A DeviceLuid w = true /\
  forall (j : nat) (r : MIB_IPFORWARD_ROW2),
    Table !! j = Some r -> eligible os A DeviceLuid r = true ->
    PrefixLength (DestinationPrefix r) < PrefixLength (DestinationPrefix w) \/
    (PrefixLength (DestinationPrefix r) = PrefixLength (DestinationPrefix w) /\
     (route_metric os (si_family A) w < route_metric os (si_family A) r \/
      (route_metric os (si_family A) w = route_metric os (si_family A) r /\ (j <= i)%nat))).

(** The row that the loop ends on, in terms of [scan_eligible] and of the
    metric as the loop computes it; used to follow the loop. *)
Definition scan_winner (os : OS) (A : SOCKADDR_INET) (DeviceLuid : Z)
    (Table : list MIB_IPFORWARD_ROW2) (i : nat) (w : MIB_IPFORWARD_ROW2) : Prop :=
  Table !! i = Some w /\
  scan_eligible os A DeviceLuid w = true /\
  forall (j : nat) (r : MIB_IPFORWARD_ROW2),
    Table !! j = Some r -> scan_eligible os A DeviceLuid r = true ->
    PrefixLength (DestinationPrefix r) < PrefixLength (DestinationPrefix w) \/
    (PrefixLength (DestinationPrefix r) = PrefixLength (DestinationPrefix w) /\
     (TotalMetric os (si_family A) w < TotalMetric os (si_family A) r \/
      (TotalMetric os (si_family A) w = TotalMetric os (si_family A) r /\ (j <= i)%nat))).

(** Ordering of (prefix length, total metric) pairs: [(c2, m2)] is at
    least as good as [(c1, m1)], and [(c1, m1)] is strictly worse than
    [(c2, m2)]. *)
Definition at_least (c1 m1 c2 m2 : Z) : Prop := c1 < c2 \/ (c1 = c2 /\ m2 <= m1).
Definition worse (c1 m1 c2 m2 : Z) : Prop := c1 < c2 \/ (c1 = c2 /\ m2 < m1).

(** What the loop records of a row that becomes the best. *)
Definition BEST_of (os : OS) (Family : Z) (row : MIB_IPFORWARD_ROW2) : BEST :=
  mkBEST (InterfaceIndex row) (PrefixLength (DestinationPrefix row))
         (TotalMetric os Family row) (InterfaceLuid row).

(** The chains passed to [FreeSendNetBufferList] by a sequence of events,
    in order. *)
Definition frees (evs : list Event) : list NBL_CHAIN :=
  flat_map (fun e => match e with EvFreeSendNetBufferList C => [C] | _ => [] end) evs.

(** The calls to [GetBestRoute2] made by a sequence of events: interface
    index and destination. *)
Definition best_route_calls (evs : list Event) : list (Z * SOCKADDR_INET) :=
  flat_map (fun e => match e with EvGetBestRoute2 i d => [(i, d)] | _ => [] end) evs.

(** What neither the resolver nor the other threads of the model write:
    the byte counter of the peer, the device and the sends in flight. *)
Definition same_frame (s s' : State) : Prop :=
  TxBytes (Peer s') = TxBytes (Peer s) /\
  Device (Peer s') = Device (Peer s) /\
  InFlight s' = InFlight s.

(** What a return of the resolver guarantees: the log has grown by events
    that free no chain, the frame is untouched, and either the status is
    [STATUS_SUCCESS] and the shared lock is held, or the status is a
    failure and the lock is free. *)
Definition resolver_post (s : State) (st : NTSTATUS) (s' : State) : Prop :=
  (exists evs, Log s' = Log s ++ evs /\ frees evs = []) /\
  same_frame s s' /\
  ((st = STATUS_SUCCESS /\ EndpointLock (Peer s') = LockedShared) \/
   (NT_SUCCESS st = false /\ EndpointLock (Peer s') = Unlocked)).

(** The prefix lengths of every table the system can return are within
    the width of the family asked for. *)
Definition tables_in_range (os : OS) : Prop :=
  forall Family : Z,
    forallb (prefix_in_range Family) (snd (GetIpForwardTable2 os Family)) = true.

(** What a pass guarantees, whether it returns or asks for another pass;
    a retry has consumed some interference. *)
Definition pass_post (s : State) (env : list Interference) (r : PASS) : Prop :=
  match r with
  | Return st s' env' => resolver_post s st s' /\ (length env' <= length env)%nat
  | Retry s' env' =>
      (exists evs, Log s' = Log s ++ evs /\ frees evs = []) /\
      same_frame s s' /\ EndpointLock (Peer s') = Unlocked /\
      (length env' < length env)%nat
  end.

(** A chain that is not null and whose first list holds a [NET_BUFFER]. *)
Definition chain_has_first_packet (First : NBL_CHAIN) : bool :=
  match First with
  | (_ :: _) :: _ => true
  | _ => false
  end.

(** The packets of a chain, in the order the double loop visits them. *)
Definition packets (First : NBL_CHAIN) : list NET_BUFFER := concat First.

(** ** Sample inputs *)

Module Sample.

(** 198.51.100.1, 198.51.100.0 and 10.0.0.5 as [s_addr] words. *)
Definition ip_198_51_100_1 : Z := 0x016433C6.
Definition ip_198_51_100_0 : Z := 0x006433C6.
Definition ip_10_0_0_5 : Z := 0x0500000A.

(** 2001:db8::1 and the prefix 2001:d00::/24. *)
Definition ip6_2001_db8__1 : IN6_ADDR := mkIN6_ADDR 0xB80D0120 0 0 0x01000000.
Definition ip6_2001_d00 : IN6_ADDR := mkIN6_ADDR 0x000D0120 0 0 0.

(** A prefix usable for either family: 198.51.100.0/24 and 2001:d00::/24. *)
Definition prefix24 : IP_ADDRESS_PREFIX :=
  mkIP_ADDRESS_PREFIX (mkSOCKADDR_INET AF_INET 0 ip_198_51_100_0 ip6_2001_d00 0) 24.

(** The routes of the second scenario of the specification: a default
    route through interface 2 (metric 20) and 198.51.100.0/24 through
    interface 4 (metric 5). *)
Definition route_default : MIB_IPFORWARD_ROW2 :=
  mkMIB_IPFORWARD_ROW2 102 2 (prefix4 0 0) 20.
Definition route_24 : MIB_IPFORWARD_ROW2 :=
  mkMIB_IPFORWARD_ROW2 104 4 (prefix4 ip_198_51_100_0 24) 5.
Definition table : list MIB_IPFORWARD_ROW2 := [route_default; route_24].

(** Both interfaces are up; interface 4 has metric 10, interface 2 has
    metric 100; the best source address on either is 10.0.0.5. *)
Definition os : OS :=
  mkOS (fun Family => (STATUS_SUCCESS, table))
       (fun Luid => (STATUS_SUCCESS, IfOperStatusUp))
       (fun Family Luid => (STATUS_SUCCESS, if Luid =? 104 then 10 else 100))
       (fun Index Dst => (STATUS_SUCCESS, mkSOCKADDR_INET AF_INET 0 ip_10_0_0_5 IN6ADDR_ANY 0))
       true true.

(** The same system with an empty forwarding table. *)
Definition os_no_route : OS :=
  mkOS (fun Family => (STATUS_SUCCESS, []))
       (GetIfEntry2 os) (GetIpInterfaceEntry os) (GetBestRoute2 os) true true.

(** The same system when the table query fails. *)
Definition os_query_fails : OS :=
  mkOS (fun Family => (STATUS_INSUFFICIENT_RESOURCES, []))
       (GetIfEntry2 os) (GetIpInterfaceEntry os) (GetBestRoute2 os) true true.

Definition device : WG_DEVICE := mkWG_DEVICE 101 true true (mkSTATISTICS 0 0 0).

(** Peer 198.51.100.1:51820 whose source was resolved at generation 3. *)
Definition endpoint_stale : ENDPOINT :=
  mkENDPOINT (mkSOCKADDR_INET AF_INET 0x6CCA ip_198_51_100_1 IN6ADDR_ANY 0)
             (mkWSACMSGHDR (WSA_CMSG_LEN sizeof_IN_PKTINFO) IPPROTO_IP IP_PKTINFO)
             (mkPKTINFO ip_10_0_0_5 3 0 0 0) 3 0.

(** The same peer with a source resolved at generation 5. *)
Definition endpoint_fresh : ENDPOINT :=
  mkENDPOINT (Addr endpoint_stale) (SrcCmsghdr endpoint_stale) (Src endpoint_stale) 5 0.

(** An endpoint that was never set. *)
Definition endpoint_unset : ENDPOINT := ENDPOINT_zero.

Definition state_of (e : ENDPOINT) : State :=
  mkState (mkWG_PEER e Unlocked 0 device) 5 1 [] [].

(** Another thread clears the source of the peer while the resolver does
    not hold the lock. *)
Definition other_thread_clears : Interference :=
  fun s => match SocketClearPeerEndpointSrc s with Some s' => s' | None => s end.

Definition keepalive : NET_BUFFER := mkNET_BUFFER 32.
Definition data_packet : NET_BUFFER := mkNET_BUFFER 148.
Definition chain : NBL_CHAIN := [[keepalive]; [data_packet]].

(** A datagram from 198.51.100.1 with an [IP_PKTINFO] control message
    (destination 10.0.0.5, interface 4). *)
Definition control : gmap Z CMSG :=
  {[ 0 := mkCMSG (mkWSACMSGHDR 24 IPPROTO_IP IP_PKTINFO) [ip_10_0_0_5; 4] ]}.
Definition datagram : WSK_DATAGRAM_INDICATION :=
  mkWSK_DATAGRAM_INDICATION (Addr endpoint_stale) (Some control) 24.

(** A second route for 198.51.100.0/24, through interface 2, whose route
    metric [2 ^ 32 - 100] and interface metric 100 add up to [2 ^ 32], and
    the system whose table holds it before [route_24], whose metrics add
    up to 15. *)
Definition route_wrap : MIB_IPFORWARD_ROW2 :=
  mkMIB_IPFORWARD_ROW2 102 2 (prefix4 ip_198_51_100_0 24) 0xFFFFFF9C.
Definition table_wrap : list MIB_IPFORWARD_ROW2 := [route_wrap; route_24].
Definition os_wrap : OS :=
  mkOS (fun Family => (STATUS_SUCCESS, table_wrap))
       (GetIfEntry2 os) (GetIpInterfaceEntry os) (GetBestRoute2 os) true true.

(** A route whose prefix 198.51.100.1/24 has a bit set beyond its length,
    and the system whose table holds this route only. *)
Definition route_host_bits : MIB_IPFORWARD_ROW2 :=
  mkMIB_IPFORWARD_ROW2 104 4 (prefix4 ip_198_51_100_1 24) 5.
Definition os_host_bits : OS :=
  mkOS (fun Family => (STATUS_SUCCESS, [route_host_bits]))
       (GetIfEntry2 os) (GetIpInterfaceEntry os) (GetBestRoute2 os) true true.

(** A datagram from 198.51.100.1 whose 24 bytes of control information
    start with a header of length 0, level 0 and type 0. *)
Definition control_empty_header : gmap Z CMSG :=
  {[ 0 := mkCMSG (mkWSACMSGHDR 0 0 0) [] ]}.
Definition datagram_empty_header : WSK_DATAGRAM_INDICATION :=
  mkWSK_DATAGRAM_INDICATION (Addr endpoint_stale) (Some control_empty_header) 24.

End Sample.

(** * The rest of [socket.c] *)

(** ** The owned-buffer send paths *)

(** The bytes written to the buffers allocated by
    [MemAllocateDataAndMdlChain], by the MDL that describes each. *)
Definition MDL_DATA := gmap Z (list Z).

(** [RtlCopyMemory(MmGetMdlVirtualAddress(Mdl), Buffer, Len)]: [Len] bytes
    of the caller's buffer are written to the buffer of [Mdl].  Reading
    past the end of [Buffer] is not defined. *)
Definition RtlCopyMemory_Mdl (Mdl : Z) (Buffer : list Z) (Len : Z) (m : MDL_DATA)
    : option MDL_DATA :=
  if (0 <=? Len) && (Len <=? Z.of_nat (length Buffer))
  then Some (<[Mdl := take (Z.to_nat Len) Buffer]> m)
  else None.

Section SendBuffer.

Variable os : OS.

(** Modelled from the spec: [MemAllocateDataAndMdlChain] is a function of
    the driver that [socket.c] calls and does not define.  The spec says
    that the send "allocates an owned memory-descriptor for [len]"; here it
    gives the MDL allocated for a length, 0 for a null pointer. *)
Variable MemAllocateDataAndMdlChain : Z -> Z.

(** The two cleanup labels of the buffer variants: [cleanupMdl] falls
    through to [cleanupCtx]. *)
Definition cleanupCtx_Buffer (s : State) : State :=
  emit [EvFreeToLookasideList] s.

Definition cleanupMdl (Mdl : Z) (s : State) : State :=
  cleanupCtx_Buffer (emit [EvMemFreeDataAndMdlChain Mdl] s).

(** [Peer->TxBytes += Len]. *)
Definition add_TxBytes (Len : Z) (s : State) : State :=
  let p := Peer s in
  set_Peer (mkWG_PEER (Endpoint p) (EndpointLock p) (u64 (TxBytes p + Len)) (Device p)) s.

(** [SocketSendBufferToPeer].  [m] is the contents of the allocated
    buffers before the call; the third component of the result is their
    contents after. *)
Definition SocketSendBufferToPeer (fuel : nat) (env : list Interference) (s : State)
    (m : MDL_DATA) (Buffer : list Z) (Len : Z)
    : option (NTSTATUS * State * MDL_DATA * list Interference) :=
  let s1 := emit [EvAllocateFromLookasideList] s in
  if negb (ExAllocateFromLookasideListEx os)
  then Some (STATUS_INSUFFICIENT_RESOURCES, s1, m, env)
  else
    let Mdl := MemAllocateDataAndMdlChain Len in
    if Mdl =? 0
    then Some (STATUS_INSUFFICIENT_RESOURCES, cleanupCtx_Buffer s1, m, env)
    else
      m1 ← RtlCopyMemory_Mdl Mdl Buffer Len m;
      '(Status, s2, env2) ← SocketResolvePeerEndpointSrc os fuel env s1;
      if negb (NT_SUCCESS Status)
      then Some (Status, cleanupMdl Mdl s2, m1, env2)
      else
        let CtxEndpoint := Endpoint (Peer s2) in
        s3 ← ExReleaseSpinLockShared s2;
        let Ctx := mkSOCKET_SEND_CTX CtxEndpoint false [] (mkWSK_BUF Mdl 0 Len) in
        '(Status', s4) ← SendAsync Ctx s3;
        if negb (NT_SUCCESS Status')
        then Some (Status', cleanupMdl Mdl s4, m1, env2)
        else Some (STATUS_SUCCESS, add_TxBytes Len s4, m1, env2).

(** [SocketSendBufferAsReplyToNbl].  [Wg] is the device of the state;
    [CtxEndpoint0] is what the [Endpoint] of the context taken from the
    lookaside list held; [InNbl] is the datagram indication of the
    received [NET_BUFFER_LIST]. *)
Definition SocketSendBufferAsReplyToNbl (fuel : nat) (s : State) (m : MDL_DATA)
    (CtxEndpoint0 : ENDPOINT) (InNbl : WSK_DATAGRAM_INDICATION)
    (Buffer : list Z) (Len : Z) : option (NTSTATUS * State * MDL_DATA) :=
  let s1 := emit [EvAllocateFromLookasideList] s in
  if negb (ExAllocateFromLookasideListEx os)
  then Some (STATUS_INSUFFICIENT_RESOURCES, s1, m)
  else
    let Mdl := MemAllocateDataAndMdlChain Len in
    if Mdl =? 0
    then Some (STATUS_INSUFFICIENT_RESOURCES, cleanupCtx_Buffer s1, m)
    else
      m1 ← RtlCopyMemory_Mdl Mdl Buffer Len m;
      '(Status, CtxEndpoint) ←
        SocketEndpointFromNbl fuel (RoutingGenerationV4 s1) (RoutingGenerationV6 s1)
          CtxEndpoint0 InNbl;
      if negb (NT_SUCCESS Status)
      then Some (Status, cleanupMdl Mdl s1, m1)
      else
        let Ctx := mkSOCKET_SEND_CTX CtxEndpoint false [] (mkWSK_BUF Mdl 0 Len) in
        '(Status', s2) ← SendAsync Ctx s1;
        if negb (NT_SUCCESS Status')
        then Some (Status', cleanupMdl Mdl s2, m1)
        else Some (STATUS_SUCCESS, s2, m1).

End SendBuffer.

(** *** What a sequence of events allocates, frees and sends *)

(** The MDL chains passed to [MemFreeDataAndMdlChain], in order. *)
Definition mdl_frees (evs : list Event) : list Z :=
  flat_map (fun e => match e with EvMemFreeDataAndMdlChain m => [m] | _ => [] end) evs.

(** The number of contexts returned to the lookaside list. *)
Definition ctx_frees (evs : list Event) : nat :=
  length (flat_map (fun e => match e with EvFreeToLookasideList => [tt] | _ => [] end) evs).

(** The contexts handed to the provider, in order. *)
Definition sends (evs : list Event) : list SOCKET_SEND_CTX :=
  flat_map (fun e => match e with
                     | EvWskSendMessages c => [c]
                     | EvWskSendTo c => [c]
                     | _ => []
                     end) evs.

(** The events the resolver can log: lock operations and calls of the
    routing API with their scratch allocation. *)
Definition is_resolver_event (e : Event) : bool :=
  match e with
  | EvAcquireSpinLockShared | EvReleaseSpinLockShared
  | EvAcquireSpinLockExclusive | EvReleaseSpinLockExclusive
  | EvGetIpForwardTable2 _ | EvGetIfEntry2 _ | EvGetIpInterfaceEntry _ _
  | EvGetBestRoute2 _ _ | EvFreeMibTable | EvMemAllocate | EvMemFree => true
  | _ => false
  end.

(** The bytes and the number of packets of a chain. *)
Definition chain_bytes (First : NBL_CHAIN) : Z :=
  foldr (fun Nb acc => DataLength Nb + acc) 0 (packets First).

Definition chain_packets (First : NBL_CHAIN) : Z :=
  Z.of_nat (length (packets First)).

(** There is a socket for the family of the endpoint. *)
Definition has_socket (s : State) (E : ENDPOINT) : bool :=
  ((si_family (Addr E) =? AF_INET) && Sock4 (Device (Peer s))) ||
  ((si_family (Addr E) =? AF_INET6) && Sock6 (Device (Peer s))).

(** ** The receive callback *)

(** Modelled from the spec: [SOCKET] is declared in a header that is not
    part of [socket.c].  The spec says that a socket "owns one bound UDP
    handle, its associated tunnel-device back-reference, and a
    rundown-protection counter"; [socket.c] uses the members [Sock],
    [Device] and [ItemsInFlight].  A socket is given here by the address of
    its allocation and its [Sock] pointer (0 for null); the device is the
    one of the state and the counter is kept in the state. *)
Record SOCKET := mkSOCKET {
  Socket_Mem : Z;
  Sock : Z
}.

(** A datagram indication of the list given to [Receive]: the datagram
    and the length of its buffer ([Buffer.Length], a [SIZE_T]).  The list
    linked by [Next] is a Rocq list. *)
Record INDICATION := mkINDICATION {
  Ind_Data : WSK_DATAGRAM_INDICATION;
  Ind_BufferLength : Z
}.

(** A [NET_BUFFER_LIST] allocated by [Receive]: its length, the
    indication attached to it, and the socket left in the [Next] member of
    the indication. *)
Record RECV_NBL := mkRECV_NBL {
  Nbl_Length : Z;
  Nbl_Indication : INDICATION;
  Nbl_Socket : SOCKET
}.

(** What the system answers during one iteration of the loop: whether
    [MemAllocateNetBufferList] gives a list, what [Wg->IsUp] reads, and
    whether [ExAcquireRundownProtection] succeeds. *)
Record RECV_ENV := mkRECV_ENV {
  Recv_Alloc : bool;
  Recv_IsUp : bool;
  Recv_Rundown : bool
}.

Inductive RecvEvent :=
| RvMemAllocateNetBufferList (Length : Z) (Allocated : bool)
| RvMemFreeNetBufferList
| RvAcquireRundownProtection
| RvWskRelease (Sock : Z) (DataIndication : INDICATION)
| RvPacketReceive (First : list RECV_NBL).

(** Modelled from the spec: [ifInDiscards] is a member of the statistics
    of the device, which a header that is not part of [socket.c]
    declares; the spec calls it "the device's input-discard counter".  It
    is taken to be 64 bits wide, as the output counters are.  The state of
    the receive path is this counter, the number of references taken on
    [Socket->ItemsInFlight], and the log of calls. *)
Record RECV_STATE := mkRECV_STATE {
  ifInDiscards : Z;
  ItemsInFlight : nat;
  RecvLog : list RecvEvent
}.

Definition ULONG_MAX : Z := 0xFFFFFFFF.
Definition STATUS_PENDING : NTSTATUS := s32 0x00000103.

(** [RtlSIZETToULong]: the conversion fails above [ULONG_MAX]. *)
Definition RtlSIZETToULong (x : Z) : option Z :=
  if x <=? ULONG_MAX then Some x else None.

(** The label [skipDatagramIndication]; [Nbl] tells whether a list had
    been allocated. *)
Definition skipDatagramIndication (Socket : SOCKET) (d : INDICATION) (Nbl : bool)
    (st : RECV_STATE) : RECV_STATE :=
  mkRECV_STATE (u64 (ifInDiscards st + 1)) (ItemsInFlight st)
    (RecvLog st ++ [RvWskRelease (Sock Socket) d] ++
     (if Nbl then [RvMemFreeNetBufferList] else [])).

Definition recv_log (evs : list RecvEvent) (st : RECV_STATE) : RECV_STATE :=
  mkRECV_STATE (ifInDiscards st) (ItemsInFlight st) (RecvLog st ++ evs).

(** One iteration of the loop: the new state and the list linked into the
    batch, if any. *)
Definition Receive_step (Socket : SOCKET) (e : RECV_ENV) (d : INDICATION)
    (st : RECV_STATE) : RECV_STATE * option RECV_NBL :=
  match RtlSIZETToULong (Ind_BufferLength d) with
  | None => (skipDatagramIndication Socket d false st, None)
  | Some Length =>
      let st1 := recv_log [RvMemAllocateNetBufferList Length (Recv_Alloc e)] st in
      if negb (Recv_Alloc e) then (skipDatagramIndication Socket d false st1, None)
      else if negb (Recv_IsUp e) then (skipDatagramIndication Socket d true st1, None)
      else
        let st2 := recv_log [RvAcquireRundownProtection] st1 in
        if negb (Recv_Rundown e) then (skipDatagramIndication Socket d true st2, None)
        else
          (mkRECV_STATE (ifInDiscards st2) (S (ItemsInFlight st2)) (RecvLog st2),
           Some (mkRECV_NBL Length d Socket))
  end.

(** The loop over the indications; [i] numbers the iterations and [batch]
    is the chain linked so far, from [First]. *)
Fixpoint Receive_loop (Socket : SOCKET) (env : nat -> RECV_ENV) (i : nat)
    (l : list INDICATION) (st : RECV_STATE) (batch : list RECV_NBL)
    : RECV_STATE * list RECV_NBL :=
  match l with
  | [] => (st, batch)
  | d :: l' =>
      let '(st', Nbl) := Receive_step Socket (env i) d st in
      Receive_loop Socket env (S i) l' st'
        (match Nbl with Some nbl => batch ++ [nbl] | None => batch end)
  end.

(** [Receive].  A null [SocketContext] is [None]; a null list of
    indications is [[]]. *)
Definition Receive (SocketContext : option SOCKET) (env : nat -> RECV_ENV)
    (DataIndication : list INDICATION) (st : RECV_STATE) : NTSTATUS * RECV_STATE :=
  match SocketContext with
  | None => (STATUS_SUCCESS, st)
  | Some Socket =>
      if Sock Socket =? 0 then (STATUS_SUCCESS, st)
      else
        match DataIndication with
        | [] => (STATUS_SUCCESS, st)
        | _ :: _ =>
            let '(st', First) := Receive_loop Socket env 0 DataIndication st [] in
            (STATUS_PENDING,
             match First with
             | [] => st'
             | _ :: _ => recv_log [RvPacketReceive First] st'
             end)
        end
  end.

(** *** What a run of [Receive] does, read off its log *)

(** The list that [Receive] makes of a datagram it takes. *)
Definition wrap (Socket : SOCKET) (d : INDICATION) : RECV_NBL :=
  mkRECV_NBL (Ind_BufferLength d) d Socket.

Definition releases (evs : list RecvEvent) : list INDICATION :=
  flat_map (fun e => match e with RvWskRelease _ d => [d] | _ => [] end) evs.

Definition packet_receives (evs : list RecvEvent) : list (list RECV_NBL) :=
  flat_map (fun e => match e with RvPacketReceive F => [F] | _ => [] end) evs.

(** The number of lists that [MemAllocateNetBufferList] has given. *)
Definition nbl_allocs (evs : list RecvEvent) : nat :=
  length (flat_map (fun e => match e with
                             | RvMemAllocateNetBufferList _ true => [tt]
                             | _ => []
                             end) evs).

Definition nbl_frees (evs : list RecvEvent) : nat :=
  length (flat_map (fun e => match e with RvMemFreeNetBufferList => [tt] | _ => [] end) evs).

(** The datagram of iteration [i] is taken: its length fits a [ULONG],
    a list is allocated, the device is up and the reference is granted. *)
Definition accepted (e : RECV_ENV) (d : INDICATION) : bool :=
  (Ind_BufferLength d <=? ULONG_MAX) && Recv_Alloc e && Recv_IsUp e && Recv_Rundown e.

(** The indications of [l], numbered from [i], that are taken, and those
    that are not. *)
Fixpoint taken (env : nat -> RECV_ENV) (i : nat) (l : list INDICATION) : list INDICATION :=
  match l with
  | [] => []
  | d :: l' => (if accepted (env i) d then [d] else []) ++ taken env (S i) l'
  end.

Fixpoint dropped (env : nat -> RECV_ENV) (i : nat) (l : list INDICATION) : list INDICATION :=
  match l with
  | [] => []
  | d :: l' => (if accepted (env i) d then [] else [d]) ++ dropped env (S i) l'
  end.

(** ** Sockets: creation, binding, closing *)

Definition AF_UNSPEC : Z := 0.
Definition SOCK_DGRAM : Z := 2.
Definition IPPROTO_UDP : Z := 17.
Definition IPV6_V6ONLY : Z := 27.
Definition WSK_FLAG_DATAGRAM_SOCKET : Z := 4.

(** [#define UDP_NOCHECKSUM 1]. *)
Definition UDP_NOCHECKSUM : Z := 1.

Definition STATUS_UNSUCCESSFUL : NTSTATUS := s32 0xC0000001.
Definition STATUS_ADDRESS_ALREADY_EXISTS : NTSTATUS := s32 0xC000020A.
Definition STATUS_RETRY : NTSTATUS := s32 0xC000022D.
Definition STATUS_BUFFER_OVERFLOW : NTSTATUS := s32 0x80000005.

(** Modelled from the spec: [Htons] and [Ntohs] are macros of the driver
    that [socket.c] uses and does not define.  The spec has the caller
    "learn the ephemeral port" from the address read back and set
    [IncomingPort] to it: the port of a socket address is in network
    order, the port of the device in host order, and on the little-endian
    targets of the driver the conversion swaps the two bytes. *)
Definition Htons (x : Z) : Z :=
  Z.lor (Z.shiftl (Z.land x 0xFF) 8) (Z.land (Z.shiftr x 8) 0xFF).

Definition Ntohs (x : Z) : Z := Htons x.

(** [WSK_TRANSPORT], without the provider id, which is not read. *)
Record WSK_TRANSPORT := mkWSK_TRANSPORT {
  Version : Z;
  SocketType : Z;
  Protocol : Z;
  AddressFamily : Z
}.

Definition sizeof_WSK_TRANSPORT : Z := 28.

(** Modelled from the spec: the size of [SOCKET], whose three members
    (device, handle, rundown counter) are each of pointer size on a 64-bit
    target. *)
Definition sizeof_SOCKET : Z := 24.

(** ** The system seen by the socket functions *)

(** What the system answers to one call.  A call uses the members that
    concern it:
    - an allocation ([MemAllocate], [IoAllocateIrp]) gives [Ans_Pointer],
      0 for a null pointer;
    - a call that returns a status gives [Ans_Status]; when the call
      takes an IRP and returns [STATUS_PENDING], [Ans_IoStatus] is the
      [IoStatus.Status] of the IRP found after the wait;
    - [WskSocket] leaves the socket in [IoStatus.Information]:
      [Ans_Information];
    - [WskGetLocalAddress] leaves [Ans_Address] in the caller's address;
    - the transport query leaves [Ans_Size] in [WskTransportsSize] and
      the entry [Ans_Transports i] at the index [i] of the buffer. *)
Record ANSWER := mkANSWER {
  Ans_Pointer : Z;
  Ans_Status : NTSTATUS;
  Ans_IoStatus : NTSTATUS;
  Ans_Information : Z;
  Ans_Address : SOCKADDR_INET;
  Ans_Size : Z;
  Ans_Transports : nat -> WSK_TRANSPORT
}.

Inductive PUSH_LOCK := SocketUpdateLock | WskIsIniting.

(** The control codes of [WskControlClient] used by [WskInit]. *)
Inductive WSK_CONTROL := WSK_TRANSPORT_LIST_QUERY | WSK_SET_STATIC_EVENT_CALLBACKS.

(** The calls made, with the arguments that matter and, where the code
    looks at it, the result. *)
Inductive KEvent :=
| KMemAllocate (Size : Z) (p : Z)
| KMemFree (p : Z)
| KIoAllocateIrp (Irp : Z)
| KIoReuseIrp
| KIoFreeIrp
| KWaitForSingleObject
| KWaitForRundownProtectionRelease (Socket : Z)
| KWskSocket (Family SocketType_ Protocol_ Flags Context : Z) (Created : option Z)
| KWskControlSocket (Sock_ Level Option Value : Z)
| KWskBind (Sock_ : Z) (Sa : SOCKADDR_INET)
| KWskGetLocalAddress (Sock_ : Z) (Local : SOCKADDR_INET)
| KWskCloseSocket (Sock_ : Z)
| KLogErr
| KAcquirePushLockExclusive (Lock : PUSH_LOCK)
| KReleasePushLockExclusive (Lock : PUSH_LOCK)
| KRcuSynchronize
| KExInitializeLookasideListEx (Status : NTSTATUS)
| KExDeleteLookasideListEx
| KWskRegister (Status : NTSTATUS)
| KWskDeregister
| KWskCaptureProviderNPI (Status : NTSTATUS)
| KWskReleaseProviderNPI
| KWskControlClient (Code : WSK_CONTROL) (Status : NTSTATUS)
| KNotifyRouteChange2 (Family : Z) (Status : NTSTATUS)
| KCancelMibChangeNotify2 (Family : Z).

(** Modelled from the spec: the device members used by the socket
    functions are declared in a header that is not part of [socket.c].
    The spec says the device "holds two atomically-swappable pointers,
    [Sock4] and [Sock6]", swapped together with [IncomingPort].  The state
    holds them, the globals [WskHasIpv4Transport], [WskHasIpv6Transport]
    and [WskInitStatus] of [socket.c], the number of answers of the system
    consumed so far, and the log of calls. *)
Record KSTATE := mkKSTATE {
  KCalls : nat;
  KLog : list KEvent;
  Wg_Sock4 : option SOCKET;
  Wg_Sock6 : option SOCKET;
  IncomingPort : Z;
  WskHasIpv4Transport : bool;
  WskHasIpv6Transport : bool;
  WskInitStatus : NTSTATUS
}.

(** The globals as the program starts: [static NTSTATUS WskInitStatus =
    STATUS_RETRY], no transport known. *)
Definition KSTATE_init : KSTATE :=
  mkKSTATE 0 [] None None 0 false false STATUS_RETRY.

(** Computations that call the system and change the state. *)
Definition K (A : Type) : Type := KSTATE -> A * KSTATE.

#[global] Instance K_ret : MRet K := fun A a k => (a, k).
#[global] Instance K_bind : MBind K :=
  fun A B f m k => let '(a, k') := m k in f a k'.

Definition kget {A : Type} (f : KSTATE -> A) : K A := fun k => (f k, k).

Definition klog (evs : list KEvent) : K unit :=
  fun k => (tt, mkKSTATE (KCalls k) (KLog k ++ evs) (Wg_Sock4 k) (Wg_Sock6 k)
                  (IncomingPort k) (WskHasIpv4Transport k) (WskHasIpv6Transport k)
                  (WskInitStatus k)).

Definition set_Socks (New4 New6 : option SOCKET) : K unit :=
  fun k => (tt, mkKSTATE (KCalls k) (KLog k) New4 New6
                  (IncomingPort k) (WskHasIpv4Transport k) (WskHasIpv6Transport k)
                  (WskInitStatus k)).

Definition set_IncomingPort (Port : Z) : K unit :=
  fun k => (tt, mkKSTATE (KCalls k) (KLog k) (Wg_Sock4 k) (Wg_Sock6 k)
                  Port (WskHasIpv4Transport k) (WskHasIpv6Transport k)
                  (WskInitStatus k)).

Definition set_Transports (Has4 Has6 : bool) : K unit :=
  fun k => (tt, mkKSTATE (KCalls k) (KLog k) (Wg_Sock4 k) (Wg_Sock6 k)
                  (IncomingPort k) Has4 Has6 (WskInitStatus k)).

Definition set_WskInitStatus (Status : NTSTATUS) : K unit :=
  fun k => (tt, mkKSTATE (KCalls k) (KLog k) (Wg_Sock4 k) (Wg_Sock6 k)
                  (IncomingPort k) (WskHasIpv4Transport k) (WskHasIpv6Transport k)
                  Status).

(** The status of a call that takes an IRP, once it has completed. *)
Definition completion_status (a : ANSWER) : NTSTATUS :=
  if Ans_Status a =? STATUS_PENDING then Ans_IoStatus a else Ans_Status a.

Section Sockets.

(** The answers of the system, in the order of the calls. *)
Variable kernel : nat -> ANSWER.

(** The next answer. *)
Definition ask : K ANSWER :=
  fun k => (kernel (KCalls k),
            mkKSTATE (S (KCalls k)) (KLog k) (Wg_Sock4 k) (Wg_Sock6 k)
              (IncomingPort k) (WskHasIpv4Transport k) (WskHasIpv6Transport k)
              (WskInitStatus k)).

Definition MemAllocate_ (Size : Z) : K Z :=
  a ← ask; klog [KMemAllocate Size (Ans_Pointer a)];; mret (Ans_Pointer a).

Definition MemFree (p : Z) : K unit := klog [KMemFree p].

Definition IoAllocateIrp : K Z :=
  a ← ask; klog [KIoAllocateIrp (Ans_Pointer a)];; mret (Ans_Pointer a).

Definition IoFreeIrp : K unit := klog [KIoFreeIrp].

(** [RaiseEventOnComplete], the completion routine of the IRPs of this
    part: it sets the event and keeps the IRP. *)
Definition RaiseEventOnComplete : NTSTATUS := STATUS_MORE_PROCESSING_REQUIRED.

(** A call that is given an IRP whose completion routine is
    [RaiseEventOnComplete], followed by
    [if (Status == STATUS_PENDING) { KeWaitForSingleObject(&Done, ...);
    Status = Irp->IoStatus.Status; }].  [call] is the call logged for an
    answer. *)
Definition with_Irp (call : ANSWER -> KEvent) : K (NTSTATUS * ANSWER) :=
  a ← ask;
  klog [call a];;
  if Ans_Status a =? STATUS_PENDING
  then klog [KWaitForSingleObject];; mret (Ans_IoStatus a, a)
  else mret (Ans_Status a, a).

(** The socket that [WskSocket] has left in [IoStatus.Information], when
    the call has succeeded. *)
Definition created (a : ANSWER) : option Z :=
  if NT_SUCCESS (completion_status a) then Some (Ans_Information a) else None.

(** [CloseSocket]. *)
Definition CloseSocket (Socket : option SOCKET) : K unit :=
  match Socket with
  | None => mret tt
  | Some Socket =>
      klog [KWaitForRundownProtectionRelease (Socket_Mem Socket)];;
      (if negb (Sock Socket =? 0) then
         Irp ← IoAllocateIrp;
         if Irp =? 0 then mret tt
         else
           with_Irp (fun _ => KWskCloseSocket (Sock Socket));;
           IoFreeIrp
       else mret tt);;
      MemFree (Socket_Mem Socket)
  end.

(** [SetSockOpt]; [Value] is the [ULONG] that [Input] points to. *)
Definition SetSockOpt (Sock_ Level Option Value : Z) : K NTSTATUS :=
  Irp ← IoAllocateIrp;
  if Irp =? 0 then mret STATUS_INSUFFICIENT_RESOURCES
  else
    '(Status, _) ← with_Irp (fun _ => KWskControlSocket Sock_ Level Option Value);
    IoFreeIrp;;
    mret Status.

(** The two cleanup labels of [CreateAndBindSocket]: [cleanupIrp] falls
    through to [cleanupSocket]. *)
Definition cleanupSocket (Socket : SOCKET) (Status : NTSTATUS) (Sa : SOCKADDR_INET)
    : K (NTSTATUS * SOCKADDR_INET * option SOCKET) :=
  CloseSocket (Some Socket);;
  mret (Status, Sa, None).

Definition cleanupIrp (Socket : SOCKET) (Status : NTSTATUS) (Sa : SOCKADDR_INET)
    : K (NTSTATUS * SOCKADDR_INET * option SOCKET) :=
  IoFreeIrp;;
  cleanupSocket Socket Status Sa.

(** [CreateAndBindSocket].  The result is the status, what [Sa] holds
    after the call and what [*RetSocket] has been set to, if it has. *)
Definition CreateAndBindSocket (Sa : SOCKADDR_INET)
    : K (NTSTATUS * SOCKADDR_INET * option SOCKET) :=
  Mem ← MemAllocate_ sizeof_SOCKET;
  if Mem =? 0 then mret (STATUS_INSUFFICIENT_RESOURCES, Sa, None)
  else
    Irp ← IoAllocateIrp;
    if Irp =? 0 then cleanupSocket (mkSOCKET Mem 0) STATUS_INSUFFICIENT_RESOURCES Sa
    else
      '(Status, a) ←
        with_Irp (fun a => KWskSocket (si_family Sa) SOCK_DGRAM IPPROTO_UDP
                             WSK_FLAG_DATAGRAM_SOCKET Mem (created a));
      if negb (NT_SUCCESS Status) then cleanupIrp (mkSOCKET Mem 0) Status Sa
      else
        let Sock_ := Ans_Information a in
        let Socket := mkSOCKET Mem Sock_ in
        Status ←
          (if si_family Sa =? AF_INET
           then SetSockOpt Sock_ IPPROTO_UDP UDP_NOCHECKSUM 1
           else if si_family Sa =? AF_INET6
           then SetSockOpt Sock_ IPPROTO_IPV6 IPV6_V6ONLY 1
           else mret Status);
        if negb (NT_SUCCESS Status) then cleanupIrp Socket Status Sa
        else
          Status ←
            SetSockOpt Sock_
              (if si_family Sa =? AF_INET6 then IPPROTO_IPV6 else IPPROTO_IP)
              (if si_family Sa =? AF_INET6 then IPV6_PKTINFO else IP_PKTINFO) 1;
          if negb (NT_SUCCESS Status) then cleanupIrp Socket Status Sa
          else
            klog [KIoReuseIrp];;
            '(Status, _) ← with_Irp (fun _ => KWskBind Sock_ Sa);
            if negb (NT_SUCCESS Status)
            then klog [KLogErr];; cleanupIrp Socket Status Sa
            else
              klog [KIoReuseIrp];;
              '(Status, a) ←
                with_Irp (fun a => KWskGetLocalAddress Sock_ (Ans_Address a));
              let Sa' := Ans_Address a in
              if negb (NT_SUCCESS Status) then cleanupIrp Socket Status Sa'
              else
                IoFreeIrp;;
                mret (STATUS_SUCCESS, Sa', Some Socket).

(** [SocketReinit]. *)
Definition SocketReinit (New4 New6 : option SOCKET) (Port : Z) : K unit :=
  klog [KAcquirePushLockExclusive SocketUpdateLock];;
  Old4 ← kget Wg_Sock4;
  Old6 ← kget Wg_Sock6;
  set_Socks New4 New6;;
  (if bool_decide (is_Some New4) || bool_decide (is_Some New6)
   then set_IncomingPort Port else mret tt);;
  klog [KReleasePushLockExclusive SocketUpdateLock];;
  klog [KRcuSynchronize];;
  CloseSocket Old4;;
  CloseSocket Old6.

(** [Sa.sin_port = Port], the port being at the same place in
    [SOCKADDR_IN] and [SOCKADDR_IN6]. *)
Definition set_sin_port (Sa : SOCKADDR_INET) (Port : Z) : SOCKADDR_INET :=
  mkSOCKADDR_INET (si_family Sa) Port (sin_addr Sa) (sin6_addr Sa) (sin6_scope_id Sa).

(** [SocketInit] from the label [retry]: [Retries], [Sa4] and [Sa6] are
    the locals as the label is reached; [New4] and [New6] are null there.
    [fuel] bounds the number of passes; the result is [None] when it runs
    out. *)
Fixpoint SocketInit_retry (fuel : nat) (Port : Z) (Retries : Z)
    (Sa4 Sa6 : SOCKADDR_INET) : K (option NTSTATUS) :=
  match fuel with
  | O => mret None
  | S fuel' =>
      Has4 ← kget WskHasIpv4Transport;
      '(Status, Sa4, New4) ←
        (if Has4 : bool then CreateAndBindSocket Sa4
         else mret (STATUS_SUCCESS, Sa4, None));
      if negb (NT_SUCCESS Status) then mret (Some Status)
      else
        Has6 ← kget WskHasIpv6Transport;
        '(Status, Sa6, New6) ←
          (if Has6 : bool then CreateAndBindSocket (set_sin_port Sa6 (sin_port Sa4))
           else mret (STATUS_SUCCESS, Sa6, None));
        if negb (NT_SUCCESS Status) then
          CloseSocket New4;;
          if (Status =? STATUS_ADDRESS_ALREADY_EXISTS) && (Port =? 0) && (Retries <? 100)
          then SocketInit_retry fuel' Port (Retries + 1) Sa4 Sa6
          else mret (Some Status)
        else
          Has4 ← kget WskHasIpv4Transport;
          Has6 ← kget WskHasIpv6Transport;
          SocketReinit New4 New6
            (if Has4 : bool then Ntohs (sin_port Sa4)
             else if Has6 : bool then Ntohs (sin_port Sa6)
             else Port);;
          mret (Some STATUS_SUCCESS)
  end.

(** [SocketInit]: at most 101 passes are made. *)
Definition SocketInit (Port : Z) : K (option NTSTATUS) :=
  SocketInit_retry 101 Port 0
    (mkSOCKADDR_INET AF_INET (Htons Port) (Htonl 0) IN6ADDR_ANY 0)
    (mkSOCKADDR_INET AF_INET6 0 0 IN6ADDR_ANY 0).

(** *** [WskInit] and [WskUnload]

    The build is the one for the systems after Windows 7, where the block
    under [#if NTDDI_VERSION == NTDDI_WIN7] is absent.  The calls are
    those of one thread: nothing else writes [WskInitStatus] between its
    two reads. *)

(** The body of the loop over the transports that the query has
    written: the two globals after the entry [t]. *)
Definition note_transport (t : WSK_TRANSPORT) (Has : bool * bool) : bool * bool :=
  if (SocketType t =? SOCK_DGRAM) && (Protocol t =? IPPROTO_UDP) then
    if AddressFamily t =? AF_UNSPEC then (true, true)
    else if AddressFamily t =? AF_INET then (true, snd Has)
    else if AddressFamily t =? AF_INET6 then (fst Has, true)
    else Has
  else Has.

(** The loop [for (SIZE_T i = 0, n = ...; i < n; ++i)], where [n] is
    [WskTransportsSize] divided by the size of an entry. *)
Definition note_transports (WskTransports : nat -> WSK_TRANSPORT)
    (WskTransportsSize : Z) (Has : bool * bool) : bool * bool :=
  foldl (fun Has i => note_transport (WskTransports i) Has) Has
    (seq 0 (Z.to_nat (WskTransportsSize / sizeof_WSK_TRANSPORT))).

(** The labels at the end of [WskInit], each falling through to the
    next. *)
Definition cleanupIniting (Status : NTSTATUS) : K (option NTSTATUS) :=
  set_WskInitStatus Status;;
  klog [KReleasePushLockExclusive WskIsIniting];;
  mret (Some Status).

Definition cleanupLookaside (Status : NTSTATUS) : K (option NTSTATUS) :=
  klog [KExDeleteLookasideListEx];; cleanupIniting Status.

Definition cleanupWskRegister (Status : NTSTATUS) : K (option NTSTATUS) :=
  klog [KWskDeregister];; cleanupLookaside Status.

Definition cleanupWskProviderNPI (Status : NTSTATUS) : K (option NTSTATUS) :=
  klog [KWskReleaseProviderNPI];; cleanupWskRegister Status.

Definition cleanupRouteNotifierV4 (Status : NTSTATUS) : K (option NTSTATUS) :=
  klog [KCancelMibChangeNotify2 AF_INET];; cleanupWskProviderNPI Status.

(** The loop [for (;;)] of [WskInit] that asks for the list of
    transports, from its head with the local [WskTransportsSize].  The
    result is the status with which the loop is left, by [break] when it
    is a success and by [goto cleanupWskProviderNPI] otherwise; [fuel]
    bounds the number of turns, and the result is [None] when it runs
    out. *)
Fixpoint WskInit_transports (fuel : nat) (WskTransportsSize : Z) : K (option NTSTATUS) :=
  match fuel with
  | O => mret None
  | S fuel' =>
      WskTransports ← MemAllocate_ WskTransportsSize;
      if WskTransports =? 0 then mret (Some STATUS_INSUFFICIENT_RESOURCES)
      else
        a ← ask;
        klog [KWskControlClient WSK_TRANSPORT_LIST_QUERY (Ans_Status a)];;
        if NT_SUCCESS (Ans_Status a) then
          Has4 ← kget WskHasIpv4Transport;
          Has6 ← kget WskHasIpv6Transport;
          (let Has := note_transports (Ans_Transports a) (usize (Ans_Size a))
                        (Has4, Has6) in
           set_Transports (fst Has) (snd Has));;
          MemFree WskTransports;;
          mret (Some (Ans_Status a))
        else
          MemFree WskTransports;;
          if negb (Ans_Status a =? STATUS_BUFFER_OVERFLOW)
          then mret (Some (Ans_Status a))
          else WskInit_transports fuel' (usize (Ans_Size a))
  end.

(** A call that returns its status at once. *)
Definition call_status (call : NTSTATUS -> KEvent) : K NTSTATUS :=
  a ← ask; klog [call (Ans_Status a)];; mret (Ans_Status a).

(** [WskInit]; [fuel] bounds the turns of the loop over the transport
    queries. *)
Definition WskInit (fuel : nat) : K (option NTSTATUS) :=
  Status ← kget WskInitStatus;
  if negb (Status =? STATUS_RETRY) then mret (Some Status)
  else
    klog [KAcquirePushLockExclusive WskIsIniting];;
    Status ← kget WskInitStatus;
    if negb (Status =? STATUS_RETRY) then cleanupIniting Status
    else
      Status ← call_status KExInitializeLookasideListEx;
      if negb (NT_SUCCESS Status) then cleanupIniting Status
      else
        Status ← call_status KWskRegister;
        if negb (NT_SUCCESS Status) then cleanupLookaside Status
        else
          Status ← call_status KWskCaptureProviderNPI;
          if negb (NT_SUCCESS Status) then cleanupWskRegister Status
          else
            Left ← WskInit_transports fuel (0x10 * sizeof_WSK_TRANSPORT);
            match Left with
            | None => mret None
            | Some Status =>
                if negb (NT_SUCCESS Status) then cleanupWskProviderNPI Status
                else
                  Status ← call_status (KWskControlClient WSK_SET_STATIC_EVENT_CALLBACKS);
                  if negb (NT_SUCCESS Status) then cleanupWskProviderNPI Status
                  else
                    Status ← call_status (KNotifyRouteChange2 AF_INET);
                    if negb (NT_SUCCESS Status) then cleanupWskProviderNPI Status
                    else
                      Status ← call_status (KNotifyRouteChange2 AF_INET6);
                      if negb (NT_SUCCESS Status) then cleanupRouteNotifierV4 Status
                      else
                        set_WskInitStatus STATUS_SUCCESS;;
                        klog [KReleasePushLockExclusive WskIsIniting];;
                        mret (Some STATUS_SUCCESS)
            end.

(** [WskUnload]. *)
Definition WskUnload : K unit :=
  klog [KAcquirePushLockExclusive WskIsIniting];;
  Status ← kget WskInitStatus;
  (if negb (Status =? STATUS_SUCCESS) then mret tt
   else
     klog [KCancelMibChangeNotify2 AF_INET6];;
     klog [KCancelMibChangeNotify2 AF_INET];;
     klog [KWskReleaseProviderNPI];;
     klog [KWskDeregister];;
     klog [KExDeleteLookasideListEx]);;
  klog [KReleasePushLockExclusive WskIsIniting].

End Sockets.

(** *** What a run of the socket functions does, read off its log *)

(** The state after [n] more answers and the calls [evs]. *)
Definition kstep (n : nat) (evs : list KEvent) (k : KSTATE) : KSTATE :=
  mkKSTATE (KCalls k + n) (KLog k ++ evs) (Wg_Sock4 k) (Wg_Sock6 k)
    (IncomingPort k) (WskHasIpv4Transport k) (WskHasIpv6Transport k) (WskInitStatus k).

(** The blocks that [MemAllocate] has given, and those given to
    [MemFree], in order. *)
Definition mem_allocs (evs : list KEvent) : list Z :=
  flat_map (fun e => match e with
                     | KMemAllocate _ p => if p =? 0 then [] else [p]
                     | _ => []
                     end) evs.

Definition mem_frees (evs : list KEvent) : list Z :=
  flat_map (fun e => match e with KMemFree p => [p] | _ => [] end) evs.

(** The number of IRPs that [IoAllocateIrp] has given, the number of
    times it has given none, and the number of IRPs freed. *)
Definition irp_allocs (evs : list KEvent) : nat :=
  length (flat_map (fun e => match e with
                             | KIoAllocateIrp p => if p =? 0 then [] else [tt]
                             | _ => []
                             end) evs).

Definition irp_failures (evs : list KEvent) : nat :=
  length (flat_map (fun e => match e with
                             | KIoAllocateIrp p => if p =? 0 then [tt] else []
                             | _ => []
                             end) evs).

Definition irp_frees (evs : list KEvent) : nat :=
  length (flat_map (fun e => match e with KIoFreeIrp => [tt] | _ => [] end) evs).

(** The calls of the provider, in order. *)
Definition wsk_calls (evs : list KEvent) : list KEvent :=
  flat_map (fun e => match e with
                     | KWskSocket _ _ _ _ _ _ | KWskControlSocket _ _ _ _
                     | KWskBind _ _ | KWskGetLocalAddress _ _ | KWskCloseSocket _ => [e]
                     | _ => []
                     end) evs.

(** The sockets that the provider has created (null ones apart) and those
    it has been asked to close. *)
Definition wsk_created (evs : list KEvent) : list Z :=
  flat_map (fun e => match e with
                     | KWskSocket _ _ _ _ _ (Some s) => if s =? 0 then [] else [s]
                     | _ => []
                     end) evs.

Definition wsk_closes (evs : list KEvent) : list Z :=
  flat_map (fun e => match e with KWskCloseSocket s => [s] | _ => [] end) evs.

(** The sockets whose rundown has been waited for. *)
Definition rundown_waits (evs : list KEvent) : list Z :=
  flat_map (fun e => match e with
                     | KWaitForRundownProtectionRelease s => [s]
                     | _ => []
                     end) evs.

(** The options set on a socket before it is bound, by family. *)
Definition socket_options (Family Sock_ : Z) : list KEvent :=
  (if Family =? AF_INET then [KWskControlSocket Sock_ IPPROTO_UDP UDP_NOCHECKSUM 1]
   else if Family =? AF_INET6 then [KWskControlSocket Sock_ IPPROTO_IPV6 IPV6_V6ONLY 1]
   else []) ++
  [if Family =? AF_INET6
   then KWskControlSocket Sock_ IPPROTO_IPV6 IPV6_PKTINFO 1
   else KWskControlSocket Sock_ IPPROTO_IP IP_PKTINFO 1].

(** The memory of a socket pointer, if it is not null. *)
Definition socket_mems (Socket : option SOCKET) : list Z :=
  match Socket with Some Socket => [Socket_Mem Socket] | None => [] end.

(** What [WskInit] takes from the system and has to give back. *)
Inductive RESOURCE :=
| Lookaside
| Registration
| ProviderNPI
| RouteNotifier (Family : Z).

Definition RESOURCE_eqb (r1 r2 : RESOURCE) : bool :=
  match r1, r2 with
  | Lookaside, Lookaside | Registration, Registration | ProviderNPI, ProviderNPI => true
  | RouteNotifier f1, RouteNotifier f2 => f1 =? f2
  | _, _ => false
  end.

(** The resources held after the calls [evs], the most recent first, when
    [held] were held before.  A call that succeeds takes its resource; a
    call that gives a resource back has to give back the most recent one,
    and there is no result when it does not. *)
Fixpoint unwind (evs : list KEvent) (held : list RESOURCE) : option (list RESOURCE) :=
  let take (Status : NTSTATUS) (r : RESOURCE) (evs' : list KEvent) :=
    unwind evs' (if NT_SUCCESS Status then r :: held else held) in
  let give (r : RESOURCE) (evs' : list KEvent) :=
    match held with
    | r' :: held' => if RESOURCE_eqb r r' then unwind evs' held' else None
    | [] => None
    end in
  match evs with
  | [] => Some held
  | KExInitializeLookasideListEx Status :: evs' => take Status Lookaside evs'
  | KWskRegister Status :: evs' => take Status Registration evs'
  | KWskCaptureProviderNPI Status :: evs' => take Status ProviderNPI evs'
  | KNotifyRouteChange2 Family Status :: evs' => take Status (RouteNotifier Family) evs'
  | KExDeleteLookasideListEx :: evs' => give Lookaside evs'
  | KWskDeregister :: evs' => give Registration evs'
  | KWskReleaseProviderNPI :: evs' => give ProviderNPI evs'
  | KCancelMibChangeNotify2 Family :: evs' => give (RouteNotifier Family) evs'
  | _ :: evs' => unwind evs' held
  end.

(** The operations on the push locks, in order. *)
Definition lock_events (evs : list KEvent) : list KEvent :=
  flat_map (fun e => match e with
                     | KAcquirePushLockExclusive _ | KReleasePushLockExclusive _ => [e]
                     | _ => []
                     end) evs.

(** The statuses that the queries for the list of transports have
    returned, in order. *)
Definition transport_queries (evs : list KEvent) : list NTSTATUS :=
  flat_map (fun e => match e with
                     | KWskControlClient WSK_TRANSPORT_LIST_QUERY Status => [Status]
                     | _ => []
                     end) evs.

(** The sizes asked of [MemAllocate], in order. *)
Definition mem_sizes (evs : list KEvent) : list Z :=
  flat_map (fun e => match e with KMemAllocate Size _ => [Size] | _ => [] end) evs.

(** ** More sample inputs *)

Module SampleMore.

(** An allocator that always gives the MDL at 4096, and an 8-byte
    message. *)
Definition alloc_mdl : Z -> Z := fun _ => 4096.
Definition message : list Z := [1; 0; 0; 0; 7; 7; 7; 7].

(** A bound socket, two datagram indications of 148 and 32 bytes, and a
    system where the device is up and the second allocation of a list
    fails. *)
Definition socket : SOCKET := mkSOCKET 8192 12288.
Definition indication_1 : INDICATION := mkINDICATION Sample.datagram 148.
Definition indication_2 : INDICATION := mkINDICATION Sample.datagram 32.
Definition indications : list INDICATION := [indication_1; indication_2].
Definition recv_env : nat -> RECV_ENV :=
  fun i => mkRECV_ENV (Nat.eqb i 0) true true.

(** A system that has no memory left, and one where every call succeeds
    at once: the call number [i] gives the pointer [8192 + 64 i] and the
    provider socket [12288 + 64 i], and the provider reports the local
    port 51820. *)
Definition kernel_no_memory : nat -> ANSWER :=
  fun _ => mkANSWER 0 0 0 0 SOCKADDR_INET_zero 0 (fun _ => mkWSK_TRANSPORT 0 0 0 0).

Definition local_address : SOCKADDR_INET :=
  mkSOCKADDR_INET AF_INET (Htons 51820) 0 IN6ADDR_ANY 0.

Definition kernel_ok : nat -> ANSWER :=
  fun i => mkANSWER (8192 + 64 * Z.of_nat i) 0 0 (12288 + 64 * Z.of_nat i)
             local_address 0 (fun _ => mkWSK_TRANSPORT 0 0 0 0).

(** A system like [kernel_ok], where the call number 16 is pending and
    then completes with [STATUS_ADDRESS_ALREADY_EXISTS]: in [SocketInit]
    on a device with both transports, that call is the bind of the first
    IPv6 socket. *)
Definition kernel_in_use : nat -> ANSWER :=
  fun i => if Nat.eqb i 16
           then mkANSWER 0 STATUS_PENDING STATUS_ADDRESS_ALREADY_EXISTS 0
                  SOCKADDR_INET_zero 0 (fun _ => mkWSK_TRANSPORT 0 0 0 0)
           else kernel_ok i.

(** A system like [kernel_ok], where the call number 3 gives no IRP: in
    [CreateAndBindSocket], that call asks for the IRP of the first socket
    option, after the socket 12416 has been created. *)
Definition kernel_no_option_irp : nat -> ANSWER :=
  fun i => if Nat.eqb i 3 then kernel_no_memory i else kernel_ok i.

(** A device that holds [socket] as its IPv4 socket, where both
    transports are known. *)
Definition device : KSTATE :=
  mkKSTATE 0 [] (Some socket) None 0 true true STATUS_SUCCESS.

(** A provider with two transports, UDP over IPv4 and over IPv6, on a
    system where every call succeeds at once, and the same system where
    the call number 7 fails: in [WskInit], that call registers for the
    changes of the IPv6 routes. *)
Definition transports : nat -> WSK_TRANSPORT :=
  fun i => mkWSK_TRANSPORT 256 SOCK_DGRAM IPPROTO_UDP
             (if Nat.eqb i 0 then AF_INET else AF_INET6).

Definition kernel_wsk : nat -> ANSWER :=
  fun i => mkANSWER (8192 + 64 * Z.of_nat i) 0 0 0 local_address 56 transports.

Definition kernel_no_route : nat -> ANSWER :=
  fun i => if Nat.eqb i 7
           then mkANSWER 0 STATUS_UNSUCCESSFUL 0 0 SOCKADDR_INET_zero 0 transports
           else kernel_wsk i.

End SampleMore.

(** * Properties *)

(** ** Byte order *)

Lemma testbit_byte_mask k i :
  0 <= k -> Z.testbit (Z.shiftl (Z.ones 8) k) i = (k <=? i) && (i <? k + 8).
Proof.
  intros Hk. destruct (Z.ltb_spec i 0) as [Hi|Hi].
  - rewrite Z.testbit_neg_r by lia. symmetry. apply andb_false_iff. left. apply Z.leb_gt. lia.
  - rewrite Z.shiftl_spec by lia.
    destruct (Z.leb_spec k i) as [H1|H1]; simpl.
    + destruct (Z.ltb_spec i (k + 8)) as [H2|H2].
      * apply Z.ones_spec_low. lia.
      * apply Z.ones_spec_high. lia.
    + apply Z.testbit_neg_r. lia.
Qed.

Lemma Htonl_testbit x i :
  0 <= i ->
  Z.testbit (Htonl x) i = (i <? 32) && Z.testbit x (Htonl_bit i).
Proof.
  intros Hi. unfold Htonl, Htonl_bit.
  change 0xFF with (Z.shiftl (Z.ones 8) 0).
  change 0xFF00 with (Z.shiftl (Z.ones 8) 8).
  rewrite !Z.lor_spec, !Z.land_spec.
  rewrite !Z.shiftr_spec by lia.
  rewrite !(testbit_byte_mask 0 i), !(testbit_byte_mask 8 i) by lia.
  destruct (Z.ltb_spec i 8); [|destruct (Z.ltb_spec i 16); [|destruct (Z.ltb_spec i 24); [|destruct (Z.ltb_spec i 32)]]].
  all: repeat match goal with
       | |- context [Z.testbit (Z.shiftl ?a ?n) ?m] =>
           first [ rewrite (Z.shiftl_spec_low a n m) by lia
                 | rewrite (Z.shiftl_spec a n m) by lia;
                   rewrite (Z.land_spec), testbit_byte_mask by lia ]
       end.
  all: repeat match goal with
       | |- context [?a <=? ?b] => destruct (Z.leb_spec a b); try lia
       | |- context [?a <? ?b] => destruct (Z.ltb_spec a b); try lia
       end; simpl; rewrite ?andb_true_r, ?andb_false_r, ?orb_false_r; simpl; try reflexivity.
  all: try (f_equal; lia).
Qed.

Lemma Htonl_bit_range i : 0 <= i < 32 -> 0 <= Htonl_bit i < 32.
Proof.
  intros Hi. unfold Htonl_bit.
  repeat match goal with |- context [?a <? ?b] => destruct (Z.ltb_spec a b) end; lia.
Qed.

Lemma Htonl_bit_involutive i : 0 <= i < 32 -> Htonl_bit (Htonl_bit i) = i.
Proof.
  intros Hi. unfold Htonl_bit.
  repeat match goal with |- context [?a <? ?b] => destruct (Z.ltb_spec a b) end; lia.
Qed.

Lemma is_u32_testbit x : is_u32 x -> forall i, 32 <= i -> Z.testbit x i = false.
Proof.
  intros [H0 H1] i Hi. destruct (Z.eq_dec x 0) as [->|Hx].
  - apply Z.testbit_0_l.
  - apply Z.bits_above_log2; [lia|].
    assert (Z.log2 x < 32) by (apply Z.log2_lt_pow2; lia). lia.
Qed.

Lemma Htonl_range x : is_u32 (Htonl x).
Proof.
  assert (H : Htonl x = Htonl x mod 2 ^ 32).
  { apply Z.bits_inj'. intros i Hi.
    destruct (Z.ltb_spec i 32) as [Hlt|Hge].
    - rewrite Z.mod_pow2_bits_low by lia. reflexivity.
    - rewrite Z.mod_pow2_bits_high by lia.
      rewrite Htonl_testbit by lia.
      destruct (Z.ltb_spec i 32); [lia|reflexivity]. }
  unfold is_u32. rewrite H. apply Z.mod_pos_bound. lia.
Qed.

Lemma Htonl_land x y : Htonl (Z.land x y) = Z.land (Htonl x) (Htonl y).
Proof.
  apply Z.bits_inj'. intros i Hi.
  rewrite Z.land_spec, !Htonl_testbit, Z.land_spec by lia.
  destruct (i <? 32); simpl; reflexivity.
Qed.

Lemma Htonl_involutive x : is_u32 x -> Htonl (Htonl x) = x.
Proof.
  intros Hx. apply Z.bits_inj'. intros i Hi.
  rewrite Htonl_testbit by lia.
  destruct (Z.ltb_spec i 32) as [Hlt|Hge]; simpl.
  - rewrite Htonl_testbit by (apply Htonl_bit_range; lia).
    rewrite Htonl_bit_involutive by lia.
    destruct (Z.ltb_spec (Htonl_bit i) 32) as [|Hbad]; [reflexivity|].
    pose proof (Htonl_bit_range i); lia.
  - symmetry. apply is_u32_testbit; assumption.
Qed.

Lemma Htonl_inj x y : is_u32 x -> is_u32 y -> Htonl x = Htonl y -> x = y.
Proof.
  intros Hx Hy H. rewrite <- (Htonl_involutive x Hx), <- (Htonl_involutive y Hy).
  now rewrite H.
Qed.

(** ** Prefix masks *)

Lemma cidr_mask_pos W L : 0 < L <= W -> cidr_mask W L = 2 ^ W - 2 ^ (W - L).
Proof.
  intros HL. unfold cidr_mask.
  destruct (Z.eqb_spec L 0) as [|_]; [lia|].
  rewrite Z.shiftl_1_l.
  replace (Z.lnot (2 ^ (W - L) - 1)) with (- 2 ^ (W - L)) by (unfold Z.lnot; lia).
  assert (0 < 2 ^ (W - L) < 2 ^ W).
  { split; [apply Z.pow_pos_nonneg; lia|apply Z.pow_lt_mono_r; lia]. }
  symmetry. apply (Z.mod_unique_pos _ _ (-1)); lia.
Qed.

Lemma shl32_ones_eq n : 0 <= n < 32 -> shl32_ones n = 2 ^ 32 - 2 ^ n.
Proof.
  intros Hn.
  assert (Hk : exists k : nat, (k < 32)%nat /\ n = Z.of_nat k)
    by (exists (Z.to_nat n); lia).
  destruct Hk as (k & Hk & ->).
  do 32 (destruct k as [|k]; [reflexivity|]). lia.
Qed.

Lemma land_high_mask W s x :
  0 <= s <= W -> 0 <= x < 2 ^ W ->
  Z.land x (2 ^ W - 2 ^ s) = 2 ^ s * (x / 2 ^ s).
Proof.
  intros Hs Hx.
  replace (2 ^ W - 2 ^ s) with (Z.shiftl (Z.ones (W - s)) s).
  2:{ rewrite Z.shiftl_mul_pow2, Z.ones_equiv by lia.
      replace W with ((W - s) + s) at 2 by lia.
      rewrite Z.pow_add_r by lia. lia. }
  rewrite Z.mul_comm, <- Z.shiftl_mul_pow2, <- Z.shiftr_div_pow2 by lia.
  apply Z.bits_inj'. intros i Hi.
  rewrite Z.land_spec.
  destruct (Z.ltb_spec i s) as [Hlt|Hge].
  - rewrite !Z.shiftl_spec_low by lia. apply andb_false_r.
  - rewrite !Z.shiftl_spec, Z.shiftr_spec by lia.
    replace (i - s + s) with i by lia.
    destruct (Z.ltb_spec i W) as [HltW|HgeW].
    + rewrite Z.ones_spec_low by lia. apply andb_true_r.
    + rewrite Z.ones_spec_high by lia. rewrite andb_false_r.
      symmetry. destruct (Z.eq_dec x 0) as [->|Hx0]; [apply Z.testbit_0_l|].
      apply Z.bits_above_log2; [lia|].
      assert (Z.log2 x < W) by (apply Z.log2_lt_pow2; lia). lia.
Qed.

Lemma land_u32_r x y : is_u32 y -> is_u32 (Z.land x y).
Proof.
  intros Hy.
  assert (H : Z.land x y = Z.land x y mod 2 ^ 32).
  { apply Z.bits_inj'. intros i Hi.
    destruct (Z.ltb_spec i 32) as [Hlt|Hge].
    - rewrite Z.mod_pow2_bits_low by lia. reflexivity.
    - rewrite Z.mod_pow2_bits_high by lia.
      rewrite Z.land_spec, (is_u32_testbit y Hy i Hge). apply andb_false_r. }
  unfold is_u32. rewrite H. apply Z.mod_pos_bound. lia.
Qed.

Lemma eqb_mul_cancel k x y : 0 < k -> (k * x =? k * y) = (x =? y).
Proof.
  intros Hk. destruct (Z.eqb_spec x y) as [->|Hne].
  - apply Z.eqb_refl.
  - apply Z.eqb_neq. nia.
Qed.

Lemma CidrMatch_ref_div W L A P :
  0 < L <= W -> 0 <= A < 2 ^ W -> 0 <= P < 2 ^ W ->
  CidrMatch_ref W A P L = (A / 2 ^ (W - L) =? P / 2 ^ (W - L)).
Proof.
  intros HL HA HP. unfold CidrMatch_ref.
  rewrite cidr_mask_pos by lia.
  rewrite !land_high_mask by lia.
  apply eqb_mul_cancel. apply Z.pow_pos_nonneg; lia.
Qed.

Lemma canonical_mod W L P :
  0 < L <= W -> 0 <= P < 2 ^ W -> canonical W P L -> P mod 2 ^ (W - L) = 0.
Proof.
  intros HL HP Hc. unfold canonical in Hc.
  rewrite cidr_mask_pos, land_high_mask in Hc by lia.
  assert (0 < 2 ^ (W - L)) by (apply Z.pow_pos_nonneg; lia).
  pose proof (Z.div_mod P (2 ^ (W - L))). lia.
Qed.

(** The masked comparison of one 32-bit word, as both matchers do it, keeps
    the [r] leading bits of the word in network order. *)
Lemma masked_word_eq a p r :
  is_u32 a -> is_u32 p -> 0 < r <= 32 ->
  Ntohl p mod 2 ^ (32 - r) = 0 ->
  (Z.land a (Htonl (shl32_ones (32 - r))) =? p) =
  (Ntohl a / 2 ^ (32 - r) =? Ntohl p / 2 ^ (32 - r)).
Proof.
  intros Ha Hp Hr Hcan.
  rewrite shl32_ones_eq by lia.
  set (t := 32 - r) in *.
  assert (Ht : 0 < 2 ^ t) by (apply Z.pow_pos_nonneg; lia).
  assert (Hm : is_u32 (2 ^ 32 - 2 ^ t)).
  { unfold is_u32. assert (2 ^ t <= 2 ^ 32) by (apply Z.pow_le_mono_r; lia). lia. }
  pose proof (Htonl_range a) as Hna. pose proof (Htonl_range p) as Hnp.
  assert (Hl : Ntohl (Z.land a (Htonl (2 ^ 32 - 2 ^ t))) = 2 ^ t * (Ntohl a / 2 ^ t)).
  { unfold Ntohl. rewrite Htonl_land, Htonl_involutive by assumption.
    apply land_high_mask; [lia|apply Hna]. }
  assert (Hq : Ntohl p = 2 ^ t * (Ntohl p / 2 ^ t)).
  { pose proof (Z.div_mod (Ntohl p) (2 ^ t)). lia. }
  destruct (Z.eqb_spec (Z.land a (Htonl (2 ^ 32 - 2 ^ t))) p) as [He|Hne].
  - symmetry. apply Z.eqb_eq. rewrite He in Hl. nia.
  - symmetry. apply Z.eqb_neq. intros Heq. apply Hne.
    apply Htonl_inj; [apply land_u32_r, Htonl_range|assumption|].
    fold (Ntohl (Z.land a (Htonl (2 ^ 32 - 2 ^ t)))). fold (Ntohl p).
    rewrite Hl, Hq at 1. rewrite Heq. reflexivity.
Qed.

Lemma CidrMaskMatchV4_ref A P :
  is_u32 A -> is_u32 (sin_addr (Prefix P)) ->
  0 <= PrefixLength P <= 32 ->
  canonical 32 (addr32 (sin_addr (Prefix P))) (PrefixLength P) ->
  CidrMaskMatchV4 A P =
  Some (CidrMatch_ref 32 (addr32 A) (addr32 (sin_addr (Prefix P))) (PrefixLength P)).
Proof.
  intros HA HP HL Hc. unfold CidrMaskMatchV4.
  destruct (Z.eqb_spec (PrefixLength P) 0) as [H0|Hn0].
  - rewrite H0. unfold CidrMatch_ref, cidr_mask. simpl.
    rewrite !Z.land_0_r. reflexivity.
  - destruct (Z.ltb_spec 32 (PrefixLength P)) as [|_]; [lia|].
    unfold addr32 in *.
    pose proof (Htonl_range A). pose proof (Htonl_range (sin_addr (Prefix P))).
    rewrite CidrMatch_ref_div by (unfold Ntohl, is_u32 in *; lia).
    f_equal. apply masked_word_eq; try assumption; [lia|].
    apply canonical_mod; [lia|unfold Ntohl, is_u32 in *; lia|assumption].
Qed.

(** *** The 128-bit comparison, word by word *)

Lemma div_split X T R hi a lo :
  0 < X -> 0 < T -> 0 <= lo < X ->
  (hi * (X * (T * R)) + a * X + lo) / (X * T) = hi * R + a / T.
Proof.
  intros HX HT Hlo.
  rewrite <- Z.div_div by lia.
  replace (hi * (X * (T * R)) + a * X + lo) with ((hi * (T * R) + a) * X + lo) by ring.
  rewrite Z.div_add_l by lia.
  rewrite (Z.div_small lo X) by lia.
  replace (hi * (T * R) + a + 0) with (hi * R * T + a) by ring.
  rewrite Z.div_add_l by lia. reflexivity.
Qed.

Lemma pair_eqb R hi hi' x y :
  0 <= x < R -> 0 <= y < R ->
  (hi * R + x =? hi' * R + y) = (hi =? hi') && (x =? y).
Proof.
  intros Hx Hy.
  destruct (Z.eqb_spec hi hi') as [->|Hne]; simpl.
  - destruct (Z.eqb_spec x y) as [->|Hxy]; [apply Z.eqb_refl|apply Z.eqb_neq; lia].
  - apply Z.eqb_neq. nia.
Qed.

Lemma Ntohl_eqb a p : is_u32 a -> is_u32 p -> (Ntohl a =? Ntohl p) = (a =? p).
Proof.
  intros Ha Hp. destruct (Z.eqb_spec a p) as [->|Hne]; [apply Z.eqb_refl|].
  apply Z.eqb_neq. intros H. apply Hne. unfold Ntohl in H.
  apply Htonl_inj; assumption.
Qed.

Lemma canonical_split X T R hi p lo :
  0 < X -> 0 < T -> 0 <= lo < X -> 0 <= p ->
  (hi * (X * (T * R)) + p * X + lo) mod (X * T) = 0 ->
  p mod T = 0.
Proof.
  intros HX HT Hlo Hp Hm.
  pose proof (Z.div_mod (hi * (X * (T * R)) + p * X + lo) (X * T)) as Hd.
  rewrite div_split, Hm in Hd by lia.
  pose proof (Z.div_mod p T) as Hp'.
  pose proof (Z.mod_pos_bound p T HT) as Hb. nia.
Qed.

Lemma pow2_32_split r : 0 <= r <= 32 -> 2 ^ 32 = 2 ^ (32 - r) * 2 ^ r.
Proof. intros Hr. rewrite <- Z.pow_add_r by lia. f_equal. lia. Qed.

Lemma div_pow2_lt a r : is_u32 a -> 0 <= r <= 32 -> 0 <= a / 2 ^ (32 - r) < 2 ^ r.
Proof.
  intros [Ha0 Ha1] Hr.
  assert (0 < 2 ^ (32 - r)) by (apply Z.pow_pos_nonneg; lia).
  split; [apply Z.div_pos; lia|].
  apply Z.div_lt_upper_bound; [lia|]. rewrite <- pow2_32_split by lia. lia.
Qed.

Lemma CidrMatch_ref_split W n r hiA hiP a p loA loP :
  0 <= n -> 0 <= r < 32 -> n + 32 <= W -> 0 < W - (n + 32 - r) ->
  is_u32 a -> is_u32 p ->
  0 <= loA < 2 ^ n -> 0 <= loP < 2 ^ n ->
  0 <= hiA * 2 ^ (n + 32) + Ntohl a * 2 ^ n + loA < 2 ^ W ->
  0 <= hiP * 2 ^ (n + 32) + Ntohl p * 2 ^ n + loP < 2 ^ W ->
  canonical W (hiP * 2 ^ (n + 32) + Ntohl p * 2 ^ n + loP) (W - (n + 32 - r)) ->
  CidrMatch_ref W (hiA * 2 ^ (n + 32) + Ntohl a * 2 ^ n + loA)
                  (hiP * 2 ^ (n + 32) + Ntohl p * 2 ^ n + loP) (W - (n + 32 - r)) =
  (hiA =? hiP) &&
  (if r =? 0 then true else Z.land a (Htonl (shl32_ones (32 - r))) =? p).
Proof.
  intros Hn Hr HW HL Ha Hp HloA HloP HA HP Hc.
  apply canonical_mod in Hc; [|lia|assumption].
  rewrite CidrMatch_ref_div by lia.
  replace (W - (W - (n + 32 - r))) with (n + (32 - r)) in Hc |- * by lia.
  assert (E1 : 2 ^ (n + (32 - r)) = 2 ^ n * 2 ^ (32 - r)) by (apply Z.pow_add_r; lia).
  assert (E2 : 2 ^ (n + 32) = 2 ^ n * (2 ^ (32 - r) * 2 ^ r)).
  { rewrite <- pow2_32_split by lia. apply Z.pow_add_r; lia. }
  rewrite E1, E2 in Hc |- *. clear E1 E2 HA HP.
  set (X := 2 ^ n) in *. set (T := 2 ^ (32 - r)) in *. set (R := 2 ^ r) in *.
  assert (HX : 0 < X) by (apply Z.pow_pos_nonneg; lia).
  assert (HT : 0 < T) by (apply Z.pow_pos_nonneg; lia).
  pose proof (Htonl_range a) as Hna. pose proof (Htonl_range p) as Hnp.
  rewrite !div_split by lia.
  rewrite pair_eqb by (apply div_pow2_lt; [assumption|lia]).
  f_equal.
  destruct (Z.eqb_spec r 0) as [->|Hr0].
  - apply Z.eqb_eq. subst T. change (2 ^ (32 - 0)) with (2 ^ 32).
    rewrite !Z.div_small; [reflexivity|apply Hnp|apply Hna].
  - symmetry. apply masked_word_eq; try assumption; [lia|].
    apply (canonical_split X T R hiP (Ntohl p) loP); try assumption. apply Hnp.
Qed.

Lemma addr128_range a : 0 <= addr128 a < 2 ^ 128.
Proof.
  unfold addr128.
  pose proof (Htonl_range (in6_w0 a)). pose proof (Htonl_range (in6_w1 a)).
  pose proof (Htonl_range (in6_w2 a)). pose proof (Htonl_range (in6_w3 a)).
  unfold Ntohl, is_u32 in *. lia.
Qed.

Lemma CidrMaskMatchV6_ref A P :
  is_in6 A -> is_in6 (sin6_addr (Prefix P)) ->
  0 <= PrefixLength P <= 128 ->
  canonical 128 (addr128 (sin6_addr (Prefix P))) (PrefixLength P) ->
  CidrMaskMatchV6 A P =
  Some (CidrMatch_ref 128 (addr128 A) (addr128 (sin6_addr (Prefix P))) (PrefixLength P)).
Proof.
  intros (Ha0 & Ha1 & Ha2 & Ha3) (Hp0 & Hp1 & Hp2 & Hp3) HL Hc.
  unfold CidrMaskMatchV6.
  destruct (Z.eqb_spec (PrefixLength P) 0) as [H0|Hn0].
  { rewrite H0. unfold CidrMatch_ref, cidr_mask. simpl.
    rewrite !Z.land_0_r. reflexivity. }
  set (L := PrefixLength P) in *.
  set (Q := sin6_addr (Prefix P)) in *.
  pose proof (Z.div_mod L 32 ltac:(lia)) as HLdiv.
  pose proof (Z.mod_pos_bound L 32 ltac:(lia)) as Hr.
  set (k := L / 32) in *. set (r := L mod 32) in *.
  pose proof (addr128_range A) as HAr. pose proof (addr128_range Q) as HQr.
  pose proof (Htonl_range (in6_w0 A)) as HA0. pose proof (Htonl_range (in6_w1 A)) as HA1.
  pose proof (Htonl_range (in6_w2 A)) as HA2. pose proof (Htonl_range (in6_w3 A)) as HA3.
  pose proof (Htonl_range (in6_w0 Q)) as HQ0. pose proof (Htonl_range (in6_w1 Q)) as HQ1.
  pose proof (Htonl_range (in6_w2 Q)) as HQ2. pose proof (Htonl_range (in6_w3 Q)) as HQ3.
  assert (Hk : k = 0 \/ k = 1 \/ k = 2 \/ k = 3 \/ (k = 4 /\ r = 0)) by lia.
  unfold addr128 in *.
  destruct Hk as [Hk|[Hk|[Hk|[Hk|[Hk Hr0]]]]]; rewrite Hk in *;
    unfold RtlEqualMemory_parts, in6_word; simpl Z.ltb; simpl Z.eqb; cbv iota; simpl orb.
  - (* the first word is partial *)
    replace L with (128 - (96 + 32 - r)) in Hc |- * by lia.
    replace (Ntohl (in6_w0 A) * 2 ^ 96 + Ntohl (in6_w1 A) * 2 ^ 64 + Ntohl (in6_w2 A) * 2 ^ 32 + Ntohl (in6_w3 A))
      with (0 * 2 ^ (96 + 32) + Ntohl (in6_w0 A) * 2 ^ 96 +
            (Ntohl (in6_w1 A) * 2 ^ 64 + Ntohl (in6_w2 A) * 2 ^ 32 + Ntohl (in6_w3 A))) in * by (simpl Z.add; lia).
    replace (Ntohl (in6_w0 Q) * 2 ^ 96 + Ntohl (in6_w1 Q) * 2 ^ 64 + Ntohl (in6_w2 Q) * 2 ^ 32 + Ntohl (in6_w3 Q))
      with (0 * 2 ^ (96 + 32) + Ntohl (in6_w0 Q) * 2 ^ 96 +
            (Ntohl (in6_w1 Q) * 2 ^ 64 + Ntohl (in6_w2 Q) * 2 ^ 32 + Ntohl (in6_w3 Q))) in * by (simpl Z.add; lia).
    rewrite CidrMatch_ref_split; try assumption; try (unfold Ntohl, is_u32 in *; lia).
    simpl. destruct (r =? 0); reflexivity.
  - replace L with (128 - (64 + 32 - r)) in Hc |- * by lia.
    replace (Ntohl (in6_w0 A) * 2 ^ 96 + Ntohl (in6_w1 A) * 2 ^ 64 + Ntohl (in6_w2 A) * 2 ^ 32 + Ntohl (in6_w3 A))
      with (Ntohl (in6_w0 A) * 2 ^ (64 + 32) + Ntohl (in6_w1 A) * 2 ^ 64 +
            (Ntohl (in6_w2 A) * 2 ^ 32 + Ntohl (in6_w3 A))) in * by (simpl Z.add; lia).
    replace (Ntohl (in6_w0 Q) * 2 ^ 96 + Ntohl (in6_w1 Q) * 2 ^ 64 + Ntohl (in6_w2 Q) * 2 ^ 32 + Ntohl (in6_w3 Q))
      with (Ntohl (in6_w0 Q) * 2 ^ (64 + 32) + Ntohl (in6_w1 Q) * 2 ^ 64 +
            (Ntohl (in6_w2 Q) * 2 ^ 32 + Ntohl (in6_w3 Q))) in * by (simpl Z.add; lia).
    rewrite CidrMatch_ref_split; try assumption; try (unfold Ntohl, is_u32 in *; lia).
    rewrite Ntohl_eqb by assumption. rewrite (Z.eqb_sym (in6_w0 Q)).
    rewrite !andb_true_r.
    destruct (in6_w0 A =? in6_w0 Q); simpl; [|reflexivity].
    destruct (r =? 0); reflexivity.
  - replace L with (128 - (32 + 32 - r)) in Hc |- * by lia.
    replace (Ntohl (in6_w0 A) * 2 ^ 96 + Ntohl (in6_w1 A) * 2 ^ 64 + Ntohl (in6_w2 A) * 2 ^ 32 + Ntohl (in6_w3 A))
      with ((Ntohl (in6_w0 A) * 2 ^ 32 + Ntohl (in6_w1 A)) * 2 ^ (32 + 32) +
            Ntohl (in6_w2 A) * 2 ^ 32 + Ntohl (in6_w3 A)) in * by (simpl Z.add; lia).
    replace (Ntohl (in6_w0 Q) * 2 ^ 96 + Ntohl (in6_w1 Q) * 2 ^ 64 + Ntohl (in6_w2 Q) * 2 ^ 32 + Ntohl (in6_w3 Q))
      with ((Ntohl (in6_w0 Q) * 2 ^ 32 + Ntohl (in6_w1 Q)) * 2 ^ (32 + 32) +
            Ntohl (in6_w2 Q) * 2 ^ 32 + Ntohl (in6_w3 Q)) in * by (simpl Z.add; lia).
    rewrite CidrMatch_ref_split; try assumption; try (unfold Ntohl, is_u32 in *; lia).
    rewrite pair_eqb by (unfold Ntohl, is_u32 in *; lia).
    rewrite !Ntohl_eqb by assumption.
    rewrite (Z.eqb_sym (in6_w0 Q)), (Z.eqb_sym (in6_w1 Q)).
    rewrite !andb_true_r.
    destruct (in6_w0 A =? in6_w0 Q), (in6_w1 A =? in6_w1 Q); simpl; try reflexivity.
    destruct (r =? 0); reflexivity.
  - replace L with (128 - (0 + 32 - r)) in Hc |- * by lia.
    replace (Ntohl (in6_w0 A) * 2 ^ 96 + Ntohl (in6_w1 A) * 2 ^ 64 + Ntohl (in6_w2 A) * 2 ^ 32 + Ntohl (in6_w3 A))
      with (((Ntohl (in6_w0 A) * 2 ^ 32 + Ntohl (in6_w1 A)) * 2 ^ 32 + Ntohl (in6_w2 A)) * 2 ^ (0 + 32) +
            Ntohl (in6_w3 A) * 2 ^ 0 + 0) in * by (simpl Z.add; lia).
    replace (Ntohl (in6_w0 Q) * 2 ^ 96 + Ntohl (in6_w1 Q) * 2 ^ 64 + Ntohl (in6_w2 Q) * 2 ^ 32 + Ntohl (in6_w3 Q))
      with (((Ntohl (in6_w0 Q) * 2 ^ 32 + Ntohl (in6_w1 Q)) * 2 ^ 32 + Ntohl (in6_w2 Q)) * 2 ^ (0 + 32) +
            Ntohl (in6_w3 Q) * 2 ^ 0 + 0) in * by (simpl Z.add; lia).
    rewrite CidrMatch_ref_split; try assumption; try (unfold Ntohl, is_u32 in *; lia).
    rewrite !pair_eqb by (unfold Ntohl, is_u32 in *; lia).
    rewrite !Ntohl_eqb by assumption.
    rewrite (Z.eqb_sym (in6_w0 Q)), (Z.eqb_sym (in6_w1 Q)), (Z.eqb_sym (in6_w2 Q)).
    rewrite !andb_true_r.
    destruct (in6_w0 A =? in6_w0 Q), (in6_w1 A =? in6_w1 Q), (in6_w2 A =? in6_w2 Q);
      simpl; try reflexivity.
    destruct (r =? 0); reflexivity.
  - (* all four words are compared *)
    replace L with 128 in Hc |- * by lia.
    rewrite CidrMatch_ref_div by lia.
    change (2 ^ (128 - 128)) with 1. rewrite !Z.div_1_r.
    replace (Ntohl (in6_w0 A) * 2 ^ 96 + Ntohl (in6_w1 A) * 2 ^ 64 + Ntohl (in6_w2 A) * 2 ^ 32 + Ntohl (in6_w3 A))
      with (((Ntohl (in6_w0 A) * 2 ^ 32 + Ntohl (in6_w1 A)) * 2 ^ 32 + Ntohl (in6_w2 A)) * 2 ^ 32 +
            Ntohl (in6_w3 A)) by lia.
    replace (Ntohl (in6_w0 Q) * 2 ^ 96 + Ntohl (in6_w1 Q) * 2 ^ 64 + Ntohl (in6_w2 Q) * 2 ^ 32 + Ntohl (in6_w3 Q))
      with (((Ntohl (in6_w0 Q) * 2 ^ 32 + Ntohl (in6_w1 Q)) * 2 ^ 32 + Ntohl (in6_w2 Q)) * 2 ^ 32 +
            Ntohl (in6_w3 Q)) by lia.
    rewrite !pair_eqb by (unfold Ntohl, is_u32 in *; lia).
    rewrite !Ntohl_eqb by assumption.
    rewrite (Z.eqb_sym (in6_w0 Q)), (Z.eqb_sym (in6_w1 Q)), (Z.eqb_sym (in6_w2 Q)),
      (Z.eqb_sym (in6_w3 Q)).
    destruct (in6_w0 A =? in6_w0 Q), (in6_w1 A =? in6_w1 Q), (in6_w2 A =? in6_w2 Q),
      (in6_w3 A =? in6_w3 Q); reflexivity.
Qed.

(** ** C2: the CIDR matchers against the reference definition *)

(** C2 (amended).  For an IPv4 address [A4], an IPv6 address [A6] and a
    prefix [P] of length [L] whose address has no bit set beyond its
    length: [CidrMaskMatchV4] (for [L] up to 32) and [CidrMaskMatchV6] (for
    [L] up to 128) return [(A & mask(L)) == (P.addr & mask(L))], with
    [mask(0) = 0] and [mask(L>0) = ~((1 << (W-L)) - 1)] over the [W] bits of
    the family; and a zero-length prefix matches every address. *)
Theorem CidrMaskMatch_reference (A4 : Z) (A6 : IN6_ADDR) (P : IP_ADDRESS_PREFIX) :
  is_u32 A4 -> is_in6 A6 ->
  is_u32 (sin_addr (Prefix P)) -> is_in6 (sin6_addr (Prefix P)) ->
  (0 <= PrefixLength P <= 32 ->
   canonical 32 (addr32 (sin_addr (Prefix P))) (PrefixLength P) ->
   CidrMaskMatchV4 A4 P =
   Some (CidrMatch_ref 32 (addr32 A4) (addr32 (sin_addr (Prefix P))) (PrefixLength P)))
  /\
  (0 <= PrefixLength P <= 128 ->
   canonical 128 (addr128 (sin6_addr (Prefix P))) (PrefixLength P) ->
   CidrMaskMatchV6 A6 P =
   Some (CidrMatch_ref 128 (addr128 A6) (addr128 (sin6_addr (Prefix P))) (PrefixLength P)))
  /\
  (PrefixLength P = 0 ->
   CidrMaskMatchV4 A4 P = Some true /\ CidrMaskMatchV6 A6 P = Some true).
Proof.
  intros HA4 HA6 HP4 HP6. split; [|split].
  - intros HL Hc. apply CidrMaskMatchV4_ref; assumption.
  - intros HL Hc. apply CidrMaskMatchV6_ref; assumption.
  - intros HL. unfold CidrMaskMatchV4, CidrMaskMatchV6. rewrite HL. split; reflexivity.
Qed.

(** 198.51.100.1 is in 198.51.100.0/24 and 2001:db8::1 is in 2001:d00::/24,
    as the reference says. *)
Lemma CidrMaskMatch_reference_witness :
  CidrMaskMatchV4 Sample.ip_198_51_100_1 Sample.prefix24 =
    Some (CidrMatch_ref 32 (addr32 Sample.ip_198_51_100_1)
            (addr32 Sample.ip_198_51_100_0) 24) /\
  CidrMaskMatchV6 Sample.ip6_2001_db8__1 Sample.prefix24 =
    Some (CidrMatch_ref 128 (addr128 Sample.ip6_2001_db8__1)
            (addr128 Sample.ip6_2001_d00) 24).
Proof.
  assert (H4 : is_u32 Sample.ip_198_51_100_1) by (vm_compute; split; [discriminate|reflexivity]).
  assert (H6 : is_in6 Sample.ip6_2001_db8__1)
    by (vm_compute; repeat split; (discriminate || reflexivity)).
  assert (P4 : is_u32 (sin_addr (Prefix Sample.prefix24)))
    by (vm_compute; split; [discriminate|reflexivity]).
  assert (P6 : is_in6 (sin6_addr (Prefix Sample.prefix24)))
    by (vm_compute; repeat split; (discriminate || reflexivity)).
  destruct (CidrMaskMatch_reference Sample.ip_198_51_100_1 Sample.ip6_2001_db8__1
              Sample.prefix24 H4 H6 P4 P6) as (V4 & V6 & _).
  split.
  - apply V4; [simpl; lia|vm_compute; reflexivity].
  - apply V6; [simpl; lia|vm_compute; reflexivity].
Defined.

(** C2 as stated fails for a prefix with bits set beyond its length: the
    code compares the masked address with the unmasked prefix address.
    With [A] = 198.51.100.1 and [P] = 198.51.100.1/24 the reference says
    they match and [CidrMaskMatchV4] says they do not. *)
Lemma CidrMaskMatch_host_bits_counterexample :
  CidrMaskMatchV4 Sample.ip_198_51_100_1 (prefix4 Sample.ip_198_51_100_1 24) = Some false /\
  CidrMatch_ref 32 (addr32 Sample.ip_198_51_100_1) (addr32 Sample.ip_198_51_100_1) 24 = true.
Proof. split; vm_compute; reflexivity. Qed.

(** ** C3: the fast path of the resolver *)

Lemma fast_path_V4_lock s l evs :
  fast_path_V4 (emit evs (set_EndpointLock l s)) = fast_path_V4 s.
Proof. reflexivity. Qed.

Lemma fast_path_V6_lock s l evs :
  fast_path_V6 (emit evs (set_EndpointLock l s)) = fast_path_V6 s.
Proof. reflexivity. Qed.

Lemma source_is_valid_fast_path s :
  source_is_valid s -> fast_path_V4 s || fast_path_V6 s = true.
Proof.
  unfold source_is_valid, fast_path_V4, fast_path_V6.
  intros [(Hf & Hg & Hi)|(Hf & Hg & Hi)]; rewrite Hf, Hg, !Z.eqb_refl; simpl.
  - apply Z.eqb_neq in Hi. rewrite Hi. reflexivity.
  - apply Z.eqb_neq in Hi. rewrite Hi. simpl. rewrite ?orb_true_r. reflexivity.
Qed.

(** C3.  With the endpoint lock free, a peer whose endpoint has family IPv4
    or IPv6, a cached [RoutingGeneration] equal to the global counter of
    that family and a non-zero source interface index is resolved on the
    fast path, whatever other threads would do later: the result is
    [STATUS_SUCCESS], the only thing logged is the shared acquisition of
    the endpoint lock (no call to the routing API), the endpoint is the
    one before the call, and the lock is held shared on return. *)
Theorem resolver_fast_path (os : OS) (fuel : nat) (env : list Interference) (s : State) :
  EndpointLock (Peer s) = Unlocked ->
  source_is_valid s ->
  exists s',
    SocketResolvePeerEndpointSrc os (S fuel) env s = Some (STATUS_SUCCESS, s', env) /\
    Log s' = Log s ++ [EvAcquireSpinLockShared] /\
    Endpoint (Peer s') = Endpoint (Peer s) /\
    EndpointLock (Peer s') = LockedShared /\
    TxBytes (Peer s') = TxBytes (Peer s) /\
    Device (Peer s') = Device (Peer s) /\
    RoutingGenerationV4 s' = RoutingGenerationV4 s /\
    RoutingGenerationV6 s' = RoutingGenerationV6 s /\
    InFlight s' = InFlight s.
Proof.
  intros Hlock Hvalid.
  exists (emit [EvAcquireSpinLockShared] (set_EndpointLock LockedShared s)).
  split; [|repeat split].
  apply source_is_valid_fast_path in Hvalid.
  cbn [SocketResolvePeerEndpointSrc]. unfold resolve_pass, ExAcquireSpinLockShared.
  rewrite Hlock. cbn [mbind option_bind].
  rewrite fast_path_V4_lock, fast_path_V6_lock.
  destruct (fast_path_V4 s); [reflexivity|].
  simpl in Hvalid. rewrite Hvalid. reflexivity.
Qed.

(** The first scenario of the specification: generation 5, a source
    resolved at generation 5 on interface 3. *)
Lemma resolver_fast_path_witness :
  exists s',
    SocketResolvePeerEndpointSrc Sample.os 1 [] (Sample.state_of Sample.endpoint_fresh)
      = Some (STATUS_SUCCESS, s', []) /\
    Log s' = [EvAcquireSpinLockShared] /\
    Endpoint (Peer s') = Sample.endpoint_fresh /\
    EndpointLock (Peer s') = LockedShared.
Proof.
  destruct (resolver_fast_path Sample.os 0 [] (Sample.state_of Sample.endpoint_fresh))
    as (s' & H1 & H2 & H3 & H4 & _).
  - reflexivity.
  - left. repeat split. vm_compute. discriminate.
  - exists s'. repeat split; assumption.
Defined.

(** ** C6: the empty chain *)

(** C6.  For a null chain [SocketSendNblsToPeer] returns
    [STATUS_ALREADY_COMPLETE] and leaves everything as it was: nothing is
    logged (no context is allocated, the endpoint is not resolved, nothing
    is freed), the statistics of the peer and of the device and the
    caller's [AllKeepalive] are untouched. *)
Theorem send_empty_chain (os : OS) (MessageDataLen0 : Z) (fuel : nat)
    (env : list Interference) (s : State) (AllKeepalive0 : bool) :
  SocketSendNblsToPeer os MessageDataLen0 fuel env s [] AllKeepalive0 =
  Some (STATUS_ALREADY_COMPLETE, AllKeepalive0, s, env).
Proof. reflexivity. Qed.

(** ** C7 and C10: [SocketSetPeerEndpoint] *)

Lemma Ipv6AddrEq_refl a : Ipv6AddrEq a a = true.
Proof.
  unfold Ipv6AddrEq. rewrite !Z.lxor_nilpotent. reflexivity.
Qed.

Lemma endpoint_equal_EndpointEq A B : endpoint_equal A B -> EndpointEq A B = true.
Proof.
  unfold endpoint_equal, EndpointEq.
  intros [(H1 & H2 & H3 & H4 & H5 & H6)|[(H1 & H2 & H3 & H4 & H5 & H6 & H7)|(H1 & H2)]].
  - rewrite H1, H2, H3, H4, H5, H6, !Z.eqb_refl. reflexivity.
  - rewrite H1, H2, H3, H4, H5, H6, H7, !Z.eqb_refl, !Ipv6AddrEq_refl.
    simpl. rewrite ?orb_true_r. reflexivity.
  - rewrite H1, H2. simpl. rewrite ?orb_true_r. reflexivity.
Qed.

(** C7.  When the new endpoint equals the peer's current one (same family
    and, for that family, equal port, remote address, scope id, source
    address and source interface index; or both unset),
    [SocketSetPeerEndpoint] returns the state it was given: no lock
    operation is logged and no field of the peer's endpoint changes,
    [UpdateGeneration] included. *)
Theorem set_endpoint_equal_is_noop (s : State) (E : ENDPOINT) :
  endpoint_equal E (Endpoint (Peer s)) ->
  SocketSetPeerEndpoint s E = Some s.
Proof.
  intros Heq. unfold SocketSetPeerEndpoint.
  rewrite (endpoint_equal_EndpointEq _ _ Heq). reflexivity.
Qed.

Lemma set_endpoint_equal_is_noop_witness :
  SocketSetPeerEndpoint (Sample.state_of Sample.endpoint_fresh) Sample.endpoint_stale =
  Some (Sample.state_of Sample.endpoint_fresh).
Proof.
  apply set_endpoint_equal_is_noop. left. repeat split.
Defined.

(** C10.  When the new endpoint has a family that is neither IPv4 nor IPv6
    and [EndpointEq] does not hold, [SocketSetPeerEndpoint] takes and
    releases the exclusive lock and writes nothing: the peer, its endpoint
    with [RoutingGeneration] and [UpdateGeneration], and the counters are
    as before, and the log grows by the two lock operations. *)
Theorem set_endpoint_invalid_family_writes_nothing (s : State) (E : ENDPOINT) :
  EndpointLock (Peer s) = Unlocked ->
  si_family (Addr E) <> AF_INET ->
  si_family (Addr E) <> AF_INET6 ->
  EndpointEq E (Endpoint (Peer s)) = false ->
  exists s',
    SocketSetPeerEndpoint s E = Some s' /\
    Peer s' = Peer s /\
    Log s' = Log s ++ [EvAcquireSpinLockExclusive; EvReleaseSpinLockExclusive] /\
    RoutingGenerationV4 s' = RoutingGenerationV4 s /\
    RoutingGenerationV6 s' = RoutingGenerationV6 s /\
    InFlight s' = InFlight s.
Proof.
  intros Hlock H4 H6 Hne.
  unfold SocketSetPeerEndpoint. rewrite Hne.
  unfold ExAcquireSpinLockExclusive. rewrite Hlock. cbn [mbind option_bind].
  apply Z.eqb_neq in H4, H6. rewrite H4, H6.
  eexists. split; [reflexivity|].
  destruct s as [[e l tx d] g4 g6 lg fl]. simpl in *. subst l.
  rewrite <- app_assoc. repeat split.
Qed.

(** A peer set to 198.51.100.1 is offered an endpoint of family 7. *)
Lemma set_endpoint_invalid_family_witness :
  exists s',
    SocketSetPeerEndpoint (Sample.state_of Sample.endpoint_fresh)
      (mkENDPOINT (mkSOCKADDR_INET 7 0 0 IN6ADDR_ANY 0) (mkWSACMSGHDR 0 0 0)
                  PKTINFO_zero 9 9) = Some s' /\
    Peer s' = Peer (Sample.state_of Sample.endpoint_fresh) /\
    Log s' = [EvAcquireSpinLockExclusive; EvReleaseSpinLockExclusive].
Proof.
  destruct (set_endpoint_invalid_family_writes_nothing
              (Sample.state_of Sample.endpoint_fresh)
              (mkENDPOINT (mkSOCKADDR_INET 7 0 0 IN6ADDR_ANY 0) (mkWSACMSGHDR 0 0 0)
                          PKTINFO_zero 9 9))
    as (s' & H1 & H2 & H3 & _).
  - reflexivity.
  - vm_compute. discriminate.
  - vm_compute. discriminate.
  - vm_compute. reflexivity.
  - exists s'. repeat split; assumption.
Defined.

(** ** C9: the generation counters and the cleared source *)

Lemma odd_s32 x : Z.odd (s32 x) = Z.odd x.
Proof.
  unfold s32.
  pose proof (Z.div_mod (x + 2 ^ 31) (2 ^ 32) ltac:(lia)) as H.
  replace ((x + 2 ^ 31) mod 2 ^ 32 - 2 ^ 31)
    with (x + 2 * (- 2 ^ 31 * ((x + 2 ^ 31) / 2 ^ 32))) by lia.
  rewrite Z.odd_add_mul_2. reflexivity.
Qed.

Lemma odd_u32 x : Z.odd (u32 x) = Z.odd x.
Proof.
  unfold u32.
  pose proof (Z.div_mod x (2 ^ 32) ltac:(lia)) as H.
  replace (x mod 2 ^ 32) with (x + 2 * (- 2 ^ 31 * (x / 2 ^ 32))) by lia.
  rewrite Z.odd_add_mul_2. reflexivity.
Qed.

Lemma reachable_generations_odd G4 G6 :
  reachable_generations G4 G6 -> Z.odd G4 = true /\ Z.odd G6 = true.
Proof.
  induction 1 as [|G4 G6 _ [IH4 IH6]|G4 G6 _ [IH4 IH6]].
  - split; reflexivity.
  - split; [|assumption]. unfold RouteNotification.
    rewrite odd_s32. replace (G4 + 2) with (G4 + 2 * 1) by lia.
    rewrite Z.odd_add_mul_2. assumption.
  - split; [assumption|]. unfold RouteNotification.
    rewrite odd_s32. replace (G6 + 2) with (G6 + 2 * 1) by lia.
    rewrite Z.odd_add_mul_2. assumption.
Qed.

Lemma odd_nonzero x : Z.odd x = true -> x <> 0.
Proof. intros H ->. discriminate. Qed.

(** C9 (amended).  In every reachable state of the two generation counters (both
    start at 1, the notifier adds 2 to one of them) each counter is odd,
    so neither it nor its [UINT32] value read by the resolver is 0.
    [SocketClearPeerEndpointSrc] sets the cached [RoutingGeneration] to 0,
    zeroes the source pkt-info and increments [UpdateGeneration]; and as
    long as the cached generation is 0, whatever the counters have become,
    neither fast-path test of the resolver holds. *)
Theorem cleared_source_is_never_valid (G4 G6 : Z) (s : State) :
  reachable_generations G4 G6 ->
  EndpointLock (Peer s) = Unlocked ->
  (Z.odd G4 = true /\ Z.odd G6 = true /\
   G4 <> 0 /\ G6 <> 0 /\ u32 G4 <> 0 /\ u32 G6 <> 0) /\
  (exists s',
     SocketClearPeerEndpointSrc s = Some s' /\
     RoutingGeneration (Endpoint (Peer s')) = 0 /\
     Src (Endpoint (Peer s')) = PKTINFO_zero /\
     UpdateGeneration (Endpoint (Peer s')) = u32 (UpdateGeneration (Endpoint (Peer s)) + 1) /\
     Addr (Endpoint (Peer s')) = Addr (Endpoint (Peer s))) /\
  (forall s'' : State,
     RoutingGenerationV4 s'' = G4 -> RoutingGenerationV6 s'' = G6 ->
     RoutingGeneration (Endpoint (Peer s'')) = 0 ->
     fast_path_V4 s'' = false /\ fast_path_V6 s'' = false).
Proof.
  intros Hreach Hlock.
  destruct (reachable_generations_odd _ _ Hreach) as [H4 H6].
  assert (Hu4 : u32 G4 <> 0) by (apply odd_nonzero; rewrite odd_u32; assumption).
  assert (Hu6 : u32 G6 <> 0) by (apply odd_nonzero; rewrite odd_u32; assumption).
  split; [|split].
  - repeat split; try assumption; apply odd_nonzero; assumption.
  - unfold SocketClearPeerEndpointSrc, ExAcquireSpinLockExclusive.
    rewrite Hlock. cbn [mbind option_bind].
    eexists. split; [reflexivity|]. repeat split.
  - intros s'' E4 E6 Hz. unfold fast_path_V4, fast_path_V6.
    rewrite Hz, E4, E6.
    assert (F4 : (0 =? u32 G4) = false) by (apply Z.eqb_neq; lia).
    assert (F6 : (0 =? u32 G6) = false) by (apply Z.eqb_neq; lia).
    rewrite F4, F6, !andb_false_r. split; reflexivity.
Qed.

(** After two route changes for IPv4, the source of a resolved peer is
    cleared. *)
Lemma cleared_source_witness :
  exists s',
    SocketClearPeerEndpointSrc (Sample.state_of Sample.endpoint_fresh) = Some s' /\
    RoutingGeneration (Endpoint (Peer s')) = 0 /\
    Src (Endpoint (Peer s')) = PKTINFO_zero /\
    fast_path_V4 s' = false /\ fast_path_V6 s' = false.
Proof.
  assert (R : reachable_generations 5 1).
  { apply (reach_notify_V4 3 1), (reach_notify_V4 1 1), reach_init. }
  destruct (cleared_source_is_never_valid 5 1 (Sample.state_of Sample.endpoint_fresh) R)
    as (_ & (s' & H1 & H2 & H3 & _) & H4).
  - reflexivity.
  - exists s'. split; [assumption|]. split; [assumption|]. split; [assumption|].
    apply H4; [| |assumption]; injection H1 as <-; reflexivity.
Defined.

(** C9 as stated fails in its last part: a new resolution is not the only
    thing that ends the time during which the fast path cannot hold.  The
    source of a peer is cleared; then a datagram from the peer arrives and
    [SocketSetPeerEndpointFromNbl] copies the generation that
    [SocketEndpointFromNbl] has read, which is the current counter, and the
    interface of the pkt-info: the fast-path test holds again, and nothing
    but the exclusive lock has been taken and released, the resolver has
    not run and the routing API has not been called. *)
Lemma cleared_source_revalidated_counterexample :
  reachable_generations 5 1 /\
  exists s1 s2,
    SocketClearPeerEndpointSrc (Sample.state_of Sample.endpoint_fresh) = Some s1 /\
    RoutingGenerationV4 s1 = 5 /\ RoutingGenerationV6 s1 = 1 /\
    fast_path_V4 s1 = false /\ fast_path_V6 s1 = false /\
    SocketSetPeerEndpointFromNbl 2 s1 Sample.datagram = Some s2 /\
    fast_path_V4 s2 = true /\
    Log s2 = Log s1 ++ [EvAcquireSpinLockExclusive; EvReleaseSpinLockExclusive].
Proof.
  split.
  - apply (reach_notify_V4 3 1), (reach_notify_V4 1 1), reach_init.
  - eexists _, _. split; [vm_compute; reflexivity|].
    repeat (split; [vm_compute; reflexivity|]). vm_compute. reflexivity.
Qed.

(** ** C8: endpoints from datagrams *)

Lemma usize_small x : 0 <= x < 2 ^ 64 -> usize x = x.
Proof. intros H. unfold usize. apply Z.mod_small. assumption. Qed.

(** On well-formed control information the search terminates within the
    number of messages plus one steps; it finds the data of the first
    message of the level and type asked for, if there is one. *)
Lemma FindInCmsgHdr_loop_spec n buf Level Type_ : forall Len Hdr msgs,
  0 <= Len < 2 ^ 64 ->
  control_msgs n buf Len Hdr = Some msgs ->
  (existsb (cmsg_matches Level Type_) msgs = false /\
   FindInCmsgHdr_loop (S n) buf Len Hdr Level Type_ = Some None)
  \/
  (exists p c,
     FindInCmsgHdr_loop (S n) buf Len Hdr Level Type_ = Some (Some p) /\
     buf !! (p - WSA_CMSGDATA_ALIGN sizeof_WSACMSGHDR) = Some c /\
     cmsg_matches Level Type_ c = true /\ cmsg_payload_ok c = true /\
     existsb (cmsg_matches Level Type_) msgs = true).
Proof.
  induction n as [|n IH]; intros Len Hdr msgs HLen Hm.
  - simpl in Hm. destruct (Z.eqb_spec Len 0) as [->|Hne]; [|discriminate].
    injection Hm as <-. left. split; reflexivity.
  - cbn [control_msgs] in Hm.
    destruct (Z.eqb_spec Len 0) as [->|Hne].
    { injection Hm as <-. left. split; reflexivity. }
    destruct (buf !! Hdr) as [c|] eqn:Hc; [|discriminate].
    cbn [mbind option_bind] in Hm.
    set (a := WSA_CMSGHDR_ALIGN (cmsg_len (cmsg_hdr c))) in *.
    destruct ((0 <? a) && (a <=? Len) && cmsg_payload_ok c) eqn:Hok; [|discriminate].
    apply andb_true_iff in Hok as [Hok Hpay].
    apply andb_true_iff in Hok as [Ha0 HaL].
    apply Z.ltb_lt in Ha0. apply Z.leb_le in HaL.
    destruct (control_msgs n buf (Len - a) (Hdr + a)) as [cs|] eqn:Hcs; [|discriminate].
    cbn [mbind option_bind] in Hm. injection Hm as <-.
    cbn [FindInCmsgHdr_loop].
    destruct (Z.ltb_spec 0 Len) as [_|]; [|lia].
    rewrite Hc. cbn [mbind option_bind existsb].
    fold (cmsg_matches Level Type_ c).
    destruct (cmsg_matches Level Type_ c) eqn:Hmatch.
    + right. exists (WSA_CMSG_DATA Hdr), c. repeat split; try assumption.
      unfold WSA_CMSG_DATA. replace (Hdr + _ - _) with Hdr by lia. assumption.
    + fold a. rewrite (usize_small (Len - a)) by lia.
      destruct (IH (Len - a) (Hdr + a) cs ltac:(lia) Hcs) as [[He Hf]|(p & c' & Hf & Hb & Hm' & Hp' & He)].
      * left. split; [assumption|]. exact Hf.
      * right. exists p, c'. repeat split; assumption.
Qed.

Lemma FindInCmsgHdr_spec n Data Level Type_ msgs :
  datagram_msgs n Data = Some msgs ->
  (existsb (cmsg_matches Level Type_) msgs = false /\
   FindInCmsgHdr (S n) Data Level Type_ = Some None)
  \/
  (exists p c buf,
     ControlInfo Data = Some buf /\
     FindInCmsgHdr (S n) Data Level Type_ = Some (Some p) /\
     buf !! (p - WSA_CMSGDATA_ALIGN sizeof_WSACMSGHDR) = Some c /\
     cmsg_matches Level Type_ c = true /\ cmsg_payload_ok c = true /\
     existsb (cmsg_matches Level Type_) msgs = true).
Proof.
  unfold datagram_msgs, FindInCmsgHdr. intros Hm.
  destruct (ControlInfo Data) as [buf|].
  - destruct ((0 <=? ControlInfoLength Data) && (ControlInfoLength Data <? 2 ^ 32)) eqn:Hr;
      [|discriminate].
    apply andb_true_iff in Hr as [H0 H1]. apply Z.leb_le in H0. apply Z.ltb_lt in H1.
    destruct (FindInCmsgHdr_loop_spec n buf Level Type_ (ControlInfoLength Data) 0 msgs
                ltac:(lia) Hm)
      as [?|(p & c & Hf & Hb & Hmt & Hp & He)]; [left; assumption|].
    right. exists p, c, buf. repeat split; assumption.
  - injection Hm as <-. left. split; reflexivity.
Qed.

Lemma read_pktinfo4 Data buf p c :
  ControlInfo Data = Some buf ->
  buf !! (p - WSA_CMSGDATA_ALIGN sizeof_WSACMSGHDR) = Some c ->
  cmsg_matches IPPROTO_IP IP_PKTINFO c = true -> cmsg_payload_ok c = true ->
  read_cmsg_data Data p 2 = Some (take 2 (cmsg_data c)).
Proof.
  intros Hb Hc Hm Hp. unfold read_cmsg_data. rewrite Hb. cbn [mbind option_bind].
  rewrite Hc. cbn [mbind option_bind].
  unfold cmsg_payload_ok in Hp. rewrite Hm in Hp.
  apply andb_true_iff in Hp as [Hp _]. cbn [negb orb] in Hp. apply Z.leb_le in Hp.
  destruct (decide (2 ≤ length (cmsg_data c))%nat); [reflexivity|lia].
Qed.

Lemma read_pktinfo6 Data buf p c :
  ControlInfo Data = Some buf ->
  buf !! (p - WSA_CMSGDATA_ALIGN sizeof_WSACMSGHDR) = Some c ->
  cmsg_matches IPPROTO_IPV6 IPV6_PKTINFO c = true -> cmsg_payload_ok c = true ->
  read_cmsg_data Data p 5 = Some (take 5 (cmsg_data c)).
Proof.
  intros Hb Hc Hm Hp. unfold read_cmsg_data. rewrite Hb. cbn [mbind option_bind].
  rewrite Hc. cbn [mbind option_bind].
  unfold cmsg_payload_ok in Hp. rewrite Hm in Hp.
  apply andb_true_iff in Hp as [_ Hp]. cbn [negb orb] in Hp. apply Z.leb_le in Hp.
  destruct (decide (5 ≤ length (cmsg_data c))%nat); [reflexivity|lia].
Qed.

(** The prior contents of the caller's [ENDPOINT] do not reach the
    result. *)
Lemma SocketEndpointFromNbl_prior fuel G4 G6 E0 E1 Data :
  SocketEndpointFromNbl fuel G4 G6 E0 Data = SocketEndpointFromNbl fuel G4 G6 E1 Data.
Proof. reflexivity. Qed.

(** C8 (amended).  For a datagram with well-formed control information and fixed
    generation counters, [SocketEndpointFromNbl] returns, and what it
    leaves in the caller's [ENDPOINT] does not depend on what the
    [ENDPOINT] held: two applications, and an application onto the result
    of another, give equal structures and statuses.  The status is
    [STATUS_INVALID_ADDRESS] exactly when the family of the remote address
    is neither IPv4 nor IPv6 or the control information has no pkt-info
    message of that family, and [STATUS_SUCCESS] otherwise. *)
Theorem endpoint_from_datagram_idempotent (n : nat) (G4 G6 : Z) (E0 E1 : ENDPOINT)
    (Data : WSK_DATAGRAM_INDICATION) (msgs : list CMSG) :
  datagram_msgs n Data = Some msgs ->
  exists Status E,
    SocketEndpointFromNbl (S n) G4 G6 E0 Data = Some (Status, E) /\
    SocketEndpointFromNbl (S n) G4 G6 E1 Data = Some (Status, E) /\
    SocketEndpointFromNbl (S n) G4 G6 E Data = Some (Status, E) /\
    (Status = STATUS_INVALID_ADDRESS <->
       (si_family (RemoteAddress Data) <> AF_INET /\
        si_family (RemoteAddress Data) <> AF_INET6) \/
       (si_family (RemoteAddress Data) = AF_INET /\
        existsb (cmsg_matches IPPROTO_IP IP_PKTINFO) msgs = false) \/
       (si_family (RemoteAddress Data) = AF_INET6 /\
        existsb (cmsg_matches IPPROTO_IPV6 IPV6_PKTINFO) msgs = false)) /\
    (Status <> STATUS_INVALID_ADDRESS -> Status = STATUS_SUCCESS).
Proof.
  intros Hm.
  assert (Hgoal : exists Status E,
    SocketEndpointFromNbl (S n) G4 G6 E0 Data = Some (Status, E) /\
    (Status = STATUS_INVALID_ADDRESS <->
       (si_family (RemoteAddress Data) <> AF_INET /\
        si_family (RemoteAddress Data) <> AF_INET6) \/
       (si_family (RemoteAddress Data) = AF_INET /\
        existsb (cmsg_matches IPPROTO_IP IP_PKTINFO) msgs = false) \/
       (si_family (RemoteAddress Data) = AF_INET6 /\
        existsb (cmsg_matches IPPROTO_IPV6 IPV6_PKTINFO) msgs = false)) /\
    (Status <> STATUS_INVALID_ADDRESS -> Status = STATUS_SUCCESS)).
  { unfold SocketEndpointFromNbl.
    destruct (Z.eqb_spec (si_family (RemoteAddress Data)) AF_INET) as [E4|N4].
    - assert (N6 : (si_family (RemoteAddress Data) =? AF_INET6) = false)
        by (rewrite E4; reflexivity).
      destruct (FindInCmsgHdr_spec n Data IPPROTO_IP IP_PKTINFO msgs Hm)
        as [[He Hf]|(p & c & buf & Hb & Hf & Hc & Hmt & Hp & He)];
        rewrite Hf; cbn [mbind option_bind].
      + rewrite N6. cbn [mbind option_bind].
        eexists _, _. split; [reflexivity|]. split; [|intros H; congruence].
        split; [intros _|reflexivity]. right. left. split; assumption.
      + rewrite (read_pktinfo4 Data buf p c Hb Hc Hmt Hp). cbn [mbind option_bind].
        eexists _, _. split; [reflexivity|]. split; [|reflexivity].
        split; [discriminate|].
        intros [[H _]|[[_ H]|[H _]]]; [congruence|congruence|].
        rewrite E4 in H. discriminate.
    - cbn [mbind option_bind].
      destruct (Z.eqb_spec (si_family (RemoteAddress Data)) AF_INET6) as [E6|N6].
      + destruct (FindInCmsgHdr_spec n Data IPPROTO_IPV6 IPV6_PKTINFO msgs Hm)
          as [[He Hf]|(p & c & buf & Hb & Hf & Hc & Hmt & Hp & He)];
          rewrite Hf; cbn [mbind option_bind].
        * eexists _, _. split; [reflexivity|]. split; [|intros H; congruence].
          split; [intros _|reflexivity]. right. right. split; assumption.
        * rewrite (read_pktinfo6 Data buf p c Hb Hc Hmt Hp). cbn [mbind option_bind].
          eexists _, _. split; [reflexivity|]. split; [|reflexivity].
          split; [discriminate|].
          intros [[_ H]|[[H _]|[_ H]]]; congruence.
      + cbn [mbind option_bind].
        eexists _, _. split; [reflexivity|]. split; [|intros H; congruence].
        split; [intros _|reflexivity]. left. split; assumption. }
  destruct Hgoal as (Status & E & H1 & H2 & H3).
  exists Status, E. repeat split; try assumption; try apply H2.
Qed.

(** A datagram from 198.51.100.1 carrying an [IP_PKTINFO] message. *)
Lemma endpoint_from_datagram_witness :
  exists E,
    SocketEndpointFromNbl 2 5 1 Sample.endpoint_fresh Sample.datagram
      = Some (STATUS_SUCCESS, E) /\
    SocketEndpointFromNbl 2 5 1 E Sample.datagram = Some (STATUS_SUCCESS, E).
Proof.
  destruct (endpoint_from_datagram_idempotent 1 5 1 Sample.endpoint_fresh ENDPOINT_zero
              Sample.datagram
              [mkCMSG (mkWSACMSGHDR 24 IPPROTO_IP IP_PKTINFO) [Sample.ip_10_0_0_5; 4]])
    as (Status & E & H1 & _ & H3 & H4 & H5).
  - vm_compute. reflexivity.
  - assert (HS : Status = STATUS_SUCCESS).
    { apply H5. intros Hi. apply H4 in Hi.
      destruct Hi as [[H _]|[[_ H]|[H _]]]; vm_compute in H; congruence. }
    subst Status. exists E. split; assumption.
Defined.

(** A header whose aligned length is 0 and that is not the one looked for:
    the loop moves neither the header pointer nor the remaining length. *)
Lemma FindInCmsgHdr_loop_stuck (fuel : nat) (buf : gmap Z CMSG)
    (Len Hdr Level Type_ : Z) (c : CMSG) :
  0 < Len < 2 ^ 64 ->
  buf !! Hdr = Some c ->
  cmsg_matches Level Type_ c = false ->
  WSA_CMSGHDR_ALIGN (cmsg_len (cmsg_hdr c)) = 0 ->
  FindInCmsgHdr_loop fuel buf Len Hdr Level Type_ = None.
Proof.
  intros HLen Hc Hmt Ha. induction fuel as [|fuel IH]; [reflexivity|].
  cbn [FindInCmsgHdr_loop].
  destruct (Z.ltb_spec 0 Len) as [_|]; [|lia].
  rewrite Hc. cbn [mbind option_bind].
  unfold cmsg_matches in Hmt. rewrite Hmt, Ha, Z.sub_0_r, Z.add_0_r.
  rewrite usize_small by lia. exact IH.
Qed.

(** C8 as stated fails for control information that is not well formed.
    The datagram has 24 bytes of control information that start with a
    header of length 0 which is not a pkt-info header: there is no
    pkt-info header, and [SocketEndpointFromNbl] does not return
    [STATUS_INVALID_ADDRESS]; it does not return at all, whatever the
    number of turns allowed to the loop of [FindInCmsgHdr]. *)
Lemma endpoint_from_datagram_no_result_counterexample :
  si_family (RemoteAddress Sample.datagram_empty_header) = AF_INET /\
  (forall (Hdr : Z) (c : CMSG),
     Sample.control_empty_header !! Hdr = Some c ->
     cmsg_matches IPPROTO_IP IP_PKTINFO c = false) /\
  (forall (fuel : nat) (G4 G6 : Z) (E0 : ENDPOINT),
     SocketEndpointFromNbl fuel G4 G6 E0 Sample.datagram_empty_header = None).
Proof.
  split; [reflexivity|]. split.
  - intros Hdr c Hc. unfold Sample.control_empty_header in Hc.
    apply lookup_singleton_Some in Hc as [_ <-]. reflexivity.
  - intros fuel G4 G6 E0. unfold SocketEndpointFromNbl.
    change (si_family (RemoteAddress Sample.datagram_empty_header) =? AF_INET) with true.
    cbv iota. unfold FindInCmsgHdr.
    cbn [ControlInfo ControlInfoLength Sample.datagram_empty_header].
    rewrite (FindInCmsgHdr_loop_stuck fuel Sample.control_empty_header 24 0
               IPPROTO_IP IP_PKTINFO (mkCMSG (mkWSACMSGHDR 0 0 0) []));
      [reflexivity|lia|reflexivity|reflexivity|reflexivity].
Qed.

(** ** C1: route selection *)

Section Scan.

Variable os : OS.
Variable A : SOCKADDR_INET.
Variable DeviceLuid : Z.

Local Notation "'Cidr' r" := (PrefixLength (DestinationPrefix r)) (at level 10, r at level 9).
Local Notation "'Total' r" := (TotalMetric os (si_family A) r) (at level 10, r at level 9).

Lemma keeps_V4_defined row :
  prefix_in_range (si_family A) row = true -> exists k, keeps_V4 A row = Some k.
Proof.
  unfold prefix_in_range, keeps_V4, CidrMaskMatchV4. intros H.
  destruct (si_family A =? AF_INET) eqn:E; [|eauto].
  rewrite !andb_true_iff in H. destruct H as [[[H0 _] H32] _].
  cbn [negb orb] in H32. apply Z.leb_le in H32.
  destruct (Cidr row =? 0); [eauto|].
  destruct (Z.ltb_spec 32 (Cidr row)); [lia|eauto].
Qed.

Lemma keeps_V6_defined row :
  prefix_in_range (si_family A) row = true -> exists k, keeps_V6 A row = Some k.
Proof.
  unfold prefix_in_range, keeps_V6, CidrMaskMatchV6. intros H.
  destruct (si_family A =? AF_INET6) eqn:E; [|eauto].
  rewrite !andb_true_iff in H. destruct H as [[[H0 _] _] H128].
  cbn [negb orb] in H128. apply Z.leb_le in H0, H128.
  destruct (Cidr row =? 0); [eauto|].
  assert (Hk : 0 <= Cidr row / 32 <= 4).
  { split; [apply Z.div_pos; lia|]. apply Z.div_le_upper_bound; lia. }
  unfold RtlEqualMemory_parts.
  destruct (Z.ltb_spec 4 (Cidr row / 32)); [lia|]. cbv iota.
  match goal with |- context [if ?x && ?y then _ else Some false] => destruct (x && y) end;
    [|eauto].
  destruct (Z.eqb_spec (Cidr row / 32) 4) as [|Hn4]; cbn [orb]; [eauto|].
  destruct (Cidr row mod 32 =? 0); [eauto|].
  unfold in6_word.
  repeat match goal with
         | |- context [?x =? ?y] => destruct (Z.eqb_spec x y)
         end; eauto; lia.
Qed.

Lemma scan_row_spec row b :
  prefix_in_range (si_family A) row = true ->
  exists evs,
    frees evs = [] /\ best_route_calls evs = [] /\
    ((scan_eligible os A DeviceLuid row = true /\
      at_least (BestCidr b) (BestMetric b) (Cidr row) (Total row) /\
      scan_row os A DeviceLuid row b = Some (BEST_of os (si_family A) row, evs))
     \/
     ((scan_eligible os A DeviceLuid row = false \/
       worse (Cidr row) (Total row) (BestCidr b) (BestMetric b)) /\
      scan_row os A DeviceLuid row b = Some (b, evs))).
Proof.
  intros Hr.
  destruct (keeps_V4_defined row Hr) as [k4 H4].
  destruct (keeps_V6_defined row Hr) as [k6 H6].
  unfold scan_row, scan_eligible, interface_up_and_queryable, at_least, worse.
  destruct (Z.eqb_spec (InterfaceLuid row) DeviceLuid) as [|_].
  { exists []. repeat split. right. split; [left|]; reflexivity. }
  destruct (Z.ltb_spec (Cidr row) (BestCidr b)) as [Hlt|Hge].
  { exists []. repeat split. right. split; [right; left; assumption|reflexivity]. }
  rewrite H4. cbn [mbind option_bind is_Some_true negb andb].
  destruct k4; cbn [negb].
  2:{ exists []. repeat split. right. split; [left|]; reflexivity. }
  rewrite H6. cbn [mbind option_bind is_Some_true negb andb].
  destruct k6; cbn [negb].
  2:{ exists []. repeat split. right. split; [left|]; reflexivity. }
  set (ev1 := [EvGetIfEntry2 (InterfaceLuid row)]).
  set (ev2 := ev1 ++ [EvGetIpInterfaceEntry (si_family A) (InterfaceLuid row)]).
  destruct (NT_SUCCESS (fst (GetIfEntry2 os (InterfaceLuid row)))); cbn [negb orb andb].
  2:{ exists ev1. repeat split. right. split; [left|]; reflexivity. }
  destruct (snd (GetIfEntry2 os (InterfaceLuid row)) =? IfOperStatusUp); cbn [negb orb andb].
  2:{ exists ev1. repeat split. right. split; [left|]; reflexivity. }
  destruct (NT_SUCCESS (fst (GetIpInterfaceEntry os (si_family A) (InterfaceLuid row))));
    cbn [negb orb andb].
  2:{ exists ev2. repeat split. right. split; [left|]; reflexivity. }
  exists ev2. split; [reflexivity|]. split; [reflexivity|].
  destruct (Z.eqb_spec (Cidr row) (BestCidr b)) as [Heq|Hne]; cbn [andb].
  - destruct (Z.ltb_spec (BestMetric b) (Total row)) as [Hm|Hm].
    + right. split; [right; right; split; assumption|reflexivity].
    + left. repeat split. right. split; [lia|assumption].
  - left. repeat split. left. lia.
Qed.

Lemma scan_table_spec : forall Table b,
  forallb (prefix_in_range (si_family A)) Table = true ->
  exists b' evs,
    scan_table os A DeviceLuid Table b = Some (b', evs) /\
    frees evs = [] /\ best_route_calls evs = [] /\
    ((b' = b /\
      forall j r, Table !! j = Some r -> scan_eligible os A DeviceLuid r = true ->
                  worse (Cidr r) (Total r) (BestCidr b) (BestMetric b))
     \/
     (exists i w,
        scan_winner os A DeviceLuid Table i w /\
        b' = BEST_of os (si_family A) w /\
        at_least (BestCidr b) (BestMetric b) (Cidr w) (Total w))).
Proof.
  induction Table as [|row Table IH]; intros b Hr.
  - exists b, []. repeat split. left. split; [reflexivity|].
    intros j r Hj. rewrite lookup_nil in Hj. discriminate.
  - cbn [forallb] in Hr. apply andb_true_iff in Hr as [Hrow Hrest].
    cbn [scan_table].
    destruct (scan_row_spec row b Hrow) as (ev1 & Hf1 & Hq1 & Hcase).
    destruct Hcase as [(Hel & Hal & Hs)|(Hno & Hs)]; rewrite Hs; cbn [mbind option_bind].
    + (* the row becomes the best *)
      destruct (IH (BEST_of os (si_family A) row) Hrest)
        as (b' & ev2 & Hs2 & Hf2 & Hq2 & Hcase2).
      rewrite Hs2. cbn [mbind option_bind].
      exists b', (ev1 ++ ev2). split; [reflexivity|].
      split; [unfold frees in *; rewrite flat_map_app, Hf1, Hf2; reflexivity|].
      split; [unfold best_route_calls in *; rewrite flat_map_app, Hq1, Hq2; reflexivity|].
      right. destruct Hcase2 as [(-> & Hall)|(i & w & (Hi & Hw & Hmax) & -> & Hal2)].
      * exists 0%nat, row. split; [|split; [reflexivity|assumption]].
        split; [reflexivity|]. split; [assumption|].
        intros [|j] r Hj He.
        -- injection Hj as <-. right. split; [reflexivity|]. right. split; [reflexivity|lia].
        -- specialize (Hall j r Hj He). unfold worse in Hall. simpl in Hall.
           destruct Hall as [?|[? ?]]; [left; assumption|right; split; [assumption|left; assumption]].
      * exists (S i), w. split; [|split; [reflexivity|]].
        -- split; [exact Hi|]. split; [assumption|].
           intros [|j] r Hj He.
           ++ injection Hj as <-. unfold at_least in Hal2. simpl in Hal2.
              destruct Hal2 as [?|[? ?]]; [left; assumption|].
              right. split; [assumption|].
              destruct (Z.eq_dec (Total w) (Total row)); [right; split; [assumption|lia]|left; lia].
           ++ destruct (Hmax j r Hj He) as [?|[? [?|[? ?]]]];
                [left; assumption|right; split; [assumption|left; assumption]|].
              right. split; [assumption|]. right. split; [assumption|lia].
        -- unfold at_least in *. simpl in Hal2. lia.
    + (* the best is kept *)
      destruct (IH b Hrest) as (b' & ev2 & Hs2 & Hf2 & Hq2 & Hcase2).
      rewrite Hs2. cbn [mbind option_bind].
      exists b', (ev1 ++ ev2). split; [reflexivity|].
      split; [unfold frees in *; rewrite flat_map_app, Hf1, Hf2; reflexivity|].
      split; [unfold best_route_calls in *; rewrite flat_map_app, Hq1, Hq2; reflexivity|].
      destruct Hcase2 as [(-> & Hall)|(i & w & (Hi & Hw & Hmax) & -> & Hal2)].
      * left. split; [reflexivity|].
        intros [|j] r Hj He.
        -- injection Hj as <-. destruct Hno as [Hno|Hno]; [congruence|assumption].
        -- exact (Hall j r Hj He).
      * right. exists (S i), w. split; [|split; [reflexivity|assumption]].
        split; [exact Hi|]. split; [assumption|].
        intros [|j] r Hj He.
        -- injection Hj as <-. destruct Hno as [Hno|Hno]; [congruence|].
           unfold worse, at_least in *. lia.
        -- destruct (Hmax j r Hj He) as [?|[? [?|[? ?]]]];
             [left; assumption|right; split; [assumption|left; assumption]|].
           right. split; [assumption|]. right. split; [assumption|lia].
Qed.

End Scan.

(** *** Stepping through the code on explicit states *)

Lemma exec_acquire_shared e tx dev g4 g6 lg fl :
  ExAcquireSpinLockShared (mkState (mkWG_PEER e Unlocked tx dev) g4 g6 lg fl) =
  Some (mkState (mkWG_PEER e LockedShared tx dev) g4 g6 (lg ++ [EvAcquireSpinLockShared]) fl).
Proof. reflexivity. Qed.

Lemma exec_release_shared e tx dev g4 g6 lg fl :
  ExReleaseSpinLockShared (mkState (mkWG_PEER e LockedShared tx dev) g4 g6 lg fl) =
  Some (mkState (mkWG_PEER e Unlocked tx dev) g4 g6 (lg ++ [EvReleaseSpinLockShared]) fl).
Proof. reflexivity. Qed.

Lemma exec_acquire_exclusive e tx dev g4 g6 lg fl :
  ExAcquireSpinLockExclusive (mkState (mkWG_PEER e Unlocked tx dev) g4 g6 lg fl) =
  Some (mkState (mkWG_PEER e LockedExclusive tx dev) g4 g6
          (lg ++ [EvAcquireSpinLockExclusive]) fl).
Proof. reflexivity. Qed.

Lemma exec_release_exclusive e tx dev g4 g6 lg fl :
  ExReleaseSpinLockExclusive (mkState (mkWG_PEER e LockedExclusive tx dev) g4 g6 lg fl) =
  Some (mkState (mkWG_PEER e Unlocked tx dev) g4 g6
          (lg ++ [EvReleaseSpinLockExclusive]) fl).
Proof. reflexivity. Qed.

Lemma exec_emit evs p g4 g6 lg fl :
  emit evs (mkState p g4 g6 lg fl) = mkState p g4 g6 (lg ++ evs) fl.
Proof. reflexivity. Qed.

Lemma exec_set_Endpoint e' e l tx dev g4 g6 lg fl :
  set_Endpoint e' (mkState (mkWG_PEER e l tx dev) g4 g6 lg fl) =
  mkState (mkWG_PEER e' l tx dev) g4 g6 lg fl.
Proof. reflexivity. Qed.

Lemma exec_yield_nil s : yield [] s = (s, []).
Proof. reflexivity. Qed.

Lemma exec_yield_cons f env e l tx dev g4 g6 lg fl :
  yield (f :: env) (mkState (mkWG_PEER e l tx dev) g4 g6 lg fl) =
  (mkState (mkWG_PEER (Endpoint (Peer (f (mkState (mkWG_PEER e l tx dev) g4 g6 lg fl))))
                      l tx dev)
           (RoutingGenerationV4 (f (mkState (mkWG_PEER e l tx dev) g4 g6 lg fl)))
           (RoutingGenerationV6 (f (mkState (mkWG_PEER e l tx dev) g4 g6 lg fl)))
           lg fl, env).
Proof. reflexivity. Qed.

Lemma exec_fast_path_V4 e l tx dev g4 g6 lg fl :
  fast_path_V4 (mkState (mkWG_PEER e l tx dev) g4 g6 lg fl) =
  fast_path_V4 (mkState (mkWG_PEER e Unlocked 0 dev) g4 0 [] []).
Proof. reflexivity. Qed.

Lemma exec_fast_path_V6 e l tx dev g4 g6 lg fl :
  fast_path_V6 (mkState (mkWG_PEER e l tx dev) g4 g6 lg fl) =
  fast_path_V6 (mkState (mkWG_PEER e Unlocked 0 dev) 0 g6 [] []).
Proof. reflexivity. Qed.

Lemma exec_write_source e l tx dev g4 g6 lg fl e0 a i :
  write_source (mkState (mkWG_PEER e l tx dev) g4 g6 lg fl) e0 a i =
  write_source (mkState (mkWG_PEER e0 Unlocked 0 dev) g4 g6 [] []) e0 a i.
Proof. reflexivity. Qed.

Create Rewrite HintDb exec.
#[local] Hint Rewrite exec_acquire_shared exec_release_shared exec_acquire_exclusive
  exec_release_exclusive exec_emit exec_set_Endpoint exec_yield_nil exec_yield_cons : exec.

Ltac exec_step :=
  repeat (progress
    (autorewrite with exec;
     cbn [mbind option_bind Peer Endpoint EndpointLock TxBytes Device Log InFlight
          RoutingGenerationV4 RoutingGenerationV6])).

Lemma write_source_UpdateGeneration s e a i :
  UpdateGeneration (fst (write_source s e a i)) = UpdateGeneration e.
Proof.
  unfold write_source.
  repeat match goal with |- context [if ?c then _ else _] => destruct c end; reflexivity.
Qed.

Lemma frees_app evs1 evs2 : frees (evs1 ++ evs2) = frees evs1 ++ frees evs2.
Proof. unfold frees. apply flat_map_app. Qed.

(** *** One pass of the resolver without interference *)

Lemma resolve_pass_nil (os : OS) (s : State) :
  let A := Addr (Endpoint (Peer s)) in
  let F := si_family A in
  let Status := fst (GetIpForwardTable2 os F) in
  let Table := snd (GetIpForwardTable2 os F) in
  EndpointLock (Peer s) = Unlocked ->
  fast_path_V4 s = false -> fast_path_V6 s = false ->
  forallb (prefix_in_range F) Table = true ->
  exists st s' evs,
    resolve_pass os [] s = Some (Return st s' []) /\
    Log s' = Log s ++ evs /\ frees evs = [] /\ same_frame s s' /\
    ((NT_SUCCESS Status = false /\ st = Status /\
      Endpoint (Peer s') = Endpoint (Peer s) /\ EndpointLock (Peer s') = Unlocked /\
      evs = [EvAcquireSpinLockShared; EvReleaseSpinLockShared; EvGetIpForwardTable2 F])
     \/
     (NT_SUCCESS Status = true /\ MemAllocate os = false /\
      st = STATUS_INSUFFICIENT_RESOURCES /\
      Endpoint (Peer s') = Endpoint (Peer s) /\ EndpointLock (Peer s') = Unlocked /\
      evs = [EvAcquireSpinLockShared; EvReleaseSpinLockShared; EvGetIpForwardTable2 F;
             EvMemAllocate])
     \/
     (NT_SUCCESS Status = true /\ MemAllocate os = true /\
      exists Best sevs,
        scan_table os A (DeviceInterfaceLuid (Device (Peer s))) Table BEST_init
          = Some (Best, sevs) /\
        let route := negb (Z.of_nat (length Table) =? 0) && negb (BestIndex Best =? 0) in
        let R := GetBestRoute2 os (BestIndex Best) A in
        let lookup :=
          [EvAcquireSpinLockShared; EvReleaseSpinLockShared; EvGetIpForwardTable2 F;
           EvMemAllocate] ++ sevs ++ [EvMemFree] ++
          (if route then [EvGetBestRoute2 (BestIndex Best) A] else []) ++
          [EvFreeMibTable] in
        ((route = true /\ NT_SUCCESS (fst R) = false /\ st = fst R /\
          Endpoint (Peer s') = Endpoint (Peer s) /\ EndpointLock (Peer s') = Unlocked /\
          evs = lookup)
         \/
         ((route = true -> NT_SUCCESS (fst R) = true) /\
          let W := write_source s (Endpoint (Peer s))
                     (if route then snd R else SOCKADDR_INET_zero) (BestIndex Best) in
          Endpoint (Peer s') = bump_UpdateGeneration (fst W) /\
          ((snd W = 0 /\ st = STATUS_BAD_NETWORK_PATH /\
            EndpointLock (Peer s') = Unlocked /\
            evs = lookup ++ [EvAcquireSpinLockExclusive; EvReleaseSpinLockExclusive])
           \/
           (snd W <> 0 /\ st = STATUS_SUCCESS /\
            EndpointLock (Peer s') = LockedShared /\
            evs = lookup ++ [EvAcquireSpinLockExclusive; EvReleaseSpinLockExclusive;
                             EvAcquireSpinLockShared])))))).
Proof.
  intros A F Status Table Hlock Hf4 Hf6 Hrange.
  destruct (scan_table_spec os A (DeviceInterfaceLuid (Device (Peer s))) Table BEST_init Hrange)
    as (Best & sevs & Hscan & Hfr & _ & _).
  destruct s as [[e l tx dev] g4 g6 lg fl].
  cbn [Peer Endpoint EndpointLock Device] in *. subst l.
  rewrite exec_fast_path_V4 in Hf4. rewrite exec_fast_path_V6 in Hf6.
  unfold resolve_pass, same_frame. exec_step.
  rewrite exec_fast_path_V4, exec_fast_path_V6, Hf4, Hf6. exec_step.
  fold A F Status Table.
  destruct (NT_SUCCESS Status) eqn:HS; cbn [negb].
  2:{ eexists _, _, _. split; [reflexivity|]. exec_step. rewrite <- !app_assoc.
      split; [reflexivity|]. split; [reflexivity|]. split; [repeat split|].
      left. repeat split. }
  destruct (MemAllocate os) eqn:HM; cbn [negb].
  2:{ eexists _, _, _. split; [reflexivity|]. exec_step. rewrite <- !app_assoc.
      split; [reflexivity|]. split; [reflexivity|]. split; [repeat split|].
      right. left. repeat split. }
  rewrite Hscan. exec_step. fold A F Status Table.
  set (route := negb (Z.of_nat (length Table) =? 0) && negb (BestIndex Best =? 0)).
  set (R := GetBestRoute2 os (BestIndex Best) A).
  set (bre := if route then [EvGetBestRoute2 (BestIndex Best) A] else []).
  assert (Hbre : frees bre = []) by (subst bre; destruct route; reflexivity).
  destruct (NT_SUCCESS (if route then fst R else Status)) eqn:HS'; cbn [negb].
  2:{ destruct route eqn:Hroute; [|congruence].
      eexists _, _, _. split; [reflexivity|]. exec_step. rewrite <- !app_assoc.
      split; [reflexivity|].
      split; [rewrite !frees_app, Hfr; reflexivity|].
      split; [repeat split|].
      right. right. split; [reflexivity|]. split; [reflexivity|].
      exists Best, sevs. split; [reflexivity|].
      cbv zeta. fold route R. rewrite Hroute.
      left. repeat split. assumption. }
  rewrite Z.eqb_refl. cbn [negb].
  assert (HSR : route = true -> NT_SUCCESS (fst R) = true).
  { intros Hr. rewrite Hr in HS'. exact HS'. }
  set (SrcAddr := if route then snd R else SOCKADDR_INET_zero).
  rewrite exec_write_source.
  pose proof (write_source_UpdateGeneration
                (mkState (mkWG_PEER e Unlocked 0 dev) g4 g6 [] []) e SrcAddr (BestIndex Best))
    as HUG.
  assert (HWs : write_source (mkState (mkWG_PEER e Unlocked tx dev) g4 g6 lg fl) e SrcAddr
                  (BestIndex Best) =
                write_source (mkState (mkWG_PEER e Unlocked 0 dev) g4 g6 [] []) e SrcAddr
                  (BestIndex Best)) by apply exec_write_source.
  destruct (write_source (mkState (mkWG_PEER e Unlocked 0 dev) g4 g6 [] []) e SrcAddr
              (BestIndex Best)) as [e' Index].
  cbn [fst snd] in HUG. exec_step.
  destruct (Z.eqb_spec Index 0) as [HI|HI].
  - eexists _, _, _. split; [reflexivity|]. exec_step. rewrite <- !app_assoc.
    split; [reflexivity|].
    split; [rewrite !frees_app, Hfr, Hbre; reflexivity|].
    split; [repeat split|].
    right. right. split; [reflexivity|]. split; [reflexivity|].
    exists Best, sevs. split; [reflexivity|].
    cbv zeta. fold route R. fold SrcAddr. rewrite HWs. cbn [fst snd].
    right. split; [exact HSR|]. split; [reflexivity|].
    left. repeat split; try assumption.
    subst bre. rewrite <- !app_assoc. reflexivity.
  - cbn [bump_UpdateGeneration UpdateGeneration]. rewrite HUG, Z.eqb_refl. cbn [negb].
    eexists _, _, _. split; [reflexivity|]. exec_step. rewrite <- !app_assoc.
    split; [reflexivity|].
    split; [rewrite !frees_app, Hfr, Hbre; reflexivity|].
    split; [repeat split|].
    right. right. split; [reflexivity|]. split; [reflexivity|].
    exists Best, sevs. split; [reflexivity|].
    cbv zeta. fold route R. fold SrcAddr. rewrite HWs. cbn [fst snd].
    right. split; [exact HSR|]. split; [reflexivity|].
    right. repeat split; try assumption.
    subst bre. rewrite <- !app_assoc. reflexivity.
Qed.

(** *** The scan started from nothing *)

Lemma u32_range x : 0 <= u32 x < 2 ^ 32.
Proof. unfold u32. apply Z.mod_pos_bound. lia. Qed.

Lemma lookup_In {X} (l : list X) (i : nat) (x : X) : l !! i = Some x -> In x l.
Proof.
  intros H. apply list_elem_of_In. apply list_elem_of_lookup. exists i. exact H.
Qed.

Lemma In_lookup {X} (l : list X) (x : X) : In x l -> exists i : nat, l !! i = Some x.
Proof.
  intros H. apply list_elem_of_In in H. apply list_elem_of_lookup in H. exact H.
Qed.

Lemma scan_table_init (os : OS) (A : SOCKADDR_INET) (DeviceLuid : Z)
    (Table : list MIB_IPFORWARD_ROW2) :
  forallb (prefix_in_range (si_family A)) Table = true ->
  exists Best sevs,
    scan_table os A DeviceLuid Table BEST_init = Some (Best, sevs) /\
    frees sevs = [] /\ best_route_calls sevs = [] /\
    ((existsb (scan_eligible os A DeviceLuid) Table = false /\ Best = BEST_init)
     \/
     (existsb (scan_eligible os A DeviceLuid) Table = true /\
      exists i w, scan_winner os A DeviceLuid Table i w /\ Best = BEST_of os (si_family A) w)).
Proof.
  intros Hrange.
  destruct (scan_table_spec os A DeviceLuid Table BEST_init Hrange)
    as (Best & sevs & Hscan & Hfr & Hbr & Hcase).
  exists Best, sevs. repeat (split; [assumption|]).
  destruct Hcase as [(-> & Hall)|(i & w & Hwin & -> & _)].
  - left. split; [|reflexivity].
    destruct (existsb (scan_eligible os A DeviceLuid) Table) eqn:He; [|reflexivity].
    exfalso. apply existsb_exists in He as (r & Hin & Hel).
    destruct (In_lookup _ _ Hin) as (j & Hj).
    specialize (Hall j r Hj Hel).
    rewrite forallb_forall in Hrange. specialize (Hrange r Hin).
    unfold prefix_in_range in Hrange. rewrite !andb_true_iff in Hrange.
    destruct Hrange as [[[H0 _] _] _]. apply Z.leb_le in H0.
    pose proof (u32_range (Metric r + snd (GetIpInterfaceEntry os (si_family A) (InterfaceLuid r)))) as Hu.
    unfold worse, TotalMetric in Hall. cbn [BEST_init BestCidr BestMetric] in Hall. lia.
  - right. split; [|exists i, w; split; [assumption|reflexivity]].
    destruct Hwin as (Hi & Hel & _).
    apply existsb_exists. exists w. split; [eapply lookup_In; eassumption|assumption].
Qed.

Lemma resolver_one_pass (os : OS) (fuel : nat) (env env' : list Interference)
    (s s' : State) (st : NTSTATUS) :
  resolve_pass os env s = Some (Return st s' env') ->
  SocketResolvePeerEndpointSrc os (S fuel) env s = Some (st, s', env').
Proof. intros H. cbn [SocketResolvePeerEndpointSrc]. rewrite H. reflexivity. Qed.

Lemma Src6_assign_addr a i : Src6_ipi6_addr (assign_Src6 a i) = a.
Proof. destruct a. reflexivity. Qed.

Lemma best_route_calls_app evs1 evs2 :
  best_route_calls (evs1 ++ evs2) = best_route_calls evs1 ++ best_route_calls evs2.
Proof. unfold best_route_calls. apply flat_map_app. Qed.

(** *** The loop's notions and those of the statements *)

Lemma cidr_matches_keeps A row :
  cidr_matches A row = is_Some_true (keeps_V4 A row) && is_Some_true (keeps_V6 A row).
Proof.
  unfold cidr_matches, keeps_V4, keeps_V6.
  destruct (Z.eqb_spec (si_family A) AF_INET) as [E4|N4].
  - rewrite E4. change (AF_INET =? AF_INET6) with false. cbn [is_Some_true].
    rewrite andb_true_r. reflexivity.
  - destruct (si_family A =? AF_INET6); cbn [is_Some_true andb]; reflexivity.
Qed.

Lemma eligible_scan os A Dev row :
  eligible os A Dev row = scan_eligible os A Dev row.
Proof. unfold eligible, scan_eligible. rewrite cidr_matches_keeps. reflexivity. Qed.

Lemma existsb_eligible_scan os A Dev Table :
  existsb (eligible os A Dev) Table = existsb (scan_eligible os A Dev) Table.
Proof.
  induction Table as [|r Table IH]; [reflexivity|].
  cbn [existsb]. rewrite eligible_scan, IH. reflexivity.
Qed.

Lemma scan_winner_is_winner os A Dev Table i w :
  scan_winner os A Dev Table i w -> is_winner os A Dev Table i w.
Proof.
  intros (Hi & He & Hmax). split; [exact Hi|]. split; [rewrite eligible_scan; exact He|].
  intros j r Hj Hr. rewrite eligible_scan in Hr. exact (Hmax j r Hj Hr).
Qed.

(** For a table whose prefixes are canonical the matchers decide the
    reference CIDR match. *)
Lemma cidr_matches_reference A row :
  si_family A = AF_INET \/ si_family A = AF_INET6 ->
  is_u32 (sin_addr A) -> is_in6 (sin6_addr A) ->
  prefix_in_range (si_family A) row = true ->
  route_canonical (si_family A) row = true ->
  cidr_matches A row = spec_cidr_match A row.
Proof.
  intros HF HA4 HA6 Hr Hc.
  unfold prefix_in_range in Hr. rewrite !andb_true_iff in Hr.
  destruct Hr as [[[H0 _] H32] H128]. apply Z.leb_le in H0.
  unfold cidr_matches, spec_cidr_match, route_canonical in *. cbv zeta in *.
  destruct HF as [HF|HF]; rewrite HF in *.
  - change (AF_INET =? AF_INET) with true in *. cbv iota in *.
    cbn [negb orb] in H32. apply Z.leb_le in H32.
    apply andb_true_iff in Hc as [Hu Hc]. apply Z.eqb_eq in Hc.
    unfold in_u32 in Hu. apply andb_true_iff in Hu as [Hu1 Hu2].
    apply Z.leb_le in Hu1. apply Z.ltb_lt in Hu2.
    rewrite CidrMaskMatchV4_ref;
      [destruct (CidrMatch_ref _ _ _ _); reflexivity
      |assumption|split; assumption|lia|exact Hc].
  - change (AF_INET6 =? AF_INET) with false in *.
    change (AF_INET6 =? AF_INET6) with true in *. cbv iota in *.
    cbn [negb orb] in H128. apply Z.leb_le in H128.
    rewrite !andb_true_iff in Hc. destruct Hc as [[[[Hw0 Hw1] Hw2] Hw3] Hc].
    apply Z.eqb_eq in Hc.
    assert (Hin : forall x, in_u32 x = true -> is_u32 x).
    { intros x Hx. unfold in_u32 in Hx. apply andb_true_iff in Hx as [Hx1 Hx2].
      apply Z.leb_le in Hx1. apply Z.ltb_lt in Hx2. split; assumption. }
    rewrite CidrMaskMatchV6_ref;
      [destruct (CidrMatch_ref _ _ _ _); reflexivity
      |assumption|repeat split; apply Hin; assumption|lia|exact Hc].
Qed.

Lemma resolver_queries_scan_winner (os : OS) (fuel : nat) (s : State) :
  let E := Endpoint (Peer s) in
  let A := Addr E in
  let F := si_family A in
  let Dev := DeviceInterfaceLuid (Device (Peer s)) in
  let Table := snd (GetIpForwardTable2 os F) in
  EndpointLock (Peer s) = Unlocked ->
  fast_path_V4 s = false -> fast_path_V6 s = false ->
  F = AF_INET \/ F = AF_INET6 ->
  NT_SUCCESS (fst (GetIpForwardTable2 os F)) = true ->
  MemAllocate os = true ->
  forallb (prefix_in_range F) Table = true ->
  forallb (fun r => negb (InterfaceIndex r =? 0)) Table = true ->
  existsb (scan_eligible os A Dev) Table = true ->
  exists (i : nat) (w : MIB_IPFORWARD_ROW2) (st : NTSTATUS) (s' : State) (evs : list Event),
    scan_winner os A Dev Table i w /\
    SocketResolvePeerEndpointSrc os (S fuel) [] s = Some (st, s', []) /\
    Log s' = Log s ++ evs /\
    best_route_calls evs = [(InterfaceIndex w, A)] /\
    let R := GetBestRoute2 os (InterfaceIndex w) A in
    let E' := Endpoint (Peer s') in
    (NT_SUCCESS (fst R) = false -> st = fst R /\ E' = E) /\
    (NT_SUCCESS (fst R) = true ->
       st = STATUS_SUCCESS /\ EndpointLock (Peer s') = LockedShared /\
       Addr E' = A /\ UpdateGeneration E' = u32 (UpdateGeneration E + 1) /\
       (F = AF_INET ->
          Src4_ipi_addr (Src E') = sin_addr (snd R) /\
          Src4_ipi_ifindex (Src E') = InterfaceIndex w /\
          RoutingGeneration E' = u32 (RoutingGenerationV4 s)) /\
       (F = AF_INET6 ->
          Src6_ipi6_addr (Src E') = sin6_addr (snd R) /\
          Src6_ipi6_ifindex (Src E') = InterfaceIndex w /\
          RoutingGeneration E' = u32 (RoutingGenerationV6 s))).
Proof.
  intros E A F Dev Table Hlock Hf4 Hf6 HF HS HM Hrange Hidx Hex.
  destruct (scan_table_init os A Dev Table Hrange)
    as (Best & sevs & Hscan & Hfr & Hbr & [[Hno _]|(_ & i & w & Hwin & HBest)]);
    [congruence|].
  destruct (resolve_pass_nil os s Hlock Hf4 Hf6 Hrange)
    as (st & s' & evs & Hpass & Hlog & _ & _ & Hcase).
  fold E A F Table in Hcase.
  destruct Hcase as [(HS' & _)|[(_ & HM' & _)|(_ & _ & Best' & sevs' & Hscan' & Hcase)]];
    [fold F in HS'; congruence|congruence|].
  fold Dev in Hscan'. rewrite Hscan in Hscan'. injection Hscan' as <- <-.
  assert (Hw : InterfaceIndex w <> 0).
  { destruct Hwin as (Hi & _). rewrite forallb_forall in Hidx.
    specialize (Hidx w (lookup_In _ _ _ Hi)). apply negb_true_iff, Z.eqb_neq in Hidx.
    exact Hidx. }
  assert (Hroute : negb (Z.of_nat (length Table) =? 0) && negb (BestIndex Best =? 0) = true).
  { subst Best. cbn [BEST_of BestIndex]. apply andb_true_iff. split.
    - destruct Hwin as (Hi & _). destruct Table; [rewrite lookup_nil in Hi; discriminate|].
      reflexivity.
    - apply negb_true_iff, Z.eqb_neq. exact Hw. }
  cbv zeta in Hcase. rewrite Hroute in Hcase.
  assert (HBI : BestIndex Best = InterfaceIndex w) by (subst Best; reflexivity).
  rewrite HBI in Hcase.
  exists i, w, st, s', evs. split; [assumption|].
  split; [apply resolver_one_pass; assumption|]. split; [assumption|].
  cbv zeta.
  destruct Hcase as [(_ & HR & -> & HE & Hl & ->)|(HR & HE & Hfin)].
  - split; [rewrite !best_route_calls_app, Hbr; reflexivity|].
    split; [intros _; split; [reflexivity|assumption]|].
    intros HR'. congruence.
  - specialize (HR eq_refl).
    assert (HW : snd (write_source s E (snd (GetBestRoute2 os (InterfaceIndex w) A))
                        (InterfaceIndex w)) = InterfaceIndex w).
    { unfold write_source. fold A F.
      destruct HF as [-> | ->]; reflexivity. }
    fold E in HE, Hfin. rewrite HW in Hfin.
    destruct Hfin as [(H0 & _)|(_ & -> & Hl & ->)]; [congruence|].
    split; [rewrite !best_route_calls_app, Hbr; reflexivity|].
    split; [intros HR'; congruence|]. intros _.
    split; [reflexivity|]. split; [assumption|].
    rewrite HE. unfold write_source. fold A F.
    destruct HF as [HF|HF]; rewrite HF; cbn; repeat split; intros; try discriminate;
      try reflexivity.
    apply Src6_assign_addr.
Qed.


(** C1 (amended).  When the resolver has to look the route up (the lock is
    free, the fast path does not apply, the table query and the allocation
    succeed) for an IPv4 or IPv6 remote address, and nothing interferes:
    for every forwarding table returned by the operating system (prefix
    lengths within the width of the family, interface indices non-zero)
    that has an eligible row, the call makes exactly one best-route query,
    for the interface index of the winner [w] and the remote address.  The
    winner is the row that is not the tunnel's own interface, whose prefix
    matches the remote address by [CidrMaskMatchV4] or [CidrMaskMatchV6],
    whose interface is up and queryable, and that has the longest prefix
    among such rows, then the lowest total metric, the route metric plus
    the interface metric taken modulo [2 ^ 32], then the last position in
    the table.  When the prefixes of the table are canonical the rows that
    match are those that match by the reference definition of the
    specification; when no sum of metrics reaches [2 ^ 32] the winner has
    the lowest sum among the eligible rows of its prefix length.  The
    status of the query is returned if it fails; if it succeeds the source
    address it gave and the winner's interface index are written to the
    endpoint and the result is [STATUS_SUCCESS] with the shared lock
    held. *)
Theorem resolver_selects_best_route (os : OS) (fuel : nat) (s : State) :
  let E := Endpoint (Peer s) in
  let A := Addr E in
  let F := si_family A in
  let Dev := DeviceInterfaceLuid (Device (Peer s)) in
  let Table := snd (GetIpForwardTable2 os F) in
  EndpointLock (Peer s) = Unlocked ->
  fast_path_V4 s = false -> fast_path_V6 s = false ->
  F = AF_INET \/ F = AF_INET6 ->
  NT_SUCCESS (fst (GetIpForwardTable2 os F)) = true ->
  MemAllocate os = true ->
  forallb (prefix_in_range F) Table = true ->
  forallb (fun r => negb (InterfaceIndex r =? 0)) Table = true ->
  existsb (eligible os A Dev) Table = true ->
  (is_u32 (sin_addr A) -> is_in6 (sin6_addr A) ->
   forallb (route_canonical F) Table = true ->
   forall r, In r Table -> cidr_matches A r = spec_cidr_match A r) /\
  exists (i : nat) (w : MIB_IPFORWARD_ROW2) (st : NTSTATUS) (s' : State) (evs : list Event),
    is_winner os A Dev Table i w /\
    ((forall r, In r Table -> eligible os A Dev r = true ->
                0 <= metric_sum os F r < 2 ^ 32) ->
     forall r, In r Table -> eligible os A Dev r = true ->
               PrefixLength (DestinationPrefix r) = PrefixLength (DestinationPrefix w) ->
               metric_sum os F w <= metric_sum os F r) /\
    SocketResolvePeerEndpointSrc os (S fuel) [] s = Some (st, s', []) /\
    Log s' = Log s ++ evs /\
    best_route_calls evs = [(InterfaceIndex w, A)] /\
    let R := GetBestRoute2 os (InterfaceIndex w) A in
    let E' := Endpoint (Peer s') in
    (NT_SUCCESS (fst R) = false -> st = fst R /\ E' = E) /\
    (NT_SUCCESS (fst R) = true ->
       st = STATUS_SUCCESS /\ EndpointLock (Peer s') = LockedShared /\
       Addr E' = A /\ UpdateGeneration E' = u32 (UpdateGeneration E + 1) /\
       (F = AF_INET ->
          Src4_ipi_addr (Src E') = sin_addr (snd R) /\
          Src4_ipi_ifindex (Src E') = InterfaceIndex w /\
          RoutingGeneration E' = u32 (RoutingGenerationV4 s)) /\
       (F = AF_INET6 ->
          Src6_ipi6_addr (Src E') = sin6_addr (snd R) /\
          Src6_ipi6_ifindex (Src E') = InterfaceIndex w /\
          RoutingGeneration E' = u32 (RoutingGenerationV6 s))).
Proof.
  intros E A F Dev Table Hlock Hf4 Hf6 HF HS HM Hrange Hidx Hex.
  split.
  { intros HA4 HA6 Hcan r Hin.
    rewrite forallb_forall in Hrange, Hcan.
    apply cidr_matches_reference; auto. }
  rewrite existsb_eligible_scan in Hex.
  destruct (resolver_queries_scan_winner os fuel s Hlock Hf4 Hf6 HF HS HM Hrange Hidx Hex)
    as (i & w & st & s' & evs & Hwin & Hrun & Hlog & Hcalls & Hres).
  apply scan_winner_is_winner in Hwin.
  exists i, w, st, s', evs. split; [exact Hwin|].
  split.
  { intros Hnowrap r Hin Hel Hcidr.
    destruct Hwin as (Hi & Hw & Hmax).
    destruct (In_lookup _ _ Hin) as (j & Hj).
    pose proof (Hnowrap r Hin Hel) as Hr.
    pose proof (Hnowrap w (lookup_In _ _ _ Hi) Hw) as Hww.
    specialize (Hmax j r Hj Hel). fold F in Hmax.
    unfold route_metric in Hmax.
    rewrite (Z.mod_small (metric_sum os F w)), (Z.mod_small (metric_sum os F r)) in Hmax
      by assumption.
    lia. }
  split; [exact Hrun|]. split; [exact Hlog|]. split; [exact Hcalls|]. exact Hres.
Qed.

(** The second scenario of the specification: the /24 route through
    interface 4 wins over the default route. *)
Lemma resolver_selects_best_route_witness :
  exists (i : nat) (w : MIB_IPFORWARD_ROW2) (st : NTSTATUS) (s' : State) (evs : list Event),
    is_winner Sample.os (Addr Sample.endpoint_stale) 101 Sample.table i w /\
    SocketResolvePeerEndpointSrc Sample.os 1 [] (Sample.state_of Sample.endpoint_stale)
      = Some (st, s', []) /\
    Log s' = evs /\
    best_route_calls evs = [(InterfaceIndex w, Addr Sample.endpoint_stale)].
Proof.
  destruct (resolver_selects_best_route Sample.os 0 (Sample.state_of Sample.endpoint_stale))
    as (_ & i & w & st & s' & evs & H1 & _ & H2 & H3 & H4 & _).
  - reflexivity.
  - vm_compute. reflexivity.
  - vm_compute. reflexivity.
  - left. reflexivity.
  - vm_compute. reflexivity.
  - reflexivity.
  - vm_compute. reflexivity.
  - vm_compute. reflexivity.
  - vm_compute. reflexivity.
  - exists i, w, st, s', evs.
    split; [exact H1|]. split; [exact H2|]. split; [exact H3|exact H4].
Defined.

(** C1 as stated fails where it names the lowest total metric and the
    CIDR match.  With two eligible routes of the same prefix length whose
    metrics add up to [2 ^ 32] and to 15, the resolver selects the first:
    its sum is 0 as a [ULONG].  And a route whose prefix 198.51.100.1/24
    contains the remote address 198.51.100.1 by the reference definition,
    but has a bit set beyond its length, is not selected: the result is
    [STATUS_BAD_NETWORK_PATH] and no best-route query is made. *)
Lemma resolver_metric_wrap_counterexample :
  (eligible Sample.os_wrap (Addr Sample.endpoint_stale) 101 Sample.route_wrap = true /\
   eligible Sample.os_wrap (Addr Sample.endpoint_stale) 101 Sample.route_24 = true /\
   spec_cidr_match (Addr Sample.endpoint_stale) Sample.route_wrap = true /\
   spec_cidr_match (Addr Sample.endpoint_stale) Sample.route_24 = true /\
   PrefixLength (DestinationPrefix Sample.route_wrap) =
     PrefixLength (DestinationPrefix Sample.route_24) /\
   metric_sum Sample.os_wrap AF_INET Sample.route_24 = 15 /\
   metric_sum Sample.os_wrap AF_INET Sample.route_wrap = 2 ^ 32 /\
   exists s',
     SocketResolvePeerEndpointSrc Sample.os_wrap 1 []
       (Sample.state_of Sample.endpoint_stale) = Some (STATUS_SUCCESS, s', []) /\
     best_route_calls (Log s') =
       [(InterfaceIndex Sample.route_wrap, Addr Sample.endpoint_stale)] /\
     Src4_ipi_ifindex (Src (Endpoint (Peer s'))) = InterfaceIndex Sample.route_wrap) /\
  (spec_cidr_match (Addr Sample.endpoint_stale) Sample.route_host_bits = true /\
   interface_up_and_queryable Sample.os_host_bits AF_INET Sample.route_host_bits = true /\
   exists s',
     SocketResolvePeerEndpointSrc Sample.os_host_bits 1 []
       (Sample.state_of Sample.endpoint_stale) = Some (STATUS_BAD_NETWORK_PATH, s', []) /\
     best_route_calls (Log s') = []).
Proof.
  split.
  - repeat (split; [vm_compute; reflexivity|]).
    eexists. split; [vm_compute; reflexivity|]. split; vm_compute; reflexivity.
  - repeat (split; [vm_compute; reflexivity|]).
    eexists. split; [vm_compute; reflexivity|]. vm_compute. reflexivity.
Qed.

(** The second scenario of the specification, run: the cached generation
    is 3 and the counter is 5; the resolver picks interface 4, takes the
    source from the best-route query, caches generation 5 and increments
    [UpdateGeneration]; once the caller has released the lock, a second
    call takes the fast path and only takes the lock again. *)
Example scenario_slow_path_then_cache_hit :
  ('(st1, s1, _) ← SocketResolvePeerEndpointSrc Sample.os 1 []
                     (Sample.state_of Sample.endpoint_stale);
   s2 ← ExReleaseSpinLockShared s1;
   '(st2, s3, _) ← SocketResolvePeerEndpointSrc Sample.os 1 [] s2;
   Some (st1, Src4_ipi_ifindex (Src (Endpoint (Peer s1))),
         Src4_ipi_addr (Src (Endpoint (Peer s1))),
         RoutingGeneration (Endpoint (Peer s1)),
         UpdateGeneration (Endpoint (Peer s1)),
         st2, skipn (length (Log s2)) (Log s3)))
  = Some (STATUS_SUCCESS, 4, Sample.ip_10_0_0_5, 5, 1, STATUS_SUCCESS,
          [EvAcquireSpinLockShared]).
Proof. vm_compute. reflexivity. Qed.

(** Two rows tied on prefix length and total metric: the later one wins. *)
Example scan_tie_goes_to_the_later_row :
  scan_table Sample.os (Addr Sample.endpoint_stale) 101
    [mkMIB_IPFORWARD_ROW2 102 2 (prefix4 Sample.ip_198_51_100_0 24) 7;
     mkMIB_IPFORWARD_ROW2 103 3 (prefix4 Sample.ip_198_51_100_0 24) 7] BEST_init
  = Some (mkBEST 3 24 107 103,
          [EvGetIfEntry2 102; EvGetIpInterfaceEntry 2 102;
           EvGetIfEntry2 103; EvGetIpInterfaceEntry 2 103]).
Proof. vm_compute. reflexivity. Qed.

(** ** C4: the failures of the resolver *)

(** C4 (amended).  On the slow path and without interference the
    resolver returns, and:
    - a failed forwarding-table query has its status returned unchanged;
    - when the query succeeds and the buffer for the interface rows cannot
      be allocated, the result is [STATUS_INSUFFICIENT_RESOURCES];
    - when the query and the allocation succeed and no row of the table is
      eligible, the result is [STATUS_BAD_NETWORK_PATH];
    - when the family of the endpoint is neither IPv4 nor IPv6 and the
      query (made for that family) and the allocation succeed, the result is
      [STATUS_BAD_NETWORK_PATH] as well, unless [GetBestRoute2], called for
      the winning row, fails, in which case its status is returned;
    - [STATUS_INVALID_PARAMETER] is the result only when the table query or
      [GetBestRoute2], called for the winning row, has returned it. *)
Theorem resolver_failures (os : OS) (fuel : nat) (s : State) :
  let A := Addr (Endpoint (Peer s)) in
  let F := si_family A in
  let Dev := DeviceInterfaceLuid (Device (Peer s)) in
  let Status := fst (GetIpForwardTable2 os F) in
  let Table := snd (GetIpForwardTable2 os F) in
  EndpointLock (Peer s) = Unlocked ->
  fast_path_V4 s = false -> fast_path_V6 s = false ->
  forallb (prefix_in_range F) Table = true ->
  exists (st : NTSTATUS) (s' : State),
    SocketResolvePeerEndpointSrc os (S fuel) [] s = Some (st, s', []) /\
    (NT_SUCCESS Status = false -> st = Status) /\
    (NT_SUCCESS Status = true -> MemAllocate os = false ->
     st = STATUS_INSUFFICIENT_RESOURCES) /\
    (NT_SUCCESS Status = true -> MemAllocate os = true ->
     existsb (eligible os A Dev) Table = false ->
     st = STATUS_BAD_NETWORK_PATH) /\
    (F <> AF_INET -> F <> AF_INET6 ->
     NT_SUCCESS Status = true -> MemAllocate os = true ->
     st = STATUS_BAD_NETWORK_PATH \/
     exists (i : nat) (w : MIB_IPFORWARD_ROW2),
       is_winner os A Dev Table i w /\
       st = fst (GetBestRoute2 os (InterfaceIndex w) A) /\ NT_SUCCESS st = false) /\
    (st = STATUS_INVALID_PARAMETER ->
     Status = STATUS_INVALID_PARAMETER \/
     exists (i : nat) (w : MIB_IPFORWARD_ROW2),
       is_winner os A Dev Table i w /\
       fst (GetBestRoute2 os (InterfaceIndex w) A) = STATUS_INVALID_PARAMETER).
Proof.
  intros A F Dev Status Table Hlock Hf4 Hf6 Hrange.
  destruct (scan_table_init os A Dev Table Hrange)
    as (Best & sevs & Hscan & _ & _ & Hel).
  rewrite <- existsb_eligible_scan in Hel.
  destruct (resolve_pass_nil os s Hlock Hf4 Hf6 Hrange)
    as (st & s' & evs & Hpass & _ & _ & _ & Hcase).
  fold A F Status Table Dev in Hcase.
  exists st, s'. split; [apply resolver_one_pass; assumption|].
  destruct Hcase as [(HS & -> & _)|[(HS & HM & -> & _)|(HS & HM & Best' & sevs' & Hscan' & Hcase)]].
  - split; [reflexivity|]. split; [intros; congruence|]. split; [intros; congruence|].
    split; [intros; congruence|]. intros E. left. exact E.
  - split; [congruence|]. split; [reflexivity|]. split; [intros; congruence|].
    split; [intros; congruence|]. intros E. discriminate E.
  - rewrite Hscan in Hscan'. injection Hscan' as <- <-.
    cbv zeta in Hcase.
    split; [congruence|]. split; [intros; congruence|]. split; [|split].
    + intros _ _ Hno.
      destruct Hel as [(_ & ->)|(Hyes & _)]; [|congruence].
      cbn [BEST_init BestIndex] in Hcase. rewrite Z.eqb_refl, andb_false_r in Hcase.
      destruct Hcase as [(Hr & _)|(_ & _ & Hfin)]; [discriminate|].
      destruct Hfin as [(_ & -> & _)|(HW & _)]; [reflexivity|].
      exfalso. apply HW. unfold write_source.
      repeat match goal with |- context [if ?c then _ else _] => destruct c end; reflexivity.
    + intros H4 H6 _ _.
      assert (HW : forall a i, snd (write_source s (Endpoint (Peer s)) a i) = 0).
      { intros a i. unfold write_source. fold A F.
        apply Z.eqb_neq in H4, H6. rewrite H4, H6. reflexivity. }
      destruct Hcase as [(Hr & HR & -> & _)|(_ & _ & Hfin)].
      * right. apply andb_true_iff in Hr as [_ Hr].
        apply negb_true_iff, Z.eqb_neq in Hr.
        destruct Hel as [(_ & ->)|(_ & i & w & Hwin & ->)]; [contradiction Hr; reflexivity|].
        exists i, w. split; [apply scan_winner_is_winner; assumption|].
        split; [reflexivity|exact HR].
      * left. rewrite HW in Hfin.
        destruct Hfin as [(_ & -> & _)|(Hbad & _)]; [reflexivity|congruence].
    + intros E.
      destruct Hcase as [(Hr & HR & -> & _)|(_ & _ & Hfin)].
      * right. apply andb_true_iff in Hr as [_ Hr].
        apply negb_true_iff, Z.eqb_neq in Hr.
        destruct Hel as [(_ & ->)|(_ & i & w & Hwin & ->)]; [contradiction Hr; reflexivity|].
        exists i, w. split; [apply scan_winner_is_winner; assumption|exact E].
      * exfalso. destruct Hfin as [(_ & -> & _)|(_ & -> & _)]; discriminate E.
Qed.

(** A peer whose endpoint was never set, on a system with no route. *)
Lemma resolver_failures_witness :
  exists s' : State,
    SocketResolvePeerEndpointSrc Sample.os_no_route 1 []
      (Sample.state_of Sample.endpoint_unset)
    = Some (STATUS_BAD_NETWORK_PATH, s', []).
Proof.
  destruct (resolver_failures Sample.os_no_route 0 (Sample.state_of Sample.endpoint_unset))
    as (st & s' & H1 & _ & _ & H2 & _).
  - reflexivity.
  - vm_compute. reflexivity.
  - vm_compute. reflexivity.
  - vm_compute. reflexivity.
  - exists s'. rewrite H1, H2; [reflexivity| | |]; vm_compute; reflexivity.
Defined.

(** C4 as stated fails in its third part: for an endpoint of family 0
    (unset), which is neither IPv4 nor IPv6, the result is
    [STATUS_BAD_NETWORK_PATH], not [STATUS_INVALID_PARAMETER], both when
    the table has an eligible row and every call succeeds and when the
    table is empty. *)
Lemma resolver_invalid_family_counterexample :
  si_family (Addr Sample.endpoint_unset) <> AF_INET /\
  si_family (Addr Sample.endpoint_unset) <> AF_INET6 /\
  STATUS_BAD_NETWORK_PATH <> STATUS_INVALID_PARAMETER /\
  (exists s',
     SocketResolvePeerEndpointSrc Sample.os 1 [] (Sample.state_of Sample.endpoint_unset)
     = Some (STATUS_BAD_NETWORK_PATH, s', [])) /\
  (exists s',
     SocketResolvePeerEndpointSrc Sample.os_no_route 1 []
       (Sample.state_of Sample.endpoint_unset)
     = Some (STATUS_BAD_NETWORK_PATH, s', [])).
Proof.
  split; [vm_compute; discriminate|]. split; [vm_compute; discriminate|].
  split; [vm_compute; discriminate|].
  split; eexists; vm_compute; reflexivity.
Qed.

(** ** C5: the packet-chain send path *)

(** *** The resolver under interference *)

Lemma yield_canon env e l tx dev g4 g6 lg fl :
  exists e' g4' g6' env',
    yield env (mkState (mkWG_PEER e l tx dev) g4 g6 lg fl) =
      (mkState (mkWG_PEER e' l tx dev) g4' g6' lg fl, env') /\
    (length env' <= length env)%nat.
Proof.
  destruct env as [|f env].
  - exists e, g4, g6, []. split; [reflexivity|]. cbn. lia.
  - eexists _, _, _, env. split; [apply exec_yield_cons|]. cbn. lia.
Qed.

Ltac solve_log Hfr Hbre :=
  eexists; split;
  [ rewrite <- ?app_assoc; reflexivity
  | rewrite ?frees_app, ?Hfr, ?Hbre; reflexivity ].

Lemma resolve_pass_cons (os : OS) (f : Interference) (env : list Interference) (s : State) :
  EndpointLock (Peer s) = Unlocked ->
  tables_in_range os ->
  exists r, resolve_pass os (f :: env) s = Some r /\ pass_post s (f :: env) r.
Proof.
  intros Hlock Hrange.
  destruct s as [[e l tx dev] g4 g6 lg fl].
  cbn [Peer Endpoint EndpointLock Device] in *. subst l.
  unfold resolve_pass, pass_post, resolver_post, same_frame. exec_step.
  destruct (fast_path_V4 _).
  { eexists. split; [reflexivity|]. exec_step.
    split; [|cbn; lia]. split; [exists [EvAcquireSpinLockShared]; split; reflexivity|].
    split; [repeat split|]. left. split; reflexivity. }
  destruct (fast_path_V6 _).
  { eexists. split; [reflexivity|]. exec_step.
    split; [|cbn; lia]. split; [exists [EvAcquireSpinLockShared]; split; reflexivity|].
    split; [repeat split|]. left. split; reflexivity. }
  exec_step.
  set (S2 := mkState _ g4 g6 _ fl).
  generalize (Endpoint (Peer (f S2))) (RoutingGenerationV4 (f S2))
             (RoutingGenerationV6 (f S2)).
  clear S2. intros e3 g43 g63.
  set (F := si_family (Addr e3)).
  specialize (Hrange F).
  set (Status := fst (GetIpForwardTable2 os F)) in *.
  set (Table := snd (GetIpForwardTable2 os F)) in *.
  destruct (NT_SUCCESS Status) eqn:HS; cbn [negb].
  2:{ eexists. split; [reflexivity|]. exec_step.
      split; [|cbn; lia]. split; [solve_log I I|].
      split; [repeat split|]. right. split; [assumption|reflexivity]. }
  destruct (MemAllocate os); cbn [negb].
  2:{ eexists. split; [reflexivity|]. exec_step.
      split; [|cbn; lia]. split; [solve_log I I|].
      split; [repeat split|]. right. split; reflexivity. }
  destruct (scan_table_spec os (Addr e3) (DeviceInterfaceLuid dev) Table BEST_init Hrange)
    as (Best & sevs & Hscan & Hfr & _ & _).
  rewrite Hscan. exec_step.
  set (route := negb (Z.of_nat (length Table) =? 0) && negb (BestIndex Best =? 0)).
  set (R := GetBestRoute2 os (BestIndex Best) (Addr e3)).
  set (bre := if route then [EvGetBestRoute2 (BestIndex Best) (Addr e3)] else []).
  assert (Hbre : frees bre = []) by (subst bre; destruct route; reflexivity).
  clearbody bre.
  destruct (NT_SUCCESS (if route then fst R else Status)) eqn:HS'; cbn [negb].
  2:{ eexists. split; [reflexivity|]. exec_step.
      split; [|cbn; lia]. split; [solve_log Hfr Hbre|].
      split; [repeat split|]. right. split; [assumption|reflexivity]. }
  set (SrcAddr := if route then snd R else SOCKADDR_INET_zero). clearbody SrcAddr.
  match goal with
  | |- context [yield env ?st] =>
      match st with
      | mkState (mkWG_PEER ?a ?b ?c ?d) ?g ?h ?i ?j =>
          destruct (yield_canon env a b c d g h i j)
            as (e8 & g48 & g68 & env8 & Hy8 & Hlen8); rewrite Hy8
      end
  end.
  exec_step.
  destruct (UpdateGeneration e8 =? UpdateGeneration e) eqn:HU; cbn [negb].
  2:{ exec_step. eexists. split; [reflexivity|]. exec_step.
      split; [solve_log Hfr Hbre|]. split; [repeat split|].
      split; [reflexivity|cbn; lia]. }
  rewrite exec_write_source.
  destruct (write_source _ e8 SrcAddr (BestIndex Best)) as [e' Index].
  exec_step.
  destruct (Index =? 0).
  { eexists. split; [reflexivity|]. exec_step.
    split; [|cbn; lia]. split; [solve_log Hfr Hbre|].
    split; [repeat split|]. right. split; reflexivity. }
  match goal with
  | |- context [yield env8 ?st] =>
      match st with
      | mkState (mkWG_PEER ?a ?b ?c ?d) ?g ?h ?i ?j =>
          destruct (yield_canon env8 a b c d g h i j)
            as (e11 & g411 & g611 & env11 & Hy11 & Hlen11); rewrite Hy11
      end
  end.
  exec_step.
  destruct (UpdateGeneration e11 =? u32 (UpdateGeneration e + 1)); cbn [negb].
  - eexists. split; [reflexivity|]. exec_step.
    split; [|cbn; lia]. split; [solve_log Hfr Hbre|].
    split; [repeat split|]. left. split; reflexivity.
  - exec_step. eexists. split; [reflexivity|]. exec_step.
    split; [solve_log Hfr Hbre|]. split; [repeat split|].
    split; [reflexivity|cbn; lia].
Qed.

Lemma NT_SUCCESS_INSUFFICIENT_RESOURCES : NT_SUCCESS STATUS_INSUFFICIENT_RESOURCES = false.
Proof. reflexivity. Qed.

Lemma NT_SUCCESS_BAD_NETWORK_PATH : NT_SUCCESS STATUS_BAD_NETWORK_PATH = false.
Proof. reflexivity. Qed.

Lemma resolve_pass_post (os : OS) (env : list Interference) (s : State) :
  EndpointLock (Peer s) = Unlocked ->
  tables_in_range os ->
  exists r, resolve_pass os env s = Some r /\ pass_post s env r.
Proof.
  intros Hlock Hrange.
  destruct env as [|f env]; [|apply resolve_pass_cons; assumption].
  destruct (fast_path_V4 s || fast_path_V6 s) eqn:Hfast.
  - destruct s as [[e l tx dev] g4 g6 lg fl].
    cbn [Peer Endpoint EndpointLock Device] in *. subst l.
    rewrite exec_fast_path_V4, exec_fast_path_V6 in Hfast.
    unfold resolve_pass, pass_post, resolver_post, same_frame. exec_step.
    rewrite exec_fast_path_V4, exec_fast_path_V6.
    exists (Return STATUS_SUCCESS
              (mkState (mkWG_PEER e LockedShared tx dev) g4 g6
                       (lg ++ [EvAcquireSpinLockShared]) fl) []).
    split.
    + destruct (fast_path_V4 _); [reflexivity|]. cbn [orb] in Hfast. rewrite Hfast.
      reflexivity.
    + split; [|cbn; lia]. exec_step.
      split; [exists [EvAcquireSpinLockShared]; split; reflexivity|].
      split; [repeat split|]. left. split; reflexivity.
  - apply orb_false_iff in Hfast as [Hf4 Hf6].
    destruct (resolve_pass_nil os s Hlock Hf4 Hf6 (Hrange _))
      as (st & s' & evs & Hpass & Hlog & Hfr & Hframe & Hcase).
    exists (Return st s' []). split; [assumption|].
    cbn [pass_post]. split; [|cbn; lia].
    split; [exists evs; split; assumption|]. split; [assumption|].
    destruct Hcase as [(HS & -> & _ & Hl & _)|[(_ & _ & -> & _ & Hl & _)|(_ & _ & Best & sevs & _ & Hcase)]].
    + right. split; assumption.
    + right. split; [reflexivity|assumption].
    + cbv zeta in Hcase.
      destruct Hcase as [(_ & HR & -> & _ & Hl & _)|(_ & _ & [(_ & -> & Hl & _)|(_ & -> & Hl & _)])].
      * right. split; assumption.
      * right. split; [reflexivity|assumption].
      * left. split; [reflexivity|assumption].
Qed.

Lemma resolver_post_trans s s1 st s' :
  (exists evs, Log s1 = Log s ++ evs /\ frees evs = []) ->
  same_frame s s1 ->
  resolver_post s1 st s' -> resolver_post s st s'.
Proof.
  intros (evs1 & Hl1 & Hf1) (Ha & Hb & Hc) ((evs2 & Hl2 & Hf2) & (Ha' & Hb' & Hc') & Hst).
  split; [|split; [|assumption]].
  - exists (evs1 ++ evs2). split.
    + rewrite Hl2, Hl1, app_assoc. reflexivity.
    + rewrite frees_app, Hf1, Hf2. reflexivity.
  - repeat split; congruence.
Qed.

(** With more fuel than interference the resolver returns, and its return
    satisfies [resolver_post]. *)
Lemma resolver_total (os : OS) :
  tables_in_range os ->
  forall (fuel : nat) (env : list Interference) (s : State),
    (length env < fuel)%nat ->
    EndpointLock (Peer s) = Unlocked ->
    exists st s' env',
      SocketResolvePeerEndpointSrc os fuel env s = Some (st, s', env') /\
      resolver_post s st s'.
Proof.
  intros Hrange. induction fuel as [|fuel IH]; intros env s Hlen Hlock; [lia|].
  destruct (resolve_pass_post os env s Hlock Hrange) as (r & Hr & Hpost).
  cbn [SocketResolvePeerEndpointSrc]. rewrite Hr. cbn [mbind option_bind].
  destruct r as [st s' env'|s1 env1]; cbn [pass_post] in Hpost.
  - exists st, s', env'. split; [reflexivity|apply Hpost].
  - destruct Hpost as (Hlog & Hframe & Hl1 & Hlen1).
    destruct (IH env1 s1 ltac:(lia) Hl1) as (st & s' & env' & Hres & Hp).
    exists st, s', env'. split; [assumption|].
    eapply resolver_post_trans; eassumption.
Qed.

(** *** The loop over the chain *)

Lemma send_loop_Nbl_AllKeepalive M Nbl : forall a,
  Loop_AllKeepalive (send_loop_Nbl M a Nbl) =
  Loop_AllKeepalive a && forallb (fun Nb => DataLength Nb =? M) Nbl.
Proof.
  unfold send_loop_Nbl. induction Nbl as [|Nb Nbl IH]; intros a; cbn [fold_left forallb].
  - rewrite andb_true_r. reflexivity.
  - rewrite IH. cbn [send_loop_Nb Loop_AllKeepalive].
    destruct (DataLength Nb =? M); cbn [negb andb].
    + reflexivity.
    + rewrite andb_false_r. reflexivity.
Qed.

Lemma send_loop_AllKeepalive M First : forall a,
  Loop_AllKeepalive (send_loop M First a) =
  Loop_AllKeepalive a && forallb (fun Nb => DataLength Nb =? M) (packets First).
Proof.
  unfold send_loop, packets. induction First as [|Nbl First IH]; intros a;
    cbn [fold_left concat forallb].
  - rewrite andb_true_r. reflexivity.
  - rewrite IH, send_loop_Nbl_AllKeepalive, forallb_app, andb_assoc. reflexivity.
Qed.

Lemma all_keepalive_iff M First :
  forallb (fun Nb => DataLength Nb =? M) (packets First) = true <->
  (forall Nb, In Nb (packets First) -> DataLength Nb = M).
Proof.
  rewrite forallb_forall. split; intros H Nb Hin.
  - apply Z.eqb_eq, H, Hin.
  - apply Z.eqb_eq, H, Hin.
Qed.

Lemma SendAsync_chain (Ctx : SOCKET_SEND_CTX) (s : State) :
  Ctx_IsNbl Ctx = true -> chain_has_first_packet (Ctx_FirstNbl Ctx) = true ->
  SendAsync Ctx s = Some (STATUS_NETWORK_UNREACHABLE, s) \/
  SendAsync Ctx s =
    Some (STATUS_SUCCESS, set_InFlight (InFlight s ++ [Ctx]) (emit [EvWskSendMessages Ctx] s)).
Proof.
  intros Hnbl Hwf. unfold SendAsync. rewrite Hnbl.
  match goal with |- context [if negb ?b then _ else _] => destruct b end; cbn [negb].
  - right. unfold chain_has_first_packet in Hwf.
    destruct (Ctx_FirstNbl Ctx) as [|[|Nb Nbl] First]; try discriminate. reflexivity.
  - left. reflexivity.
Qed.

(** C5 (amended).  For a chain that is not null (and whose first list
    holds a packet), with the endpoint lock free and more fuel than
    interference, [SocketSendNblsToPeer] returns, and either
    - the status is [STATUS_SUCCESS], [AllKeepalive] is true exactly when
      every packet of the chain has the keepalive length, the call itself
      has passed no chain to [FreeSendNetBufferList], and the chain is held
      by the send context put in flight, whose completion routine passes it
      to [FreeSendNetBufferList] once; or
    - the status is a failure and the call has passed the chain to
      [FreeSendNetBufferList] exactly once, and nothing else, with no send
      put in flight. *)
Theorem send_chain_outcome (os : OS) (MessageDataLen0 : Z) (fuel : nat)
    (env : list Interference) (s : State) (First : NBL_CHAIN) (AllKeepalive0 : bool) :
  chain_has_first_packet First = true ->
  EndpointLock (Peer s) = Unlocked ->
  tables_in_range os ->
  (length env < fuel)%nat ->
  exists (st : NTSTATUS) (AllKeepalive : bool) (s' : State) (env' : list Interference)
         (evs : list Event),
    SocketSendNblsToPeer os MessageDataLen0 fuel env s First AllKeepalive0
      = Some (st, AllKeepalive, s', env') /\
    Log s' = Log s ++ evs /\
    ((st = STATUS_SUCCESS /\
      (AllKeepalive = true <->
       forall Nb, In Nb (packets First) -> DataLength Nb = MessageDataLen0) /\
      frees evs = [] /\
      exists Ctx,
        InFlight s' = InFlight s ++ [Ctx] /\ Ctx_FirstNbl Ctx = First /\
        forall s'' : State,
          frees (Log (snd (SendComplete Ctx s''))) = frees (Log s'') ++ [First])
     \/
     (NT_SUCCESS st = false /\ frees evs = [First] /\ InFlight s' = InFlight s)).
Proof.
  intros Hwf Hlock Hrange Hfuel.
  unfold SocketSendNblsToPeer.
  destruct First as [|Nbl First]; [discriminate|].
  set (C := Nbl :: First) in *.
  destruct (ExAllocateFromLookasideListEx os); cbn [negb].
  2:{ eexists _, _, _, _, _. split; [reflexivity|].
      split; [unfold cleanupNbls; destruct s; rewrite !exec_emit; cbn [Log];
              rewrite <- app_assoc; reflexivity|].
      right. split; [reflexivity|]. split; [reflexivity|].
      destruct s; reflexivity. }
  destruct (resolver_total os Hrange fuel env (emit [EvAllocateFromLookasideList] s) Hfuel)
    as (st & s2 & env2 & Hres & (evs2 & Hlog2 & Hfr2) & (Htx & Hdev & Hfl) & Hst).
  { destruct s as [[e l tx dev] g4 g6 lg fl]. exact Hlock. }
  rewrite Hres. cbn [mbind option_bind].
  assert (Hlog2' : Log s2 = Log s ++ [EvAllocateFromLookasideList] ++ evs2).
  { rewrite Hlog2. destruct s. cbn [emit Log]. rewrite <- app_assoc. reflexivity. }
  assert (Hfl' : InFlight s2 = InFlight s) by (rewrite Hfl; destruct s; reflexivity).
  clear Hlog2 Hfl Hres.
  destruct Hst as [(-> & Hl2)|(Hfail & Hl2)].
  - (* resolved *)
    cbn [NT_SUCCESS STATUS_SUCCESS Z.leb Z.compare negb].
    destruct s2 as [[e2 l2 tx2 dev2] g42 g62 lg2 fl2].
    cbn [Peer Endpoint EndpointLock Log InFlight] in *. subst l2 lg2 fl2.
    exec_step.
    set (Ctx := mkSOCKET_SEND_CTX e2 true C (mkWSK_BUF 0 0 0)).
    set (S3 := mkState _ g42 g62 _ _).
    destruct (SendAsync_chain Ctx S3 eq_refl Hwf) as [Hsend|Hsend]; rewrite Hsend;
      cbn [mbind option_bind].
    + (* no socket for the family *)
      eexists _, _, _, _, _. split; [reflexivity|].
      unfold cleanupCtx, cleanupNbls. subst S3. exec_step.
      split; [rewrite <- !app_assoc; reflexivity|].
      right. split; [reflexivity|].
      split; [rewrite !frees_app, Hfr2; reflexivity|reflexivity].
    + eexists _, _, _, _, _. split; [reflexivity|].
      subst S3. unfold account, set_InFlight, set_Peer. exec_step.
      split; [rewrite <- !app_assoc; reflexivity|].
      left. split; [reflexivity|].
      split; [rewrite send_loop_AllKeepalive; apply all_keepalive_iff|].
      split; [rewrite !frees_app, Hfr2; reflexivity|].
      exists Ctx. split; [reflexivity|]. split; [reflexivity|].
      intros s''. destruct s''. unfold SendComplete. cbn [snd Ctx Ctx_IsNbl Ctx_FirstNbl].
      rewrite exec_emit. cbn [Log]. rewrite frees_app. reflexivity.
  - (* the resolver failed *)
    rewrite Hfail. cbn [negb].
    eexists _, _, _, _, _. split; [reflexivity|].
    unfold cleanupCtx, cleanupNbls. destruct s2. cbn [Log InFlight] in *.
    rewrite !exec_emit. cbn [Log InFlight]. subst.
    split; [rewrite <- !app_assoc; reflexivity|].
    right. split; [assumption|].
    split; [rewrite !frees_app, Hfr2; reflexivity|reflexivity].
Qed.

Lemma Sample_tables_in_range : tables_in_range Sample.os.
Proof.
  intros Family. cbn [Sample.os GetIpForwardTable2 snd Sample.table forallb].
  unfold prefix_in_range. cbn [Sample.route_default Sample.route_24 DestinationPrefix
    prefix4 PrefixLength]. rewrite !orb_true_r. reflexivity.
Qed.

(** A keepalive and a data packet are sent to 198.51.100.1 while another
    thread clears the source of the peer: the resolver retries once. *)
Lemma send_chain_outcome_witness :
  exists (st : NTSTATUS) (AllKeepalive : bool) (s' : State) (env' : list Interference)
         (evs : list Event),
    SocketSendNblsToPeer Sample.os 32 3 [Sample.other_thread_clears]
      (Sample.state_of Sample.endpoint_stale) Sample.chain true
      = Some (st, AllKeepalive, s', env') /\
    Log s' = evs /\
    ((st = STATUS_SUCCESS /\
      (AllKeepalive = true <->
       forall Nb, In Nb (packets Sample.chain) -> DataLength Nb = 32) /\
      frees evs = [])
     \/
     (NT_SUCCESS st = false /\ frees evs = [Sample.chain])).
Proof.
  destruct (send_chain_outcome Sample.os 32 3 [Sample.other_thread_clears]
              (Sample.state_of Sample.endpoint_stale) Sample.chain true)
    as (st & ak & s' & env' & evs & H1 & H2 & H3).
  - reflexivity.
  - reflexivity.
  - exact Sample_tables_in_range.
  - simpl. lia.
  - exists st, ak, s', env', evs. split; [exact H1|]. split; [exact H2|].
    destruct H3 as [(Ha & Hb & Hc & _)|(Ha & Hb & _)].
    + left. split; [exact Ha|]. split; [exact Hb|exact Hc].
    + right. split; [exact Ha|exact Hb].
Defined.

(** C5 as stated fails for the null chain: the call returns
    [STATUS_ALREADY_COMPLETE], which is not a failure, and passes nothing
    to [FreeSendNetBufferList]; the caller's [AllKeepalive] is left as it
    was, here false, although every packet of the chain (there is none)
    has the keepalive length. *)
Lemma send_null_chain_counterexample :
  SocketSendNblsToPeer Sample.os 32 1 [] (Sample.state_of Sample.endpoint_fresh) [] false
    = Some (STATUS_ALREADY_COMPLETE, false, Sample.state_of Sample.endpoint_fresh, []) /\
  NT_SUCCESS STATUS_ALREADY_COMPLETE = true /\
  STATUS_ALREADY_COMPLETE <> STATUS_SUCCESS /\
  (forall Nb, In Nb (packets []) -> DataLength Nb = 32) /\
  frees (Log (Sample.state_of Sample.endpoint_fresh)) = [].
Proof.
  split; [reflexivity|]. split; [reflexivity|]. split; [vm_compute; discriminate|].
  split; [intros Nb []|reflexivity].
Qed.

(** * Further properties of the code *)

(** ** The comparison of addresses and endpoints *)

Lemma in6_q_inj w0 w1 w0' w1' :
  is_u32 w0 -> is_u32 w0' ->
  Z.lor w0 (Z.shiftl w1 32) = Z.lor w0' (Z.shiftl w1' 32) -> w0 = w0' /\ w1 = w1'.
Proof.
  intros H0 H0' H. split.
  - apply Z.bits_inj'. intros i Hi.
    destruct (Z.ltb_spec i 32) as [Hlt|Hge].
    + apply (f_equal (fun x => Z.testbit x i)) in H.
      rewrite !Z.lor_spec, !Z.shiftl_spec_low, !orb_false_r in H by lia. exact H.
    + rewrite (is_u32_testbit w0), (is_u32_testbit w0') by (assumption || lia). reflexivity.
  - apply Z.bits_inj'. intros i Hi.
    apply (f_equal (fun x => Z.testbit x (i + 32))) in H.
    rewrite !Z.lor_spec, !Z.shiftl_spec in H by lia.
    rewrite (is_u32_testbit w0), (is_u32_testbit w0') in H by (assumption || lia).
    replace (i + 32 - 32) with i in H by lia. exact H.
Qed.

Lemma Ipv6AddrEq_halves A1 A2 :
  Ipv6AddrEq A1 A2 = true <-> in6_q0 A1 = in6_q0 A2 /\ in6_q1 A1 = in6_q1 A2.
Proof.
  unfold Ipv6AddrEq. rewrite Z.eqb_eq, Z.lor_eq_0_iff, !Z.lxor_eq_0_iff. reflexivity.
Qed.

(** X1.  [Ipv6AddrEq], which compares two addresses as two 64-bit halves
    with exclusive-or, is true exactly when the two addresses are the same
    sixteen bytes. *)
Theorem Ipv6AddrEq_decides_equality (A1 A2 : IN6_ADDR) :
  is_in6 A1 -> is_in6 A2 ->
  (Ipv6AddrEq A1 A2 = true <-> A1 = A2).
Proof.
  intros (Ha0 & Ha1 & Ha2 & Ha3) (Hb0 & Hb1 & Hb2 & Hb3).
  rewrite Ipv6AddrEq_halves. unfold in6_q0, in6_q1. split.
  - intros [H0 H1].
    apply in6_q_inj in H0 as [E0 E1]; [|assumption..].
    apply in6_q_inj in H1 as [E2 E3]; [|assumption..].
    destruct A1, A2. cbn in *. congruence.
  - intros ->. split; reflexivity.
Qed.

Lemma Ipv6AddrEq_decides_equality_witness :
  (Ipv6AddrEq Sample.ip6_2001_db8__1 Sample.ip6_2001_db8__1 = true <->
   Sample.ip6_2001_db8__1 = Sample.ip6_2001_db8__1) /\
  (Ipv6AddrEq Sample.ip6_2001_db8__1 Sample.ip6_2001_d00 = true <->
   Sample.ip6_2001_db8__1 = Sample.ip6_2001_d00).
Proof.
  assert (H1 : is_in6 Sample.ip6_2001_db8__1)
    by (vm_compute; repeat split; (discriminate || reflexivity)).
  assert (H2 : is_in6 Sample.ip6_2001_d00)
    by (vm_compute; repeat split; (discriminate || reflexivity)).
  split.
  - exact (Ipv6AddrEq_decides_equality _ _ H1 H1).
  - exact (Ipv6AddrEq_decides_equality _ _ H1 H2).
Defined.

Lemma EndpointEq_true A B :
  EndpointEq A B = true <->
  (si_family (Addr A) = AF_INET /\ si_family (Addr B) = AF_INET /\
   sin_port (Addr A) = sin_port (Addr B) /\
   sin_addr (Addr A) = sin_addr (Addr B) /\
   Src4_ipi_addr (Src A) = Src4_ipi_addr (Src B) /\
   Src4_ipi_ifindex (Src A) = Src4_ipi_ifindex (Src B))
  \/
  (si_family (Addr A) = AF_INET6 /\ si_family (Addr B) = AF_INET6 /\
   sin_port (Addr A) = sin_port (Addr B) /\
   (in6_q0 (sin6_addr (Addr A)) = in6_q0 (sin6_addr (Addr B)) /\
    in6_q1 (sin6_addr (Addr A)) = in6_q1 (sin6_addr (Addr B))) /\
   sin6_scope_id (Addr A) = sin6_scope_id (Addr B) /\
   (in6_q0 (Src6_ipi6_addr (Src A)) = in6_q0 (Src6_ipi6_addr (Src B)) /\
    in6_q1 (Src6_ipi6_addr (Src A)) = in6_q1 (Src6_ipi6_addr (Src B))) /\
   Src6_ipi6_ifindex (Src A) = Src6_ipi6_ifindex (Src B))
  \/
  (si_family (Addr A) = 0 /\ si_family (Addr B) = 0).
Proof.
  unfold EndpointEq.
  rewrite !orb_true_iff, !andb_true_iff, !Z.eqb_eq, !Ipv6AddrEq_halves.
  tauto.
Qed.

(** X2.  [EndpointEq] is a partial equivalence on endpoints: it is
    symmetric and transitive, and it holds between an endpoint and itself
    exactly when the family of the endpoint is IPv4, IPv6 or unset (0); an
    endpoint of any other family is not equal to itself. *)
Theorem EndpointEq_partial_equivalence :
  (forall A B : ENDPOINT, EndpointEq A B = EndpointEq B A) /\
  (forall A B C : ENDPOINT,
     EndpointEq A B = true -> EndpointEq B C = true -> EndpointEq A C = true) /\
  (forall A : ENDPOINT,
     EndpointEq A A = true <->
     si_family (Addr A) = AF_INET \/ si_family (Addr A) = AF_INET6 \/
     si_family (Addr A) = 0).
Proof.
  assert (Hsym : forall A B, EndpointEq A B = true -> EndpointEq B A = true).
  { intros A B. rewrite !EndpointEq_true.
    intros [(H1 & H2 & H3 & H4 & H5 & H6)
           |[(H1 & H2 & H3 & (H4 & H4') & H5 & (H6 & H6') & H7)|(H1 & H2)]].
    - left. repeat split; congruence.
    - right. left. repeat split; congruence.
    - right. right. split; assumption. }
  split; [|split].
  - intros A B. apply eq_true_iff_eq. split; apply Hsym.
  - intros A B C. rewrite !EndpointEq_true.
    intros [(H1 & H2 & H3 & H4 & H5 & H6)
           |[(H1 & H2 & H3 & (H4 & H4') & H5 & (H6 & H6') & H7)|(H1 & H2)]]
           [(K1 & K2 & K3 & K4 & K5 & K6)
           |[(K1 & K2 & K3 & (K4 & K4') & K5 & (K6 & K6') & K7)|(K1 & K2)]];
      try (rewrite K1 in H2; discriminate).
    + left. repeat split; congruence.
    + right. left. repeat split; congruence.
    + right. right. split; assumption.
  - intros A. rewrite EndpointEq_true. split.
    + intros [(H & _)|[(H & _)|(H & _)]]; auto.
    + intros [H|[H|H]]; [left|right; left|right; right]; repeat split; assumption.
Qed.

Lemma EndpointEq_partial_equivalence_witness :
  EndpointEq Sample.endpoint_stale Sample.endpoint_fresh =
    EndpointEq Sample.endpoint_fresh Sample.endpoint_stale /\
  EndpointEq Sample.endpoint_stale Sample.endpoint_stale = true /\
  EndpointEq (mkENDPOINT (mkSOCKADDR_INET 7 0 0 IN6ADDR_ANY 0) (mkWSACMSGHDR 0 0 0)
                PKTINFO_zero 0 0)
             (mkENDPOINT (mkSOCKADDR_INET 7 0 0 IN6ADDR_ANY 0) (mkWSACMSGHDR 0 0 0)
                PKTINFO_zero 0 0) <> true.
Proof.
  destruct EndpointEq_partial_equivalence as (Hs & Ht & Hr).
  split; [apply Hs|]. split.
  - apply (Ht _ Sample.endpoint_fresh); reflexivity.
  - intros H. apply Hr in H. vm_compute in H. destruct H as [H|[H|H]]; discriminate.
Defined.

(** ** Edge cases of the CIDR matchers *)

Lemma canonical_multiple t x :
  0 <= t < 32 -> is_u32 x -> x mod 2 ^ t = 0 -> canonical 32 x (32 - t).
Proof.
  intros Ht Hx Hm. unfold canonical.
  rewrite cidr_mask_pos by lia. replace (32 - (32 - t)) with t by lia.
  rewrite land_high_mask by (unfold is_u32 in Hx; lia).
  assert (0 < 2 ^ t) by (apply Z.pow_pos_nonneg; lia).
  pose proof (Z.div_mod x (2 ^ t)). lia.
Qed.

(** X3.  A route whose IPv4 destination prefix (a 32-bit address, its
    length at most 32) has a bit set beyond its length matches no address
    at all when its length is between 1 and 32: [CidrMaskMatchV4] masks
    the address and compares the result with the prefix as it stands.
    With the length 0 it matches every address, whatever its bits. *)
Theorem CidrMaskMatchV4_rejects_host_bits (A : Z) (P : IP_ADDRESS_PREFIX) :
  is_u32 (sin_addr (Prefix P)) ->
  0 <= PrefixLength P <= 32 ->
  ~ canonical 32 (addr32 (sin_addr (Prefix P))) (PrefixLength P) ->
  CidrMaskMatchV4 A P = Some (PrefixLength P =? 0).
Proof.
  intros HP HL Hnc. unfold CidrMaskMatchV4.
  destruct (Z.eqb_spec (PrefixLength P) 0) as [|HL0]; [reflexivity|].
  assert (HL1 : 0 < PrefixLength P <= 32) by lia. clear HL HL0.
  destruct (Z.ltb_spec 32 (PrefixLength P)) as [|_]; [lia|].
  f_equal. apply Z.eqb_neq. intros Heq. apply Hnc.
  set (t := 32 - PrefixLength P) in *.
  replace (PrefixLength P) with (32 - t) by (subst t; lia).
  apply canonical_multiple; [subst t; lia|apply Htonl_range|].
  rewrite shl32_ones_eq in Heq by (subst t; lia).
  assert (Ht : 0 < 2 ^ t) by (apply Z.pow_pos_nonneg; subst t; lia).
  assert (Hm : is_u32 (2 ^ 32 - 2 ^ t)).
  { unfold is_u32. assert (2 ^ t <= 2 ^ 32) by (apply Z.pow_le_mono_r; subst t; lia). lia. }
  unfold addr32, Ntohl. rewrite <- Heq.
  rewrite Htonl_land, Htonl_involutive by assumption.
  rewrite land_high_mask by (subst t; pose proof (Htonl_range A) as HA; unfold is_u32 in HA; lia).
  rewrite Z.mul_comm. apply Z.mod_mul. lia.
Qed.

(** The prefix 198.51.100.1/24 matches neither 198.51.100.1 nor
    198.51.100.0. *)
Lemma CidrMaskMatchV4_rejects_host_bits_witness :
  CidrMaskMatchV4 Sample.ip_198_51_100_1 (prefix4 Sample.ip_198_51_100_1 24) = Some false /\
  CidrMaskMatchV4 Sample.ip_198_51_100_0 (prefix4 Sample.ip_198_51_100_1 24) = Some false.
Proof.
  assert (HP : is_u32 (sin_addr (Prefix (prefix4 Sample.ip_198_51_100_1 24))))
    by (vm_compute; split; [discriminate|reflexivity]).
  assert (HL : 0 <= PrefixLength (prefix4 Sample.ip_198_51_100_1 24) <= 32)
    by (simpl; lia).
  assert (Hnc : ~ canonical 32 (addr32 (sin_addr (Prefix (prefix4 Sample.ip_198_51_100_1 24))))
                   (PrefixLength (prefix4 Sample.ip_198_51_100_1 24)))
    by (vm_compute; discriminate).
  split.
  - exact (CidrMaskMatchV4_rejects_host_bits _ _ HP HL Hnc).
  - exact (CidrMaskMatchV4_rejects_host_bits _ _ HP HL Hnc).
Defined.

(** X4.  A host route matches exactly its own address: with a prefix
    length of 32 [CidrMaskMatchV4] is true exactly for the address of the
    prefix, and with a prefix length of 128 [CidrMaskMatchV6] is true
    exactly for the sixteen bytes of the prefix. *)
Theorem CidrMaskMatch_host_route (A4 : Z) (A6 : IN6_ADDR) (P : IP_ADDRESS_PREFIX) :
  is_u32 A4 ->
  (PrefixLength P = 32 ->
   exists b, CidrMaskMatchV4 A4 P = Some b /\ (b = true <-> A4 = sin_addr (Prefix P))) /\
  (PrefixLength P = 128 ->
   exists b, CidrMaskMatchV6 A6 P = Some b /\ (b = true <-> A6 = sin6_addr (Prefix P))).
Proof.
  intros HA. split; intros HL.
  - unfold CidrMaskMatchV4. rewrite HL. cbn [Z.eqb Z.ltb Z.compare Pos.compare Pos.compare_cont].
    eexists. split; [reflexivity|].
    change (Htonl (shl32_ones (32 - 32))) with (Z.ones 32).
    rewrite Z.land_ones by lia. rewrite Z.mod_small by exact HA.
    apply Z.eqb_eq.
  - unfold CidrMaskMatchV6. rewrite HL.
    change (128 =? 0) with false. change (128 / 32) with 4. change (128 mod 32) with 0.
    unfold RtlEqualMemory_parts.
    change (4 <? 4) with false. change (4 <? 1) with false. change (4 <? 2) with false.
    change (4 <? 3) with false. cbn [orb].
    destruct A6 as [a0 a1 a2 a3], (sin6_addr (Prefix P)) as [p0 p1 p2 p3].
    cbn [in6_w0 in6_w1 in6_w2 in6_w3].
    destruct (Z.eqb_spec p0 a0), (Z.eqb_spec p1 a1), (Z.eqb_spec p2 a2), (Z.eqb_spec p3 a3);
      cbn [andb]; eexists; (split; [reflexivity|]);
      split; intros H; try discriminate; try congruence.
Qed.

Lemma CidrMaskMatch_host_route_witness :
  (exists b, CidrMaskMatchV4 Sample.ip_198_51_100_1 (prefix4 Sample.ip_198_51_100_1 32) = Some b /\
             (b = true <-> Sample.ip_198_51_100_1 = Sample.ip_198_51_100_1)) /\
  (exists b, CidrMaskMatchV6 Sample.ip6_2001_db8__1 (prefix6 Sample.ip6_2001_d00 128) = Some b /\
             (b = true <-> Sample.ip6_2001_db8__1 = Sample.ip6_2001_d00)).
Proof.
  assert (HA : is_u32 Sample.ip_198_51_100_1) by (vm_compute; split; [discriminate|reflexivity]).
  split.
  - exact (proj1 (CidrMaskMatch_host_route Sample.ip_198_51_100_1 Sample.ip6_2001_db8__1
                    (prefix4 Sample.ip_198_51_100_1 32) HA) eq_refl).
  - exact (proj2 (CidrMaskMatch_host_route Sample.ip_198_51_100_1 Sample.ip6_2001_db8__1
                    (prefix6 Sample.ip6_2001_d00 128) HA) eq_refl).
Defined.

(** ** What the resolver logs *)

Lemma scan_row_events os A D row b b' evs :
  scan_row os A D row b = Some (b', evs) -> forallb is_resolver_event evs = true.
Proof.
  unfold scan_row.
  repeat match goal with
         | |- context [if ?c then _ else _] => destruct c
         | |- context [mbind _ ?o] => destruct o as [[]|]; cbn [mbind option_bind negb]
         end;
    intros [= <- <-] || discriminate; reflexivity.
Qed.

Lemma scan_table_events os A D : forall Table b b' evs,
  scan_table os A D Table b = Some (b', evs) -> forallb is_resolver_event evs = true.
Proof.
  induction Table as [|row Table IH]; intros b b' evs; cbn [scan_table].
  - intros [= <- <-]. reflexivity.
  - destruct (scan_row os A D row b) as [[b1 ev1]|] eqn:Hrow; [|discriminate].
    cbn [mbind option_bind].
    destruct (scan_table os A D Table b1) as [[b2 ev2]|] eqn:Htab; [|discriminate].
    cbn [mbind option_bind]. intros [= <- <-].
    rewrite forallb_app. apply andb_true_iff. split.
    + eapply scan_row_events; eassumption.
    + eapply IH; eassumption.
Qed.

Ltac solve_events Hsev :=
  eexists; split;
  [ rewrite <- ?app_assoc; reflexivity
  | rewrite ?forallb_app, ?Hsev; try reflexivity ].

Lemma resolve_pass_events (os : OS) (env : list Interference) (s : State) (r : PASS) :
  resolve_pass os env s = Some r ->
  match r with
  | Return _ s' _ | Retry s' _ =>
      exists evs, Log s' = Log s ++ evs /\ forallb is_resolver_event evs = true
  end.
Proof.
  destruct s as [[e l tx dev] g4 g6 lg fl].
  destruct l; [|discriminate|discriminate].
  unfold resolve_pass. exec_step.
  destruct (fast_path_V4 _).
  { intros [= <-]. exec_step. solve_events I. }
  destruct (fast_path_V6 _).
  { intros [= <-]. exec_step. solve_events I. }
  exec_step.
  match goal with
  | |- context [yield env ?st] =>
      match st with
      | mkState (mkWG_PEER ?a ?b ?c ?d) ?g ?h ?i ?j =>
          destruct (yield_canon env a b c d g h i j)
            as (e3 & g43 & g63 & env3 & Hy3 & _); rewrite Hy3
      end
  end.
  exec_step.
  set (F := si_family (Addr e3)).
  set (Status := fst (GetIpForwardTable2 os F)).
  set (Table := snd (GetIpForwardTable2 os F)).
  destruct (NT_SUCCESS Status); cbn [negb].
  2:{ intros [= <-]. solve_events I. }
  destruct (MemAllocate os); cbn [negb].
  2:{ intros [= <-]. solve_events I. }
  destruct (scan_table os (Addr e3) (DeviceInterfaceLuid dev) Table BEST_init)
    as [[Best sevs]|] eqn:Hscan; [|discriminate].
  apply scan_table_events in Hscan.
  exec_step.
  set (route := negb (Z.of_nat (length Table) =? 0) && negb (BestIndex Best =? 0)).
  set (R := GetBestRoute2 os (BestIndex Best) (Addr e3)).
  set (bre := if route then [EvGetBestRoute2 (BestIndex Best) (Addr e3)] else []).
  assert (Hbre : forallb is_resolver_event bre = true) by (subst bre; destruct route; reflexivity).
  clearbody bre.
  destruct (NT_SUCCESS (if route then fst R else Status)); cbn [negb].
  2:{ intros [= <-]. solve_events Hscan. rewrite Hbre. reflexivity. }
  set (SrcAddr := if route then snd R else SOCKADDR_INET_zero). clearbody SrcAddr.
  match goal with
  | |- context [yield env3 ?st] =>
      match st with
      | mkState (mkWG_PEER ?a ?b ?c ?d) ?g ?h ?i ?j =>
          destruct (yield_canon env3 a b c d g h i j)
            as (e8 & g48 & g68 & env8 & Hy8 & _); rewrite Hy8
      end
  end.
  exec_step.
  destruct (UpdateGeneration e8 =? UpdateGeneration e); cbn [negb].
  2:{ exec_step. intros [= <-]. solve_events Hscan. rewrite Hbre. reflexivity. }
  rewrite exec_write_source.
  destruct (write_source _ e8 SrcAddr (BestIndex Best)) as [e' Index].
  exec_step.
  destruct (Index =? 0).
  { intros [= <-]. solve_events Hscan. rewrite Hbre. reflexivity. }
  match goal with
  | |- context [yield env8 ?st] =>
      match st with
      | mkState (mkWG_PEER ?a ?b ?c ?d) ?g ?h ?i ?j =>
          destruct (yield_canon env8 a b c d g h i j)
            as (e11 & g411 & g611 & env11 & Hy11 & _); rewrite Hy11
      end
  end.
  exec_step.
  destruct (UpdateGeneration e11 =? u32 (UpdateGeneration e + 1)); cbn [negb].
  - intros [= <-]. solve_events Hscan. rewrite Hbre. reflexivity.
  - exec_step. intros [= <-]. solve_events Hscan. rewrite Hbre. reflexivity.
Qed.

(** Whatever the resolver returns, it has only taken and released the
    endpoint lock and called the routing API. *)
Lemma resolver_events (os : OS) : forall (fuel : nat) (env : list Interference) (s : State)
    (st : NTSTATUS) (s' : State) (env' : list Interference),
  SocketResolvePeerEndpointSrc os fuel env s = Some (st, s', env') ->
  exists evs, Log s' = Log s ++ evs /\ forallb is_resolver_event evs = true.
Proof.
  induction fuel as [|fuel IH]; intros env s st s' env'; [discriminate|].
  cbn [SocketResolvePeerEndpointSrc].
  destruct (resolve_pass os env s) as [r|] eqn:Hr; [|discriminate].
  cbn [mbind option_bind]. apply resolve_pass_events in Hr.
  destruct r as [st1 s1 env1|s1 env1].
  - intros [= <- <- <-]. exact Hr.
  - intros H. destruct Hr as (evs1 & Hl1 & He1).
    destruct (IH _ _ _ _ _ H) as (evs2 & Hl2 & He2).
    exists (evs1 ++ evs2). split.
    + rewrite Hl2, Hl1, app_assoc. reflexivity.
    + rewrite forallb_app, He1, He2. reflexivity.
Qed.

Lemma resolver_events_quiet evs :
  forallb is_resolver_event evs = true ->
  frees evs = [] /\ mdl_frees evs = [] /\ ctx_frees evs = 0%nat /\ sends evs = [].
Proof.
  induction evs as [|e evs IH]; [repeat split|].
  cbn [forallb]. intros H. apply andb_true_iff in H as [He H].
  destruct (IH H) as (I1 & I2 & I3 & I4).
  unfold frees, mdl_frees, ctx_frees, sends in *. cbn [flat_map].
  rewrite ?length_app, I1, I2, I4. rewrite I3.
  destruct e; try discriminate; repeat split.
Qed.

(** ** The statistics of the packet-chain send path *)

Lemma u64_add_l a b : u64 (u64 a + b) = u64 (a + b).
Proof. unfold u64. apply Z.add_mod_idemp_l. lia. Qed.

Lemma u64_add_r a b : u64 (a + u64 b) = u64 (a + b).
Proof. unfold u64. apply Z.add_mod_idemp_r. lia. Qed.

Lemma send_loop_Nbl_totals M Nbl : forall a,
  u64 (Loop_DataLength (send_loop_Nbl M a Nbl)) =
    u64 (Loop_DataLength a + foldr (fun Nb acc => DataLength Nb + acc) 0 Nbl) /\
  u64 (Loop_Packets (send_loop_Nbl M a Nbl)) =
    u64 (Loop_Packets a + Z.of_nat (length Nbl)).
Proof.
  unfold send_loop_Nbl. induction Nbl as [|Nb Nbl IH]; intros a; cbn [fold_left foldr length].
  - rewrite !Z.add_0_r. split; reflexivity.
  - destruct (IH (send_loop_Nb M a Nb)) as [I1 I2]. rewrite I1, I2.
    cbn [send_loop_Nb Loop_DataLength Loop_Packets]. rewrite !u64_add_l.
    split; f_equal; lia.
Qed.

Lemma send_loop_totals M First : forall a,
  u64 (Loop_DataLength (send_loop M First a)) = u64 (Loop_DataLength a + chain_bytes First) /\
  u64 (Loop_Packets (send_loop M First a)) = u64 (Loop_Packets a + chain_packets First).
Proof.
  unfold send_loop, chain_bytes, chain_packets, packets.
  induction First as [|Nbl First IH]; intros a; cbn [fold_left concat].
  - cbn [foldr length]. rewrite !Z.add_0_r. split; reflexivity.
  - destruct (IH (send_loop_Nbl M a Nbl)) as [I1 I2]. rewrite I1, I2.
    destruct (send_loop_Nbl_totals M Nbl a) as [J1 J2].
    rewrite foldr_app, length_app, Nat2Z.inj_add.
    rewrite <- u64_add_l, J1, u64_add_l.
    rewrite <- (u64_add_l (Loop_Packets (send_loop_Nbl M a Nbl))), J2, u64_add_l.
    assert (Hf : forall l x, foldr (fun Nb acc => DataLength Nb + acc) x l =
                             foldr (fun Nb acc => DataLength Nb + acc) 0 l + x).
    { induction l as [|y l IHl]; intros x; cbn [foldr]; [lia|rewrite IHl; lia]. }
    rewrite (Hf Nbl (foldr _ 0 (concat First))). split; f_equal; lia.
Qed.

(** X5.  For a chain whose first [NET_BUFFER_LIST] holds a [NET_BUFFER]
    (as the lists of NDIS do), on a system whose forwarding tables have
    their prefix lengths within the width of the family, with the
    endpoint lock free and more fuel than interference,
    [SocketSendNblsToPeer] returns with the endpoint lock free again, and
    its status is [STATUS_SUCCESS] or a failure.  On [STATUS_SUCCESS] the byte counter of the peer and the two
    octet counters of the device have grown by the bytes of the chain, and
    the packet counter of the device by the number of its packets (all in
    64-bit arithmetic), and nothing else of the device has changed.  On a
    failure the counters of the peer and the device are as before. *)
Theorem send_chain_accounting (os : OS) (MessageDataLen0 : Z) (fuel : nat)
    (env : list Interference) (s : State) (First : NBL_CHAIN) (AllKeepalive0 : bool) :
  chain_has_first_packet First = true ->
  EndpointLock (Peer s) = Unlocked ->
  tables_in_range os ->
  (length env < fuel)%nat ->
  exists (st : NTSTATUS) (AllKeepalive : bool) (s' : State) (env' : list Interference),
    SocketSendNblsToPeer os MessageDataLen0 fuel env s First AllKeepalive0
      = Some (st, AllKeepalive, s', env') /\
    EndpointLock (Peer s') = Unlocked /\
    ((st = STATUS_SUCCESS /\
      TxBytes (Peer s') = u64 (TxBytes (Peer s) + chain_bytes First) /\
      ifHCOutOctets (Statistics (Device (Peer s'))) =
        u64 (ifHCOutOctets (Statistics (Device (Peer s))) + chain_bytes First) /\
      ifHCOutUcastOctets (Statistics (Device (Peer s'))) =
        u64 (ifHCOutUcastOctets (Statistics (Device (Peer s))) + chain_bytes First) /\
      ifHCOutUcastPkts (Statistics (Device (Peer s'))) =
        u64 (ifHCOutUcastPkts (Statistics (Device (Peer s))) + chain_packets First) /\
      DeviceInterfaceLuid (Device (Peer s')) = DeviceInterfaceLuid (Device (Peer s)) /\
      Sock4 (Device (Peer s')) = Sock4 (Device (Peer s)) /\
      Sock6 (Device (Peer s')) = Sock6 (Device (Peer s)))
     \/
     (NT_SUCCESS st = false /\
      TxBytes (Peer s') = TxBytes (Peer s) /\
      Device (Peer s') = Device (Peer s))).
Proof.
  intros Hwf Hlock Hrange Hfuel.
  unfold SocketSendNblsToPeer.
  destruct First as [|Nbl First]; [discriminate|].
  set (C := Nbl :: First) in *.
  destruct (ExAllocateFromLookasideListEx os); cbn [negb].
  2:{ eexists _, _, _, _. split; [reflexivity|].
      destruct s as [[e l tx dev] g4 g6 lg fl]. cbn in Hlock. subst l.
      split; [reflexivity|]. right. repeat split. }
  destruct (resolver_total os Hrange fuel env (emit [EvAllocateFromLookasideList] s) Hfuel)
    as (st & s2 & env2 & Hres & _ & (Htx & Hdev & _) & Hst).
  { destruct s as [[e l tx dev] g4 g6 lg fl]. exact Hlock. }
  rewrite Hres. cbn [mbind option_bind].
  assert (Htx' : TxBytes (Peer s2) = TxBytes (Peer s)) by (rewrite Htx; destruct s; reflexivity).
  assert (Hdev' : Device (Peer s2) = Device (Peer s)) by (rewrite Hdev; destruct s; reflexivity).
  clear Htx Hdev Hres.
  destruct Hst as [(-> & Hl2)|(Hfail & Hl2)].
  - cbn [NT_SUCCESS STATUS_SUCCESS Z.leb Z.compare negb].
    destruct s2 as [[e2 l2 tx2 dev2] g42 g62 lg2 fl2].
    cbn [Peer Endpoint EndpointLock TxBytes Device] in *. subst l2 tx2 dev2.
    exec_step.
    set (Ctx := mkSOCKET_SEND_CTX e2 true C (mkWSK_BUF 0 0 0)).
    set (S3 := mkState _ g42 g62 _ _).
    destruct (SendAsync_chain Ctx S3 eq_refl Hwf) as [Hsend|Hsend]; rewrite Hsend;
      cbn [mbind option_bind].
    + eexists _, _, _, _. split; [reflexivity|].
      unfold cleanupCtx, cleanupNbls. subst S3. exec_step.
      split; [reflexivity|]. right. repeat split.
    + eexists _, _, _, _. split; [reflexivity|].
      subst S3. unfold account, set_InFlight, set_Peer. exec_step.
      split; [reflexivity|]. left. split; [reflexivity|].
      cbn [Statistics ifHCOutOctets ifHCOutUcastOctets ifHCOutUcastPkts
           DeviceInterfaceLuid Sock4 Sock6].
      destruct (send_loop_totals MessageDataLen0 C (mkSEND_LOOP 0 0 true)) as [T1 T2].
      cbn [Loop_DataLength Loop_Packets] in T1, T2. rewrite !Z.add_0_l in T1, T2.
      rewrite <- !(u64_add_r _ (Loop_DataLength _)), <- !(u64_add_r _ (Loop_Packets _)).
      rewrite T1, T2, !u64_add_r. repeat split.
  - rewrite Hfail. cbn [negb].
    eexists _, _, _, _. split; [reflexivity|].
    unfold cleanupCtx, cleanupNbls.
    destruct s2 as [[e2 l2 tx2 dev2] g42 g62 lg2 fl2].
    cbn [Peer Endpoint EndpointLock TxBytes Device] in *. subst.
    exec_step. split; [reflexivity|]. right. repeat split. assumption.
Qed.

(** A keepalive of 32 bytes and a data packet of 148 bytes are sent to
    198.51.100.1: 180 bytes, 2 packets. *)
Lemma send_chain_accounting_witness :
  exists (st : NTSTATUS) (AllKeepalive : bool) (s' : State) (env' : list Interference),
    SocketSendNblsToPeer Sample.os 32 3 [Sample.other_thread_clears]
      (Sample.state_of Sample.endpoint_stale) Sample.chain true
      = Some (st, AllKeepalive, s', env') /\
    EndpointLock (Peer s') = Unlocked /\
    ((st = STATUS_SUCCESS /\ TxBytes (Peer s') = 180 /\
      ifHCOutUcastPkts (Statistics (Device (Peer s'))) = 2)
     \/ NT_SUCCESS st = false).
Proof.
  destruct (send_chain_accounting Sample.os 32 3 [Sample.other_thread_clears]
              (Sample.state_of Sample.endpoint_stale) Sample.chain true)
    as (st & ak & s' & env' & H1 & H2 & H3).
  - reflexivity.
  - reflexivity.
  - exact Sample_tables_in_range.
  - simpl. lia.
  - exists st, ak, s', env'. split; [exact H1|]. split; [exact H2|].
    destruct H3 as [(Ha & Hb & _ & _ & Hc & _)|(Ha & _)].
    + left. split; [exact Ha|]. split; [exact Hb|exact Hc].
    + right. exact Ha.
Defined.

(** ** The owned-buffer send paths *)

Lemma SendAsync_buffer (Ctx : SOCKET_SEND_CTX) (s : State) :
  Ctx_IsNbl Ctx = false ->
  SendAsync Ctx s =
    if has_socket s (Ctx_Endpoint Ctx)
    then Some (STATUS_SUCCESS, set_InFlight (InFlight s ++ [Ctx]) (emit [EvWskSendTo Ctx] s))
    else Some (STATUS_NETWORK_UNREACHABLE, s).
Proof.
  intros Hb. unfold SendAsync, has_socket. rewrite Hb.
  destruct (Z.eqb_spec (si_family (Addr (Ctx_Endpoint Ctx))) AF_INET) as [E4|N4].
  - rewrite E4. change (AF_INET =? AF_INET6) with false. cbn [andb orb].
    rewrite orb_false_r. destruct (Sock4 _); reflexivity.
  - cbn [andb orb].
    destruct (Z.eqb_spec (si_family (Addr (Ctx_Endpoint Ctx))) AF_INET6) as [E6|N6];
      cbn [andb]; [destruct (Sock6 _); reflexivity|reflexivity].
Qed.

Lemma RtlCopyMemory_Mdl_ok Mdl Buffer Len m :
  0 <= Len <= Z.of_nat (length Buffer) ->
  RtlCopyMemory_Mdl Mdl Buffer Len m = Some (<[Mdl := take (Z.to_nat Len) Buffer]> m).
Proof.
  intros [H0 H1]. unfold RtlCopyMemory_Mdl.
  apply Z.leb_le in H0, H1. rewrite H0, H1. reflexivity.
Qed.

Lemma mdl_frees_app evs1 evs2 : mdl_frees (evs1 ++ evs2) = mdl_frees evs1 ++ mdl_frees evs2.
Proof. unfold mdl_frees. apply flat_map_app. Qed.

Lemma ctx_frees_app evs1 evs2 : ctx_frees (evs1 ++ evs2) = (ctx_frees evs1 + ctx_frees evs2)%nat.
Proof. unfold ctx_frees. rewrite flat_map_app, length_app. reflexivity. Qed.

Lemma sends_app evs1 evs2 : sends (evs1 ++ evs2) = sends evs1 ++ sends evs2.
Proof. unfold sends. apply flat_map_app. Qed.

(** X6.  With the endpoint lock free, more fuel than interference and a
    buffer that holds [Len] bytes, [SocketSendBufferToPeer] returns with
    the endpoint lock free again and the device untouched.  Either the
    status is [STATUS_SUCCESS]: the byte counter of the peer has grown by
    [Len], exactly one context has been handed to the provider, for a
    single buffer of [Len] bytes at offset 0 holding the first [Len] bytes
    of the caller's buffer, addressed to the endpoint of the peer, there
    is a socket for its family, the call has freed nothing, and the
    completion routine of the context frees the buffer and the context
    once each.  Or the status is a failure: nothing was handed to the
    provider, the counter is as before, and the call has freed the context
    once if it was allocated and the buffer once if it was allocated. *)
Theorem send_buffer_to_peer_outcome (os : OS) (MemAllocateDataAndMdlChain : Z -> Z)
    (fuel : nat) (env : list Interference) (s : State) (m : MDL_DATA)
    (Buffer : list Z) (Len : Z) :
  0 <= Len <= Z.of_nat (length Buffer) ->
  EndpointLock (Peer s) = Unlocked ->
  tables_in_range os ->
  (length env < fuel)%nat ->
  let M := MemAllocateDataAndMdlChain Len in
  exists (st : NTSTATUS) (s' : State) (m' : MDL_DATA) (env' : list Interference)
         (evs : list Event),
    SocketSendBufferToPeer os MemAllocateDataAndMdlChain fuel env s m Buffer Len
      = Some (st, s', m', env') /\
    Log s' = Log s ++ evs /\
    EndpointLock (Peer s') = Unlocked /\
    Device (Peer s') = Device (Peer s) /\
    ((st = STATUS_SUCCESS /\
      TxBytes (Peer s') = u64 (TxBytes (Peer s) + Len) /\
      mdl_frees evs = [] /\ ctx_frees evs = 0%nat /\
      exists Ctx,
        sends evs = [Ctx] /\ InFlight s' = InFlight s ++ [Ctx] /\
        Ctx_IsNbl Ctx = false /\ Ctx_Buffer Ctx = mkWSK_BUF M 0 Len /\
        m' !! M = Some (take (Z.to_nat Len) Buffer) /\
        Ctx_Endpoint Ctx = Endpoint (Peer s') /\
        has_socket s (Ctx_Endpoint Ctx) = true /\
        forall s'' : State,
          mdl_frees (Log (snd (SendComplete Ctx s''))) = mdl_frees (Log s'') ++ [M] /\
          ctx_frees (Log (snd (SendComplete Ctx s''))) = S (ctx_frees (Log s'')))
     \/
     (NT_SUCCESS st = false /\
      TxBytes (Peer s') = TxBytes (Peer s) /\
      InFlight s' = InFlight s /\ sends evs = [] /\
      ctx_frees evs = (if ExAllocateFromLookasideListEx os then 1 else 0)%nat /\
      mdl_frees evs =
        if ExAllocateFromLookasideListEx os && negb (M =? 0) then [M] else [])).
Proof.
  intros HLen Hlock Hrange Hfuel M.
  unfold SocketSendBufferToPeer. fold M.
  destruct (ExAllocateFromLookasideListEx os); cbn [negb andb].
  2:{ eexists _, _, _, _, _. split; [reflexivity|].
      destruct s as [[e l tx dev] g4 g6 lg fl]. cbn in Hlock. subst l. exec_step.
      split; [reflexivity|]. split; [reflexivity|]. split; [reflexivity|].
      right. repeat split. }
  destruct (M =? 0) eqn:HMdl; cbn [negb].
  { eexists _, _, _, _, _. split; [reflexivity|].
    destruct s as [[e l tx dev] g4 g6 lg fl]. cbn in Hlock. subst l.
    unfold cleanupCtx_Buffer. exec_step.
    split; [rewrite <- app_assoc; reflexivity|]. split; [reflexivity|]. split; [reflexivity|].
    right. repeat split. }
  rewrite (RtlCopyMemory_Mdl_ok M Buffer Len m HLen). cbn [mbind option_bind].
  destruct (resolver_total os Hrange fuel env (emit [EvAllocateFromLookasideList] s) Hfuel)
    as (st & s2 & env2 & Hres & _ & (Htx & Hdev & Hfl) & Hst).
  { destruct s as [[e l tx dev] g4 g6 lg fl]. exact Hlock. }
  destruct (resolver_events os _ _ _ _ _ _ Hres) as (evs2 & Hlog2 & Hev2).
  destruct (resolver_events_quiet evs2 Hev2) as (_ & Q2 & Q3 & Q4).
  rewrite Hres. cbn [mbind option_bind].
  assert (Hlog2' : Log s2 = Log s ++ [EvAllocateFromLookasideList] ++ evs2).
  { rewrite Hlog2. destruct s. cbn [emit Log]. rewrite <- app_assoc. reflexivity. }
  assert (Htx' : TxBytes (Peer s2) = TxBytes (Peer s)) by (rewrite Htx; destruct s; reflexivity).
  assert (Hdev' : Device (Peer s2) = Device (Peer s)) by (rewrite Hdev; destruct s; reflexivity).
  assert (Hfl' : InFlight s2 = InFlight s) by (rewrite Hfl; destruct s; reflexivity).
  clear Htx Hdev Hfl Hres Hlog2.
  destruct Hst as [(-> & Hl2)|(Hfail & Hl2)].
  - cbn [NT_SUCCESS STATUS_SUCCESS Z.leb Z.compare negb].
    destruct s2 as [[e2 l2 tx2 dev2] g42 g62 lg2 fl2].
    cbn [Peer Endpoint EndpointLock TxBytes Device Log InFlight] in *. subst l2 tx2 dev2 lg2 fl2.
    exec_step.
    set (Ctx := mkSOCKET_SEND_CTX e2 false [] (mkWSK_BUF M 0 Len)).
    set (S3 := mkState _ g42 g62 _ _).
    rewrite (SendAsync_buffer Ctx S3 eq_refl).
    assert (Hhs : has_socket S3 (Ctx_Endpoint Ctx) = has_socket s (Ctx_Endpoint Ctx))
      by reflexivity.
    rewrite Hhs.
    destruct (has_socket s (Ctx_Endpoint Ctx)) eqn:Hsock; cbn [mbind option_bind].
    + eexists _, _, _, _, _. split; [reflexivity|].
      subst S3. unfold add_TxBytes, set_InFlight, set_Peer. exec_step.
      split; [rewrite <- !app_assoc; reflexivity|].
      split; [reflexivity|]. split; [reflexivity|].
      left. split; [reflexivity|]. split; [reflexivity|].
      split; [rewrite !mdl_frees_app, Q2; reflexivity|].
      split; [rewrite !ctx_frees_app, Q3; reflexivity|].
      exists Ctx. split; [rewrite !sends_app, Q4; reflexivity|].
      split; [reflexivity|]. split; [reflexivity|]. split; [reflexivity|].
      split; [apply lookup_insert_eq|]. split; [reflexivity|]. split; [exact Hsock|].
      intros s''. destruct s''. unfold SendComplete. cbn [snd Ctx Ctx_IsNbl Ctx_Buffer Mdl].
      rewrite exec_emit. cbn [Log]. rewrite mdl_frees_app, ctx_frees_app.
      split; [reflexivity|]. cbn. lia.
    + eexists _, _, _, _, _. split; [reflexivity|].
      unfold cleanupMdl, cleanupCtx_Buffer. subst S3. exec_step.
      split; [rewrite <- !app_assoc; reflexivity|].
      split; [reflexivity|]. split; [reflexivity|].
      right. split; [reflexivity|]. split; [reflexivity|]. split; [reflexivity|].
      split; [rewrite !sends_app, Q4; reflexivity|].
      split; [rewrite !ctx_frees_app, Q3; reflexivity|].
      rewrite !mdl_frees_app, Q2; reflexivity.
  - rewrite Hfail. cbn [negb].
    eexists _, _, _, _, _. split; [reflexivity|].
    unfold cleanupMdl, cleanupCtx_Buffer.
    destruct s2 as [[e2 l2 tx2 dev2] g42 g62 lg2 fl2].
    cbn [Peer Endpoint EndpointLock TxBytes Device Log InFlight] in *. subst.
    exec_step.
    split; [rewrite <- !app_assoc; reflexivity|].
    split; [reflexivity|]. split; [reflexivity|].
    right. split; [assumption|]. split; [reflexivity|]. split; [reflexivity|].
    split; [rewrite !sends_app, Q4; reflexivity|].
    split; [rewrite !ctx_frees_app, Q3; reflexivity|].
    rewrite !mdl_frees_app, Q2; reflexivity.
Qed.

(** An 8-byte message is sent to 198.51.100.1 from a buffer that holds
    it. *)
Lemma send_buffer_to_peer_outcome_witness :
  exists (st : NTSTATUS) (s' : State) (m' : MDL_DATA) (env' : list Interference)
         (evs : list Event),
    SocketSendBufferToPeer Sample.os SampleMore.alloc_mdl 3 []
      (Sample.state_of Sample.endpoint_stale) ∅ SampleMore.message 8
      = Some (st, s', m', env') /\
    Log s' = Log (Sample.state_of Sample.endpoint_stale) ++ evs /\
    EndpointLock (Peer s') = Unlocked.
Proof.
  destruct (send_buffer_to_peer_outcome Sample.os SampleMore.alloc_mdl 3 []
              (Sample.state_of Sample.endpoint_stale) ∅ SampleMore.message 8)
    as (st & s' & m' & env' & evs & H1 & H2 & H3 & _).
  - simpl. lia.
  - reflexivity.
  - exact Sample_tables_in_range.
  - simpl. lia.
  - exists st, s', m', env', evs. split; [exact H1|]. split; [exact H2|exact H3].
Defined.

(** ** The search of the control information *)

Lemma FindInCmsgHdr_loop_first n buf Level Type_ : forall Len Hdr msgs,
  0 <= Len < 2 ^ 64 ->
  control_msgs n buf Len Hdr = Some msgs ->
  match List.find (cmsg_matches Level Type_) msgs with
  | None => FindInCmsgHdr_loop (S n) buf Len Hdr Level Type_ = Some None
  | Some c =>
      exists p,
        FindInCmsgHdr_loop (S n) buf Len Hdr Level Type_ = Some (Some p) /\
        buf !! (p - WSA_CMSGDATA_ALIGN sizeof_WSACMSGHDR) = Some c /\
        cmsg_payload_ok c = true
  end.
Proof.
  induction n as [|n IH]; intros Len Hdr msgs HLen Hm.
  - simpl in Hm. destruct (Z.eqb_spec Len 0) as [->|Hne]; [|discriminate].
    injection Hm as <-. reflexivity.
  - cbn [control_msgs] in Hm.
    destruct (Z.eqb_spec Len 0) as [->|Hne].
    { injection Hm as <-. reflexivity. }
    destruct (buf !! Hdr) as [c|] eqn:Hc; [|discriminate].
    cbn [mbind option_bind] in Hm.
    set (a := WSA_CMSGHDR_ALIGN (cmsg_len (cmsg_hdr c))) in *.
    destruct ((0 <? a) && (a <=? Len) && cmsg_payload_ok c) eqn:Hok; [|discriminate].
    apply andb_true_iff in Hok as [Hok Hpay].
    apply andb_true_iff in Hok as [Ha0 HaL].
    apply Z.ltb_lt in Ha0. apply Z.leb_le in HaL.
    destruct (control_msgs n buf (Len - a) (Hdr + a)) as [cs|] eqn:Hcs; [|discriminate].
    cbn [mbind option_bind] in Hm. injection Hm as <-.
    cbn [FindInCmsgHdr_loop List.find].
    destruct (Z.ltb_spec 0 Len) as [_|]; [|lia].
    rewrite Hc. cbn [mbind option_bind].
    fold (cmsg_matches Level Type_ c).
    destruct (cmsg_matches Level Type_ c) eqn:Hmatch.
    + exists (WSA_CMSG_DATA Hdr). repeat split; try assumption.
      unfold WSA_CMSG_DATA. replace (Hdr + _ - _) with Hdr by lia. assumption.
    + fold a. rewrite (usize_small (Len - a)) by lia.
      exact (IH (Len - a) (Hdr + a) cs ltac:(lia) Hcs).
Qed.

Lemma FindInCmsgHdr_first n Data Level Type_ msgs :
  datagram_msgs n Data = Some msgs ->
  match List.find (cmsg_matches Level Type_) msgs with
  | None => FindInCmsgHdr (S n) Data Level Type_ = Some None
  | Some c =>
      exists p buf,
        ControlInfo Data = Some buf /\
        FindInCmsgHdr (S n) Data Level Type_ = Some (Some p) /\
        buf !! (p - WSA_CMSGDATA_ALIGN sizeof_WSACMSGHDR) = Some c /\
        cmsg_matches Level Type_ c = true /\
        cmsg_payload_ok c = true
  end.
Proof.
  unfold datagram_msgs, FindInCmsgHdr. intros Hm.
  destruct (ControlInfo Data) as [buf|].
  - destruct ((0 <=? ControlInfoLength Data) && (ControlInfoLength Data <? 2 ^ 32)) eqn:Hr;
      [|discriminate].
    apply andb_true_iff in Hr as [H0 H1]. apply Z.leb_le in H0. apply Z.ltb_lt in H1.
    pose proof (FindInCmsgHdr_loop_first n buf Level Type_ (ControlInfoLength Data) 0 msgs
                  ltac:(lia) Hm) as H.
    destruct (List.find (cmsg_matches Level Type_) msgs) as [c|] eqn:Hfind; [|exact H].
    destruct H as (p & Hf & Hb & Hp). exists p, buf.
    apply List.find_some in Hfind as [_ Hmt]. repeat split; assumption.
  - injection Hm as <-. reflexivity.
Qed.

(** X7.  On well-formed control information (a sequence of at most [n]
    messages that fills [ControlInfoLength] bytes) [FindInCmsgHdr] returns
    within [n + 1] iterations; the result is null when no message has the
    level and type asked for, and otherwise points to the data of the
    first message that has them, 16 bytes after its header. *)
Theorem FindInCmsgHdr_finds_first_match (n : nat) (Data : WSK_DATAGRAM_INDICATION)
    (Level Type_ : Z) (msgs : list CMSG) :
  datagram_msgs n Data = Some msgs ->
  match List.find (cmsg_matches Level Type_) msgs with
  | None => FindInCmsgHdr (S n) Data Level Type_ = Some None
  | Some c =>
      exists p buf,
        ControlInfo Data = Some buf /\
        FindInCmsgHdr (S n) Data Level Type_ = Some (Some p) /\
        buf !! (p - 16) = Some c /\
        cmsg_matches Level Type_ c = true
  end.
Proof.
  intros Hm. pose proof (FindInCmsgHdr_first n Data Level Type_ msgs Hm) as H.
  destruct (List.find (cmsg_matches Level Type_) msgs) as [c|]; [|exact H].
  destruct H as (p & buf & H1 & H2 & H3 & H4 & _). exists p, buf.
  repeat split; assumption.
Qed.

(** The pkt-info of the sample datagram is found at offset 16; nothing is
    found for IPv6. *)
Lemma FindInCmsgHdr_finds_first_match_witness :
  (exists p buf,
     ControlInfo Sample.datagram = Some buf /\
     FindInCmsgHdr 2 Sample.datagram IPPROTO_IP IP_PKTINFO = Some (Some p) /\
     buf !! (p - 16) =
       Some (mkCMSG (mkWSACMSGHDR 24 IPPROTO_IP IP_PKTINFO) [Sample.ip_10_0_0_5; 4]) /\
     cmsg_matches IPPROTO_IP IP_PKTINFO
       (mkCMSG (mkWSACMSGHDR 24 IPPROTO_IP IP_PKTINFO) [Sample.ip_10_0_0_5; 4]) = true) /\
  FindInCmsgHdr 2 Sample.datagram IPPROTO_IPV6 IPV6_PKTINFO = Some None.
Proof.
  assert (Hm : datagram_msgs 1 Sample.datagram =
               Some [mkCMSG (mkWSACMSGHDR 24 IPPROTO_IP IP_PKTINFO) [Sample.ip_10_0_0_5; 4]])
    by (vm_compute; reflexivity).
  split.
  - exact (FindInCmsgHdr_finds_first_match 1 Sample.datagram IPPROTO_IP IP_PKTINFO _ Hm).
  - exact (FindInCmsgHdr_finds_first_match 1 Sample.datagram IPPROTO_IPV6 IPV6_PKTINFO _ Hm).
Defined.

(** X8.  A header whose aligned length is 0 and that is not the one
    looked for stops the search for good: the loop of [FindInCmsgHdr]
    moves neither the header pointer nor the remaining length, so no
    number of iterations gives a result. *)
Theorem FindInCmsgHdr_spins_on_empty_header (fuel : nat) (buf : gmap Z CMSG)
    (Len Hdr Level Type_ : Z) (c : CMSG) :
  0 < Len < 2 ^ 64 ->
  buf !! Hdr = Some c ->
  cmsg_matches Level Type_ c = false ->
  WSA_CMSGHDR_ALIGN (cmsg_len (cmsg_hdr c)) = 0 ->
  FindInCmsgHdr_loop fuel buf Len Hdr Level Type_ = None.
Proof. exact (FindInCmsgHdr_loop_stuck fuel buf Len Hdr Level Type_ c). Qed.

Lemma FindInCmsgHdr_spins_on_empty_header_witness :
  FindInCmsgHdr_loop 1000 {[ 0 := mkCMSG (mkWSACMSGHDR 0 0 0) [] ]} 24 0
    IPPROTO_IPV6 IPV6_PKTINFO = None.
Proof.
  apply (FindInCmsgHdr_spins_on_empty_header 1000 _ 24 0 IPPROTO_IPV6 IPV6_PKTINFO
           (mkCMSG (mkWSACMSGHDR 0 0 0) [])).
  - lia.
  - reflexivity.
  - reflexivity.
  - reflexivity.
Defined.

(** ** Endpoints learned from datagrams *)

Lemma payload4 c :
  cmsg_matches IPPROTO_IP IP_PKTINFO c = true -> cmsg_payload_ok c = true ->
  exists a i rest, cmsg_data c = a :: i :: rest.
Proof.
  intros Hm Hp. unfold cmsg_payload_ok in Hp. rewrite Hm in Hp.
  apply andb_true_iff in Hp as [Hp _]. cbn [negb orb] in Hp. apply Z.leb_le in Hp.
  destruct (cmsg_data c) as [|a [|i rest]]; cbn [length] in Hp; try lia.
  exists a, i, rest. reflexivity.
Qed.

Lemma payload6 c :
  cmsg_matches IPPROTO_IPV6 IPV6_PKTINFO c = true -> cmsg_payload_ok c = true ->
  exists a0 a1 a2 a3 i rest, cmsg_data c = a0 :: a1 :: a2 :: a3 :: i :: rest.
Proof.
  intros Hm Hp. unfold cmsg_payload_ok in Hp. rewrite Hm in Hp.
  apply andb_true_iff in Hp as [_ Hp]. cbn [negb orb] in Hp. apply Z.leb_le in Hp.
  destruct (cmsg_data c) as [|a0 [|a1 [|a2 [|a3 [|i rest]]]]]; cbn [length] in Hp; try lia.
  exists a0, a1, a2, a3, i, rest. reflexivity.
Qed.

Lemma SocketEndpointFromNbl_cases n G4 G6 E0 Data msgs :
  datagram_msgs n Data = Some msgs ->
  let RA := RemoteAddress Data in
  (si_family RA = AF_INET /\
   exists c,
     List.find (cmsg_matches IPPROTO_IP IP_PKTINFO) msgs = Some c /\
     SocketEndpointFromNbl (S n) G4 G6 E0 Data =
       Some (STATUS_SUCCESS,
             mkENDPOINT (assign_Ipv4 SOCKADDR_INET_zero RA)
               (mkWSACMSGHDR (WSA_CMSG_LEN sizeof_IN_PKTINFO) IPPROTO_IP IP_PKTINFO)
               (assign_Src4 PKTINFO_zero (nth 0 (cmsg_data c) 0) (nth 1 (cmsg_data c) 0))
               (u32 G4) 0))
  \/
  (si_family RA = AF_INET6 /\
   exists c,
     List.find (cmsg_matches IPPROTO_IPV6 IPV6_PKTINFO) msgs = Some c /\
     SocketEndpointFromNbl (S n) G4 G6 E0 Data =
       Some (STATUS_SUCCESS,
             mkENDPOINT RA
               (mkWSACMSGHDR (WSA_CMSG_LEN sizeof_IN6_PKTINFO) IPPROTO_IPV6 IPV6_PKTINFO)
               (assign_Src6 (mkIN6_ADDR (nth 0 (cmsg_data c) 0) (nth 1 (cmsg_data c) 0)
                                        (nth 2 (cmsg_data c) 0) (nth 3 (cmsg_data c) 0))
                            (nth 4 (cmsg_data c) 0))
               (u32 G6) 0))
  \/
  (SocketEndpointFromNbl (S n) G4 G6 E0 Data = Some (STATUS_INVALID_ADDRESS, ENDPOINT_zero) /\
   ((si_family RA <> AF_INET /\ si_family RA <> AF_INET6) \/
    (si_family RA = AF_INET /\
     List.find (cmsg_matches IPPROTO_IP IP_PKTINFO) msgs = None) \/
    (si_family RA = AF_INET6 /\
     List.find (cmsg_matches IPPROTO_IPV6 IPV6_PKTINFO) msgs = None))).
Proof.
  intros Hm RA. unfold SocketEndpointFromNbl. fold RA.
  destruct (Z.eqb_spec (si_family RA) AF_INET) as [E4|N4].
  - assert (N6 : (si_family RA =? AF_INET6) = false) by (rewrite E4; reflexivity).
    pose proof (FindInCmsgHdr_first n Data IPPROTO_IP IP_PKTINFO msgs Hm) as H.
    destruct (List.find (cmsg_matches IPPROTO_IP IP_PKTINFO) msgs) as [c|] eqn:Hfind.
    + destruct H as (p & buf & Hb & Hf & Hc & Hmt & Hp).
      rewrite Hf. cbn [mbind option_bind].
      rewrite (read_pktinfo4 Data buf p c Hb Hc Hmt Hp). cbn [mbind option_bind].
      destruct (payload4 c Hmt Hp) as (a & i & rest & Hd). rewrite Hd.
      left. split; [assumption|]. exists c. split; [reflexivity|]. rewrite Hd. reflexivity.
    + rewrite H. cbn [mbind option_bind]. rewrite N6. cbn [mbind option_bind].
      right. right. split; [reflexivity|]. right. left. split; [assumption|reflexivity].
  - cbn [mbind option_bind].
    destruct (Z.eqb_spec (si_family RA) AF_INET6) as [E6|N6].
    + pose proof (FindInCmsgHdr_first n Data IPPROTO_IPV6 IPV6_PKTINFO msgs Hm) as H.
      destruct (List.find (cmsg_matches IPPROTO_IPV6 IPV6_PKTINFO) msgs) as [c|] eqn:Hfind.
      * destruct H as (p & buf & Hb & Hf & Hc & Hmt & Hp).
        rewrite Hf. cbn [mbind option_bind].
        rewrite (read_pktinfo6 Data buf p c Hb Hc Hmt Hp). cbn [mbind option_bind].
        destruct (payload6 c Hmt Hp) as (a0 & a1 & a2 & a3 & i & rest & Hd). rewrite Hd.
        right. left. split; [assumption|]. exists c. split; [reflexivity|].
        rewrite Hd. reflexivity.
      * rewrite H. cbn [mbind option_bind].
        right. right. split; [reflexivity|]. right. right. split; [assumption|reflexivity].
    + cbn [mbind option_bind].
      right. right. split; [reflexivity|]. left. split; assumption.
Qed.

(** X9.  For a datagram with well-formed control information,
    [SocketEndpointFromNbl] returns [STATUS_SUCCESS] or
    [STATUS_INVALID_ADDRESS], and the endpoint it leaves has an
    [UpdateGeneration] of 0.  On [STATUS_INVALID_ADDRESS] the endpoint is
    all zero.  On [STATUS_SUCCESS] the remote address is the sender of the
    datagram; the source address and interface are those of the first
    pkt-info message of the family of the sender; the ancillary header is
    the one of that family; and the cached generation is the current
    counter of that family. *)
Theorem endpoint_from_datagram_contents (n : nat) (G4 G6 : Z) (E0 : ENDPOINT)
    (Data : WSK_DATAGRAM_INDICATION) (msgs : list CMSG) :
  datagram_msgs n Data = Some msgs ->
  let RA := RemoteAddress Data in
  exists (st : NTSTATUS) (E : ENDPOINT),
    SocketEndpointFromNbl (S n) G4 G6 E0 Data = Some (st, E) /\
    UpdateGeneration E = 0 /\
    ((st = STATUS_INVALID_ADDRESS /\ E = ENDPOINT_zero)
     \/
     (st = STATUS_SUCCESS /\ si_family RA = AF_INET /\
      si_family (Addr E) = AF_INET /\ sin_port (Addr E) = sin_port RA /\
      sin_addr (Addr E) = sin_addr RA /\
      RoutingGeneration E = u32 G4 /\
      SrcCmsghdr E = mkWSACMSGHDR 24 IPPROTO_IP IP_PKTINFO /\
      exists c,
        List.find (cmsg_matches IPPROTO_IP IP_PKTINFO) msgs = Some c /\
        Src4_ipi_addr (Src E) = nth 0 (cmsg_data c) 0 /\
        Src4_ipi_ifindex (Src E) = nth 1 (cmsg_data c) 0)
     \/
     (st = STATUS_SUCCESS /\ si_family RA = AF_INET6 /\
      Addr E = RA /\
      RoutingGeneration E = u32 G6 /\
      SrcCmsghdr E = mkWSACMSGHDR 36 IPPROTO_IPV6 IPV6_PKTINFO /\
      exists c,
        List.find (cmsg_matches IPPROTO_IPV6 IPV6_PKTINFO) msgs = Some c /\
        Src6_ipi6_addr (Src E) =
          mkIN6_ADDR (nth 0 (cmsg_data c) 0) (nth 1 (cmsg_data c) 0)
                     (nth 2 (cmsg_data c) 0) (nth 3 (cmsg_data c) 0) /\
        Src6_ipi6_ifindex (Src E) = nth 4 (cmsg_data c) 0)).
Proof.
  intros Hm RA.
  destruct (SocketEndpointFromNbl_cases n G4 G6 E0 Data msgs Hm)
    as [(HF & c & Hfind & Hres)|[(HF & c & Hfind & Hres)|(Hres & _)]];
    fold RA in HF, Hres || fold RA in Hres; rewrite Hres; eexists _, _;
    (split; [reflexivity|]); (split; [reflexivity|]).
  - right. left. repeat split; try assumption. exists c. repeat split. assumption.
  - right. right. repeat split; try assumption. exists c. repeat split. assumption.
  - left. split; reflexivity.
Qed.

Lemma endpoint_from_datagram_contents_witness :
  exists (st : NTSTATUS) (E : ENDPOINT),
    SocketEndpointFromNbl 2 5 1 Sample.endpoint_fresh Sample.datagram = Some (st, E) /\
    UpdateGeneration E = 0.
Proof.
  destruct (endpoint_from_datagram_contents 1 5 1 Sample.endpoint_fresh Sample.datagram
              [mkCMSG (mkWSACMSGHDR 24 IPPROTO_IP IP_PKTINFO) [Sample.ip_10_0_0_5; 4]])
    as (st & E & H1 & H2 & _).
  - vm_compute. reflexivity.
  - exists st, E. split; [exact H1|exact H2].
Defined.

(** X10.  With a buffer that holds [Len] bytes and a received datagram
    with well-formed control information, [SocketSendBufferAsReplyToNbl]
    returns without touching the peer, its endpoint lock or the routing
    API.  Either the status is [STATUS_SUCCESS]: exactly one context has
    been handed to the provider, for a single buffer holding the first
    [Len] bytes of the caller's buffer, addressed to the endpoint that
    [SocketEndpointFromNbl] reads from the datagram, for whose family
    there is a socket, and the call has freed nothing.  Or the status is a
    failure: nothing was handed to the provider, and the call has freed
    the context once if it was allocated and the buffer once if it was
    allocated. *)
Theorem send_reply_outcome (os : OS) (MemAllocateDataAndMdlChain : Z -> Z)
    (n : nat) (s : State) (m : MDL_DATA) (E0 : ENDPOINT)
    (InNbl : WSK_DATAGRAM_INDICATION) (msgs : list CMSG) (Buffer : list Z) (Len : Z) :
  0 <= Len <= Z.of_nat (length Buffer) ->
  datagram_msgs n InNbl = Some msgs ->
  let M := MemAllocateDataAndMdlChain Len in
  exists (st : NTSTATUS) (s' : State) (m' : MDL_DATA) (evs : list Event),
    SocketSendBufferAsReplyToNbl os MemAllocateDataAndMdlChain (S n) s m E0 InNbl Buffer Len
      = Some (st, s', m') /\
    Log s' = Log s ++ evs /\
    Peer s' = Peer s /\
    forallb (fun e => negb (is_resolver_event e)) evs = true /\
    ((st = STATUS_SUCCESS /\
      mdl_frees evs = [] /\ ctx_frees evs = 0%nat /\
      exists Ctx,
        sends evs = [Ctx] /\ InFlight s' = InFlight s ++ [Ctx] /\
        Ctx_IsNbl Ctx = false /\ Ctx_Buffer Ctx = mkWSK_BUF M 0 Len /\
        m' !! M = Some (take (Z.to_nat Len) Buffer) /\
        SocketEndpointFromNbl (S n) (RoutingGenerationV4 s) (RoutingGenerationV6 s) E0 InNbl
          = Some (STATUS_SUCCESS, Ctx_Endpoint Ctx) /\
        has_socket s (Ctx_Endpoint Ctx) = true)
     \/
     (NT_SUCCESS st = false /\
      InFlight s' = InFlight s /\ sends evs = [] /\
      ctx_frees evs = (if ExAllocateFromLookasideListEx os then 1 else 0)%nat /\
      mdl_frees evs =
        if ExAllocateFromLookasideListEx os && negb (M =? 0) then [M] else [])).
Proof.
  intros HLen Hm M.
  unfold SocketSendBufferAsReplyToNbl. fold M.
  destruct s as [[e l tx dev] g4 g6 lg fl].
  destruct (ExAllocateFromLookasideListEx os); cbn [negb andb].
  2:{ eexists _, _, _, _. split; [reflexivity|]. exec_step.
      split; [reflexivity|]. split; [reflexivity|]. split; [reflexivity|].
      right. repeat split. }
  destruct (M =? 0) eqn:HMdl; cbn [negb].
  { eexists _, _, _, _. split; [reflexivity|].
    unfold cleanupCtx_Buffer. exec_step.
    split; [rewrite <- app_assoc; reflexivity|]. split; [reflexivity|]. split; [reflexivity|].
    right. repeat split. }
  rewrite (RtlCopyMemory_Mdl_ok M Buffer Len m HLen). cbn [mbind option_bind].
  exec_step.
  assert (Hcases : exists st E,
    SocketEndpointFromNbl (S n) g4 g6 E0 InNbl = Some (st, E) /\
    (st = STATUS_SUCCESS \/ st = STATUS_INVALID_ADDRESS)).
  { destruct (SocketEndpointFromNbl_cases n g4 g6 E0 InNbl msgs Hm)
      as [(_ & c & _ & Hres)|[(_ & c & _ & Hres)|(Hres & _)]];
      rewrite Hres; eexists _, _; (split; [reflexivity|]); auto. }
  destruct Hcases as (st & E & Hres & Hst). rewrite Hres. cbn [mbind option_bind].
  destruct Hst as [-> | ->].
  - cbn [NT_SUCCESS STATUS_SUCCESS Z.leb Z.compare negb].
    set (Ctx := mkSOCKET_SEND_CTX E false [] (mkWSK_BUF M 0 Len)).
    set (S1 := mkState _ g4 g6 _ _).
    rewrite (SendAsync_buffer Ctx S1 eq_refl).
    destruct (has_socket S1 (Ctx_Endpoint Ctx)) eqn:Hsock; cbn [mbind option_bind].
    + eexists _, _, _, _. split; [reflexivity|].
      subst S1. unfold set_InFlight. exec_step.
      split; [rewrite <- !app_assoc; reflexivity|].
      split; [reflexivity|]. split; [reflexivity|].
      left. split; [reflexivity|]. split; [reflexivity|]. split; [reflexivity|].
      exists Ctx. split; [reflexivity|].
      split; [reflexivity|]. split; [reflexivity|]. split; [reflexivity|].
      split; [apply lookup_insert_eq|]. split; [reflexivity|exact Hsock].
    + eexists _, _, _, _. split; [reflexivity|].
      unfold cleanupMdl, cleanupCtx_Buffer. subst S1. exec_step.
      split; [rewrite <- !app_assoc; reflexivity|].
      split; [reflexivity|]. split; [reflexivity|].
      right. repeat split.
  - change (negb (NT_SUCCESS STATUS_INVALID_ADDRESS)) with true. cbv iota.
    eexists _, _, _, _. split; [reflexivity|].
    unfold cleanupMdl, cleanupCtx_Buffer. exec_step.
    split; [rewrite <- !app_assoc; reflexivity|].
    split; [reflexivity|]. split; [reflexivity|].
    right. repeat split.
Qed.

(** A reply of 8 bytes to the sample datagram from 198.51.100.1. *)
Lemma send_reply_outcome_witness :
  exists (st : NTSTATUS) (s' : State) (m' : MDL_DATA) (evs : list Event),
    SocketSendBufferAsReplyToNbl Sample.os SampleMore.alloc_mdl 2
      (Sample.state_of Sample.endpoint_unset) ∅ ENDPOINT_zero Sample.datagram
      SampleMore.message 8 = Some (st, s', m') /\
    Log s' = Log (Sample.state_of Sample.endpoint_unset) ++ evs /\
    Peer s' = Peer (Sample.state_of Sample.endpoint_unset).
Proof.
  destruct (send_reply_outcome Sample.os SampleMore.alloc_mdl 1
              (Sample.state_of Sample.endpoint_unset) ∅ ENDPOINT_zero Sample.datagram
              [mkCMSG (mkWSACMSGHDR 24 IPPROTO_IP IP_PKTINFO) [Sample.ip_10_0_0_5; 4]]
              SampleMore.message 8)
    as (st & s' & m' & evs & H1 & H2 & H3 & _).
  - simpl. lia.
  - vm_compute. reflexivity.
  - exists st, s', m', evs. split; [exact H1|]. split; [exact H2|exact H3].
Defined.

(** ** Setting the endpoint of a peer *)

Lemma SocketSetPeerEndpoint_changed (s : State) (E : ENDPOINT) :
  EndpointLock (Peer s) = Unlocked ->
  si_family (Addr E) = AF_INET \/ si_family (Addr E) = AF_INET6 ->
  EndpointEq E (Endpoint (Peer s)) = false ->
  exists s',
    SocketSetPeerEndpoint s E = Some s' /\
    Log s' = Log s ++ [EvAcquireSpinLockExclusive; EvReleaseSpinLockExclusive] /\
    EndpointLock (Peer s') = Unlocked /\
    EndpointEq E (Endpoint (Peer s')) = true /\
    RoutingGeneration (Endpoint (Peer s')) = RoutingGeneration E /\
    UpdateGeneration (Endpoint (Peer s')) = u32 (UpdateGeneration (Endpoint (Peer s)) + 1) /\
    SrcCmsghdr (Endpoint (Peer s')) =
      (if si_family (Addr E) =? AF_INET
       then mkWSACMSGHDR 24 IPPROTO_IP IP_PKTINFO
       else mkWSACMSGHDR 36 IPPROTO_IPV6 IPV6_PKTINFO) /\
    TxBytes (Peer s') = TxBytes (Peer s) /\
    Device (Peer s') = Device (Peer s) /\
    RoutingGenerationV4 s' = RoutingGenerationV4 s /\
    RoutingGenerationV6 s' = RoutingGenerationV6 s /\
    SocketSetPeerEndpoint s' E = Some s'.
Proof.
  intros Hlock HF Hne.
  destruct s as [[P l tx dev] g4 g6 lg fl]. cbn in Hlock. subst l.
  cbn [Peer Endpoint] in Hne.
  unfold SocketSetPeerEndpoint at 1. cbn [Peer Endpoint]. rewrite Hne. exec_step.
  destruct HF as [HF|HF]; rewrite HF.
  - change (AF_INET =? AF_INET) with true. cbv iota. exec_step.
    eexists. split; [reflexivity|]. cbn [Log Peer Endpoint EndpointLock TxBytes Device
      RoutingGeneration UpdateGeneration SrcCmsghdr RoutingGenerationV4 RoutingGenerationV6].
    assert (Heq : EndpointEq E
             (mkENDPOINT (assign_Ipv4 (Addr P) (Addr E))
                (mkWSACMSGHDR (WSA_CMSG_LEN sizeof_IN_PKTINFO) IPPROTO_IP IP_PKTINFO)
                (assign_Src4 (Src P) (Src4_ipi_addr (Src E)) (Src4_ipi_ifindex (Src E)))
                (RoutingGeneration E) (u32 (UpdateGeneration P + 1))) = true).
    { apply EndpointEq_true. left. repeat split; assumption. }
    split; [rewrite <- app_assoc; reflexivity|].
    repeat (split; [reflexivity || exact Heq|]).
    unfold SocketSetPeerEndpoint. cbn [Peer Endpoint]. rewrite Heq. reflexivity.
  - change (AF_INET6 =? AF_INET) with false. change (AF_INET6 =? AF_INET6) with true.
    cbv iota. exec_step.
    eexists. split; [reflexivity|]. cbn [Log Peer Endpoint EndpointLock TxBytes Device
      RoutingGeneration UpdateGeneration SrcCmsghdr RoutingGenerationV4 RoutingGenerationV6].
    assert (Heq : EndpointEq E
             (mkENDPOINT (assign_Ipv6 (Addr P) (Addr E))
                (mkWSACMSGHDR (WSA_CMSG_LEN sizeof_IN6_PKTINFO) IPPROTO_IPV6 IPV6_PKTINFO)
                (assign_Src6 (Src6_ipi6_addr (Src E)) (Src6_ipi6_ifindex (Src E)))
                (RoutingGeneration E) (u32 (UpdateGeneration P + 1))) = true).
    { apply EndpointEq_true. right. left. cbn [Addr Src assign_Ipv6].
      rewrite Src6_assign_addr. repeat split; assumption. }
    split; [rewrite <- app_assoc; reflexivity|].
    repeat (split; [reflexivity || exact Heq|]).
    unfold SocketSetPeerEndpoint. cbn [Peer Endpoint]. rewrite Heq. reflexivity.
Qed.

(** X11.  When the new endpoint has family IPv4 or IPv6 and is not equal
    to the peer's current one, [SocketSetPeerEndpoint] takes and releases
    the exclusive lock and leaves an endpoint that [EndpointEq] finds
    equal to the new one, with the [RoutingGeneration] of the new one, the
    ancillary header of its family and [UpdateGeneration] incremented;
    counters and device are untouched, and setting the same endpoint
    again changes nothing. *)
Theorem set_endpoint_takes_effect (s : State) (E : ENDPOINT) :
  EndpointLock (Peer s) = Unlocked ->
  si_family (Addr E) = AF_INET \/ si_family (Addr E) = AF_INET6 ->
  EndpointEq E (Endpoint (Peer s)) = false ->
  exists s',
    SocketSetPeerEndpoint s E = Some s' /\
    Log s' = Log s ++ [EvAcquireSpinLockExclusive; EvReleaseSpinLockExclusive] /\
    EndpointLock (Peer s') = Unlocked /\
    EndpointEq E (Endpoint (Peer s')) = true /\
    RoutingGeneration (Endpoint (Peer s')) = RoutingGeneration E /\
    UpdateGeneration (Endpoint (Peer s')) = u32 (UpdateGeneration (Endpoint (Peer s)) + 1) /\
    SrcCmsghdr (Endpoint (Peer s')) =
      (if si_family (Addr E) =? AF_INET
       then mkWSACMSGHDR 24 IPPROTO_IP IP_PKTINFO
       else mkWSACMSGHDR 36 IPPROTO_IPV6 IPV6_PKTINFO) /\
    TxBytes (Peer s') = TxBytes (Peer s) /\
    Device (Peer s') = Device (Peer s) /\
    RoutingGenerationV4 s' = RoutingGenerationV4 s /\
    RoutingGenerationV6 s' = RoutingGenerationV6 s /\
    SocketSetPeerEndpoint s' E = Some s'.
Proof. exact (SocketSetPeerEndpoint_changed s E). Qed.

(** A peer that was never set learns 198.51.100.1. *)
Lemma set_endpoint_takes_effect_witness :
  exists s',
    SocketSetPeerEndpoint (Sample.state_of Sample.endpoint_unset) Sample.endpoint_fresh
      = Some s' /\
    EndpointEq Sample.endpoint_fresh (Endpoint (Peer s')) = true /\
    SocketSetPeerEndpoint s' Sample.endpoint_fresh = Some s'.
Proof.
  destruct (set_endpoint_takes_effect (Sample.state_of Sample.endpoint_unset)
              Sample.endpoint_fresh)
    as (s' & H1 & _ & _ & H2 & _ & _ & _ & _ & _ & _ & _ & H3).
  - reflexivity.
  - left. reflexivity.
  - vm_compute. reflexivity.
  - exists s'. split; [exact H1|]. split; [exact H2|exact H3].
Defined.

Lemma fast_path_source_is_valid s :
  fast_path_V4 s || fast_path_V6 s = true -> source_is_valid s.
Proof.
  unfold source_is_valid, fast_path_V4, fast_path_V6. intros H.
  apply orb_true_iff in H as [H|H];
    apply andb_true_iff in H as [H Hi]; apply andb_true_iff in H as [Hf Hg];
    apply Z.eqb_eq in Hf, Hg; apply negb_true_iff, Z.eqb_neq in Hi;
    [left|right]; repeat split; assumption.
Qed.

(** X12.  For a datagram with well-formed control information and a free
    endpoint lock, [SocketSetPeerEndpointFromNbl] returns with the lock
    free.  If [SocketEndpointFromNbl] rejects the datagram, or the endpoint
    it reads is equal to the peer's current one, the state is left as it
    was.  Otherwise the peer's endpoint becomes equal to the one read from
    the datagram with [UpdateGeneration] incremented, and, when the
    interface index of the pkt-info is not 0, the cached source is valid
    at once: the next resolution takes the fast path with no routing
    lookup. *)
Theorem set_endpoint_from_datagram (n : nat) (s : State) (Data : WSK_DATAGRAM_INDICATION)
    (msgs : list CMSG) :
  datagram_msgs n Data = Some msgs ->
  EndpointLock (Peer s) = Unlocked ->
  exists (st : NTSTATUS) (E : ENDPOINT) (s' : State),
    SocketEndpointFromNbl (S n) (RoutingGenerationV4 s) (RoutingGenerationV6 s)
      ENDPOINT_zero Data = Some (st, E) /\
    SocketSetPeerEndpointFromNbl (S n) s Data = Some s' /\
    EndpointLock (Peer s') = Unlocked /\
    ((st = STATUS_INVALID_ADDRESS /\ s' = s)
     \/
     (st = STATUS_SUCCESS /\ EndpointEq E (Endpoint (Peer s)) = true /\ s' = s)
     \/
     (st = STATUS_SUCCESS /\ EndpointEq E (Endpoint (Peer s)) = false /\
      EndpointEq E (Endpoint (Peer s')) = true /\
      UpdateGeneration (Endpoint (Peer s')) =
        u32 (UpdateGeneration (Endpoint (Peer s)) + 1) /\
      ((si_family (Addr E) = AF_INET -> Src4_ipi_ifindex (Src E) <> 0) ->
       (si_family (Addr E) = AF_INET6 -> Src6_ipi6_ifindex (Src E) <> 0) ->
       source_is_valid s'))).
Proof.
  intros Hm Hlock. unfold SocketSetPeerEndpointFromNbl.
  destruct (SocketEndpointFromNbl_cases n (RoutingGenerationV4 s) (RoutingGenerationV6 s)
              ENDPOINT_zero Data msgs Hm)
    as [(HF & c & _ & Hres)|[(HF & c & _ & Hres)|(Hres & _)]]; rewrite Hres;
    cbn [mbind option_bind].
  3:{ eexists _, _, _. split; [reflexivity|]. split; [reflexivity|].
      split; [assumption|]. left. split; reflexivity. }
  all: change (NT_SUCCESS STATUS_SUCCESS) with true; cbv iota.
  all: match goal with |- context [SocketSetPeerEndpoint ?s0 ?e] => set (E := e) end.
  all: match goal with |- context [SocketSetPeerEndpoint ?s0 ?e] =>
         destruct (EndpointEq e (Endpoint (Peer s0))) eqn:Heq
       end.
  all: try (eexists _, _, _; split; [reflexivity|];
            unfold SocketSetPeerEndpoint; rewrite Heq;
            split; [reflexivity|]; split; [assumption|];
            right; left; repeat split; reflexivity).
  - destruct (SocketSetPeerEndpoint_changed s E Hlock (or_introl HF) Heq)
      as (s' & H1 & _ & H3 & H4 & H5 & H6 & _ & _ & _ & H10 & _ & _).
    rewrite H1. eexists _, _, _. split; [reflexivity|]. split; [reflexivity|].
    split; [assumption|]. right. right.
    split; [reflexivity|]. split; [exact Heq|]. split; [assumption|].
    split; [assumption|]. intros Hi _. specialize (Hi HF).
    apply EndpointEq_true in H4 as [(_ & Hf & _ & _ & _ & Hidx)|[(Hbad & _)|(Hbad & _)]];
      [|change (si_family (RemoteAddress Data) = AF_INET6) in Hbad; rewrite HF in Hbad;
        discriminate
       |change (si_family (RemoteAddress Data) = 0) in Hbad; rewrite HF in Hbad;
        discriminate].
    left. split; [assumption|]. split; [rewrite H5, H10; reflexivity|].
    rewrite <- Hidx. exact Hi.
  - destruct (SocketSetPeerEndpoint_changed s E Hlock (or_intror HF) Heq)
      as (s' & H1 & _ & H3 & H4 & H5 & H6 & _ & _ & _ & _ & H11 & _).
    rewrite H1. eexists _, _, _. split; [reflexivity|]. split; [reflexivity|].
    split; [assumption|]. right. right.
    split; [reflexivity|]. split; [exact Heq|]. split; [assumption|].
    split; [assumption|]. intros _ Hi. specialize (Hi HF).
    apply EndpointEq_true in H4 as [(Hbad & _)|[(_ & Hf & _ & _ & _ & _ & Hidx)|(Hbad & _)]];
      [change (si_family (RemoteAddress Data) = AF_INET) in Hbad; rewrite HF in Hbad;
       discriminate
      |
      |change (si_family (RemoteAddress Data) = 0) in Hbad; rewrite HF in Hbad;
       discriminate].
    right. split; [assumption|]. split; [rewrite H5, H11; reflexivity|].
    rewrite <- Hidx. exact Hi.
Qed.

(** A peer that was never set receives the sample datagram: its source
    is valid without a lookup. *)
Lemma set_endpoint_from_datagram_witness :
  exists (st : NTSTATUS) (E : ENDPOINT) (s' : State),
    SocketEndpointFromNbl 2 5 1 ENDPOINT_zero Sample.datagram = Some (st, E) /\
    SocketSetPeerEndpointFromNbl 2 (Sample.state_of Sample.endpoint_unset) Sample.datagram
      = Some s' /\
    EndpointLock (Peer s') = Unlocked.
Proof.
  destruct (set_endpoint_from_datagram 1 (Sample.state_of Sample.endpoint_unset)
              Sample.datagram
              [mkCMSG (mkWSACMSGHDR 24 IPPROTO_IP IP_PKTINFO) [Sample.ip_10_0_0_5; 4]])
    as (st & E & s' & H1 & H2 & H3 & _).
  - vm_compute. reflexivity.
  - reflexivity.
  - exists st, E, s'. split; [exact H1|]. split; [exact H2|exact H3].
Defined.

(** ** The resolver: what a return means *)

Lemma resolve_pass_nil_frame (os : OS) (s : State) (r : PASS) :
  resolve_pass os [] s = Some r ->
  match r with
  | Return _ s' env' | Retry s' env' =>
      RoutingGenerationV4 s' = RoutingGenerationV4 s /\
      RoutingGenerationV6 s' = RoutingGenerationV6 s /\ env' = []
  end.
Proof.
  destruct s as [[e l tx dev] g4 g6 lg fl].
  destruct l; [|discriminate|discriminate].
  unfold resolve_pass. exec_step.
  destruct (fast_path_V4 _); [intros [= <-]; repeat split|].
  destruct (fast_path_V6 _); [intros [= <-]; repeat split|].
  exec_step.
  destruct (NT_SUCCESS _); cbn [negb]; [|intros [= <-]; repeat split].
  destruct (MemAllocate os); cbn [negb]; [|intros [= <-]; repeat split].
  destruct (scan_table _ _ _ _ _) as [[Best sevs]|]; [|discriminate].
  exec_step.
  destruct (NT_SUCCESS _); cbn [negb]; [|intros [= <-]; repeat split].
  exec_step.
  destruct (UpdateGeneration e =? UpdateGeneration e); cbn [negb].
  2:{ exec_step. intros [= <-]. repeat split. }
  rewrite exec_write_source.
  destruct (write_source _ e _ _) as [e' Index].
  exec_step.
  destruct (Index =? 0); [intros [= <-]; repeat split|].
  exec_step.
  destruct (_ =? _); cbn [negb].
  - intros [= <-]. repeat split.
  - exec_step. intros [= <-]. repeat split.
Qed.

Lemma write_source_cases s e a i :
  Addr (fst (write_source s e a i)) = Addr e /\
  ((si_family (Addr e) = AF_INET /\ snd (write_source s e a i) = i /\
    Src4_ipi_ifindex (Src (fst (write_source s e a i))) = i /\
    RoutingGeneration (fst (write_source s e a i)) = u32 (RoutingGenerationV4 s))
   \/
   (si_family (Addr e) = AF_INET6 /\ snd (write_source s e a i) = i /\
    Src6_ipi6_ifindex (Src (fst (write_source s e a i))) = i /\
    RoutingGeneration (fst (write_source s e a i)) = u32 (RoutingGenerationV6 s))
   \/
   (si_family (Addr e) <> AF_INET /\ si_family (Addr e) <> AF_INET6 /\
    snd (write_source s e a i) = 0 /\ fst (write_source s e a i) = e)).
Proof.
  unfold write_source.
  destruct (Z.eqb_spec (si_family (Addr e)) AF_INET) as [E4|N4].
  - split; [reflexivity|]. left. repeat split. assumption.
  - destruct (Z.eqb_spec (si_family (Addr e)) AF_INET6) as [E6|N6].
    + split; [reflexivity|]. right. left. repeat split. assumption.
    + split; [reflexivity|]. right. right. repeat split; assumption.
Qed.

Lemma resolver_nil_outcome (os : OS) (fuel : nat) (s : State) :
  EndpointLock (Peer s) = Unlocked ->
  tables_in_range os ->
  exists (st : NTSTATUS) (s' : State),
    SocketResolvePeerEndpointSrc os (S fuel) [] s = Some (st, s', []) /\
    RoutingGenerationV4 s' = RoutingGenerationV4 s /\
    RoutingGenerationV6 s' = RoutingGenerationV6 s /\
    Addr (Endpoint (Peer s')) = Addr (Endpoint (Peer s)) /\
    ((st = STATUS_SUCCESS /\ EndpointLock (Peer s') = LockedShared /\ source_is_valid s')
     \/
     (NT_SUCCESS st = false /\ EndpointLock (Peer s') = Unlocked /\ ~ source_is_valid s')).
Proof.
  intros Hlock Hrange.
  destruct (fast_path_V4 s || fast_path_V6 s) eqn:Hfast.
  - exists STATUS_SUCCESS, (emit [EvAcquireSpinLockShared] (set_EndpointLock LockedShared s)).
    split.
    { cbn [SocketResolvePeerEndpointSrc]. unfold resolve_pass, ExAcquireSpinLockShared.
      rewrite Hlock. cbn [mbind option_bind].
      rewrite fast_path_V4_lock, fast_path_V6_lock.
      destruct (fast_path_V4 s); [reflexivity|]. simpl in Hfast. rewrite Hfast. reflexivity. }
    repeat (split; [reflexivity|]). left. split; [reflexivity|]. split; [reflexivity|].
    apply fast_path_source_is_valid in Hfast. exact Hfast.
  - apply orb_false_iff in Hfast as [Hf4 Hf6].
    destruct (resolve_pass_nil os s Hlock Hf4 Hf6 (Hrange _))
      as (st & s' & evs & Hpass & _ & _ & _ & Hcase).
    destruct (resolve_pass_nil_frame os s _ Hpass) as (HG4 & HG6 & _).
    exists st, s'. split; [apply resolver_one_pass; assumption|].
    split; [assumption|]. split; [assumption|].
    assert (Hsame : Endpoint (Peer s') = Endpoint (Peer s) ->
                    ~ source_is_valid s').
    { intros HE Hv. apply source_is_valid_fast_path in Hv.
      unfold fast_path_V4, fast_path_V6 in Hv, Hf4, Hf6. cbv zeta in Hv, Hf4, Hf6.
      rewrite HE, HG4, HG6, Hf4, Hf6 in Hv. discriminate. }
    destruct Hcase as [(HS & -> & HE & Hl & _)
                      |[(_ & _ & -> & HE & Hl & _)|(_ & _ & Best & sevs & _ & Hcase)]].
    + split; [rewrite HE; reflexivity|]. right. auto.
    + split; [rewrite HE; reflexivity|]. right. auto.
    + cbv zeta in Hcase.
      destruct Hcase as [(_ & HR & -> & HE & Hl & _)|(_ & HE & Hfin)].
      * split; [rewrite HE; reflexivity|]. right. auto.
      * match type of HE with _ = bump_UpdateGeneration (fst (write_source ?s0 ?e0 ?a0 ?i0)) =>
          destruct (write_source_cases s0 e0 a0 i0) as [HA HW]
        end.
        split; [rewrite HE; cbn [bump_UpdateGeneration Addr]; exact HA|].
        destruct Hfin as [(H0 & -> & Hl & _)|(Hn0 & -> & Hl & _)].
        -- right. split; [reflexivity|]. split; [assumption|].
           unfold source_is_valid. cbv zeta. rewrite HE.
           cbn [bump_UpdateGeneration Addr Src RoutingGeneration]. rewrite HA.
           destruct HW as [(HF & Hi & Hidx & _)|[(HF & Hi & Hidx & _)|(N4 & N6 & _)]];
             intros [(F4 & _ & Hx)|(F6 & _ & Hx)]; try congruence;
             rewrite HF in *; discriminate.
        -- left. split; [reflexivity|]. split; [assumption|].
           unfold source_is_valid. cbv zeta. rewrite HE, HG4, HG6.
           cbn [bump_UpdateGeneration Addr Src RoutingGeneration]. rewrite HA.
           destruct HW as [(HF & Hi & Hidx & HG)|[(HF & Hi & Hidx & HG)|(_ & _ & H0 & _)]];
             [left|right|congruence]; (split; [assumption|]); (split; [assumption|]);
             congruence.
Qed.

(** X13.  Without interference and with the endpoint lock free,
    [SocketResolvePeerEndpointSrc] returns in one pass, leaves the remote
    address of the endpoint alone, and succeeds exactly when it leaves a
    valid cached source: either the status is [STATUS_SUCCESS], the lock
    is held shared and the fast-path condition holds, so that the next
    resolution is a cache hit; or the status is a failure, the lock is
    free and the fast-path condition does not hold, so that a failed
    resolution is never served from the cache. *)
Theorem resolver_succeeds_iff_source_valid (os : OS) (fuel : nat) (s : State) :
  EndpointLock (Peer s) = Unlocked ->
  tables_in_range os ->
  exists (st : NTSTATUS) (s' : State),
    SocketResolvePeerEndpointSrc os (S fuel) [] s = Some (st, s', []) /\
    RoutingGenerationV4 s' = RoutingGenerationV4 s /\
    RoutingGenerationV6 s' = RoutingGenerationV6 s /\
    Addr (Endpoint (Peer s')) = Addr (Endpoint (Peer s)) /\
    ((st = STATUS_SUCCESS /\ EndpointLock (Peer s') = LockedShared /\ source_is_valid s')
     \/
     (NT_SUCCESS st = false /\ EndpointLock (Peer s') = Unlocked /\ ~ source_is_valid s')).
Proof. exact (resolver_nil_outcome os fuel s). Qed.

(** The stale source of the sample peer is resolved again and is valid
    afterwards. *)
Lemma resolver_succeeds_iff_source_valid_witness :
  exists (st : NTSTATUS) (s' : State),
    SocketResolvePeerEndpointSrc Sample.os 1 [] (Sample.state_of Sample.endpoint_stale)
      = Some (st, s', []) /\
    ((st = STATUS_SUCCESS /\ source_is_valid s') \/
     (NT_SUCCESS st = false /\ ~ source_is_valid s')).
Proof.
  destruct (resolver_succeeds_iff_source_valid Sample.os 0
              (Sample.state_of Sample.endpoint_stale))
    as (st & s' & H1 & _ & _ & _ & H2).
  - reflexivity.
  - exact Sample_tables_in_range.
  - exists st, s'. split; [exact H1|].
    destruct H2 as [(Ha & _ & Hb)|(Ha & _ & Hb)]; [left|right]; split; assumption.
Defined.

(** X14.  Whatever other threads do to the endpoint and the generation
    counters while the lock is not held, with the endpoint lock free at
    the call and more fuel than interference,
    [SocketResolvePeerEndpointSrc] returns; it has logged nothing but lock
    operations and calls of the routing API, has not touched the byte
    counter, the device or the sends in flight, and it holds the lock in
    shared mode exactly when it returns [STATUS_SUCCESS]: on every
    failure the lock is free. *)
Theorem resolver_lock_discipline (os : OS) (fuel : nat) (env : list Interference)
    (s : State) :
  tables_in_range os ->
  (length env < fuel)%nat ->
  EndpointLock (Peer s) = Unlocked ->
  exists (st : NTSTATUS) (s' : State) (env' : list Interference) (evs : list Event),
    SocketResolvePeerEndpointSrc os fuel env s = Some (st, s', env') /\
    Log s' = Log s ++ evs /\
    forallb is_resolver_event evs = true /\
    TxBytes (Peer s') = TxBytes (Peer s) /\
    Device (Peer s') = Device (Peer s) /\
    InFlight s' = InFlight s /\
    ((st = STATUS_SUCCESS /\ EndpointLock (Peer s') = LockedShared)
     \/
     (NT_SUCCESS st = false /\ EndpointLock (Peer s') = Unlocked)).
Proof.
  intros Hrange Hfuel Hlock.
  destruct (resolver_total os Hrange fuel env s Hfuel Hlock)
    as (st & s' & env' & Hres & _ & (Htx & Hdev & Hfl) & Hst).
  destruct (resolver_events os _ _ _ _ _ _ Hres) as (evs & Hlog & Hev).
  exists st, s', env', evs. repeat (split; [assumption|]). exact Hst.
Qed.

(** Another thread clears the source of the sample peer while it is
    being resolved. *)
Lemma resolver_lock_discipline_witness :
  exists (st : NTSTATUS) (s' : State) (env' : list Interference) (evs : list Event),
    SocketResolvePeerEndpointSrc Sample.os 2 [Sample.other_thread_clears]
      (Sample.state_of Sample.endpoint_stale) = Some (st, s', env') /\
    Log s' = Log (Sample.state_of Sample.endpoint_stale) ++ evs /\
    forallb is_resolver_event evs = true /\
    ((st = STATUS_SUCCESS /\ EndpointLock (Peer s') = LockedShared)
     \/
     (NT_SUCCESS st = false /\ EndpointLock (Peer s') = Unlocked)).
Proof.
  destruct (resolver_lock_discipline Sample.os 2 [Sample.other_thread_clears]
              (Sample.state_of Sample.endpoint_stale))
    as (st & s' & env' & evs & H1 & H2 & H3 & _ & _ & _ & H4).
  - exact Sample_tables_in_range.
  - simpl. lia.
  - reflexivity.
  - exists st, s', env', evs. split; [exact H1|]. split; [exact H2|].
    split; [exact H3|exact H4].
Defined.

(** X15.  The optimistic check of the resolver.  Another thread changes
    the endpoint while the resolver, having dropped the shared lock, looks
    the route up, and as every writer does it changes [UpdateGeneration].
    Then this pass of the resolver writes nothing: either the lookup fails
    and its status is returned, or the resolver, under the exclusive lock,
    finds that [UpdateGeneration] is not the one it read, releases the
    lock and starts again.  In both cases the endpoint is the one the
    other thread left and the lock is free. *)
Theorem resolver_discards_stale_lookup (os : OS) (f : Interference) (s : State) :
  EndpointLock (Peer s) = Unlocked ->
  fast_path_V4 s = false -> fast_path_V6 s = false ->
  tables_in_range os ->
  let E := Endpoint (Peer (f (emit [EvAcquireSpinLockShared; EvReleaseSpinLockShared] s))) in
  UpdateGeneration E <> UpdateGeneration (Endpoint (Peer s)) ->
  exists r : PASS,
    resolve_pass os [f] s = Some r /\
    match r with
    | Retry s' env' =>
        Endpoint (Peer s') = E /\ EndpointLock (Peer s') = Unlocked /\ env' = []
    | Return st s' env' =>
        NT_SUCCESS st = false /\
        Endpoint (Peer s') = E /\ EndpointLock (Peer s') = Unlocked /\ env' = []
    end.
Proof.
  intros Hlock Hf4 Hf6 Hrange E HU.
  destruct s as [[e l tx dev] g4 g6 lg fl].
  cbn [Peer Endpoint EndpointLock Device] in *. subst l.
  rewrite exec_fast_path_V4 in Hf4. rewrite exec_fast_path_V6 in Hf6.
  unfold resolve_pass. exec_step.
  rewrite exec_fast_path_V4, exec_fast_path_V6, Hf4, Hf6.
  exec_step.
  rewrite <- (app_assoc lg [EvAcquireSpinLockShared] [EvReleaseSpinLockShared]).
  cbn [app].
  change (Endpoint (Peer (f (mkState (mkWG_PEER e Unlocked tx dev) g4 g6
            (lg ++ [EvAcquireSpinLockShared; EvReleaseSpinLockShared]) fl)))) with E.
  generalize (RoutingGenerationV4 (f (mkState (mkWG_PEER e Unlocked tx dev) g4 g6
                (lg ++ [EvAcquireSpinLockShared; EvReleaseSpinLockShared]) fl)))
             (RoutingGenerationV6 (f (mkState (mkWG_PEER e Unlocked tx dev) g4 g6
                (lg ++ [EvAcquireSpinLockShared; EvReleaseSpinLockShared]) fl))).
  intros g43 g63.
  apply Z.eqb_neq in HU. clearbody E.
  set (F := si_family (Addr E)).
  specialize (Hrange F).
  set (Status := fst (GetIpForwardTable2 os F)) in *.
  set (Table := snd (GetIpForwardTable2 os F)) in *.
  destruct (NT_SUCCESS Status) eqn:HS; cbn [negb].
  2:{ eexists. split; [reflexivity|]. repeat split. assumption. }
  destruct (MemAllocate os); cbn [negb].
  2:{ eexists. split; [reflexivity|]. repeat split. }
  destruct (scan_table_spec os (Addr E) (DeviceInterfaceLuid dev) Table BEST_init Hrange)
    as (Best & sevs & Hscan & _).
  rewrite Hscan. exec_step.
  set (route := negb (Z.of_nat (length Table) =? 0) && negb (BestIndex Best =? 0)).
  set (R := GetBestRoute2 os (BestIndex Best) (Addr E)).
  destruct (NT_SUCCESS (if route then fst R else Status)) eqn:HS'; cbn [negb].
  2:{ eexists. split; [reflexivity|]. repeat split. assumption. }
  exec_step. rewrite HU. cbn [negb]. exec_step.
  eexists. split; [reflexivity|]. repeat split.
Qed.

(** The source of the sample peer is cleared by another thread during
    the lookup: the pass ends in a retry, with the cleared endpoint. *)
Lemma resolver_discards_stale_lookup_witness :
  exists r : PASS,
    resolve_pass Sample.os [Sample.other_thread_clears]
      (Sample.state_of Sample.endpoint_stale) = Some r /\
    match r with
    | Retry s' env' =>
        RoutingGeneration (Endpoint (Peer s')) = 0 /\
        EndpointLock (Peer s') = Unlocked /\ env' = []
    | Return st s' env' =>
        NT_SUCCESS st = false /\
        RoutingGeneration (Endpoint (Peer s')) = 0 /\
        EndpointLock (Peer s') = Unlocked /\ env' = []
    end.
Proof.
  destruct (resolver_discards_stale_lookup Sample.os Sample.other_thread_clears
              (Sample.state_of Sample.endpoint_stale))
    as (r & H1 & H2).
  - reflexivity.
  - vm_compute. reflexivity.
  - vm_compute. reflexivity.
  - exact Sample_tables_in_range.
  - vm_compute. discriminate.
  - exists r. split; [exact H1|].
    destruct r as [st s' env'|s' env'].
    + destruct H2 as (Ha & Hb & Hc & Hd). split; [exact Ha|].
      split; [rewrite Hb; reflexivity|]. split; [exact Hc|exact Hd].
    + destruct H2 as (Hb & Hc & Hd).
      split; [rewrite Hb; reflexivity|]. split; [exact Hc|exact Hd].
Defined.

(** ** The receive callback *)

Lemma Receive_step_spec Socket e d st :
  exists evs,
    RecvLog (fst (Receive_step Socket e d st)) = RecvLog st ++ evs /\
    packet_receives evs = [] /\
    (if accepted e d
     then snd (Receive_step Socket e d st) = Some (wrap Socket d) /\
          releases evs = [] /\
          ifInDiscards (fst (Receive_step Socket e d st)) = ifInDiscards st /\
          ItemsInFlight (fst (Receive_step Socket e d st)) = S (ItemsInFlight st) /\
          nbl_allocs evs = 1%nat /\ nbl_frees evs = 0%nat
     else snd (Receive_step Socket e d st) = None /\
          releases evs = [d] /\
          ifInDiscards (fst (Receive_step Socket e d st)) = u64 (ifInDiscards st + 1) /\
          ItemsInFlight (fst (Receive_step Socket e d st)) = ItemsInFlight st /\
          nbl_allocs evs = nbl_frees evs).
Proof.
  unfold Receive_step, accepted, RtlSIZETToULong, wrap.
  destruct (Ind_BufferLength d <=? ULONG_MAX); cbn [andb].
  2:{ eexists. split; [reflexivity|]. repeat split. }
  destruct e as [a u r]. cbn [Recv_Alloc Recv_IsUp Recv_Rundown].
  destruct a; cbn [negb andb].
  2:{ eexists. split; [cbn; rewrite <- app_assoc; reflexivity|]. repeat split. }
  destruct u; cbn [negb andb].
  2:{ eexists. split; [cbn; rewrite <- app_assoc; reflexivity|]. repeat split. }
  destruct r; cbn [negb andb].
  - eexists. split; [cbn; rewrite <- app_assoc; reflexivity|]. repeat split.
  - eexists. split; [cbn; rewrite <- !app_assoc; reflexivity|]. repeat split.
Qed.

Lemma Receive_loop_spec Socket env : forall l i st batch,
  exists evs,
    RecvLog (fst (Receive_loop Socket env i l st batch)) = RecvLog st ++ evs /\
    snd (Receive_loop Socket env i l st batch) = batch ++ map (wrap Socket) (taken env i l) /\
    releases evs = dropped env i l /\
    packet_receives evs = [] /\
    u64 (ifInDiscards (fst (Receive_loop Socket env i l st batch))) =
      u64 (ifInDiscards st + Z.of_nat (length (dropped env i l))) /\
    ItemsInFlight (fst (Receive_loop Socket env i l st batch)) =
      (ItemsInFlight st + length (taken env i l))%nat /\
    nbl_allocs evs = (length (taken env i l) + nbl_frees evs)%nat.
Proof.
  induction l as [|d l IH]; intros i st batch; cbn [Receive_loop taken dropped].
  - exists []. cbn. rewrite !app_nil_r, Z.add_0_r, Nat.add_0_r. repeat split.
  - destruct (Receive_step_spec Socket (env i) d st) as (ev1 & Hl1 & Hp1 & Hstep).
    destruct (Receive_step Socket (env i) d st) as [st1 Nbl]. cbn [fst snd] in *.
    destruct (IH (S i) st1 (match Nbl with Some nbl => batch ++ [nbl] | None => batch end))
      as (ev2 & Hl2 & Hb2 & Hr2 & Hp2 & Hd2 & Hi2 & Ha2).
    exists (ev1 ++ ev2).
    unfold releases, packet_receives, nbl_allocs, nbl_frees in *.
    rewrite !flat_map_app, !length_app.
    rewrite Hl2, Hl1, Hb2, Hr2, Hp1, Hp2, Hd2, Hi2, Ha2.
    destruct (accepted (env i) d).
    + destruct Hstep as (-> & Hr1 & Hd1 & Hi1 & Ha1 & Hf1).
      rewrite Hr1, Hd1, Hi1, Ha1, Hf1. cbn [app length map].
      rewrite <- !app_assoc. repeat split; try reflexivity; lia.
    + destruct Hstep as (-> & Hr1 & Hd1 & Hi1 & Ha1).
      rewrite Hr1, Hd1, Hi1, Ha1. cbn [app length map].
      rewrite <- !app_assoc, u64_add_l. repeat split; try reflexivity; try lia.
      f_equal. lia.
Qed.

Lemma taken_dropped_partition env : forall l i, taken env i l ++ dropped env i l ≡ₚ l.
Proof.
  induction l as [|d l IH]; intros i; cbn [taken dropped]; [reflexivity|].
  destruct (accepted (env i) d); cbn [app].
  - rewrite IH. reflexivity.
  - rewrite <- Permutation_middle. rewrite IH. reflexivity.
Qed.

Lemma Receive_spec (Socket : SOCKET) (env : nat -> RECV_ENV)
    (l : list INDICATION) (st : RECV_STATE) :
  Sock Socket <> 0 -> l <> [] ->
  exists (st' : RECV_STATE) (evs : list RecvEvent),
    Receive (Some Socket) env l st = (STATUS_PENDING, st') /\
    RecvLog st' = RecvLog st ++ evs /\
    taken env 0 l ++ dropped env 0 l ≡ₚ l /\
    packet_receives evs =
      match taken env 0 l with
      | [] => []
      | _ :: _ => [map (wrap Socket) (taken env 0 l)]
      end /\
    releases evs = dropped env 0 l /\
    u64 (ifInDiscards st') = u64 (ifInDiscards st + Z.of_nat (length (dropped env 0 l))) /\
    ItemsInFlight st' = (ItemsInFlight st + length (taken env 0 l))%nat /\
    nbl_allocs evs = (length (taken env 0 l) + nbl_frees evs)%nat.
Proof.
  intros HS Hl. unfold Receive.
  apply Z.eqb_neq in HS. rewrite HS.
  destruct l as [|d0 l0]; [congruence|]. set (l := d0 :: l0) in *.
  destruct (Receive_loop_spec Socket env l 0%nat st [])
    as (evs & Hlog & Hb & Hr & Hp & Hd & Hi & Ha).
  destruct (Receive_loop Socket env 0 l st []) as [st' First]. cbn [fst snd app] in *.
  subst First.
  destruct (taken env 0 l) as [|t ts] eqn:Ht; cbn [map].
  - exists st', evs. split; [reflexivity|]. split; [assumption|].
    split; [rewrite <- Ht; apply taken_dropped_partition|].
    repeat (split; [assumption|]). assumption.
  - exists (recv_log [RvPacketReceive (wrap Socket t :: map (wrap Socket) ts)] st'),
           (evs ++ [RvPacketReceive (wrap Socket t :: map (wrap Socket) ts)]).
    split; [reflexivity|]. cbn [recv_log RecvLog ifInDiscards ItemsInFlight].
    split; [rewrite Hlog, <- app_assoc; reflexivity|].
    split; [rewrite <- Ht; apply taken_dropped_partition|].
    unfold releases, packet_receives, nbl_allocs, nbl_frees in *.
    rewrite !flat_map_app, !length_app, Hp, Hr. cbn [flat_map app length].
    rewrite app_nil_r, !Nat.add_0_r.
    repeat (split; [reflexivity || assumption|]). assumption.
Qed.

(** X16.  Called for a socket and a list of datagram indications that
    are not null, [Receive] returns [STATUS_PENDING] and splits the list in
    two: the datagrams it takes (length within a [ULONG], list allocated,
    device up, reference on the socket granted) and the others, both in
    the order of the list.  Each datagram taken is wrapped in a list that
    holds its length, the indication and the socket, one reference is
    taken on the socket for it, and the lists are passed to
    [PacketReceive] in one call, which is not made when no datagram is
    taken.  Each of the others is given back with [WskRelease], once, and
    counted in [ifInDiscards].  Every list allocated is passed on or
    freed. *)
Theorem Receive_partitions_indications (Socket : SOCKET) (env : nat -> RECV_ENV)
    (l : list INDICATION) (st : RECV_STATE) :
  Sock Socket <> 0 -> l <> [] ->
  exists (st' : RECV_STATE) (evs : list RecvEvent),
    Receive (Some Socket) env l st = (STATUS_PENDING, st') /\
    RecvLog st' = RecvLog st ++ evs /\
    taken env 0 l ++ dropped env 0 l ≡ₚ l /\
    packet_receives evs =
      match taken env 0 l with
      | [] => []
      | _ :: _ => [map (wrap Socket) (taken env 0 l)]
      end /\
    releases evs = dropped env 0 l /\
    u64 (ifInDiscards st') = u64 (ifInDiscards st + Z.of_nat (length (dropped env 0 l))) /\
    ItemsInFlight st' = (ItemsInFlight st + length (taken env 0 l))%nat /\
    nbl_allocs evs = (length (taken env 0 l) + nbl_frees evs)%nat.
Proof. exact (Receive_spec Socket env l st). Qed.


(** Two datagrams arrive on the sample socket; the device is up and the
    second datagram gets no list. *)
Lemma Receive_partitions_indications_witness :
  exists (st' : RECV_STATE) (evs : list RecvEvent),
    Receive (Some SampleMore.socket) SampleMore.recv_env SampleMore.indications
      (mkRECV_STATE 0 0 []) = (STATUS_PENDING, st') /\
    RecvLog st' = evs /\
    packet_receives evs = [[wrap SampleMore.socket SampleMore.indication_1]] /\
    releases evs = [SampleMore.indication_2] /\
    u64 (ifInDiscards st') = 1 /\
    ItemsInFlight st' = 1%nat.
Proof.
  destruct (Receive_partitions_indications SampleMore.socket SampleMore.recv_env
              SampleMore.indications (mkRECV_STATE 0 0 []))
    as (st' & evs & H1 & H2 & _ & H3 & H4 & H5 & H6 & _).
  - vm_compute. discriminate.
  - discriminate.
  - exists st', evs. split; [exact H1|]. split; [exact H2|].
    split; [exact H3|]. split; [exact H4|]. split; [exact H5|exact H6].
Defined.

(** X17.  While the device is down ([Wg->IsUp] reads false at every
    datagram), [Receive] takes nothing: every datagram of the list is
    given back with [WskRelease], in order and once, [ifInDiscards] grows
    by the length of the list, [PacketReceive] is not called, no reference
    is taken on the socket, and every list that was allocated is freed. *)
Theorem Receive_when_device_is_down (Socket : SOCKET) (env : nat -> RECV_ENV)
    (l : list INDICATION) (st : RECV_STATE) :
  Sock Socket <> 0 -> l <> [] ->
  (forall i : nat, Recv_IsUp (env i) = false) ->
  exists (st' : RECV_STATE) (evs : list RecvEvent),
    Receive (Some Socket) env l st = (STATUS_PENDING, st') /\
    RecvLog st' = RecvLog st ++ evs /\
    packet_receives evs = [] /\
    releases evs = l /\
    u64 (ifInDiscards st') = u64 (ifInDiscards st + Z.of_nat (length l)) /\
    ItemsInFlight st' = ItemsInFlight st /\
    nbl_allocs evs = nbl_frees evs.
Proof.
  intros HS Hl Hdown.
  assert (Ht : forall l i, taken env i l = [] /\ dropped env i l = l).
  { clear -Hdown. induction l as [|d l IH]; intros i; cbn [taken dropped]; [split; reflexivity|].
    unfold accepted. rewrite Hdown, andb_false_r. cbn [andb app].
    destruct (IH (S i)) as [-> ->]. split; reflexivity. }
  destruct (Receive_spec Socket env l st HS Hl)
    as (st' & evs & H1 & H2 & _ & H3 & H4 & H5 & H6 & H7).
  destruct (Ht l 0%nat) as [Et Ed]. rewrite Et, Ed in *.
  exists st', evs. cbn [length] in H6, H7. rewrite Nat.add_0_r in H6.
  repeat (split; [assumption|]). assumption.
Qed.

(** The fourth scenario of the specification: one datagram while the
    device is down. *)
Lemma Receive_when_device_is_down_witness :
  exists (st' : RECV_STATE) (evs : list RecvEvent),
    Receive (Some SampleMore.socket) (fun _ => mkRECV_ENV true false true)
      [SampleMore.indication_1] (mkRECV_STATE 0 0 []) = (STATUS_PENDING, st') /\
    RecvLog st' = evs /\
    packet_receives evs = [] /\
    releases evs = [SampleMore.indication_1] /\
    u64 (ifInDiscards st') = 1.
Proof.
  destruct (Receive_when_device_is_down SampleMore.socket
              (fun _ => mkRECV_ENV true false true) [SampleMore.indication_1]
              (mkRECV_STATE 0 0 []))
    as (st' & evs & H1 & H2 & H3 & H4 & H5 & _).
  - vm_compute. discriminate.
  - discriminate.
  - reflexivity.
  - exists st', evs. split; [exact H1|]. split; [exact H2|].
    split; [exact H3|]. split; [exact H4|exact H5].
Defined.

(** ** Sockets: stepping through the calls of the system *)

Lemma kstep_kstep n1 e1 n2 e2 k :
  kstep n2 e2 (kstep n1 e1 k) = kstep (n1 + n2) (e1 ++ e2) k.
Proof.
  unfold kstep. cbn [KCalls KLog Wg_Sock4 Wg_Sock6 IncomingPort WskHasIpv4Transport
    WskHasIpv6Transport WskInitStatus].
  rewrite <- app_assoc, Nat.add_assoc. reflexivity.
Qed.

Lemma kstep_0 k : kstep 0 [] k = k.
Proof. destruct k. unfold kstep. cbn. rewrite app_nil_r, Nat.add_0_r. reflexivity. Qed.

Lemma K_bind_eq {A B : Type} (m : K A) (f : A -> K B) (k : KSTATE) :
  (m ≫= f) k = f (fst (m k)) (snd (m k)).
Proof. unfold mbind, K_bind. destruct (m k). reflexivity. Qed.

Lemma K_ret_eq {A : Type} (a : A) (k : KSTATE) : (mret a : K A) k = (a, k).
Proof. reflexivity. Qed.

Lemma ask_eq kernel k : ask kernel k = (kernel (KCalls k), kstep 1 [] k).
Proof. unfold ask, kstep. rewrite app_nil_r, Nat.add_1_r. reflexivity. Qed.

Lemma klog_eq evs k : klog evs k = (tt, kstep 0 evs k).
Proof. unfold klog, kstep. rewrite Nat.add_0_r. reflexivity. Qed.

Lemma kget_eq {A : Type} (f : KSTATE -> A) k : kget f k = (f k, k).
Proof. reflexivity. Qed.

Lemma kstep_proj n evs k :
  KCalls (kstep n evs k) = (KCalls k + n)%nat /\
  KLog (kstep n evs k) = KLog k ++ evs /\
  Wg_Sock4 (kstep n evs k) = Wg_Sock4 k /\
  Wg_Sock6 (kstep n evs k) = Wg_Sock6 k /\
  IncomingPort (kstep n evs k) = IncomingPort k /\
  WskHasIpv4Transport (kstep n evs k) = WskHasIpv4Transport k /\
  WskHasIpv6Transport (kstep n evs k) = WskHasIpv6Transport k /\
  WskInitStatus (kstep n evs k) = WskInitStatus k.
Proof. repeat split. Qed.

Lemma KCalls_kstep n evs k : KCalls (kstep n evs k) = (KCalls k + n)%nat.
Proof. reflexivity. Qed.
Lemma Has4_kstep n evs k : WskHasIpv4Transport (kstep n evs k) = WskHasIpv4Transport k.
Proof. reflexivity. Qed.
Lemma Has6_kstep n evs k : WskHasIpv6Transport (kstep n evs k) = WskHasIpv6Transport k.
Proof. reflexivity. Qed.
Lemma Sock4_kstep n evs k : Wg_Sock4 (kstep n evs k) = Wg_Sock4 k.
Proof. reflexivity. Qed.
Lemma Sock6_kstep n evs k : Wg_Sock6 (kstep n evs k) = Wg_Sock6 k.
Proof. reflexivity. Qed.
Lemma InitStatus_kstep n evs k : WskInitStatus (kstep n evs k) = WskInitStatus k.
Proof. reflexivity. Qed.

Ltac kexec0 :=
  repeat (progress
    (rewrite ?K_bind_eq, ?K_ret_eq, ?ask_eq, ?klog_eq, ?kget_eq, ?kstep_kstep,
       ?KCalls_kstep, ?Has4_kstep, ?Has6_kstep, ?Sock4_kstep, ?Sock6_kstep,
       ?InitStatus_kstep, ?Nat.add_0_r, ?app_nil_r;
     cbn [fst snd app Nat.add])).

Ltac ksum :=
  unfold mem_allocs, mem_frees, irp_allocs, irp_failures, irp_frees, wsk_calls,
    wsk_created, wsk_closes, rundown_waits in *;
  repeat (progress (cbn [flat_map app length]; rewrite ?flat_map_app, ?length_app)).

Ltac kfacts :=
  repeat match goal with
         | H : flat_map _ _ = _ |- _ => rewrite H
         | H : length (flat_map _ _) = _ |- _ => rewrite H
         | H : (_ =? _) = _ |- _ => rewrite H
         | H : NT_SUCCESS _ = _ |- _ => rewrite H
         end;
  cbn [flat_map app length].

(** *** [CloseSocket] *)

Lemma with_Irp_eq kernel call k :
  with_Irp kernel call k =
    ((completion_status (kernel (KCalls k)), kernel (KCalls k)),
     kstep 1 (call (kernel (KCalls k)) ::
              if Ans_Status (kernel (KCalls k)) =? STATUS_PENDING
              then [KWaitForSingleObject] else []) k).
Proof.
  unfold with_Irp, completion_status. kexec0.
  destruct (Ans_Status (kernel (KCalls k)) =? STATUS_PENDING); kexec0; reflexivity.
Qed.

Ltac kexec :=
  repeat (progress
    (rewrite ?K_bind_eq, ?K_ret_eq, ?ask_eq, ?klog_eq, ?kget_eq, ?with_Irp_eq,
       ?kstep_kstep,
       ?KCalls_kstep, ?Has4_kstep, ?Has6_kstep, ?Sock4_kstep, ?Sock6_kstep,
       ?InitStatus_kstep, ?Nat.add_0_r, ?app_nil_r;
     cbn [fst snd app Nat.add])).

Lemma CloseSocket_spec kernel Socket k :
  exists n evs,
    CloseSocket kernel Socket k = (tt, kstep n evs k) /\
    mem_allocs evs = [] /\ mem_frees evs = socket_mems Socket /\
    irp_allocs evs = irp_frees evs /\
    wsk_created evs = [] /\
    rundown_waits evs = socket_mems Socket /\
    (wsk_closes evs = [] \/
     exists S', Socket = Some S' /\ Sock S' <> 0 /\ wsk_closes evs = [Sock S']) /\
    (irp_failures evs = 0%nat ->
     wsk_closes evs =
       match Socket with
       | Some S' => if Sock S' =? 0 then [] else [Sock S']
       | None => []
       end) /\
    match Socket with
    | Some S' =>
        exists mid,
          evs = KWaitForRundownProtectionRelease (Socket_Mem S') :: mid ++
                [KMemFree (Socket_Mem S')] /\
          mem_frees mid = [] /\ rundown_waits mid = []
    | None => evs = []
    end.
Proof.
  destruct Socket as [S'|]; cbn [CloseSocket socket_mems].
  2:{ exists 0%nat, []. rewrite kstep_0. repeat split. left. reflexivity. }
  kexec.
  destruct (Z.eqb_spec (Sock S') 0) as [E0|N0]; cbn [negb].
  { unfold MemFree. kexec. eexists _, _. split; [reflexivity|].
    repeat split; try reflexivity; try (left; reflexivity).
    exists []. repeat split. }
  unfold IoAllocateIrp. kexec.
  destruct (Ans_Pointer (kernel (KCalls k)) =? 0) eqn:HIrp.
  { unfold MemFree. kexec. eexists _, _. split; [reflexivity|].
    ksum. cbn [flat_map app length]. rewrite HIrp.
    repeat split; try reflexivity; try (left; reflexivity); try discriminate.
    eexists [_]. repeat split. }
  unfold IoFreeIrp, MemFree. kexec.
  eexists _, _. split; [reflexivity|].
  ksum. cbn [flat_map app length]. rewrite HIrp.
  destruct (Ans_Status _ =? STATUS_PENDING); cbn [flat_map app length].
  - repeat split; try reflexivity.
    + right. exists S'. repeat split. assumption.
    + eexists [_; _; _; _]. repeat split.
  - repeat split; try reflexivity.
    + right. exists S'. repeat split. assumption.
    + eexists [_; _; _]. repeat split.
Qed.

(** *** [SetSockOpt] and [CreateAndBindSocket] *)

Lemma SetSockOpt_spec kernel S_ L O V k :
  exists n evs st,
    SetSockOpt kernel S_ L O V k = (st, kstep n evs k) /\
    mem_allocs evs = [] /\ mem_frees evs = [] /\
    irp_allocs evs = irp_frees evs /\
    wsk_created evs = [] /\ wsk_closes evs = [] /\ rundown_waits evs = [] /\
    (NT_SUCCESS st = true ->
     wsk_calls evs = [KWskControlSocket S_ L O V] /\ irp_failures evs = 0%nat).
Proof.
  unfold SetSockOpt, IoAllocateIrp, IoFreeIrp. kexec.
  destruct (Ans_Pointer (kernel (KCalls k)) =? 0) eqn:HIrp; kexec.
  - eexists _, _, _. split; [reflexivity|]. ksum. kfacts. repeat split; discriminate.
  - eexists _, _, _. split; [reflexivity|]. ksum. kfacts.
    destruct (Ans_Status _ =? STATUS_PENDING); cbn [flat_map app length]; repeat split.
Qed.

Ltac kpend :=
  repeat match goal with
         | |- context [Ans_Status ?a =? STATUS_PENDING] =>
             destruct (Ans_Status a =? STATUS_PENDING)
         end.

Ltac kcleanup :=
  unfold cleanupIrp, cleanupSocket, IoFreeIrp; kexec;
  match goal with |- context [CloseSocket ?ker ?S0 ?k0] =>
    let nc := fresh "nc" in
    let evc := fresh "evc" in
    let Hc := fresh "Hc" in
    destruct (CloseSocket_spec ker S0 k0)
      as (nc & evc & Hc & Hc1 & Hc2 & Hc3 & Hc4 & Hc5 & Hc6 & Hc7 & _);
    rewrite Hc; clear Hc
  end;
  kexec; eexists _, _, _, _, _; (split; [reflexivity|]);
  kpend; ksum; unfold created; cbn [socket_mems Socket_Mem Sock] in *; kfacts.

Ltac kfail :=
  split; [lia|]; right; repeat split; try reflexivity; try (cbn [length]; lia);
  let Hf := fresh "Hf" in
  intros Hf; rewrite ?app_nil_r;
  match goal with H : _ -> flat_map _ _ = _ |- flat_map _ _ = _ => apply H end; lia.

Lemma CreateAndBindSocket_spec kernel Sa k :
  exists n evs st Sa' Ret,
    CreateAndBindSocket kernel Sa k = ((st, Sa', Ret), kstep n evs k) /\
    irp_allocs evs = irp_frees evs /\
    ((st = STATUS_SUCCESS /\
      exists Mem Sock_,
        Ret = Some (mkSOCKET Mem Sock_) /\ Mem <> 0 /\
        mem_allocs evs = [Mem] /\ mem_frees evs = [] /\ rundown_waits evs = [] /\
        irp_failures evs = 0%nat /\
        wsk_calls evs =
          KWskSocket (si_family Sa) SOCK_DGRAM IPPROTO_UDP WSK_FLAG_DATAGRAM_SOCKET
            Mem (Some Sock_) ::
          socket_options (si_family Sa) Sock_ ++
          [KWskBind Sock_ Sa; KWskGetLocalAddress Sock_ Sa'])
     \/
     (NT_SUCCESS st = false /\ Ret = None /\
      mem_frees evs = mem_allocs evs /\ rundown_waits evs = mem_allocs evs /\
      (length (mem_allocs evs) <= 1)%nat /\
      (irp_failures evs = 0%nat -> wsk_closes evs = wsk_created evs))).
Proof.
  unfold CreateAndBindSocket, MemAllocate_, IoAllocateIrp. kexec.
  destruct (Ans_Pointer (kernel (KCalls k)) =? 0) eqn:HMem.
  { kexec. eexists _, _, _, _, _. split; [reflexivity|].
    ksum. kfacts. split; [reflexivity|]. right. repeat split. cbn. lia. }
  kexec.
  set (Mem := Ans_Pointer (kernel (KCalls k))) in *.
  destruct (Ans_Pointer (kernel (KCalls k + 1)%nat) =? 0) eqn:HIrp.
  { kcleanup.
    split; [reflexivity|]. right. repeat split; [cbn; lia|].
    intros Hf. discriminate Hf. }
  kexec.
  set (a2 := kernel (KCalls k + 2)%nat) in *.
  destruct (NT_SUCCESS (completion_status a2)) eqn:HS2; cbn [negb].
  2:{ kcleanup.
    all: split; [reflexivity|]; right; repeat split; [cbn; lia|exact Hc7]. }
  set (Sock_ := Ans_Information a2) in *.
  assert (Hopt : exists n evs st,
    (if si_family Sa =? AF_INET
     then SetSockOpt kernel Sock_ IPPROTO_UDP UDP_NOCHECKSUM 1
     else if si_family Sa =? AF_INET6
     then SetSockOpt kernel Sock_ IPPROTO_IPV6 IPV6_V6ONLY 1
     else mret (completion_status a2))
      (kstep 3
         (KMemAllocate sizeof_SOCKET Mem
          :: KIoAllocateIrp (Ans_Pointer (kernel (KCalls k + 1)%nat))
             :: KWskSocket (si_family Sa) SOCK_DGRAM IPPROTO_UDP
                  WSK_FLAG_DATAGRAM_SOCKET Mem (created a2)
                :: (if Ans_Status a2 =? STATUS_PENDING
                    then [KWaitForSingleObject] else [])) k)
    = (st, kstep (3 + n)
         ((KMemAllocate sizeof_SOCKET Mem
          :: KIoAllocateIrp (Ans_Pointer (kernel (KCalls k + 1)%nat))
             :: KWskSocket (si_family Sa) SOCK_DGRAM IPPROTO_UDP
                  WSK_FLAG_DATAGRAM_SOCKET Mem (created a2)
                :: (if Ans_Status a2 =? STATUS_PENDING
                    then [KWaitForSingleObject] else [])) ++ evs) k) /\
    mem_allocs evs = [] /\ mem_frees evs = [] /\
    irp_allocs evs = irp_frees evs /\
    wsk_created evs = [] /\ wsk_closes evs = [] /\ rundown_waits evs = [] /\
    (NT_SUCCESS st = true ->
     wsk_calls evs =
       (if si_family Sa =? AF_INET
        then [KWskControlSocket Sock_ IPPROTO_UDP UDP_NOCHECKSUM 1]
        else if si_family Sa =? AF_INET6
        then [KWskControlSocket Sock_ IPPROTO_IPV6 IPV6_V6ONLY 1]
        else []) /\
     irp_failures evs = 0%nat)).
  { destruct (si_family Sa =? AF_INET);
      [|destruct (si_family Sa =? AF_INET6)].
    1,2: match goal with |- context [SetSockOpt ?ker ?s ?l ?o ?v ?k0] =>
           destruct (SetSockOpt_spec ker s l o v k0) as (n & evs & st & He & Hr)
         end; exists n, evs, st; rewrite He, kstep_kstep; split; [reflexivity|exact Hr].
    exists 0%nat, [], (completion_status a2). rewrite K_ret_eq, app_nil_r.
    repeat split. }
  destruct Hopt as (n1 & ev1 & st1 & He1 & Ho1 & Ho2 & Ho3 & Ho4 & Ho5 & Ho6 & Ho7).
  rewrite K_bind_eq, He1. cbn [fst snd]. clear He1.
  destruct (NT_SUCCESS st1) eqn:HS3; cbn [negb].
  2:{ kcleanup; kfail. }
  rewrite K_bind_eq.
  match goal with |- context [SetSockOpt ?ker ?s ?l ?o ?v ?k0] =>
    destruct (SetSockOpt_spec ker s l o v k0)
      as (n2 & ev2 & st2 & He2 & Hp1 & Hp2 & Hp3 & Hp4 & Hp5 & Hp6 & Hp7)
  end.
  rewrite He2. cbn [fst snd]. clear He2.
  destruct (NT_SUCCESS st2) eqn:HS4; cbn [negb].
  2:{ kcleanup; kfail. }
  kexec.
  match goal with |- context [negb (NT_SUCCESS (completion_status ?a))] =>
    set (a5 := a) in *
  end.
  destruct (NT_SUCCESS (completion_status a5)) eqn:HS5; cbn [negb].
  2:{ kcleanup; kfail. }
  kexec.
  match goal with |- context [negb (NT_SUCCESS (completion_status ?a))] =>
    set (a6 := a) in *
  end.
  destruct (NT_SUCCESS (completion_status a6)) eqn:HS6; cbn [negb].
  2:{ kcleanup; kfail. }
  unfold IoFreeIrp. kexec.
  eexists _, _, _, _, _. split; [reflexivity|].
  destruct (Ho7 eq_refl) as [Ho8 Ho9]. destruct (Hp7 eq_refl) as [Hp8 Hp9].
  clear Ho7 Hp7.
  kpend; ksum; unfold created; kfacts.
  all: split; [lia|]; left; split; [reflexivity|]; exists Mem, Sock_.
  all: repeat split; try reflexivity; try (apply Z.eqb_neq; exact HMem).
  all: unfold socket_options;
    destruct (si_family Sa =? AF_INET), (si_family Sa =? AF_INET6); reflexivity.
Qed.

(** The same runs, with the order of the events: a failing
    [CreateAndBindSocket] that has got its block ends with the wait for
    the rundown of the block, the events of closing, and the release of
    the block; whether the provider socket is closed depends on the IRP
    of [CloseSocket] alone. *)

Lemma CloseSocket_shape kernel Socket k :
  exists n mid,
    CloseSocket kernel (Some Socket) k =
      (tt, kstep n (KWaitForRundownProtectionRelease (Socket_Mem Socket) :: mid ++
                    [KMemFree (Socket_Mem Socket)]) k) /\
    mem_allocs mid = [] /\ mem_frees mid = [] /\ rundown_waits mid = [] /\
    irp_allocs mid = irp_frees mid /\
    wsk_created mid = [] /\
    (irp_failures mid = 0%nat ->
     wsk_closes mid = if Sock Socket =? 0 then [] else [Sock Socket]) /\
    (irp_failures mid <> 0%nat -> wsk_closes mid = []).
Proof.
  cbn [CloseSocket]. kexec.
  destruct (Z.eqb_spec (Sock Socket) 0) as [E0|N0]; cbn [negb orb].
  { unfold MemFree. kexec. exists 0%nat, []. repeat split. }
  unfold IoAllocateIrp. kexec.
  destruct (Ans_Pointer (kernel (KCalls k)) =? 0) eqn:HIrp.
  { unfold MemFree. kexec. eexists _, [_]. split; [reflexivity|].
    ksum. rewrite HIrp. repeat split. intros H; discriminate H. }
  unfold IoFreeIrp, MemFree. kexec.
  destruct (Ans_Status (kernel (KCalls k + 1)%nat) =? STATUS_PENDING).
  - eexists _, [_; _; _; _]. split; [reflexivity|]. ksum. rewrite HIrp.
    repeat split. intros H; contradiction H; reflexivity.
  - eexists _, [_; _; _]. split; [reflexivity|]. ksum. rewrite HIrp.
    repeat split. intros H; contradiction H; reflexivity.
Qed.

Lemma cleanupSocket_shape kernel Socket Status Sa k :
  exists n mid,
    cleanupSocket kernel Socket Status Sa k =
      ((Status, Sa, None),
       kstep n (KWaitForRundownProtectionRelease (Socket_Mem Socket) :: mid ++
                [KMemFree (Socket_Mem Socket)]) k) /\
    mem_allocs mid = [] /\ mem_frees mid = [] /\ rundown_waits mid = [] /\
    irp_allocs mid = irp_frees mid /\
    wsk_created mid = [] /\
    (irp_failures mid = 0%nat ->
     wsk_closes mid = if Sock Socket =? 0 then [] else [Sock Socket]) /\
    (irp_failures mid <> 0%nat -> wsk_closes mid = []).
Proof.
  destruct (CloseSocket_shape kernel Socket k) as (n & mid & E & H).
  exists n, mid. split; [|exact H].
  unfold cleanupSocket. rewrite K_bind_eq, E. reflexivity.
Qed.

Lemma cleanupIrp_shape kernel Socket Status Sa k :
  exists n mid,
    cleanupIrp kernel Socket Status Sa k =
      ((Status, Sa, None),
       kstep n (KIoFreeIrp :: KWaitForRundownProtectionRelease (Socket_Mem Socket) ::
                mid ++ [KMemFree (Socket_Mem Socket)]) k) /\
    mem_allocs mid = [] /\ mem_frees mid = [] /\ rundown_waits mid = [] /\
    irp_allocs mid = irp_frees mid /\
    wsk_created mid = [] /\
    (irp_failures mid = 0%nat ->
     wsk_closes mid = if Sock Socket =? 0 then [] else [Sock Socket]) /\
    (irp_failures mid <> 0%nat -> wsk_closes mid = []).
Proof.
  destruct (cleanupSocket_shape kernel Socket Status Sa (kstep 0 [KIoFreeIrp] k))
    as (n & mid & E & H).
  exists n, mid. split; [|exact H].
  unfold cleanupIrp, IoFreeIrp. rewrite K_bind_eq, klog_eq. cbn [fst snd].
  rewrite E, kstep_kstep. reflexivity.
Qed.

Ltac kshape_finish :=
  kpend; ksum; unfold created; cbn [Socket_Mem Sock] in *; kfacts;
  rewrite ?app_nil_r; cbn [flat_map app length].

Ltac kshape_close :=
  repeat match goal with x := _ : Z |- _ => subst x end;
  kshape_finish;
  repeat match goal with
         | |- context [if ?x =? 0 then _ else _] => destruct (x =? 0) eqn:?
         end;
  repeat match goal with |- _ /\ _ => split end;
  try reflexivity; try assumption; try (cbn [length]; lia);
  let Hf := fresh "Hf" in
  intros Hf; rewrite ?app_nil_r;
  first [ match goal with H : _ = 0%nat -> _ |- _ => rewrite (H Hf) end; reflexivity
        | match goal with H : _ <> 0%nat -> _ |- _ => exact (H Hf) end ].

Ltac kshape HMem :=
  kexec;
  first
  [ match goal with
    | |- context [cleanupIrp ?ker ?S0 ?st0 ?Sa0 (kstep ?N ?P ?k0)] =>
        destruct (cleanupIrp_shape ker S0 st0 Sa0 (kstep N P k0))
          as (nc & mid & Hc & Hc1 & Hc2 & Hc3 & Hc4 & Hc5 & Hc6 & Hc7);
        rewrite Hc, kstep_kstep; clear Hc;
        eexists _, _, _, _, _; (split; [reflexivity|]);
        right; (split; [reflexivity|]);
        split;
        [ kshape_finish; try lia
        | right; exists (Socket_Mem S0), (P ++ [KIoFreeIrp]), mid;
          split; [cbn [Socket_Mem]; apply Z.eqb_neq; exact HMem|];
          split; [rewrite <- ?app_assoc; reflexivity|] ]
    end
  | match goal with
    | |- context [cleanupSocket ?ker ?S0 ?st0 ?Sa0 (kstep ?N ?P ?k0)] =>
        destruct (cleanupSocket_shape ker S0 st0 Sa0 (kstep N P k0))
          as (nc & mid & Hc & Hc1 & Hc2 & Hc3 & Hc4 & Hc5 & Hc6 & Hc7);
        rewrite Hc, kstep_kstep; clear Hc;
        eexists _, _, _, _, _; (split; [reflexivity|]);
        right; (split; [reflexivity|]);
        split;
        [ kshape_finish; try lia
        | right; exists (Socket_Mem S0), P, mid;
          split; [cbn [Socket_Mem]; apply Z.eqb_neq; exact HMem|];
          split; [reflexivity|] ]
    end ].

Lemma CreateAndBindSocket_shape kernel Sa k :
  exists n evs st Sa' Ret,
    CreateAndBindSocket kernel Sa k = ((st, Sa', Ret), kstep n evs k) /\
    (NT_SUCCESS st = true \/
     (Ret = None /\ irp_allocs evs = irp_frees evs /\
      (evs = [KMemAllocate sizeof_SOCKET 0] \/
       exists Mem pre mid,
         Mem <> 0 /\
         evs = pre ++ KWaitForRundownProtectionRelease Mem :: mid ++ [KMemFree Mem] /\
         mem_allocs pre = [Mem] /\ mem_frees pre = [] /\ rundown_waits pre = [] /\
         wsk_closes pre = [] /\ (length (wsk_created pre) <= 1)%nat /\
         mem_allocs mid = [] /\ mem_frees mid = [] /\ rundown_waits mid = [] /\
         wsk_created mid = [] /\
         (irp_failures mid = 0%nat -> wsk_closes mid = wsk_created pre) /\
         (irp_failures mid <> 0%nat -> wsk_closes mid = [])))).
Proof.
  unfold CreateAndBindSocket, MemAllocate_, IoAllocateIrp. kexec.
  destruct (Ans_Pointer (kernel (KCalls k)) =? 0) eqn:HMem.
  { kexec. eexists _, _, _, _, _. split; [reflexivity|]. right.
    split; [reflexivity|]. split; [reflexivity|]. left.
    apply Z.eqb_eq in HMem. rewrite HMem. reflexivity. }
  kexec.
  set (Mem := Ans_Pointer (kernel (KCalls k))) in *.
  destruct (Ans_Pointer (kernel (KCalls k + 1)%nat) =? 0) eqn:HIrp.
  { kshape HMem. kshape_close. }
  kexec.
  set (a2 := kernel (KCalls k + 2)%nat) in *.
  destruct (NT_SUCCESS (completion_status a2)) eqn:HS2; cbn [negb].
  2:{ kshape HMem; kshape_close. }
  set (Sock_ := Ans_Information a2) in *.
  assert (Hopt : exists n evs st,
    (if si_family Sa =? AF_INET
     then SetSockOpt kernel Sock_ IPPROTO_UDP UDP_NOCHECKSUM 1
     else if si_family Sa =? AF_INET6
     then SetSockOpt kernel Sock_ IPPROTO_IPV6 IPV6_V6ONLY 1
     else mret (completion_status a2))
      (kstep 3
         (KMemAllocate sizeof_SOCKET Mem
          :: KIoAllocateIrp (Ans_Pointer (kernel (KCalls k + 1)%nat))
             :: KWskSocket (si_family Sa) SOCK_DGRAM IPPROTO_UDP
                  WSK_FLAG_DATAGRAM_SOCKET Mem (created a2)
                :: (if Ans_Status a2 =? STATUS_PENDING
                    then [KWaitForSingleObject] else [])) k)
    = (st, kstep (3 + n)
         ((KMemAllocate sizeof_SOCKET Mem
          :: KIoAllocateIrp (Ans_Pointer (kernel (KCalls k + 1)%nat))
             :: KWskSocket (si_family Sa) SOCK_DGRAM IPPROTO_UDP
                  WSK_FLAG_DATAGRAM_SOCKET Mem (created a2)
                :: (if Ans_Status a2 =? STATUS_PENDING
                    then [KWaitForSingleObject] else [])) ++ evs) k) /\
    mem_allocs evs = [] /\ mem_frees evs = [] /\
    irp_allocs evs = irp_frees evs /\
    wsk_created evs = [] /\ wsk_closes evs = [] /\ rundown_waits evs = []).
  { destruct (si_family Sa =? AF_INET);
      [|destruct (si_family Sa =? AF_INET6)].
    1,2: match goal with |- context [SetSockOpt ?ker ?s ?l ?o ?v ?k0] =>
           destruct (SetSockOpt_spec ker s l o v k0)
             as (n & evs & st & He & H1 & H2 & H3 & H4 & H5 & H6 & _)
         end; exists n, evs, st; rewrite He, kstep_kstep; split; [reflexivity|];
         repeat split; assumption.
    exists 0%nat, [], (completion_status a2). rewrite K_ret_eq, app_nil_r.
    repeat split. }
  destruct Hopt as (n1 & ev1 & st1 & He1 & Ho1 & Ho2 & Ho3 & Ho4 & Ho5 & Ho6).
  rewrite K_bind_eq, He1. cbn [fst snd]. clear He1.
  destruct (NT_SUCCESS st1) eqn:HS3; cbn [negb].
  2:{ kshape HMem; kshape_close. }
  rewrite K_bind_eq.
  match goal with |- context [SetSockOpt ?ker ?s ?l ?o ?v ?k0] =>
    destruct (SetSockOpt_spec ker s l o v k0)
      as (n2 & ev2 & st2 & He2 & Hp1 & Hp2 & Hp3 & Hp4 & Hp5 & Hp6 & _)
  end.
  rewrite He2. cbn [fst snd]. clear He2.
  destruct (NT_SUCCESS st2) eqn:HS4; cbn [negb].
  2:{ kshape HMem; kshape_close. }
  kexec.
  match goal with |- context [negb (NT_SUCCESS (completion_status ?a))] =>
    set (a5 := a) in *
  end.
  destruct (NT_SUCCESS (completion_status a5)) eqn:HS5; cbn [negb].
  2:{ kshape HMem; kshape_close. }
  kexec.
  match goal with |- context [negb (NT_SUCCESS (completion_status ?a))] =>
    set (a6 := a) in *
  end.
  destruct (NT_SUCCESS (completion_status a6)) eqn:HS6; cbn [negb].
  2:{ kshape HMem; kshape_close. }
  unfold IoFreeIrp. kexec.
  eexists _, _, _, _, _. split; [reflexivity|]. left. reflexivity.
Qed.

(** *** [SocketReinit] *)

Lemma kstep_mk n evs c l s4 s6 p h4 h6 i :
  kstep n evs (mkKSTATE c l s4 s6 p h4 h6 i) =
  mkKSTATE (c + n) (l ++ evs) s4 s6 p h4 h6 i.
Proof. reflexivity. Qed.

Lemma SocketReinit_spec kernel New4 New6 Port k :
  exists n evs,
    SocketReinit kernel New4 New6 Port k =
      (tt, mkKSTATE (KCalls k + n)
             (KLog k ++ [KAcquirePushLockExclusive SocketUpdateLock;
                         KReleasePushLockExclusive SocketUpdateLock;
                         KRcuSynchronize] ++ evs)
             New4 New6
             (if bool_decide (is_Some New4) || bool_decide (is_Some New6)
              then Port else IncomingPort k)
             (WskHasIpv4Transport k) (WskHasIpv6Transport k) (WskInitStatus k)) /\
    mem_allocs evs = [] /\
    mem_frees evs = socket_mems (Wg_Sock4 k) ++ socket_mems (Wg_Sock6 k) /\
    rundown_waits evs = socket_mems (Wg_Sock4 k) ++ socket_mems (Wg_Sock6 k) /\
    irp_allocs evs = irp_frees evs /\
    wsk_created evs = [].
Proof.
  unfold SocketReinit, set_Socks, set_IncomingPort, kget. kexec.
  cbn [klog kstep fst snd KCalls KLog Wg_Sock4 Wg_Sock6 IncomingPort
       WskHasIpv4Transport WskHasIpv6Transport WskInitStatus].
  destruct (bool_decide (is_Some New4) || bool_decide (is_Some New6));
    rewrite ?K_ret_eq; cbn [fst snd KCalls KLog Wg_Sock4 Wg_Sock6 IncomingPort
       WskHasIpv4Transport WskHasIpv6Transport WskInitStatus].
  all: match goal with |- context [CloseSocket ?ker ?S0 ?k0] =>
         destruct (CloseSocket_spec ker S0 k0)
           as (n1 & ev1 & He1 & Ha1 & Ha2 & Ha3 & Ha4 & Ha5 & _);
         rewrite He1; clear He1
       end; kexec.
  all: match goal with |- context [CloseSocket ?ker ?S0 ?k0] =>
         destruct (CloseSocket_spec ker S0 k0)
           as (n2 & ev2 & He2 & Hb1 & Hb2 & Hb3 & Hb4 & Hb5 & _);
         rewrite He2; clear He2
       end; kexec.
  all: exists (n2 + n1)%nat, (ev2 ++ ev1); split;
    [rewrite kstep_mk, <- app_assoc; reflexivity|].
  all: unfold irp_allocs, irp_frees in *.
  all: unfold mem_allocs, mem_frees, rundown_waits, wsk_created in *.
  all: rewrite !flat_map_app, !length_app, Ha1, Ha2, Ha3, Ha4, Ha5, Hb1, Hb2, Hb3, Hb4, Hb5.
  all: repeat split.
Qed.

(** *** [SocketInit] *)

Lemma wsk_calls_In e evs : In e (wsk_calls evs) -> In e evs.
Proof.
  unfold wsk_calls. rewrite in_flat_map. intros (x & Hx & He).
  destruct x; cbn in He; try contradiction; destruct He as [<-|[]]; exact Hx.
Qed.

Lemma create_if_spec kernel (Has : bool) Sa Sa0 k :
  exists n evs st Sa' Ret,
    (if Has then CreateAndBindSocket kernel Sa
     else mret (STATUS_SUCCESS, Sa0, None)) k = ((st, Sa', Ret), kstep n evs k) /\
    irp_allocs evs = irp_frees evs /\ (length (mem_allocs evs) <= 1)%nat /\
    ((st = STATUS_SUCCESS /\
      mem_allocs evs = socket_mems Ret /\ mem_frees evs = [] /\
      rundown_waits evs = [] /\
      (is_Some Ret <-> Has = true) /\
      (Has = true ->
       exists S', Ret = Some S' /\
         In (KWskBind (Sock S') Sa) evs /\
         In (KWskGetLocalAddress (Sock S') Sa') evs) /\
      (Has = false -> Sa' = Sa0))
     \/
     (NT_SUCCESS st = false /\ Ret = None /\ Has = true /\
      mem_frees evs = mem_allocs evs /\ rundown_waits evs = mem_allocs evs)).
Proof.
  destruct Has.
  - destruct (CreateAndBindSocket_spec kernel Sa k)
      as (n & evs & st & Sa' & Ret & E & I & HR).
    exists n, evs, st, Sa', Ret. split; [exact E|]. split; [exact I|].
    destruct HR as [(-> & Mem & Sock_ & -> & HM & Ha & Hf & Hw & _ & Hc)
                   |(Hs & -> & Hf & Hw & Hl & _)].
    + split; [rewrite Ha; cbn; lia|]. left. repeat split; try assumption; try eauto; try discriminate.
      intros _. eexists. split; [reflexivity|]. cbn [Sock].
      split; apply wsk_calls_In; rewrite Hc; apply in_cons, in_or_app; right;
        cbn; auto.
    + split; [exact Hl|]. right. repeat split; assumption.
  - exists 0%nat, [], STATUS_SUCCESS, Sa0, None. rewrite K_ret_eq, kstep_0.
    split; [reflexivity|]. split; [reflexivity|]. split; [cbn; lia|]. left.
    repeat split; try discriminate. intros [? ?]; discriminate.
Qed.

Lemma SocketInit_pass kernel fuel Port Retries Sa4 Sa6 k :
  exists n evs r,
    SocketInit_retry kernel (S fuel) Port Retries Sa4 Sa6 k = r /\
    irp_allocs evs = irp_frees evs /\ rundown_waits evs = mem_frees evs /\
    (length (mem_allocs evs) <= 2)%nat /\
    ((exists Sa4' Sa6',
        r = SocketInit_retry kernel fuel Port (Retries + 1) Sa4' Sa6' (kstep n evs k) /\
        Port = 0 /\ Retries < 100 /\ WskHasIpv6Transport k = true /\
        mem_frees evs ≡ₚ mem_allocs evs)
     \/
     (exists st,
        r = (Some st, kstep n evs k) /\
        NT_SUCCESS st = false /\ mem_frees evs ≡ₚ mem_allocs evs)
     \/
     (exists New4 New6 P,
        r = (Some STATUS_SUCCESS,
             mkKSTATE (KCalls k + n) (KLog k ++ evs) New4 New6 P
               (WskHasIpv4Transport k) (WskHasIpv6Transport k) (WskInitStatus k)) /\
        (is_Some New4 <-> WskHasIpv4Transport k = true) /\
        (is_Some New6 <-> WskHasIpv6Transport k = true) /\
        mem_allocs evs ++ socket_mems (Wg_Sock4 k) ++ socket_mems (Wg_Sock6 k) ≡ₚ
          mem_frees evs ++ socket_mems New4 ++ socket_mems New6 /\
        (WskHasIpv4Transport k = true ->
         exists S4 L4,
           New4 = Some S4 /\
           In (KWskBind (Sock S4) Sa4) evs /\
           In (KWskGetLocalAddress (Sock S4) L4) evs /\
           P = Ntohs (sin_port L4) /\
           (WskHasIpv6Transport k = true ->
            exists S6,
              New6 = Some S6 /\
              In (KWskBind (Sock S6) (set_sin_port Sa6 (sin_port L4))) evs)) /\
        (WskHasIpv4Transport k = false -> WskHasIpv6Transport k = true ->
         exists S6 L6,
           New6 = Some S6 /\
           In (KWskBind (Sock S6) (set_sin_port Sa6 (sin_port Sa4))) evs /\
           In (KWskGetLocalAddress (Sock S6) L6) evs /\
           P = Ntohs (sin_port L6)) /\
        (WskHasIpv4Transport k = false -> WskHasIpv6Transport k = false ->
         P = IncomingPort k))).
Proof.
  cbn [SocketInit_retry]. kexec.
  destruct (create_if_spec kernel (WskHasIpv4Transport k) Sa4 Sa4 k)
    as (n4 & e4 & st4 & Sa4' & R4 & E4 & I4 & L4 & HR4).
  rewrite E4. cbn [fst snd]. clear E4.
  destruct HR4 as [(-> & Ha4 & Hf4 & Hw4 & Hs4 & Hb4 & Hn4)|(Hs4 & -> & _ & Hf4 & Hw4)].
  2:{ rewrite Hs4. cbn [negb]. rewrite K_ret_eq.
      eexists _, _, _. split; [reflexivity|].
      split; [exact I4|]. split; [congruence|]. split; [lia|]. right. left.
      eexists. split; [reflexivity|]. split; [exact Hs4|]. rewrite Hf4. reflexivity. }
  change (NT_SUCCESS STATUS_SUCCESS) with true. cbn [negb]. kexec.
  destruct (create_if_spec kernel (WskHasIpv6Transport k)
              (set_sin_port Sa6 (sin_port Sa4')) Sa6 (kstep n4 e4 k))
    as (n6 & e6 & st6 & Sa6' & R6 & E6 & I6 & L6 & HR6).
  rewrite E6. cbn [fst snd]. clear E6. kexec.
  destruct HR6 as [(-> & Ha6 & Hf6 & Hw6 & Hs6 & Hb6 & Hn6)|(Hs6 & -> & H6 & Hf6 & Hw6)].
  2:{ rewrite Hs6. cbn [negb].
      destruct (CloseSocket_spec kernel R4 (kstep (n4 + n6) (e4 ++ e6) k))
        as (nc & ec & Ec & Hc1 & Hc2 & Hc3 & Hc4 & Hc5 & _).
      rewrite K_bind_eq, Ec. cbn [fst snd]. clear Ec. kexec.
      assert (Hirp : irp_allocs ((e4 ++ e6) ++ ec) = irp_frees ((e4 ++ e6) ++ ec)).
      { unfold irp_allocs, irp_frees in *. rewrite !flat_map_app, !length_app. lia. }
      assert (Hwt : rundown_waits ((e4 ++ e6) ++ ec) = mem_frees ((e4 ++ e6) ++ ec)).
      { unfold rundown_waits, mem_frees in *. rewrite !flat_map_app. congruence. }
      assert (Hmem : mem_frees ((e4 ++ e6) ++ ec) ≡ₚ mem_allocs ((e4 ++ e6) ++ ec)).
      { unfold mem_allocs, mem_frees in *. rewrite !flat_map_app.
        rewrite Hf4, Hf6, Hc2, Ha4, Hc1. solve_Permutation. }
      assert (Hlen : (length (mem_allocs ((e4 ++ e6) ++ ec)) <= 2)%nat).
      { unfold mem_allocs in *. rewrite !flat_map_app, !length_app, Hc1. cbn. lia. }
      destruct ((st6 =? STATUS_ADDRESS_ALREADY_EXISTS) && (Port =? 0) && (Retries <? 100))
        eqn:Hretry.
      - apply andb_prop in Hretry. destruct Hretry as [Hretry HR].
        apply andb_prop in Hretry. destruct Hretry as [_ HP].
        eexists _, _, _. split; [reflexivity|]. split; [exact Hirp|].
        split; [exact Hwt|]. split; [exact Hlen|]. left. exists Sa4', Sa6'.
        split; [reflexivity|]. repeat split; try assumption; lia.
      - rewrite K_ret_eq. eexists _, _, _. split; [reflexivity|].
        split; [exact Hirp|]. split; [exact Hwt|]. split; [exact Hlen|]. right. left.
        eexists. split; [reflexivity|]. split; assumption. }
  change (NT_SUCCESS STATUS_SUCCESS) with true. cbn [negb]. kexec.
  destruct (SocketReinit_spec kernel R4 R6
              (if WskHasIpv4Transport k then Ntohs (sin_port Sa4')
               else if WskHasIpv6Transport k then Ntohs (sin_port Sa6') else Port)
              (kstep (n4 + n6) (e4 ++ e6) k))
    as (nr & er & Er & Hr1 & Hr2 & Hr3 & Hr4 & Hr5).
  rewrite Er. cbn [fst snd]. clear Er. kexec.
  rewrite Sock4_kstep, Sock6_kstep in Hr2, Hr3.
  set (lock := [KAcquirePushLockExclusive SocketUpdateLock;
                KReleasePushLockExclusive SocketUpdateLock; KRcuSynchronize]).
  exists (n4 + n6 + nr)%nat, ((e4 ++ e6) ++ lock ++ er). eexists.
  split; [reflexivity|].
  split.
  { unfold irp_allocs, irp_frees in *. rewrite !flat_map_app, !length_app.
    cbn [lock flat_map app length]. lia. }
  split.
  { unfold rundown_waits, mem_frees in *. rewrite !flat_map_app.
    cbn [lock flat_map app]. congruence. }
  split.
  { unfold mem_allocs in *. rewrite !flat_map_app, !length_app, Hr1.
    cbn [lock flat_map app length]. lia. }
  right. right.
  exists R4, R6,
    (if bool_decide (is_Some R4) || bool_decide (is_Some R6)
     then if WskHasIpv4Transport k then Ntohs (sin_port Sa4')
          else if WskHasIpv6Transport k then Ntohs (sin_port Sa6') else Port
     else IncomingPort k).
  split.
  { cbn [kstep KLog IncomingPort]. rewrite <- !app_assoc, <- !Nat.add_assoc.
    reflexivity. }
  split; [exact Hs4|]. split; [exact Hs6|].
  split.
  { unfold mem_allocs, mem_frees in *. rewrite !flat_map_app.
    cbn [lock flat_map app]. rewrite Ha4, Ha6, Hr1, Hf4, Hf6, Hr2.
    solve_Permutation. }
  split; [|split].
  - intros H4. destruct (Hb4 H4) as (S4 & -> & Hbind & Hloc).
    exists S4, Sa4'. split; [reflexivity|].
    split; [apply in_or_app; left; apply in_or_app; left; exact Hbind|].
    split; [apply in_or_app; left; apply in_or_app; left; exact Hloc|].
    split; [rewrite H4; reflexivity|].
    intros H6. destruct (Hb6 H6) as (S6 & -> & Hbind6 & _).
    exists S6. split; [reflexivity|].
    apply in_or_app; left; apply in_or_app; right; exact Hbind6.
  - intros H4 H6. destruct (Hb6 H6) as (S6 & -> & Hbind6 & Hloc6).
    exists S6, Sa6'. split; [reflexivity|]. rewrite <- (Hn4 H4).
    split; [apply in_or_app; left; apply in_or_app; right; exact Hbind6|].
    split; [apply in_or_app; left; apply in_or_app; right; exact Hloc6|].
    rewrite H4, H6. rewrite orb_true_r. reflexivity.
  - intros H4 H6.
    destruct R4 as [S4|]; [destruct Hs4 as [Hs4 _]; rewrite H4 in Hs4;
      discriminate (Hs4 (ex_intro _ S4 eq_refl))|].
    destruct R6 as [S6|]; [destruct Hs6 as [Hs6 _]; rewrite H6 in Hs6;
      discriminate (Hs6 (ex_intro _ S6 eq_refl))|].
    reflexivity.
Qed.

Lemma SocketInit_retry_spec kernel Port :
  forall fuel Retries Sa4 Sa6 k,
    (0 < fuel)%nat -> 100 - Retries < Z.of_nat fuel ->
    exists st k' n evs,
      SocketInit_retry kernel fuel Port Retries Sa4 Sa6 k = (Some st, k') /\
      KCalls k' = (KCalls k + n)%nat /\ KLog k' = KLog k ++ evs /\
      WskHasIpv4Transport k' = WskHasIpv4Transport k /\
      WskHasIpv6Transport k' = WskHasIpv6Transport k /\
      WskInitStatus k' = WskInitStatus k /\
      irp_allocs evs = irp_frees evs /\
      rundown_waits evs = mem_frees evs /\
      mem_allocs evs ++ socket_mems (Wg_Sock4 k) ++ socket_mems (Wg_Sock6 k) ≡ₚ
        mem_frees evs ++ socket_mems (Wg_Sock4 k') ++ socket_mems (Wg_Sock6 k') /\
      (NT_SUCCESS st = false ->
         Wg_Sock4 k' = Wg_Sock4 k /\ Wg_Sock6 k' = Wg_Sock6 k /\
         IncomingPort k' = IncomingPort k) /\
      (NT_SUCCESS st = true ->
         st = STATUS_SUCCESS /\
         (is_Some (Wg_Sock4 k') <-> WskHasIpv4Transport k = true) /\
         (is_Some (Wg_Sock6 k') <-> WskHasIpv6Transport k = true) /\
         (WskHasIpv4Transport k = true ->
          exists S4 L4,
            Wg_Sock4 k' = Some S4 /\
            In (KWskGetLocalAddress (Sock S4) L4) evs /\
            IncomingPort k' = Ntohs (sin_port L4) /\
            (WskHasIpv6Transport k = true ->
             exists S6 B6,
               Wg_Sock6 k' = Some S6 /\
               In (KWskBind (Sock S6) B6) evs /\ sin_port B6 = sin_port L4)) /\
         (WskHasIpv4Transport k = false -> WskHasIpv6Transport k = false ->
          IncomingPort k' = IncomingPort k)).
Proof.
  induction fuel as [|fuel IH]; intros Retries Sa4 Sa6 k Hpos Hfuel; [lia|].
  destruct (SocketInit_pass kernel fuel Port Retries Sa4 Sa6 k)
    as (n & evs & r & <- & Hirp & Hwt & _ & Hcases).
  destruct Hcases as [(Sa4' & Sa6' & -> & HP & HR & H6 & Hmem)
                     |[(st & -> & Hst & Hmem)
                      |(New4 & New6 & P & -> & Hs4 & Hs6 & Hmem & Hp4 & _ & Hp0)]].
  - destruct (IH (Retries + 1) Sa4' Sa6' (kstep n evs k) ltac:(lia) ltac:(lia))
      as (st & k' & n' & evs' & E & Hc & Hl & Hh4 & Hh6 & Hi & Hirp' & Hwt' & Hmem'
          & Hfail & Hsucc).
    rewrite Sock4_kstep, Sock6_kstep, ?Has4_kstep, ?Has6_kstep in *.
    exists st, k', (n + n')%nat, (evs ++ evs').
    split; [exact E|].
    split; [rewrite Hc, KCalls_kstep; lia|].
    split; [rewrite Hl; cbn [kstep KLog]; rewrite app_assoc; reflexivity|].
    split; [exact Hh4|]. split; [exact Hh6|]. split; [exact Hi|].
    split.
    { unfold irp_allocs, irp_frees in *. rewrite !flat_map_app, !length_app. lia. }
    split.
    { unfold rundown_waits, mem_frees in *. rewrite !flat_map_app. congruence. }
    split.
    { unfold mem_allocs, mem_frees in *. rewrite !flat_map_app, <- !app_assoc.
      apply Permutation_app; [symmetry; exact Hmem|exact Hmem']. }
    split.
    { intros Hf. destruct (Hfail Hf) as (? & ? & ?).
      rewrite ?Sock4_kstep, ?Sock6_kstep in *. repeat split; assumption. }
    intros Hs. destruct (Hsucc Hs) as (-> & Ht4 & Ht6 & Hq4 & Hq0).
    split; [reflexivity|]. split; [exact Ht4|]. split; [exact Ht6|].
    split.
    + intros H4. destruct (Hq4 H4) as (S4 & L4 & E4 & Hin & HPt & Hq6).
      exists S4, L4. split; [exact E4|].
      split; [apply in_or_app; right; exact Hin|]. split; [exact HPt|].
      intros H6'. destruct (Hq6 H6') as (S6 & B6 & E6 & Hin6 & Hpt6).
      exists S6, B6. split; [exact E6|]. split; [apply in_or_app; right; exact Hin6|].
      exact Hpt6.
    + exact Hq0.
  - exists st, (kstep n evs k), n, evs.
    split; [reflexivity|].
    do 5 (split; [reflexivity|]).
    split; [exact Hirp|]. split; [exact Hwt|].
    split.
    { unfold kstep; cbn [Wg_Sock4 Wg_Sock6].
      apply Permutation_app; [symmetry; exact Hmem|reflexivity]. }
    split; [intros _; repeat split|].
    intros Hs. rewrite Hst in Hs. discriminate Hs.
  - eexists _, _, n, evs.
    split; [reflexivity|].
    cbn [KCalls KLog Wg_Sock4 Wg_Sock6 IncomingPort WskHasIpv4Transport
         WskHasIpv6Transport WskInitStatus].
    do 5 (split; [reflexivity|]).
    split; [exact Hirp|]. split; [exact Hwt|]. split; [exact Hmem|].
    split; [intros Hf; discriminate Hf|].
    intros _. split; [reflexivity|]. split; [exact Hs4|]. split; [exact Hs6|].
    split.
    + intros H4. destruct (Hp4 H4) as (S4 & L4 & -> & _ & Hin & -> & Hq6).
      exists S4, L4. split; [reflexivity|]. split; [exact Hin|].
      split; [reflexivity|].
      intros H6. destruct (Hq6 H6) as (S6 & -> & Hin6).
      exists S6, (set_sin_port Sa6 (sin_port L4)).
      split; [reflexivity|]. split; [exact Hin6|]. reflexivity.
    + exact Hp0.
Qed.

(** *** The socket lifecycle: statements *)

(** X18. [CloseSocket] on a socket first waits for the rundown of its
    items in flight and last frees its memory, once each.  In between it
    allocates no memory and frees every IRP it has got.  It asks the
    system for an IRP exactly when the socket has a provider socket, and
    it asks the provider to close that socket, once, exactly when the
    system has given the IRP: with a null provider socket, or with the
    IRP refused, the provider is not called. *)
Theorem CloseSocket_waits_closes_frees kernel Socket k :
  exists n mid,
    CloseSocket kernel (Some Socket) k =
      (tt, kstep n (KWaitForRundownProtectionRelease (Socket_Mem Socket) :: mid ++
                    [KMemFree (Socket_Mem Socket)]) k) /\
    mem_allocs mid = [] /\ mem_frees mid = [] /\ rundown_waits mid = [] /\
    irp_allocs mid = irp_frees mid /\
    n = (if Sock Socket =? 0 then 0%nat
         else if Ans_Pointer (kernel (KCalls k)) =? 0 then 1%nat else 2%nat) /\
    (irp_allocs mid + irp_failures mid)%nat =
      (if Sock Socket =? 0 then 0%nat else 1%nat) /\
    irp_allocs mid =
      (if (Sock Socket =? 0) || (Ans_Pointer (kernel (KCalls k)) =? 0) then 0%nat
       else 1%nat) /\
    wsk_calls mid =
      (if (Sock Socket =? 0) || (Ans_Pointer (kernel (KCalls k)) =? 0) then []
       else [KWskCloseSocket (Sock Socket)]).
Proof.
  cbn [CloseSocket]. kexec.
  destruct (Z.eqb_spec (Sock Socket) 0) as [E0|N0]; cbn [negb orb].
  { unfold MemFree. kexec. exists 0%nat, []. repeat split. }
  unfold IoAllocateIrp. kexec.
  destruct (Ans_Pointer (kernel (KCalls k)) =? 0) eqn:HIrp.
  { unfold MemFree. kexec. eexists _, [_]. split; [reflexivity|].
    ksum. rewrite HIrp. repeat split. }
  unfold IoFreeIrp, MemFree. kexec.
  destruct (Ans_Status (kernel (KCalls k + 1)%nat) =? STATUS_PENDING).
  - eexists _, [_; _; _; _]. split; [reflexivity|]. ksum. rewrite HIrp. repeat split.
  - eexists _, [_; _; _]. split; [reflexivity|]. ksum. rewrite HIrp. repeat split.
Qed.

(** X19. When [CreateAndBindSocket] fails it gives no socket and every
    IRP it has got is freed.  Either the block could not be allocated and
    nothing else has happened, or the run is made of three parts in this
    order: a first part that allocates the block, creates at most one
    provider socket, and neither waits, frees the block nor closes a
    socket; then the wait for the rundown of the block, the events of
    [CloseSocket], and last the release of the block.  The provider
    socket created in the first part (a null one apart) is closed in the
    closing part exactly when the IRP asked for by [CloseSocket] has been
    given, whatever IRP has been refused before. *)
Theorem CreateAndBindSocket_failure_releases kernel Sa k st Sa' Ret k' :
  CreateAndBindSocket kernel Sa k = ((st, Sa', Ret), k') ->
  NT_SUCCESS st = false ->
  Ret = None /\
  exists n evs,
    k' = kstep n evs k /\
    irp_allocs evs = irp_frees evs /\
    (evs = [KMemAllocate sizeof_SOCKET 0] \/
     exists Mem pre mid,
       Mem <> 0 /\
       evs = pre ++ KWaitForRundownProtectionRelease Mem :: mid ++ [KMemFree Mem] /\
       mem_allocs pre = [Mem] /\ mem_frees pre = [] /\ rundown_waits pre = [] /\
       wsk_closes pre = [] /\ (length (wsk_created pre) <= 1)%nat /\
       mem_allocs mid = [] /\ mem_frees mid = [] /\ rundown_waits mid = [] /\
       wsk_created mid = [] /\
       (irp_failures mid = 0%nat -> wsk_closes mid = wsk_created pre) /\
       (irp_failures mid <> 0%nat -> wsk_closes mid = [])).
Proof.
  intros Hrun Hst.
  destruct (CreateAndBindSocket_shape kernel Sa k)
    as (n & evs & st0 & Sa0 & Ret0 & E & HR).
  rewrite Hrun in E. injection E as -> -> -> ->.
  destruct HR as [Hs|(-> & Hi & Hsh)]; [rewrite Hs in Hst; discriminate Hst|].
  split; [reflexivity|]. exists n, evs.
  split; [reflexivity|]. split; [exact Hi|exact Hsh].
Qed.

(** The IRP of the first socket option is refused and the one of
    [CloseSocket] is given: the call fails with
    [STATUS_INSUFFICIENT_RESOURCES], one IRP has been refused, and the
    socket 12416 that had been created is closed. *)
Lemma CreateAndBindSocket_failure_releases_witness :
  exists n evs,
    snd (CreateAndBindSocket SampleMore.kernel_no_option_irp
           SampleMore.local_address KSTATE_init) = kstep n evs KSTATE_init /\
    irp_allocs evs = irp_frees evs /\
    irp_failures evs = 1%nat /\
    wsk_created evs = [12416] /\ wsk_closes evs = [12416].
Proof.
  destruct (CreateAndBindSocket_failure_releases
              SampleMore.kernel_no_option_irp SampleMore.local_address
              KSTATE_init STATUS_INSUFFICIENT_RESOURCES SampleMore.local_address None
              (snd (CreateAndBindSocket SampleMore.kernel_no_option_irp
                      SampleMore.local_address KSTATE_init)))
    as (_ & n & evs & Hk & Hi & _).
  - vm_compute. reflexivity.
  - reflexivity.
  - exists n, evs. split; [exact Hk|]. split; [exact Hi|].
    apply (f_equal KLog) in Hk. vm_compute in Hk.
    rewrite <- Hk. repeat split.
Defined.

(** X20. When [CreateAndBindSocket] succeeds its status is
    [STATUS_SUCCESS] and the socket it gives holds the one block it has
    allocated and the socket the provider has created.  The provider has
    been called, in this order: to create a datagram UDP socket of the
    family of the address, to set the option of the family
    ([UDP_NOCHECKSUM] for IPv4, [IPV6_V6ONLY] for IPv6), to set the
    packet-info option, to bind to the address, and to read the local
    address back, which is what the address holds afterwards. *)
Theorem CreateAndBindSocket_success_calls kernel Sa k st Sa' Ret k' :
  CreateAndBindSocket kernel Sa k = ((st, Sa', Ret), k') ->
  NT_SUCCESS st = true ->
  st = STATUS_SUCCESS /\
  exists Mem Sock_ n evs,
    Ret = Some (mkSOCKET Mem Sock_) /\ Mem <> 0 /\
    k' = kstep n evs k /\
    mem_allocs evs = [Mem] /\ mem_frees evs = [] /\
    irp_allocs evs = irp_frees evs /\ irp_failures evs = 0%nat /\
    wsk_calls evs =
      KWskSocket (si_family Sa) SOCK_DGRAM IPPROTO_UDP WSK_FLAG_DATAGRAM_SOCKET
        Mem (Some Sock_) ::
      socket_options (si_family Sa) Sock_ ++
      [KWskBind Sock_ Sa; KWskGetLocalAddress Sock_ Sa'].
Proof.
  intros Hrun Hst.
  destruct (CreateAndBindSocket_spec kernel Sa k)
    as (n & evs & st0 & Sa0 & Ret0 & E & I & HR).
  rewrite Hrun in E. injection E as -> -> -> ->.
  destruct HR as [(-> & Mem & Sock_ & -> & HM & Ha & Hf & Hw & Hi & Hc)|(Hs & _)];
    [|rewrite Hs in Hst; discriminate Hst].
  split; [reflexivity|]. exists Mem, Sock_, n, evs. repeat split; assumption.
Qed.

Lemma CreateAndBindSocket_success_calls_witness :
  exists evs,
    KLog (snd (CreateAndBindSocket SampleMore.kernel_ok
                 (mkSOCKADDR_INET AF_INET6 0 0 IN6ADDR_ANY 0) KSTATE_init)) = evs /\
    wsk_calls evs =
      [KWskSocket AF_INET6 SOCK_DGRAM IPPROTO_UDP WSK_FLAG_DATAGRAM_SOCKET 8192
         (Some 12416);
       KWskControlSocket 12416 IPPROTO_IPV6 IPV6_V6ONLY 1;
       KWskControlSocket 12416 IPPROTO_IPV6 IPV6_PKTINFO 1;
       KWskBind 12416 (mkSOCKADDR_INET AF_INET6 0 0 IN6ADDR_ANY 0);
       KWskGetLocalAddress 12416 SampleMore.local_address].
Proof.
  destruct (CreateAndBindSocket_success_calls SampleMore.kernel_ok
              (mkSOCKADDR_INET AF_INET6 0 0 IN6ADDR_ANY 0) KSTATE_init
              STATUS_SUCCESS SampleMore.local_address
              (Some (mkSOCKET 8192 12416))
              (snd (CreateAndBindSocket SampleMore.kernel_ok
                      (mkSOCKADDR_INET AF_INET6 0 0 IN6ADDR_ANY 0) KSTATE_init)))
    as (_ & Mem & Sock_ & n & evs & HR & _ & Hk & _ & _ & _ & _ & Hc).
  - vm_compute. reflexivity.
  - reflexivity.
  - injection HR as <- <-. exists evs. split.
    + rewrite Hk. reflexivity.
    + rewrite Hc. reflexivity.
Defined.

(** X21. [SocketReinit] takes the socket update lock, gives the device
    the two new sockets, and the port when one of them is not null,
    releases the lock, waits for the readers with [RcuSynchronize], and
    only then closes the two sockets the device had: their memory is what
    is freed, the IPv4 one first, and nothing that was given is closed. *)
Theorem SocketReinit_swaps_then_closes_old kernel New4 New6 Port k :
  exists n evs,
    SocketReinit kernel New4 New6 Port k =
      (tt, mkKSTATE (KCalls k + n)
             (KLog k ++ [KAcquirePushLockExclusive SocketUpdateLock;
                         KReleasePushLockExclusive SocketUpdateLock;
                         KRcuSynchronize] ++ evs)
             New4 New6
             (if bool_decide (is_Some New4) || bool_decide (is_Some New6)
              then Port else IncomingPort k)
             (WskHasIpv4Transport k) (WskHasIpv6Transport k) (WskInitStatus k)) /\
    mem_allocs evs = [] /\
    mem_frees evs = socket_mems (Wg_Sock4 k) ++ socket_mems (Wg_Sock6 k) /\
    rundown_waits evs = socket_mems (Wg_Sock4 k) ++ socket_mems (Wg_Sock6 k) /\
    irp_allocs evs = irp_frees evs /\
    wsk_created evs = [].
Proof. exact (SocketReinit_spec kernel New4 New6 Port k). Qed.

(** X22. [SocketInit] returns within its 101 passes, whatever the system
    answers.  Over the whole call every IRP that was allocated is freed,
    the blocks freed are those whose rundown was waited for, in the same
    order, and no block is lost: the blocks allocated together with the
    sockets the device had are the blocks freed together with the sockets
    the device has. *)
Theorem SocketInit_returns_and_loses_nothing kernel Port k :
  exists st k' evs,
    SocketInit kernel Port k = (Some st, k') /\
    KLog k' = KLog k ++ evs /\
    irp_allocs evs = irp_frees evs /\
    rundown_waits evs = mem_frees evs /\
    mem_allocs evs ++ socket_mems (Wg_Sock4 k) ++ socket_mems (Wg_Sock6 k) ≡ₚ
      mem_frees evs ++ socket_mems (Wg_Sock4 k') ++ socket_mems (Wg_Sock6 k').
Proof.
  destruct (SocketInit_retry_spec kernel Port 101 0
              (mkSOCKADDR_INET AF_INET (Htons Port) (Htonl 0) IN6ADDR_ANY 0)
              (mkSOCKADDR_INET AF_INET6 0 0 IN6ADDR_ANY 0) k ltac:(lia) ltac:(lia))
    as (st & k' & n & evs & E & _ & Hl & _ & _ & _ & Hirp & Hwt & Hmem & _).
  exists st, k', evs. repeat split; assumption.
Qed.

(** X23. When [SocketInit] fails the device keeps its sockets and its
    port, the transports and the status of the initialisation are as
    before, and every block allocated during the call has been freed. *)
Theorem SocketInit_failure_changes_nothing kernel Port k st k' :
  SocketInit kernel Port k = (Some st, k') ->
  NT_SUCCESS st = false ->
  Wg_Sock4 k' = Wg_Sock4 k /\ Wg_Sock6 k' = Wg_Sock6 k /\
  IncomingPort k' = IncomingPort k /\
  WskHasIpv4Transport k' = WskHasIpv4Transport k /\
  WskHasIpv6Transport k' = WskHasIpv6Transport k /\
  WskInitStatus k' = WskInitStatus k /\
  exists evs, KLog k' = KLog k ++ evs /\ mem_allocs evs ≡ₚ mem_frees evs.
Proof.
  intros Hrun Hst.
  destruct (SocketInit_retry_spec kernel Port 101 0
              (mkSOCKADDR_INET AF_INET (Htons Port) (Htonl 0) IN6ADDR_ANY 0)
              (mkSOCKADDR_INET AF_INET6 0 0 IN6ADDR_ANY 0) k ltac:(lia) ltac:(lia))
    as (st0 & k0 & n & evs & E & _ & Hl & H4 & H6 & Hi & _ & _ & Hmem & Hfail & _).
  unfold SocketInit in Hrun. rewrite Hrun in E. injection E as <- <-.
  destruct (Hfail Hst) as (E4 & E6 & EP).
  repeat (split; [assumption|]).
  exists evs. split; [exact Hl|].
  rewrite E4, E6 in Hmem. apply Permutation_app_inv_r in Hmem. exact Hmem.
Qed.

Lemma SocketInit_failure_changes_nothing_witness :
  SocketInit SampleMore.kernel_in_use 51820 SampleMore.device =
    (Some STATUS_ADDRESS_ALREADY_EXISTS,
     snd (SocketInit SampleMore.kernel_in_use 51820 SampleMore.device)) /\
  Wg_Sock4 (snd (SocketInit SampleMore.kernel_in_use 51820 SampleMore.device)) =
    Some SampleMore.socket.
Proof.
  assert (H : SocketInit SampleMore.kernel_in_use 51820 SampleMore.device =
              (Some STATUS_ADDRESS_ALREADY_EXISTS,
               snd (SocketInit SampleMore.kernel_in_use 51820 SampleMore.device))).
  { vm_compute. reflexivity. }
  split; [exact H|].
  exact (proj1 (SocketInit_failure_changes_nothing SampleMore.kernel_in_use 51820
                  SampleMore.device _ _ H eq_refl)).
Defined.

(** X24. When [SocketInit] succeeds its status is [STATUS_SUCCESS] and
    the device holds a socket for exactly the transports that are known.
    With an IPv4 transport, the port of the device is the port of a local
    address that the provider has reported for the IPv4 socket, in host
    order, and the IPv6 socket, if there is one, has been bound to that
    same port. *)
Theorem SocketInit_success_shares_port kernel Port k st k' :
  SocketInit kernel Port k = (Some st, k') ->
  NT_SUCCESS st = true ->
  st = STATUS_SUCCESS /\
  (is_Some (Wg_Sock4 k') <-> WskHasIpv4Transport k = true) /\
  (is_Some (Wg_Sock6 k') <-> WskHasIpv6Transport k = true) /\
  exists evs,
    KLog k' = KLog k ++ evs /\
    (WskHasIpv4Transport k = true ->
     exists S4 L4,
       Wg_Sock4 k' = Some S4 /\
       In (KWskGetLocalAddress (Sock S4) L4) evs /\
       IncomingPort k' = Ntohs (sin_port L4) /\
       (WskHasIpv6Transport k = true ->
        exists S6 B6,
          Wg_Sock6 k' = Some S6 /\
          In (KWskBind (Sock S6) B6) evs /\ sin_port B6 = sin_port L4)) /\
    (WskHasIpv4Transport k = false -> WskHasIpv6Transport k = false ->
     IncomingPort k' = IncomingPort k).
Proof.
  intros Hrun Hst.
  destruct (SocketInit_retry_spec kernel Port 101 0
              (mkSOCKADDR_INET AF_INET (Htons Port) (Htonl 0) IN6ADDR_ANY 0)
              (mkSOCKADDR_INET AF_INET6 0 0 IN6ADDR_ANY 0) k ltac:(lia) ltac:(lia))
    as (st0 & k0 & n & evs & E & _ & Hl & _ & _ & _ & _ & _ & _ & _ & Hsucc).
  unfold SocketInit in Hrun. rewrite Hrun in E. injection E as <- <-.
  destruct (Hsucc Hst) as (-> & Hs4 & Hs6 & Hp4 & Hp0).
  split; [reflexivity|]. split; [exact Hs4|]. split; [exact Hs6|].
  exists evs. split; [exact Hl|]. split; assumption.
Qed.

(** With no port asked for and the first bind of the IPv6 socket refused
    as in use, [SocketInit] succeeds at the second pass: the device gets
    the port 51820 that the provider reports. *)
Lemma SocketInit_success_shares_port_witness :
  SocketInit SampleMore.kernel_in_use 0 SampleMore.device =
    (Some STATUS_SUCCESS,
     snd (SocketInit SampleMore.kernel_in_use 0 SampleMore.device)) /\
  is_Some (Wg_Sock6 (snd (SocketInit SampleMore.kernel_in_use 0 SampleMore.device))) /\
  IncomingPort (snd (SocketInit SampleMore.kernel_in_use 0 SampleMore.device)) = 51820.
Proof.
  assert (H : SocketInit SampleMore.kernel_in_use 0 SampleMore.device =
              (Some STATUS_SUCCESS,
               snd (SocketInit SampleMore.kernel_in_use 0 SampleMore.device))).
  { vm_compute. reflexivity. }
  split; [exact H|].
  destruct (SocketInit_success_shares_port SampleMore.kernel_in_use 0
              SampleMore.device _ _ H eq_refl) as (_ & _ & Hs6 & _).
  split; [apply Hs6; reflexivity|]. vm_compute. reflexivity.
Defined.

(** X25. With a port asked for, [SocketInit] makes one pass and never
    tries again: it allocates at most two sockets, and when it succeeds
    with an IPv4 transport the IPv4 socket has been bound to that port, in
    network order, on the unspecified address, and the IPv6 socket, if
    there is one, to the port that the provider has reported for the IPv4
    socket. *)
Theorem SocketInit_fixed_port_single_pass kernel Port k :
  Port <> 0 ->
  exists st k' evs,
    SocketInit kernel Port k = (Some st, k') /\
    KLog k' = KLog k ++ evs /\
    (length (mem_allocs evs) <= 2)%nat /\
    (NT_SUCCESS st = true -> WskHasIpv4Transport k = true ->
     exists S4 L4,
       Wg_Sock4 k' = Some S4 /\
       In (KWskBind (Sock S4)
             (mkSOCKADDR_INET AF_INET (Htons Port) (Htonl 0) IN6ADDR_ANY 0)) evs /\
       In (KWskGetLocalAddress (Sock S4) L4) evs /\
       (WskHasIpv6Transport k = true ->
        exists S6,
          Wg_Sock6 k' = Some S6 /\
          In (KWskBind (Sock S6)
                (mkSOCKADDR_INET AF_INET6 (sin_port L4) 0 IN6ADDR_ANY 0)) evs)).
Proof.
  intros HPort. unfold SocketInit.
  destruct (SocketInit_pass kernel 100 Port 0
              (mkSOCKADDR_INET AF_INET (Htons Port) (Htonl 0) IN6ADDR_ANY 0)
              (mkSOCKADDR_INET AF_INET6 0 0 IN6ADDR_ANY 0) k)
    as (n & evs & r & <- & _ & _ & Hlen & Hcases).
  change (S 100) with 101%nat in *.
  destruct Hcases as [(Sa4' & Sa6' & _ & HP & _)
                     |[(st & -> & Hst & _)
                      |(New4 & New6 & P & -> & _ & _ & _ & Hp4 & _)]].
  - contradiction.
  - exists st, (kstep n evs k), evs. split; [reflexivity|]. split; [reflexivity|].
    split; [exact Hlen|]. intros Hs. rewrite Hst in Hs. discriminate Hs.
  - eexists _, _, evs. split; [reflexivity|]. split; [reflexivity|].
    split; [exact Hlen|]. intros _ H4.
    destruct (Hp4 H4) as (S4 & L4 & -> & Hb & Hg & _ & Hq6).
    exists S4, L4. split; [reflexivity|]. split; [exact Hb|]. split; [exact Hg|].
    intros H6. destruct (Hq6 H6) as (S6 & -> & Hb6).
    exists S6. split; [reflexivity|]. exact Hb6.
Qed.

Lemma SocketInit_fixed_port_single_pass_witness :
  exists st k' evs,
    SocketInit SampleMore.kernel_ok 51820 SampleMore.device = (Some st, k') /\
    KLog k' = evs /\
    (length (mem_allocs evs) <= 2)%nat.
Proof.
  destruct (SocketInit_fixed_port_single_pass SampleMore.kernel_ok 51820
              SampleMore.device)
    as (st & k' & evs & H1 & H2 & H3 & _).
  - discriminate.
  - exists st, k', evs. split; [exact H1|]. split; [exact H2|exact H3].
Defined.

(** ** [WskInit] and [WskUnload] *)

Lemma unwind_app evs1 evs2 held :
  unwind (evs1 ++ evs2) held = unwind evs1 held ≫= unwind evs2.
Proof.
  revert held. induction evs1 as [|e evs1 IH]; intros held.
  - cbn. destruct evs2; reflexivity.
  - destruct e; cbn [app unwind]; try apply IH.
    all: destruct held as [|r held]; try reflexivity.
    all: destruct (RESOURCE_eqb _ r); [apply IH|reflexivity].
Qed.

Lemma kstate_eta k :
  k = mkKSTATE (KCalls k) (KLog k) (Wg_Sock4 k) (Wg_Sock6 k) (IncomingPort k)
        (WskHasIpv4Transport k) (WskHasIpv6Transport k) (WskInitStatus k).
Proof. destruct k. reflexivity. Qed.

Lemma WskInit_transports_spec kernel :
  forall fuel Size k,
  exists n evs r Has,
    WskInit_transports kernel fuel Size k =
      (r, mkKSTATE (KCalls k + n) (KLog k ++ evs) (Wg_Sock4 k) (Wg_Sock6 k)
            (IncomingPort k) (fst Has) (snd Has) (WskInitStatus k)) /\
    mem_allocs evs = mem_frees evs /\
    (forall held, unwind evs held = Some held) /\
    lock_events evs = [] /\
    match r with
    | None =>
        Has = (WskHasIpv4Transport k, WskHasIpv6Transport k) /\
        forall j, (j < fuel)%nat ->
          Ans_Status (kernel (KCalls k + 2 * j + 1)%nat) = STATUS_BUFFER_OVERFLOW
    | Some st =>
        if NT_SUCCESS st then
          exists j,
            Ans_Status (kernel j) = st /\
            Has = note_transports (Ans_Transports (kernel j)) (usize (Ans_Size (kernel j)))
                    (WskHasIpv4Transport k, WskHasIpv6Transport k)
        else Has = (WskHasIpv4Transport k, WskHasIpv6Transport k)
    end.
Proof.
  induction fuel as [|fuel IH]; intros Size k; cbn [WskInit_transports].
  { exists 0%nat, [], None, (WskHasIpv4Transport k, WskHasIpv6Transport k).
    rewrite K_ret_eq, Nat.add_0_r, app_nil_r. cbn [fst snd].
    split; [rewrite <- kstate_eta; reflexivity|]. repeat split. intros j Hj. lia. }
  unfold MemAllocate_, MemFree, set_Transports. kexec.
  destruct (Ans_Pointer (kernel (KCalls k)) =? 0) eqn:HMem.
  { kexec. eexists _, _, _, (WskHasIpv4Transport k, WskHasIpv6Transport k).
    split; [cbn [fst snd kstep]; reflexivity|].
    unfold mem_allocs, mem_frees. cbn [flat_map app]. rewrite HMem.
    repeat split. }
  kexec.
  destruct (NT_SUCCESS (Ans_Status (kernel (KCalls k + 1)%nat))) eqn:HS.
  { kexec. cbn [kstep KCalls KLog Wg_Sock4 Wg_Sock6 IncomingPort
                WskHasIpv4Transport WskHasIpv6Transport WskInitStatus fst snd].
    exists 2%nat, [KMemAllocate Size (Ans_Pointer (kernel (KCalls k)));
                   KWskControlClient WSK_TRANSPORT_LIST_QUERY
                     (Ans_Status (kernel (KCalls k + 1)%nat));
                   KMemFree (Ans_Pointer (kernel (KCalls k)))].
    eexists _, (note_transports _ _ _).
    split; [rewrite kstep_mk, <- app_assoc, Nat.add_0_r; reflexivity|].
    unfold mem_allocs, mem_frees. cbn [flat_map app]. rewrite HMem, HS.
    repeat split. eexists. split; reflexivity. }
  kexec.
  destruct (Z.eqb_spec (Ans_Status (kernel (KCalls k + 1)%nat)) STATUS_BUFFER_OVERFLOW)
    as [EO|NO]; cbn [negb].
  2:{ kexec. eexists _, _, _, (WskHasIpv4Transport k, WskHasIpv6Transport k).
      split; [cbn [fst snd kstep]; reflexivity|].
      unfold mem_allocs, mem_frees. cbn [flat_map app]. rewrite HMem, HS.
      repeat split. }
  destruct (IH (usize (Ans_Size (kernel (KCalls k + 1)%nat)))
              (kstep 2 [KMemAllocate Size (Ans_Pointer (kernel (KCalls k)));
                        KWskControlClient WSK_TRANSPORT_LIST_QUERY
                          (Ans_Status (kernel (KCalls k + 1)%nat));
                        KMemFree (Ans_Pointer (kernel (KCalls k)))] k))
    as (n & evs & r & Has & E & Hm & Hu & Hlk & Hr).
  rewrite E. clear E.
  rewrite KCalls_kstep, Sock4_kstep, Sock6_kstep, Has4_kstep, Has6_kstep,
    InitStatus_kstep in *.
  cbn [kstep KLog IncomingPort].
  exists (2 + n)%nat, ([KMemAllocate Size (Ans_Pointer (kernel (KCalls k)));
                        KWskControlClient WSK_TRANSPORT_LIST_QUERY
                          (Ans_Status (kernel (KCalls k + 1)%nat));
                        KMemFree (Ans_Pointer (kernel (KCalls k)))] ++ evs), r, Has.
  split; [rewrite Nat.add_assoc, <- app_assoc; reflexivity|].
  split.
  { unfold mem_allocs, mem_frees in *. cbn [flat_map app]. rewrite HMem.
    cbn [app]. f_equal. exact Hm. }
  split; [intros held; cbn [app unwind]; apply Hu|].
  split; [exact Hlk|].
  destruct r as [st|]; [exact Hr|].
  destruct Hr as [-> Hall]. split; [reflexivity|].
  intros [|j] Hj.
  - rewrite Nat.mul_0_r, Nat.add_0_r. exact EO.
  - replace (KCalls k + 2 * S j + 1)%nat with (KCalls k + 2 + 2 * j + 1)%nat by lia.
    apply Hall. lia.
Qed.

Ltac kraw :=
  repeat (progress
    (kexec; unfold kstep; rewrite <- ?app_assoc, <- ?Nat.add_assoc;
     cbn [KCalls KLog Wg_Sock4 Wg_Sock6 IncomingPort WskHasIpv4Transport
          WskHasIpv6Transport WskInitStatus fst snd app Nat.add])).

Lemma WskInit_spec kernel fuel k :
  WskInitStatus k = STATUS_RETRY ->
  exists n evs r Has St,
    WskInit kernel fuel k =
      (r, mkKSTATE (KCalls k + n) (KLog k ++ evs) (Wg_Sock4 k) (Wg_Sock6 k)
            (IncomingPort k) (fst Has) (snd Has) St) /\
    mem_allocs evs = mem_frees evs /\
    match r with
    | None =>
        forall j, (j < fuel)%nat ->
          Ans_Status (kernel (KCalls k + 3 + 2 * j + 1)%nat) = STATUS_BUFFER_OVERFLOW
    | Some st =>
        St = st /\
        lock_events evs = [KAcquirePushLockExclusive WskIsIniting;
                           KReleasePushLockExclusive WskIsIniting] /\
        if NT_SUCCESS st then
          st = STATUS_SUCCESS /\
          unwind evs [] =
            Some [RouteNotifier AF_INET6; RouteNotifier AF_INET; ProviderNPI;
                  Registration; Lookaside] /\
          exists j,
            NT_SUCCESS (Ans_Status (kernel j)) = true /\
            Has = note_transports (Ans_Transports (kernel j))
                    (usize (Ans_Size (kernel j)))
                    (WskHasIpv4Transport k, WskHasIpv6Transport k)
        else unwind evs [] = Some []
    end.
Proof.
  intros Hretry.
  unfold WskInit, call_status, cleanupRouteNotifierV4, cleanupWskProviderNPI,
    cleanupWskRegister, cleanupLookaside, cleanupIniting, set_WskInitStatus.
  repeat (progress (kexec; rewrite ?Hretry, ?Z.eqb_refl; cbn [negb])).
  destruct (NT_SUCCESS (Ans_Status (kernel (KCalls k)))) eqn:HS1; cbn [negb].
  2:{ kraw. eexists _, _, _, (_, _), _. split; [reflexivity|].
      cbn [unwind lock_events flat_map app]. rewrite HS1. repeat split. }
  kexec.
  destruct (NT_SUCCESS (Ans_Status (kernel (KCalls k + 1)%nat))) eqn:HS2; cbn [negb].
  2:{ kraw. eexists _, _, _, (_, _), _. split; [reflexivity|].
      cbn [unwind lock_events flat_map app]. rewrite HS1, HS2. repeat split. }
  kexec.
  destruct (NT_SUCCESS (Ans_Status (kernel (KCalls k + 2)%nat))) eqn:HS3; cbn [negb].
  2:{ kraw. eexists _, _, _, (_, _), _. split; [reflexivity|].
      cbn [unwind lock_events flat_map app]. rewrite HS1, HS2, HS3. repeat split. }
  kexec.
  set (pre := [KAcquirePushLockExclusive WskIsIniting;
               KExInitializeLookasideListEx (Ans_Status (kernel (KCalls k)));
               KWskRegister (Ans_Status (kernel (KCalls k + 1)%nat));
               KWskCaptureProviderNPI (Ans_Status (kernel (KCalls k + 2)%nat))]).
  destruct (WskInit_transports_spec kernel fuel (16 * sizeof_WSK_TRANSPORT)
              (kstep 3 pre k))
    as (n & evs & r & Has & E & Hm & Hu & Hlk & Hr).
  rewrite E. clear E.
  assert (Hpre : unwind pre [] = Some [ProviderNPI; Registration; Lookaside]).
  { cbn [pre unwind]. rewrite HS1, HS2, HS3. reflexivity. }
  assert (Hlock : forall post, lock_events (pre ++ evs ++ post) =
                    KAcquirePushLockExclusive WskIsIniting :: lock_events post).
  { intros post. unfold lock_events in *. rewrite !flat_map_app, Hlk. reflexivity. }
  assert (Hmem : forall post, mem_allocs post = [] -> mem_frees post = [] ->
                   mem_allocs (pre ++ evs ++ post) = mem_frees (pre ++ evs ++ post)).
  { intros post H1 H2. unfold mem_allocs, mem_frees in *.
    rewrite !flat_map_app, H1, H2, Hm. reflexivity. }
  assert (Hunw : forall post, unwind (pre ++ evs ++ post) [] =
                   unwind post [ProviderNPI; Registration; Lookaside]).
  { intros post. rewrite unwind_app, Hpre. cbn [mbind option_bind].
    rewrite unwind_app, Hu. reflexivity. }
  rewrite KCalls_kstep, Sock4_kstep, Sock6_kstep, Has4_kstep, Has6_kstep,
    InitStatus_kstep in *.
  cbn [kstep KLog IncomingPort fst snd].
  destruct r as [st|].
  2:{ rewrite K_ret_eq. exists (3 + n)%nat, (pre ++ evs ++ []), None, Has, STATUS_RETRY.
      split; [rewrite Nat.add_assoc, app_nil_r, app_assoc, Hretry; reflexivity|].
      split; [apply Hmem; reflexivity|]. apply Hr. }
  destruct (NT_SUCCESS st) eqn:HS4; cbn [negb].
  2:{ kraw. exists (3 + n)%nat. eexists (pre ++ evs ++ _), _, Has, _.
      split; [reflexivity|].
      split; [apply Hmem; reflexivity|]. split; [reflexivity|].
      rewrite Hlock, Hunw, HS4. repeat split. }
  assert (Hj : exists j,
            NT_SUCCESS (Ans_Status (kernel j)) = true /\
            Has = note_transports (Ans_Transports (kernel j))
                    (usize (Ans_Size (kernel j)))
                    (WskHasIpv4Transport k, WskHasIpv6Transport k)).
  { destruct Hr as (j & <- & ->). exists j. split; [exact HS4|reflexivity]. }
  clear Hr.
  kraw.
  match goal with |- context [negb (NT_SUCCESS (Ans_Status ?a))] =>
    destruct (NT_SUCCESS (Ans_Status a)) eqn:HS5
  end; cbn [negb].
  2:{ kraw. exists (3 + (n + 1))%nat. eexists (pre ++ evs ++ _), _, Has, _.
      split; [reflexivity|].
      split; [apply Hmem; reflexivity|]. split; [reflexivity|].
      rewrite Hlock, Hunw. cbn [unwind lock_events flat_map app RESOURCE_eqb].
      rewrite HS5. repeat split. }
  kraw.
  match goal with |- context [negb (NT_SUCCESS (Ans_Status ?a))] =>
    destruct (NT_SUCCESS (Ans_Status a)) eqn:HS6
  end; cbn [negb].
  2:{ kraw. exists (3 + (n + (1 + 1)))%nat. eexists (pre ++ evs ++ _), _, Has, _.
      split; [reflexivity|].
      split; [apply Hmem; reflexivity|]. split; [reflexivity|].
      rewrite Hlock, Hunw. cbn [unwind lock_events flat_map app RESOURCE_eqb].
      rewrite HS6. cbn [unwind RESOURCE_eqb]. repeat split. }
  kraw.
  match goal with |- context [negb (NT_SUCCESS (Ans_Status ?a))] =>
    destruct (NT_SUCCESS (Ans_Status a)) eqn:HS7
  end; cbn [negb].
  2:{ kraw. exists (3 + (n + (1 + (1 + 1))))%nat. eexists (pre ++ evs ++ _), _, Has, _.
      split; [reflexivity|].
      split; [apply Hmem; reflexivity|]. split; [reflexivity|].
      rewrite Hlock, Hunw. cbn [unwind lock_events flat_map app RESOURCE_eqb].
      rewrite HS6. cbn [unwind RESOURCE_eqb]. rewrite HS7.
      cbn [unwind RESOURCE_eqb]. rewrite Z.eqb_refl. repeat split. }
  kraw. exists (3 + (n + (1 + (1 + 1))))%nat. eexists (pre ++ evs ++ _), _, Has, _.
  split; [reflexivity|].
  split; [apply Hmem; reflexivity|]. split; [reflexivity|].
  rewrite Hlock, Hunw. cbn [unwind lock_events flat_map app RESOURCE_eqb].
  rewrite HS6. cbn [unwind RESOURCE_eqb]. rewrite HS7. cbn [unwind].
  change (NT_SUCCESS STATUS_SUCCESS) with true. cbn iota.
  repeat split. exact Hj.
Qed.

Lemma note_transport_flags t Has :
  note_transport t Has =
    (fst Has || ((SocketType t =? SOCK_DGRAM) && (Protocol t =? IPPROTO_UDP) &&
                 ((AddressFamily t =? AF_UNSPEC) || (AddressFamily t =? AF_INET))),
     snd Has || ((SocketType t =? SOCK_DGRAM) && (Protocol t =? IPPROTO_UDP) &&
                 ((AddressFamily t =? AF_UNSPEC) || (AddressFamily t =? AF_INET6)))).
Proof.
  unfold note_transport. destruct Has as [h4 h6]. cbn [fst snd].
  destruct ((SocketType t =? SOCK_DGRAM) && (Protocol t =? IPPROTO_UDP)); cbn [andb].
  2:{ rewrite !orb_false_r. reflexivity. }
  destruct (Z.eqb_spec (AddressFamily t) AF_UNSPEC) as [E0|N0]; cbn [orb].
  { rewrite !orb_true_r. reflexivity. }
  destruct (Z.eqb_spec (AddressFamily t) AF_INET) as [E4|N4].
  { rewrite E4. change (AF_INET =? AF_INET6) with false.
    rewrite orb_true_r, orb_false_r. reflexivity. }
  destruct (Z.eqb_spec (AddressFamily t) AF_INET6) as [E6|N6].
  { rewrite orb_true_r, orb_false_r. reflexivity. }
  rewrite !orb_false_r. reflexivity.
Qed.

(** X29. The loop of [WskInit] over the transports of the provider only
    ever sets the two globals: afterwards [WskHasIpv4Transport] holds if
    it held before or one of the entries is a UDP datagram transport of
    the family [AF_INET] or [AF_UNSPEC], and [WskHasIpv6Transport]
    likewise with [AF_INET6].  The entries read are the first
    [WskTransportsSize / sizeof(WSK_TRANSPORT)] ones. *)
Theorem note_transports_flags (T : nat -> WSK_TRANSPORT) (Size : Z) (h4 h6 : bool) :
  let udp i := (SocketType (T i) =? SOCK_DGRAM) && (Protocol (T i) =? IPPROTO_UDP) in
  let entries := seq 0 (Z.to_nat (Size / sizeof_WSK_TRANSPORT)) in
  note_transports T Size (h4, h6) =
    (h4 || existsb (fun i => udp i && ((AddressFamily (T i) =? AF_UNSPEC) ||
                                       (AddressFamily (T i) =? AF_INET))) entries,
     h6 || existsb (fun i => udp i && ((AddressFamily (T i) =? AF_UNSPEC) ||
                                       (AddressFamily (T i) =? AF_INET6))) entries).
Proof.
  intros udp entries. unfold note_transports. fold entries.
  generalize entries. clear entries. intros l. revert h4 h6.
  induction l as [|i l IH]; intros h4 h6; cbn [foldl existsb].
  - rewrite !orb_false_r. reflexivity.
  - rewrite note_transport_flags. cbn [fst snd]. rewrite IH.
    unfold udp. rewrite !orb_assoc. reflexivity.
Qed.

Lemma WskUnload_eq k :
  WskUnload k =
    (tt, kstep 0
           (KAcquirePushLockExclusive WskIsIniting ::
            (if WskInitStatus k =? STATUS_SUCCESS
             then [KCancelMibChangeNotify2 AF_INET6; KCancelMibChangeNotify2 AF_INET;
                   KWskReleaseProviderNPI; KWskDeregister; KExDeleteLookasideListEx]
             else []) ++
            [KReleasePushLockExclusive WskIsIniting]) k).
Proof.
  unfold WskUnload. kexec.
  destruct (WskInitStatus k =? STATUS_SUCCESS); cbn [negb]; kexec; reflexivity.
Qed.

(** X26. [WskInit] returns when one of the first [fuel] queries for the
    transports is answered with something else than
    [STATUS_BUFFER_OVERFLOW]; the queries are the calls number 4, 6, 8, ...
    of the initialisation.  Its status is then kept in [WskInitStatus]:
    unless that status is [STATUS_RETRY], every later call returns it and
    does nothing, whatever the system would answer. *)
Theorem WskInit_returns_and_caches kernel fuel k :
  (exists j, (j < fuel)%nat /\
     Ans_Status (kernel (KCalls k + 3 + 2 * j + 1)%nat) <> STATUS_BUFFER_OVERFLOW) ->
  exists st k',
    WskInit kernel fuel k = (Some st, k') /\
    (st <> STATUS_RETRY ->
     WskInitStatus k' = st /\
     forall kernel' fuel', WskInit kernel' fuel' k' = (Some st, k')).
Proof.
  intros (j & Hj & Hno).
  assert (Hcached : forall k0 st, WskInitStatus k0 = st -> st <> STATUS_RETRY ->
            forall kernel' fuel', WskInit kernel' fuel' k0 = (Some st, k0)).
  { intros k0 st E N kernel' fuel'. unfold WskInit. rewrite K_bind_eq, kget_eq.
    cbn [fst snd]. rewrite E.
    destruct (Z.eqb_spec st STATUS_RETRY) as [|_]; [contradiction|reflexivity]. }
  destruct (Z.eq_dec (WskInitStatus k) STATUS_RETRY) as [Hretry|Hdone].
  - destruct (WskInit_spec kernel fuel k Hretry)
      as (n & evs & r & Has & St & E & _ & Hr).
    destruct r as [st|]; [|exfalso; apply Hno, Hr, Hj].
    destruct Hr as (-> & _).
    eexists _, _. split; [exact E|]. intros N.
    split; [reflexivity|]. apply Hcached; [reflexivity|exact N].
  - exists (WskInitStatus k), k. split; [apply Hcached; [reflexivity|exact Hdone]|].
    intros N. split; [reflexivity|]. apply Hcached; [reflexivity|exact N].
Qed.

Lemma WskInit_returns_and_caches_witness :
  exists k',
    WskInit SampleMore.kernel_no_route 1 KSTATE_init = (Some STATUS_UNSUCCESSFUL, k') /\
    WskInit SampleMore.kernel_wsk 1 k' = (Some STATUS_UNSUCCESSFUL, k').
Proof.
  destruct (WskInit_returns_and_caches SampleMore.kernel_no_route 1 KSTATE_init)
    as (st & k' & E & Hc).
  - exists 0%nat. split; [lia|]. vm_compute. discriminate.
  - assert (Est : st = STATUS_UNSUCCESSFUL).
    { apply (f_equal fst) in E. vm_compute in E. injection E as <-. reflexivity. }
    subst st. exists k'. split; [exact E|]. apply Hc. vm_compute. discriminate.
Defined.

(** X27. When the initialisation run by [WskInit] fails, everything it
    has taken from the system (the lookaside list, the registration, the
    provider interface, the route notifiers) has been given back, the
    most recent first; the buffers of the transport queries are freed;
    the lock [WskIsIniting] has been taken and released once; the status
    is stored in [WskInitStatus] and the sockets of the device are as
    before. *)
Theorem WskInit_failure_unwinds kernel fuel k st k' :
  WskInitStatus k = STATUS_RETRY ->
  WskInit kernel fuel k = (Some st, k') ->
  NT_SUCCESS st = false ->
  WskInitStatus k' = st /\
  Wg_Sock4 k' = Wg_Sock4 k /\ Wg_Sock6 k' = Wg_Sock6 k /\
  exists evs,
    KLog k' = KLog k ++ evs /\
    unwind evs [] = Some [] /\
    mem_allocs evs = mem_frees evs /\
    lock_events evs = [KAcquirePushLockExclusive WskIsIniting;
                       KReleasePushLockExclusive WskIsIniting].
Proof.
  intros Hretry Hrun Hst.
  destruct (WskInit_spec kernel fuel k Hretry)
    as (n & evs & r & Has & St & E & Hm & Hr).
  rewrite Hrun in E. injection E as <- ->.
  destruct Hr as (-> & Hlk & Hu). rewrite Hst in Hu.
  cbn [WskInitStatus Wg_Sock4 Wg_Sock6 KLog].
  repeat (split; [reflexivity|]). exists evs. repeat split; assumption.
Qed.

Lemma WskInit_failure_unwinds_witness :
  exists evs,
    KLog (snd (WskInit SampleMore.kernel_no_route 1 KSTATE_init)) = evs /\
    unwind evs [] = Some [] /\
    mem_allocs evs = mem_frees evs.
Proof.
  destruct (WskInit_failure_unwinds SampleMore.kernel_no_route 1 KSTATE_init
              STATUS_UNSUCCESSFUL
              (snd (WskInit SampleMore.kernel_no_route 1 KSTATE_init)))
    as (_ & _ & _ & evs & Hl & Hu & Hm & _).
  - reflexivity.
  - vm_compute. reflexivity.
  - reflexivity.
  - exists evs. split; [exact Hl|]. split; [exact Hu|exact Hm].
Defined.

(** X28. When the initialisation run by [WskInit] succeeds, the status
    returned and stored is [STATUS_SUCCESS]; the lookaside list, the
    registration, the provider interface and the two route notifiers are
    held, taken in this order, and nothing has been given back; the
    buffers of the transport queries are freed; the lock [WskIsIniting]
    has been taken and released once; and the two transport globals are
    those that the loop over the entries of a successful query gives. *)
Theorem WskInit_success_holds kernel fuel k st k' :
  WskInitStatus k = STATUS_RETRY ->
  WskInit kernel fuel k = (Some st, k') ->
  NT_SUCCESS st = true ->
  st = STATUS_SUCCESS /\ WskInitStatus k' = STATUS_SUCCESS /\
  (exists j,
     NT_SUCCESS (Ans_Status (kernel j)) = true /\
     (WskHasIpv4Transport k', WskHasIpv6Transport k') =
       note_transports (Ans_Transports (kernel j)) (usize (Ans_Size (kernel j)))
         (WskHasIpv4Transport k, WskHasIpv6Transport k)) /\
  exists evs,
    KLog k' = KLog k ++ evs /\
    unwind evs [] =
      Some [RouteNotifier AF_INET6; RouteNotifier AF_INET; ProviderNPI;
            Registration; Lookaside] /\
    mem_allocs evs = mem_frees evs /\
    lock_events evs = [KAcquirePushLockExclusive WskIsIniting;
                       KReleasePushLockExclusive WskIsIniting].
Proof.
  intros Hretry Hrun Hst.
  destruct (WskInit_spec kernel fuel k Hretry)
    as (n & evs & r & Has & St & E & Hm & Hr).
  rewrite Hrun in E. injection E as <- ->.
  destruct Hr as (-> & Hlk & Hu). rewrite Hst in Hu.
  destruct Hu as (-> & Hu & j & Hj & HHas).
  cbn [WskInitStatus WskHasIpv4Transport WskHasIpv6Transport KLog].
  split; [reflexivity|]. split; [reflexivity|].
  split.
  { exists j. split; [exact Hj|]. rewrite <- HHas. destruct Has; reflexivity. }
  exists evs. repeat split; assumption.
Qed.

Lemma WskInit_success_holds_witness :
  WskInit SampleMore.kernel_wsk 1 KSTATE_init =
    (Some STATUS_SUCCESS, snd (WskInit SampleMore.kernel_wsk 1 KSTATE_init)) /\
  WskHasIpv4Transport (snd (WskInit SampleMore.kernel_wsk 1 KSTATE_init)) = true /\
  WskHasIpv6Transport (snd (WskInit SampleMore.kernel_wsk 1 KSTATE_init)) = true.
Proof.
  assert (H : WskInit SampleMore.kernel_wsk 1 KSTATE_init =
              (Some STATUS_SUCCESS, snd (WskInit SampleMore.kernel_wsk 1 KSTATE_init))).
  { vm_compute. reflexivity. }
  split; [exact H|].
  destruct (WskInit_success_holds SampleMore.kernel_wsk 1 KSTATE_init _ _
              eq_refl H eq_refl) as (_ & _ & _ & _).
  split; vm_compute; reflexivity.
Defined.

(** X30. [WskUnload] after [WskInit]: if the initialisation has
    succeeded, [WskUnload] gives back everything that it holds, the most
    recent first (the IPv6 and the IPv4 route notifier, the provider
    interface, the registration, the lookaside list); if it has failed,
    [WskUnload] only takes and releases the lock.  In both cases nothing
    is held afterwards, and [WskInitStatus] is left as it is. *)
Theorem WskUnload_after_WskInit kernel fuel k st k1 :
  WskInitStatus k = STATUS_RETRY ->
  WskInit kernel fuel k = (Some st, k1) ->
  exists evs1 evs2,
    KLog k1 = KLog k ++ evs1 /\
    WskUnload k1 = (tt, kstep 0 evs2 k1) /\
    unwind (evs1 ++ evs2) [] = Some [] /\
    lock_events evs2 = [KAcquirePushLockExclusive WskIsIniting;
                        KReleasePushLockExclusive WskIsIniting] /\
    (NT_SUCCESS st = false ->
     evs2 = [KAcquirePushLockExclusive WskIsIniting;
             KReleasePushLockExclusive WskIsIniting]).
Proof.
  intros Hretry Hrun.
  destruct (WskInit_spec kernel fuel k Hretry)
    as (n & evs & r & Has & St & E & Hm & Hr).
  rewrite Hrun in E. injection E as <- ->.
  destruct Hr as (-> & Hlk & Hu).
  exists evs. eexists. split; [reflexivity|].
  split; [apply WskUnload_eq|]. cbn [WskInitStatus].
  rewrite unwind_app.
  destruct (NT_SUCCESS st) eqn:Hst.
  - destruct Hu as (-> & -> & _). cbn. repeat split. intros H; discriminate H.
  - rewrite Hu. destruct (Z.eqb_spec st STATUS_SUCCESS) as [->|_];
      [discriminate Hst|]. cbn. repeat split.
Qed.

Lemma WskUnload_after_WskInit_witness :
  exists evs1 evs2,
    KLog (snd (WskInit SampleMore.kernel_wsk 1 KSTATE_init)) = evs1 /\
    KLog (snd (WskUnload (snd (WskInit SampleMore.kernel_wsk 1 KSTATE_init)))) =
      evs1 ++ evs2 /\
    unwind (evs1 ++ evs2) [] = Some [].
Proof.
  destruct (WskUnload_after_WskInit SampleMore.kernel_wsk 1 KSTATE_init
              STATUS_SUCCESS (snd (WskInit SampleMore.kernel_wsk 1 KSTATE_init)))
    as (evs1 & evs2 & Hl & Hrun & Hu & _ & _).
  - reflexivity.
  - vm_compute. reflexivity.
  - exists evs1, evs2. split; [exact Hl|]. split; [|exact Hu].
    rewrite Hrun. cbn [snd kstep KLog]. rewrite Hl. reflexivity.
Defined.
